(** * Cyberstar signal codec and frame synchronisation: a shallow embedding

    The development follows the Python sources of the SCME package:

    - [Constants]      SCME/SMM/constants.py
    - [Encoder]        SCME/SGM/bmc_encoder.py
    - [Decoder]        SCME/SVM/bmc_decoder.py
    - [FrameSync]      SCME/SVM/frame_sync.py
    - [FrameBuilder]   SCME/SGM/frame_builder.py
    - [ExportBridge]   SCME/SGM/export_bridge.py (the inlined scheduler)
    - [HardwareSim]    SCME/SVM/hardware_sim.py (the verdict logic of run_sim)
    - [VisualizerBridge] SCME/SViz/visualizer_bridge.py (decoder, frame
                       synchroniser and verdict of verify_and_decode)
    - [RshwBuilder]    SCME/SGM/rshw_builder.py (WAV parser and builder,
                       decoder, signal data, NRBF serializer, public API)
    - [NrbfTools]      tools/analyze_rshw3.py (the readers of NRBF primitives)
    - [Struct]         the little-endian codecs of the struct and array
                       modules that the sources call

    Python integers are [Z]; Python floats are IEEE binary64 and are modelled
    by the primitive floats of the kernel, so that the float expressions of
    the sources evaluate here to the very values CPython computes.  Code that
    can raise returns in the [res] monad below. *)

From Stdlib Require Import String Ascii DecimalString.
From Stdlib Require Import ZArith Bool Lia Floats Uint63 List.
Import ListNotations.

#[local] Set Warnings "-inexact-float".
#[local] Open Scope string_scope.
#[local] Open Scope list_scope.
#[local] Open Scope Z_scope.

(** ** Python runtime: exceptions, numbers, sequences *)

Module Py.

Inductive exn : Type :=
| ValueError
| IndexError
| OverflowError
| ZeroDivisionError
| StructError.

Inductive res (A : Type) : Type :=
| Ok (a : A)
| Raise (e : exn).
Arguments Ok {A} a.
Arguments Raise {A} e.

Definition bind {A B : Type} (m : res A) (k : A -> res B) : res B :=
  match m with
  | Ok a => k a
  | Raise e => Raise e
  end.

Fixpoint mapM {A B : Type} (f : A -> res B) (l : list A) : res (list B) :=
  match l with
  | [] => Ok []
  | x :: tl =>
      bind (f x) (fun y => bind (mapM f tl) (fun ys => Ok (y :: ys)))
  end.

(** [int -> float] as used by true division and mixed arithmetic.  Exact for
    magnitudes below 2^53, which covers every count, rate and index here. *)
Definition float_of_Z (z : Z) : float :=
  if z <? 0 then PrimFloat.opp (PrimFloat.of_uint63 (Uint63.of_Z (- z)))
  else PrimFloat.of_uint63 (Uint63.of_Z z).

(** [a / b] on two integers (true division). *)
Definition true_div (a b : Z) : res float :=
  if b =? 0 then Raise ZeroDivisionError
  else Ok (PrimFloat.div (float_of_Z a) (float_of_Z b)).

(** [x / y] on two floats: a zero divisor raises. *)
Definition float_div (x y : float) : res float :=
  if PrimFloat.eqb y PrimFloat.zero then Raise ZeroDivisionError
  else Ok (PrimFloat.div x y).

(** The integer [(-1)^s * m * 2^e] rounded by [rnd] when [e < 0]. *)
Definition scaled (rnd : Z -> Z -> Z) (s : bool) (m : positive) (e : Z) : Z :=
  let sm := if s then Z.neg m else Z.pos m in
  if 0 <=? e then sm * 2 ^ e else rnd sm (2 ^ (- e)).

(** [int(x)]: truncation toward zero; NaN raises ValueError and an infinity
    raises OverflowError. *)
Definition int_of_float (x : float) : res Z :=
  match Prim2SF x with
  | S754_zero _ => Ok 0
  | S754_finite s m e => Ok (scaled Z.quot s m e)
  | S754_infinity _ => Raise OverflowError
  | S754_nan => Raise ValueError
  end.

(** [math.floor(x)]. *)
Definition floor (x : float) : res Z :=
  match Prim2SF x with
  | S754_zero _ => Ok 0
  | S754_finite s m e => Ok (scaled Z.div s m e)
  | S754_infinity _ => Raise OverflowError
  | S754_nan => Raise ValueError
  end.

(** [math.ceil(x)]. *)
Definition ceil (x : float) : res Z :=
  match Prim2SF x with
  | S754_zero _ => Ok 0
  | S754_finite s m e => Ok (scaled (fun a b => - ((- a) / b)) s m e)
  | S754_infinity _ => Raise OverflowError
  | S754_nan => Raise ValueError
  end.

(** [str(n)] for an integer. *)
Definition str (n : Z) : string := NilZero.string_of_int (Z.to_int n).

(** Index normalisation of a slice bound against a sequence of length [len]:
    a negative bound counts from the end, and the result is clamped. *)
Definition clamp (len i : Z) : Z :=
  if i <? 0 then Z.max 0 (i + len) else Z.min i len.

(** [l[a:b]]. *)
Definition slice {A : Type} (l : list A) (a b : Z) : list A :=
  let len := Z.of_nat (length l) in
  let a' := clamp len a in
  let b' := clamp len b in
  firstn (Z.to_nat (b' - a')) (skipn (Z.to_nat a') l).

(** [l[a:b] = data] on a bytearray or list: the slice is replaced by [data],
    whatever its length; an empty or inverted slice inserts at [a]. *)
Definition slice_assign {A : Type} (l : list A) (a b : Z) (data : list A)
  : list A :=
  let len := Z.of_nat (length l) in
  let a' := clamp len a in
  let b' := Z.max a' (clamp len b) in
  firstn (Z.to_nat a') l ++ data ++ skipn (Z.to_nat b') l.

(** [l[i]] for reading. *)
Definition getitem {A : Type} (l : list A) (i : Z) : res A :=
  let len := Z.of_nat (length l) in
  let i' := if i <? 0 then i + len else i in
  if (0 <=? i') && (i' <? len) then
    match nth_error l (Z.to_nat i') with
    | Some x => Ok x
    | None => Raise IndexError
    end
  else Raise IndexError.

Fixpoint update {A : Type} (l : list A) (n : nat) (v : A) : list A :=
  match l, n with
  | [], _ => []
  | _ :: tl, O => v :: tl
  | x :: tl, S n' => x :: update tl n' v
  end.

(** [l[i] = v]. *)
Definition setitem {A : Type} (l : list A) (i : Z) (v : A) : res (list A) :=
  let len := Z.of_nat (length l) in
  let i' := if i <? 0 then i + len else i in
  if (0 <=? i') && (i' <? len) then Ok (update l (Z.to_nat i') v)
  else Raise IndexError.

(** [sorted(l, key=...)] over already computed integer keys: a stable
    insertion sort (any stable sort returns the same list). *)
Fixpoint insert_by_key {A : Type} (x : Z * A) (l : list (Z * A))
  : list (Z * A) :=
  match l with
  | [] => [x]
  | h :: tl => if fst x <=? fst h then x :: l else h :: insert_by_key x tl
  end.

Definition sorted_by_key {A : Type} (l : list (Z * A)) : list (Z * A) :=
  fold_right insert_by_key [] l.

(** Dictionary lookup in an insertion-ordered table. *)
Fixpoint lookup {V : Type} (k : string) (d : list (string * V)) : option V :=
  match d with
  | [] => None
  | (k', v) :: tl => if String.eqb k k' then Some v else lookup k tl
  end.

Fixpoint lookupZ {V : Type} (k : Z) (d : list (Z * V)) : option V :=
  match d with
  | [] => None
  | (k', v) :: tl => if k =? k' then Some v else lookupZ k tl
  end.

(** Truth value of an integer. *)
Definition truthy (n : Z) : bool := negb (n =? 0).

(** [range(start, stop, step)]: a zero step raises ValueError. *)
Definition range3 (start stop step : Z) : res (list Z) :=
  if step =? 0 then Raise ValueError
  else
    let n :=
      if step >? 0 then (stop - start + step - 1) / step
      else (start - stop - step - 1) / (- step) in
    Ok (map (fun k => start + Z.of_nat k * step) (seq 0 (Z.to_nat n))).

End Py.

Notation "x <- m ;; k" := (Py.bind m (fun x => k))
  (at level 61, m at next level, right associativity).
Notation "' pat <- m ;; k" := (Py.bind m (fun x => let 'pat := x in k))
  (at level 61, pat pattern, m at next level, right associativity).

(** ** The [struct] and [array] codecs, little-endian *)

Module Struct.

(** The [n] low bytes of [u], lowest first. *)
Fixpoint le_bytes (n : nat) (u : Z) : list Z :=
  match n with
  | O => []
  | S n' => u mod 256 :: le_bytes n' (u / 256)
  end.

(** The unsigned value of a byte string, lowest byte first. *)
Fixpoint le_value (bs : list Z) : Z :=
  match bs with
  | [] => 0
  | b :: tl => b + 256 * le_value tl
  end.

(** [struct.pack] of one unsigned integer of [n] bytes (["<H"], ["<I"]): a
    value out of range raises struct.error. *)
Definition pack_unsigned (n : nat) (v : Z) : Py.res (list Z) :=
  if (0 <=? v) && (v <? 256 ^ Z.of_nat n) then Py.Ok (le_bytes n v)
  else Py.Raise Py.StructError.

(** [struct.pack] of one signed integer of [n] bytes (["<h"], ["<i"]), in
    two's complement. *)
Definition pack_signed (n : nat) (v : Z) : Py.res (list Z) :=
  let half := 256 ^ Z.of_nat n / 2 in
  if (- half <=? v) && (v <? half) then
    Py.Ok (le_bytes n (v mod 256 ^ Z.of_nat n))
  else Py.Raise Py.StructError.

(** [struct.unpack] of one unsigned integer of [n] bytes: a buffer of
    another size raises struct.error. *)
Definition unpack_unsigned (n : nat) (bs : list Z) : Py.res Z :=
  if (length bs =? n)%nat then Py.Ok (le_value bs)
  else Py.Raise Py.StructError.

(** The signed reading of an unsigned value of [n] bytes. *)
Definition signed (n : nat) (u : Z) : Z :=
  if u >=? 256 ^ Z.of_nat n / 2 then u - 256 ^ Z.of_nat n else u.

Definition unpack_signed (n : nat) (bs : list Z) : Py.res Z :=
  if (length bs =? n)%nat then Py.Ok (signed n (le_value bs))
  else Py.Raise Py.StructError.

(** [struct.unpack_from(fmt, data, pos)] for a format of [n] bytes: a
    negative offset counts from the end; an offset before the start, or a
    buffer that does not hold [n] bytes from the offset, raises
    struct.error. *)
Definition from_offset (n : nat) (data : list Z) (pos : Z)
  : Py.res (list Z) :=
  let len := Z.of_nat (length data) in
  let pos' := if pos <? 0 then pos + len else pos in
  if (0 <=? pos') && (pos' + Z.of_nat n <=? len) then
    Py.Ok (firstn n (skipn (Z.to_nat pos') data))
  else Py.Raise Py.StructError.

(** The bytes of a string: a [str] is represented by its UTF-8 encoding, so
    that [s.encode('utf-8')] is the list of its bytes.  (A [str] holding a
    lone surrogate has no encoding, [encode] raises on it, and it is outside
    this representation; the string literals of the sources are ASCII.) *)
Definition encode_utf8 (s : string) : list Z :=
  map (fun c => Z.of_N (N_of_ascii c)) (list_ascii_of_string s).

(** An integer that fits a signed 32-bit C int. *)
Definition is_int32 (v : Z) : Prop := -2147483648 <= v <= 2147483647.

End Struct.

(** ** SCME/SMM/constants.py *)

Module Constants.

Definition SAMPLE_RATE : Z := 44100.
Definition BAUD_RATE : Z := 4800.
Definition SAMPLES_PER_BIT : Z := SAMPLE_RATE / BAUD_RATE.
Definition BMC_HALF_A : Z := SAMPLES_PER_BIT / 2.
Definition BMC_HALF_B : Z := SAMPLES_PER_BIT - BMC_HALF_A.
Definition BMC_HIGH : Z := 32767.
Definition BMC_LOW : Z := -32768.

Definition TD_CHANNELS : list (string * Z) :=
  [ ("rolfe_mouth", 1); ("rolfe_left_eyelid", 2);
    ("rolfe_right_eyelid", 3); ("rolfe_eyes_left", 4);
    ("rolfe_eyes_right", 5); ("rolfe_head_left", 6);
    ("rolfe_head_right", 7); ("rolfe_head_up", 8);
    ("rolfe_left_ear", 9); ("rolfe_right_ear", 10);
    ("rolfe_left_arm_raise", 11); ("rolfe_left_arm_twist", 12);
    ("rolfe_left_elbow", 13); ("rolfe_body_twist_left", 14);
    ("rolfe_body_twist_right", 15); ("rolfe_body_lean", 16);
    ("rolfe_right_arm_raise", 17); ("rolfe_right_arm_twist", 18);
    ("rolfe_right_elbow_twist", 19); ("rolfe_earl_head_tilt", 20);
    ("duke_head_right", 21); ("duke_head_up", 22);
    ("duke_left_ear", 23); ("duke_right_ear", 24);
    ("duke_head_left", 25); ("duke_left_eyelid", 26);
    ("duke_right_eyelid", 27); ("duke_eyes_left", 28);
    ("duke_eyes_right", 29); ("duke_mouth", 30);
    ("duke_right_elbow", 31); ("duke_left_foot_hihat", 32);
    ("duke_left_arm_swing", 33); ("duke_right_arm_swing", 34);
    ("duke_left_elbow", 35); ("earl_mouth", 36);
    ("earl_eyebrow", 37); ("props_sun_mouth", 38);
    ("props_sun_raise", 39); ("specials_dual_pressure_td", 40);
    ("fats_left_eyelid", 41); ("fats_right_eyelid", 42);
    ("fats_eyes_left", 43); ("fats_eyes_right", 44);
    ("fats_mouth", 45); ("props_moon_mouth", 46);
    ("props_moon_raise", 47); ("props_looney_bird_hands", 48);
    ("props_antioch_down", 49); ("props_baby_bear_raise", 50);
    ("fats_head_tip_left", 51); ("fats_head_tip_right", 52);
    ("fats_head_up", 53); ("fats_head_left", 54);
    ("fats_head_right", 55); ("fats_left_arm_swing", 57);
    ("fats_right_arm_swing", 58); ("fats_left_elbow", 59);
    ("fats_right_elbow", 60); ("fats_foot_tap", 61);
    ("fats_body_lean", 62); ("duke_right_foot_bass_drum", 63);
    ("duke_body_lean", 64); ("organ_top_blue", 66);
    ("organ_top_red", 67); ("organ_top_amber", 68);
    ("organ_top_green", 69); ("organ_leg_top", 71);
    ("organ_leg_mid", 72); ("organ_leg_bottom", 73);
    ("organ_cont_strobe", 74); ("organ_flash_strobe", 75);
    ("sign_inner", 76); ("sign_mid", 77);
    ("sign_outer", 78); ("sign_cont_strobe", 79);
    ("sign_flash_strobe", 80); ("spot_mitzi", 81);
    ("spot_beach_bear", 82); ("spot_looney_bird", 83);
    ("spot_billy_bob", 84); ("spot_fats", 85);
    ("spot_duke", 86); ("spot_rolfe", 87);
    ("spot_earl", 88); ("curtain_stage_right_open", 89);
    ("curtain_stage_right_close", 90); ("curtain_center_stage_open", 91);
    ("curtain_center_stage_close", 92); ("curtain_stage_left_open", 93);
    ("curtain_stage_left_close", 94) ].

Definition BD_CHANNELS : list (string * Z) :=
  [ ("beachbear_left_eyelid", 1); ("beachbear_right_eyelid", 2);
    ("beachbear_eye_cross", 3); ("beachbear_left_hand_slide", 4);
    ("beachbear_guitar_raise", 5); ("beachbear_head_left", 6);
    ("beachbear_head_right", 7); ("beachbear_head_up", 8);
    ("beachbear_left_leg_kick", 9); ("beachbear_right_leg_kick", 10);
    ("beachbear_right_arm_raise", 11); ("beachbear_right_arm_twist", 12);
    ("beachbear_right_elbow_twist", 13); ("beachbear_right_wrist", 14);
    ("beachbear_body_lean", 15); ("beachbear_mouth", 16);
    ("looneybird_mouth", 17); ("mitzi_right_arm_raise", 18);
    ("mitzi_right_elbow", 19); ("mitzi_right_arm_twist", 20);
    ("looneybird_head_right", 21); ("looneybird_raise", 22);
    ("mitzi_left_arm_raise", 23); ("mitzi_left_elbow", 24);
    ("mitzi_left_arm_twist", 25); ("mitzi_left_ear", 26);
    ("mitzi_right_ear", 27); ("mitzi_head_left", 28);
    ("mitzi_head_right", 29); ("mitzi_head_up", 30);
    ("mitzi_left_eyelid", 31); ("mitzi_right_eyelid", 32);
    ("mitzi_eyes_left", 33); ("mitzi_eyes_right", 34);
    ("mitzi_mouth", 35); ("mitzi_body_twist_left", 36);
    ("mitzi_body_twist_right", 37); ("mitzi_body_lean", 38);
    ("billybob_left_arm_slide", 39); ("billybob_guitar_raise", 40);
    ("looneybird_left_eyelid", 41); ("looneybird_right_eyelid", 42);
    ("looneybird_eye_cross", 43); ("billybob_foot_tap", 44);
    ("billybob_mouth", 46); ("billybob_left_eyelid", 47);
    ("billybob_right_eyelid", 48); ("billybob_eyes_left", 49);
    ("billybob_eyes_right", 50); ("billybob_head_left", 51);
    ("billybob_head_right", 52); ("billybob_head_tip_left", 53);
    ("billybob_head_tip_right", 54); ("billybob_head_up", 55);
    ("billybob_right_arm_raise", 56); ("billybob_right_arm_twist", 57);
    ("billybob_right_elbow_twist", 58); ("billybob_right_wrist", 59);
    ("specials_dual_pressure_bd", 60); ("billybob_body_twist_left", 61);
    ("billybob_body_twist_right", 62); ("billybob_body_lean", 63);
    ("specials_tape_stop", 64); ("specials_tape_rewind", 65);
    ("flood_stage_right_blue", 66); ("flood_stage_right_green", 67);
    ("flood_stage_right_amber", 68); ("flood_stage_right_red", 69);
    ("prop_light_applause", 70); ("flood_center_stage_blue", 71);
    ("flood_center_stage_green", 72); ("flood_center_stage_amber", 73);
    ("flood_center_stage_red", 74); ("prop_light_drums", 75);
    ("flood_stage_left_blue", 76); ("flood_stage_left_green", 77);
    ("flood_stage_left_amber", 78); ("flood_stage_left_red", 79);
    ("prop_light_fire_still", 80); ("flood_backdrop_outside_blue", 81);
    ("flood_backdrop_inside_amber", 82); ("flood_treeline_blue", 83);
    ("flood_backdrop_inside_blue", 84); ("flood_treeline_red", 85);
    ("flood_bushes_green", 86); ("flood_bushes_red_amber", 87);
    ("spot_sun", 88); ("spot_moon", 89);
    ("spot_spider", 90); ("prop_light_gas_pump", 91);
    ("stage_light_service_stn_red", 92); ("stage_light_service_stn_blue", 93);
    ("stage_light_rainbow_1_red", 94); ("stage_light_rainbow_2_yellow", 95);
    ("spot_guitar", 96) ].

Definition TD_BLANK_BITS : list Z := [56; 65; 70].
Definition TD_FRAME_BITS : Z := 94.
Definition BD_BLANK_BITS : list Z := [45].
Definition BD_FRAME_BITS : Z := 96.

(** [{v: k for k, v in d.items()}]: a later key overwrites an earlier one. *)
Definition reverse_map (d : list (string * Z)) : list (Z * string) :=
  rev (map (fun kv => (snd kv, fst kv)) d).

Definition TD_BIT_TO_NAME : list (Z * string) := reverse_map TD_CHANNELS.
Definition BD_BIT_TO_NAME : list (Z * string) := reverse_map BD_CHANNELS.

(** The two tracks. *)
Inductive track : Type := TD | BD.

Definition track_name (t : track) : string :=
  match t with TD => "TD" | BD => "BD" end.

End Constants.

(** ** SCME/SGM/bmc_encoder.py *)

Module Encoder.
Import Constants.

(** The encoder object: its only field is the current output level. *)
Record BMCEncoder : Type := { _level : Z }.

(** [BMCEncoder(initial_level)]. *)
Definition init (initial_level : Z) : BMCEncoder :=
  {| _level := initial_level |}.

(** [reset(level)]. *)
Definition reset (enc : BMCEncoder) (level : Z) : BMCEncoder :=
  {| _level := level |}.

(** [BMC_HIGH if self._level == BMC_LOW else BMC_LOW]. *)
Definition toggle (level : Z) : Z :=
  if level =? BMC_LOW then BMC_HIGH else BMC_LOW.

(** [[x] * n]. *)
Definition times (x : Z) (n : Z) : list Z := repeat x (Z.to_nat n).

(** [encode_bit]: the samples of one bit period and the updated encoder. *)
Definition encode_bit (enc : BMCEncoder) (bit : Z) : list Z * BMCEncoder :=
  let l1 := toggle (_level enc) in
  if Py.truthy bit then
    let first_half := times l1 BMC_HALF_A in
    let l2 := toggle l1 in
    let second_half := times l2 BMC_HALF_B in
    (first_half ++ second_half, {| _level := l2 |})
  else
    (times l1 SAMPLES_PER_BIT, {| _level := l1 |}).

(** The loop of [encode_bits]: [samples.extend(self.encode_bit(bit))]. *)
Fixpoint encode_loop (enc : BMCEncoder) (bits : list Z) (samples : list Z)
  : list Z * BMCEncoder :=
  match bits with
  | [] => (samples, enc)
  | bit :: tl =>
      let '(s, enc') := encode_bit enc bit in
      encode_loop enc' tl (samples ++ s)
  end.

Definition encode_bits (enc : BMCEncoder) (bits : list Z)
  : list Z * BMCEncoder :=
  encode_loop enc bits [].

Definition encode_frame (enc : BMCEncoder) (frame_bits : list Z)
  : list Z * BMCEncoder :=
  encode_bits enc frame_bits.

(** One sample packed by [struct.pack("<h", s)]: two bytes, low byte first,
    two's complement; a value outside the int16 range raises struct.error. *)
Definition pack_h (s : Z) : Py.res (list Z) :=
  if (-32768 <=? s) && (s <=? 32767) then
    let u := s mod 65536 in
    Py.Ok [Z.land u 255; Z.shiftr u 8]
  else Py.Raise Py.StructError.

(** [to_raw_bytes]: [struct.pack(f"<{len(samples)}h", *samples)]. *)
Fixpoint to_raw_bytes (samples : list Z) : Py.res (list Z) :=
  match samples with
  | [] => Py.Ok []
  | s :: tl =>
      b <- pack_h s ;;
      bs <- to_raw_bytes tl ;;
      Py.Ok (b ++ bs)
  end.

(** [[(byte >> i) & 1 for i in range(7, -1, -1)]] when [msb_first], else
    [[(byte >> i) & 1 for i in range(8)]]. *)
Definition byte_bits (byte : Z) (msb_first : bool) : list Z :=
  let indices :=
    if msb_first then map Z.of_nat (rev (seq 0 8)) else map Z.of_nat (seq 0 8) in
  map (fun i => Z.land (Z.shiftr byte i) 1) indices.

(** [encode_byte(byte, msb_first)]. *)
Definition encode_byte (enc : BMCEncoder) (byte : Z) (msb_first : bool)
  : list Z * BMCEncoder :=
  encode_bits enc (byte_bits byte msb_first).

End Encoder.

(** ** SCME/SVM/bmc_decoder.py *)

Module Decoder.

Definition TOLERANCE_FACTOR : float := 0.30%float.

Record DecodedBit : Type := {
  bit : Z;
  sample_pos : Z;
  run_a : Z;
  run_b : option Z;
  in_tolerance : bool
}.

Record BitError : Type := {
  err_sample_pos : Z;
  run_length : Z;
  reason : string
}.

Record BMCDecoder : Type := {
  sample_rate : Z;
  baud_rate : Z;
  tolerance : float;
  zero_threshold : Z;
  nom_full : float;
  nom_half : float;
  _full_lo : Z;
  _full_hi : Z;
  _half_lo : Z;
  _half_hi : Z
}.

(** [BMCDecoder.__init__].  Both rates are integers, so [sample_rate /
    baud_rate] is a true division of integers. *)
Definition init (sample_rate baud_rate : Z) (tolerance : float)
  (zero_threshold : Z) : Py.res BMCDecoder :=
  spb <- Py.true_div sample_rate baud_rate ;;
  let nom_full := spb in
  let nom_half := PrimFloat.div spb (Py.float_of_Z 2) in
  let one := Py.float_of_Z 1 in
  full_lo <- Py.floor (PrimFloat.mul nom_full (PrimFloat.sub one tolerance)) ;;
  full_hi <- Py.ceil (PrimFloat.mul nom_full (PrimFloat.add one tolerance)) ;;
  half_lo <- Py.floor (PrimFloat.mul nom_half (PrimFloat.sub one tolerance)) ;;
  half_hi <- Py.ceil (PrimFloat.mul nom_half (PrimFloat.add one tolerance)) ;;
  Py.Ok {| sample_rate := sample_rate;
           baud_rate := baud_rate;
           tolerance := tolerance;
           zero_threshold := zero_threshold;
           nom_full := nom_full;
           nom_half := nom_half;
           _full_lo := full_lo;
           _full_hi := full_hi;
           _half_lo := half_lo;
           _half_hi := half_hi |}.

Section Methods.

Variable self : BMCDecoder.

(** The inner [while] of [_run_lengths], started at a suffix [samples[i:]]:
    the number of samples it steps over and the suffix it stops at. *)
Fixpoint same_run (thresh : Z) (positive : bool) (rest : list Z)
  : Z * list Z :=
  match rest with
  | [] => (0, [])
  | s :: tl =>
      if Bool.eqb (s >? 0) positive && (Z.abs s >=? thresh) then
        let '(k, rest') := same_run thresh positive tl in (1 + k, rest')
      else (0, rest)
  end.

(** The state of the outer [while i < n] of [_run_lengths]: the index [i],
    the suffix [samples[i:]] and the runs found so far. *)
Record scan_state : Type := {
  scan_i : Z;
  scan_rest : list Z;
  scan_runs : list (Z * Z)
}.

(** The outer loop.  Every iteration advances [i], so [length samples]
    iterations are always enough (lemma [run_lengths_loop_exhausts]). *)
Fixpoint run_lengths_loop (fuel : nat) (thresh : Z) (st : scan_state)
  : scan_state :=
  match fuel with
  | O => st
  | S fuel' =>
      match scan_rest st with
      | [] => st
      | s :: tl =>
          if Z.abs s <? thresh then
            run_lengths_loop fuel' thresh
              {| scan_i := scan_i st + 1; scan_rest := tl;
                 scan_runs := scan_runs st |}
          else
            let positive := s >? 0 in
            let start := scan_i st in
            let '(k, rest') := same_run thresh positive (scan_rest st) in
            let i' := scan_i st + k in
            run_lengths_loop fuel' thresh
              {| scan_i := i'; scan_rest := rest';
                 scan_runs := scan_runs st ++ [(start, i' - start)] |}
      end
  end.

Definition _run_lengths (samples : list Z) : list (Z * Z) :=
  scan_runs
    (run_lengths_loop (length samples) (zero_threshold self)
       {| scan_i := 0; scan_rest := samples; scan_runs := [] |}).

Definition _is_full (r : Z) : bool :=
  (_full_lo self <=? r) && (r <=? _full_hi self).

Definition _is_half (r : Z) : bool :=
  (_half_lo self <=? r) && (r <=? _half_hi self).

Definition reason_non_half (r r2 combined : Z) : string :=
  ("half-run (" ++ Py.str r ++ ") followed by non-half (" ++ Py.str r2
   ++ "), sum=" ++ Py.str combined)%string.

Definition reason_outside (r : Z) : string :=
  ("run=" ++ Py.str r ++ " outside full=[" ++ Py.str (_full_lo self) ++ ","
   ++ Py.str (_full_hi self) ++ "] and half=[" ++ Py.str (_half_lo self)
   ++ "," ++ Py.str (_half_hi self) ++ "]")%string.

(** The state threaded through the loop of [_consume_runs]: the index into
    the run list and the two output lists, which the source appends to. *)
Record consume_state : Type := {
  idx : nat;
  bits : list DecodedBit;
  errors : list BitError
}.

Definition emit_bit (st : consume_state) (b : DecodedBit) (adv : nat)
  : consume_state :=
  {| idx := idx st + adv; bits := bits st ++ [b]; errors := errors st |}.

Definition emit_error (st : consume_state) (e : BitError) : consume_state :=
  {| idx := idx st + 1; bits := bits st; errors := errors st ++ [e] |}.

(** One iteration of [while idx < total]; called only when [idx < total]. *)
Definition consume_step (runs : list (Z * Z)) (st : consume_state)
  : consume_state :=
  match nth_error runs (idx st) with
  | None => st
  | Some (pos, r) =>
      if _is_full r then
        emit_bit st {| bit := 0; sample_pos := pos; run_a := r;
                       run_b := None; in_tolerance := true |} 1
      else if _is_half r then
        if (idx st + 1 <? length runs)%nat then
          match nth_error runs (idx st + 1) with
          | None => st
          | Some (pos2, r2) =>
              if _is_half r2 then
                emit_bit st {| bit := 1; sample_pos := pos; run_a := r;
                               run_b := Some r2; in_tolerance := true |} 2
              else
                let combined := r + r2 in
                if _is_full combined then
                  emit_bit st {| bit := 1; sample_pos := pos; run_a := r;
                                 run_b := Some r2; in_tolerance := false |} 2
                else
                  emit_error st {| err_sample_pos := pos; run_length := r;
                                   reason := reason_non_half r r2 combined |}
          end
        else
          emit_bit st {| bit := 1; sample_pos := pos; run_a := r;
                         run_b := None; in_tolerance := false |} 1
      else
        emit_error st {| err_sample_pos := pos; run_length := r;
                         reason := reason_outside r |}
  end.

Fixpoint consume_loop (fuel : nat) (runs : list (Z * Z)) (st : consume_state)
  : consume_state :=
  match fuel with
  | O => st
  | S fuel' =>
      if (idx st <? length runs)%nat
      then consume_loop fuel' runs (consume_step runs st)
      else st
  end.

(** [_consume_runs(runs, bits, errors)]: the index starts at 0 and every
    iteration advances it, so [length runs] iterations are always enough
    (lemma [consume_runs_exhausts]). *)
Definition _consume_runs (runs : list (Z * Z)) (bits0 : list DecodedBit)
  (errors0 : list BitError) : consume_state :=
  consume_loop (length runs) runs
    {| idx := 0; bits := bits0; errors := errors0 |}.

(** [decode(samples)]. *)
Definition decode (samples : list Z) : list DecodedBit * list BitError :=
  let runs := _run_lengths samples in
  let st := _consume_runs runs [] [] in
  (bits st, errors st).

End Methods.

(** The decoder with the default parameters of the constructor. *)
Definition default : Py.res BMCDecoder :=
  init 44100 4800 TOLERANCE_FACTOR 200.

End Decoder.

(** ** SCME/SVM/frame_sync.py *)

Module FrameSync.
Import Constants.

Record DecodedFrame : Type := {
  frame_index : Z;
  bit_offset : Z;
  bits : list Z;
  active_channels : list string;
  blank_ok : bool
}.

Record SyncResult : Type := {
  locked : bool;
  lock_offset : Z;
  score : Z;
  frames : list DecodedFrame;
  orphan_bits : Z
}.

Definition LOCK_THRESHOLD : Z := 3.

(** [range(n)]. *)
Definition range (n : Z) : list Z := map Z.of_nat (seq 0 (Z.to_nat n)).

(** [all(frame_slice[bi] == 0 for bi in blank_indices)]. *)
Fixpoint all_blank_zero (frame_slice : list Z) (blank_indices : list Z)
  : Py.res bool :=
  match blank_indices with
  | [] => Py.Ok true
  | bi :: tl =>
      v <- Py.getitem frame_slice bi ;;
      if v =? 0 then all_blank_zero frame_slice tl else Py.Ok false
  end.

(** The geometry [sync_frames] selects for a track.  The track is a value of
    type [track], so the ValueError for another string cannot arise. *)
Definition frame_bits_of (t : track) : Z :=
  match t with TD => TD_FRAME_BITS | BD => BD_FRAME_BITS end.

Definition blank_bits_of (t : track) : list Z :=
  match t with TD => TD_BLANK_BITS | BD => BD_BLANK_BITS end.

Definition bit_to_name_of (t : track) : list (Z * string) :=
  match t with TD => TD_BIT_TO_NAME | BD => BD_BIT_TO_NAME end.

(** [{b - 1 for b in blank_bits}]; the order of iteration does not matter to
    [all] over slices of full width. *)
Definition blank_indices_of (t : track) : list Z :=
  map (fun b => b - 1) (blank_bits_of t).

Section Sync.

Variable bits_in : list Z.
Variable trk : track.

Let frame_bits : Z := frame_bits_of trk.
Let blank_indices : list Z := blank_indices_of trk.
Let bit_to_name : list (Z * string) := bit_to_name_of trk.
Let total : Z := Z.of_nat (length bits_in).

(** [for k in range(LOCK_THRESHOLD)] with its two [break]s. *)
Fixpoint score_loop (ks : list Z) (candidate : Z) (score : Z) : Py.res Z :=
  match ks with
  | [] => Py.Ok score
  | k :: tl =>
      let start := candidate + k * frame_bits in
      let end_ := start + frame_bits in
      if end_ >? total then Py.Ok score
      else
        let frame_slice := Py.slice bits_in start end_ in
        ok <- all_blank_zero frame_slice blank_indices ;;
        if ok then score_loop tl candidate (score + 1) else Py.Ok score
  end.

(** [for candidate in range(search_end)] with its [break]. *)
Fixpoint search_loop (candidates : list Z) (best_offset best_score : Z)
  : Py.res (Z * Z) :=
  match candidates with
  | [] => Py.Ok (best_offset, best_score)
  | candidate :: tl =>
      score <- score_loop (range LOCK_THRESHOLD) candidate 0 ;;
      if score >? best_score then
        if score >=? LOCK_THRESHOLD then Py.Ok (candidate, score)
        else search_loop tl candidate score
      else search_loop tl best_offset best_score
  end.

(** [[bit_to_name[i + 1] for i, v in enumerate(frame_slice)
      if v == 1 and (i + 1) in bit_to_name]]. *)
Fixpoint active_names (i : Z) (frame_slice : list Z) : list string :=
  match frame_slice with
  | [] => []
  | v :: tl =>
      let here :=
        if v =? 1 then
          match Py.lookupZ (i + 1) bit_to_name with
          | Some name => [name]
          | None => []
          end
        else [] in
      here ++ active_names (i + 1) tl
  end.

(** [while pos + frame_bits <= total]; every iteration advances [pos] by
    [frame_bits], so [length bits] iterations are always enough. *)
Fixpoint extract_loop (fuel : nat) (frames_acc : list DecodedFrame) (pos : Z)
  : Py.res (list DecodedFrame * Z) :=
  match fuel with
  | O => Py.Ok (frames_acc, pos)
  | S fuel' =>
      if pos + frame_bits <=? total then
        let frame_slice := Py.slice bits_in pos (pos + frame_bits) in
        ok <- all_blank_zero frame_slice blank_indices ;;
        let active := active_names 0 frame_slice in
        let f := {| frame_index := Z.of_nat (length frames_acc);
                    bit_offset := pos;
                    bits := frame_slice;
                    active_channels := active;
                    blank_ok := ok |} in
        extract_loop fuel' (frames_acc ++ [f]) (pos + frame_bits)
      else Py.Ok (frames_acc, pos)
  end.

Definition sync_frames (max_search_bits : Z) : Py.res SyncResult :=
  let search_end :=
    Z.min max_search_bits (total - frame_bits * LOCK_THRESHOLD) in
  '(best_offset, best_score) <- search_loop (range search_end) 0 0 ;;
  let locked := best_score >=? LOCK_THRESHOLD in
  '(frames, _) <- extract_loop (length bits_in) [] best_offset ;;
  Py.Ok {| locked := locked;
           lock_offset := best_offset;
           score := best_score;
           frames := frames;
           orphan_bits := best_offset |}.

End Sync.

(** The default search window. *)
Definition default_max_search_bits : Z := 500.

End FrameSync.

(** ** SCME/SGM/frame_builder.py *)

Module FrameBuilder.
Import Constants Encoder.

Definition TD_FRAME_SAMPLES : Z := TD_FRAME_BITS * SAMPLES_PER_BIT.
Definition BD_FRAME_SAMPLES : Z := BD_FRAME_BITS * SAMPLES_PER_BIT.

(** A show event: [{"time": float, "channel": str, "active": bool}]. *)
Record ChannelEvent : Type := {
  time : float;
  channel : string;
  active : bool
}.

Record FrameBuilder : Type := {
  track : Constants.track;
  _channel_map : list (string * Z);
  _blank_bits : list Z;
  _frame_bits : Z;
  _frame_samps : Z;
  _frame : list Z
}.

(** [[0] * n]. *)
Definition zeros (n : Z) : list Z := repeat 0 (Z.to_nat n).

(** [FrameBuilder(track)], for the two tracks the constructor accepts. *)
Definition init (t : Constants.track) : FrameBuilder :=
  let frame_bits := match t with TD => TD_FRAME_BITS | BD => BD_FRAME_BITS end in
  {| track := t;
     _channel_map := match t with TD => TD_CHANNELS | BD => BD_CHANNELS end;
     _blank_bits := match t with TD => TD_BLANK_BITS | BD => BD_BLANK_BITS end;
     _frame_bits := frame_bits;
     _frame_samps :=
       match t with TD => TD_FRAME_SAMPLES | BD => BD_FRAME_SAMPLES end;
     _frame := zeros frame_bits |}.

Definition with_frame (self : FrameBuilder) (frame : list Z) : FrameBuilder :=
  {| track := track self;
     _channel_map := _channel_map self;
     _blank_bits := _blank_bits self;
     _frame_bits := _frame_bits self;
     _frame_samps := _frame_samps self;
     _frame := frame |}.

(** [x in s] for a set of integers. *)
Definition mem (x : Z) (s : list Z) : bool := existsb (Z.eqb x) s.

Definition set_channel (self : FrameBuilder) (channel : string) (active : bool)
  : Py.res FrameBuilder :=
  match Py.lookup channel (_channel_map self) with
  | None => Py.Raise Py.ValueError
  | Some bit_number =>
      let bit_index := bit_number - 1 in
      if mem bit_number (_blank_bits self) then Py.Raise Py.ValueError
      else
        frame <- Py.setitem (_frame self) bit_index (if active then 1 else 0) ;;
        Py.Ok (with_frame self frame)
  end.

Definition clear_all (self : FrameBuilder) : FrameBuilder :=
  with_frame self (zeros (_frame_bits self)).

Definition get_frame_snapshot (self : FrameBuilder) : list Z := _frame self.

(** [get_active_channels]: names whose bit is set, in table order. *)
Fixpoint active_of (frame : list Z) (table : list (string * Z))
  : Py.res (list string) :=
  match table with
  | [] => Py.Ok []
  | (name, bit_num) :: tl =>
      v <- Py.getitem frame (bit_num - 1) ;;
      rest <- active_of frame tl ;;
      Py.Ok (if Py.truthy v then name :: rest else rest)
  end.

Definition get_active_channels (self : FrameBuilder) : Py.res (list string) :=
  active_of (_frame self) (_channel_map self).

(** What [build] threads through its loops besides the builder itself: the
    output bytearray and the encoder.  [encoded] is a ghost log of the frame
    states handed to [encode_frame], in order; no code reads it. *)
Record stream : Type := {
  output : list Z;
  enc : BMCEncoder;
  encoded : list (list Z)
}.

(** The [while pos < end_sample] loop of [_fill_frames].  Every iteration
    advances [pos] by at least one sample, so [end_sample - pos] iterations
    are always enough (lemma [fill_loop_reaches_end]). *)
Fixpoint fill_loop (fuel : nat) (self : FrameBuilder) (st : stream)
  (pos end_sample : Z) : Py.res (stream * Z) :=
  match fuel with
  | O => Py.Ok (st, pos)
  | S fuel' =>
      if pos <? end_sample then
        let '(frame_pcm, enc') := encode_frame (enc st) (_frame self) in
        frame_pcm_bytes <- to_raw_bytes frame_pcm ;;
        let samples_remaining := end_sample - pos in
        let samples_to_write := Z.min (_frame_samps self) samples_remaining in
        let byte_start := pos * 2 in
        let byte_end := byte_start + samples_to_write * 2 in
        let output' :=
          Py.slice_assign (output st) byte_start byte_end
            (Py.slice frame_pcm_bytes 0 (samples_to_write * 2)) in
        fill_loop fuel' self
          {| output := output'; enc := enc';
             encoded := encoded st ++ [_frame self] |}
          (pos + samples_to_write) end_sample
      else Py.Ok (st, pos)
  end.

Definition _fill_frames (self : FrameBuilder) (st : stream)
  (start_sample end_sample : Z) : Py.res stream :=
  if start_sample >=? end_sample then Py.Ok st
  else
    '(st', _) <- fill_loop (Z.to_nat (end_sample - start_sample)) self st
                   start_sample end_sample ;;
    Py.Ok st'.

(** [int(e["time"] * SAMPLE_RATE)]. *)
Definition event_sample_of (e : ChannelEvent) : Py.res Z :=
  Py.int_of_float (PrimFloat.mul (time e) (Py.float_of_Z SAMPLE_RATE)).

(** [sorted(events, key=lambda e: int(e["time"] * SAMPLE_RATE))]: the keys
    are computed first, then the events are sorted stably. *)
Definition sort_events (events : list ChannelEvent)
  : Py.res (list ChannelEvent) :=
  keyed <- Py.mapM (fun e => k <- event_sample_of e ;; Py.Ok (k, e)) events ;;
  Py.Ok (map snd (Py.sorted_by_key keyed)).

(** [for event in sorted_events]. *)
Fixpoint events_loop (self : FrameBuilder) (st : stream) (write_cursor : Z)
  (sorted_events : list ChannelEvent)
  : Py.res (FrameBuilder * stream * Z) :=
  match sorted_events with
  | [] => Py.Ok (self, st, write_cursor)
  | event :: tl =>
      event_sample <- event_sample_of event ;;
      st' <- _fill_frames self st write_cursor event_sample ;;
      let write_cursor' := event_sample in
      self' <- set_channel self (channel event) (active event) ;;
      events_loop self' st' write_cursor' tl
  end.

(** [total_samples] rounded up to a whole number of frames. *)
Definition round_up_to_frame (frame_samps total_samples : Z) : Z :=
  let remainder := total_samples mod frame_samps in
  if Py.truthy remainder then total_samples + (frame_samps - remainder)
  else total_samples.

(** [bytearray(n)]: [n] zero bytes; a negative count raises ValueError. *)
Definition bytearray (n : Z) : Py.res (list Z) :=
  if n <? 0 then Py.Raise Py.ValueError else Py.Ok (zeros n).

(** [build], returning the builder and the stream with its ghost log. *)
Definition build_trace (self : FrameBuilder) (events : list ChannelEvent)
  (duration_seconds : float) : Py.res (FrameBuilder * stream) :=
  let self := clear_all self in
  total_samples0 <-
    Py.int_of_float (PrimFloat.mul duration_seconds (Py.float_of_Z SAMPLE_RATE)) ;;
  let total_samples := round_up_to_frame (_frame_samps self) total_samples0 in
  output0 <- bytearray (total_samples * 2) ;;
  let st := {| output := output0; enc := Encoder.init BMC_LOW; encoded := [] |} in
  sorted_events <- sort_events events ;;
  '(self', st', write_cursor) <- events_loop self st 0 sorted_events ;;
  st'' <- _fill_frames self' st' write_cursor total_samples ;;
  Py.Ok (self', st'').

(** [build(events, duration_seconds)]: the PCM bytes. *)
Definition build (self : FrameBuilder) (events : list ChannelEvent)
  (duration_seconds : float) : Py.res (list Z) :=
  '(_, st) <- build_trace self events duration_seconds ;;
  Py.Ok (output st).

End FrameBuilder.

(** ** SCME/SGM/export_bridge.py: the inlined constants, encoder and frame
    builder *)

Module ExportBridge.

Definition _SR : Z := 44100.
Definition _SPB : Z := 9.
Definition _HALF_A : Z := 4.
Definition _HALF_B : Z := 5.
Definition _HIGH : Z := 32767.
Definition _LOW : Z := -32768.
Definition _TD_BITS : Z := 94.
Definition _BD_BITS : Z := 96.
Definition _TD_BLANK : list Z := [56; 65; 70].
Definition _BD_BLANK : list Z := [45].

Definition _TD_CH : list (string * Z) :=
  [ ("rolfe_mouth", 1); ("rolfe_left_eyelid", 2);
    ("rolfe_right_eyelid", 3); ("rolfe_eyes_left", 4);
    ("rolfe_eyes_right", 5); ("rolfe_head_left", 6);
    ("rolfe_head_right", 7); ("rolfe_head_up", 8);
    ("rolfe_left_ear", 9); ("rolfe_right_ear", 10);
    ("rolfe_left_arm_raise", 11); ("rolfe_left_arm_twist", 12);
    ("rolfe_left_elbow", 13); ("rolfe_body_twist_left", 14);
    ("rolfe_body_twist_right", 15); ("rolfe_body_lean", 16);
    ("rolfe_right_arm_raise", 17); ("rolfe_right_arm_twist", 18);
    ("rolfe_right_elbow_twist", 19); ("rolfe_earl_head_tilt", 20);
    ("duke_head_right", 21); ("duke_head_up", 22);
    ("duke_left_ear", 23); ("duke_right_ear", 24);
    ("duke_head_left", 25); ("duke_left_eyelid", 26);
    ("duke_right_eyelid", 27); ("duke_eyes_left", 28);
    ("duke_eyes_right", 29); ("duke_mouth", 30);
    ("duke_right_elbow", 31); ("duke_left_foot_hihat", 32);
    ("duke_left_arm_swing", 33); ("duke_right_arm_swing", 34);
    ("duke_left_elbow", 35); ("earl_mouth", 36);
    ("earl_eyebrow", 37); ("props_sun_mouth", 38);
    ("props_sun_raise", 39); ("specials_dual_pressure_td", 40);
    ("fats_left_eyelid", 41); ("fats_right_eyelid", 42);
    ("fats_eyes_left", 43); ("fats_eyes_right", 44);
    ("fats_mouth", 45); ("props_moon_mouth", 46);
    ("props_moon_raise", 47); ("props_looney_bird_hands", 48);
    ("props_antioch_down", 49); ("props_baby_bear_raise", 50);
    ("fats_head_tip_left", 51); ("fats_head_tip_right", 52);
    ("fats_head_up", 53); ("fats_head_left", 54);
    ("fats_head_right", 55); ("fats_left_arm_swing", 57);
    ("fats_right_arm_swing", 58); ("fats_left_elbow", 59);
    ("fats_right_elbow", 60); ("fats_foot_tap", 61);
    ("fats_body_lean", 62); ("duke_right_foot_bass_drum", 63);
    ("duke_body_lean", 64); ("organ_top_blue", 66);
    ("organ_top_red", 67); ("organ_top_amber", 68);
    ("organ_top_green", 69); ("organ_leg_top", 71);
    ("organ_leg_mid", 72); ("organ_leg_bottom", 73);
    ("organ_cont_strobe", 74); ("organ_flash_strobe", 75);
    ("sign_inner", 76); ("sign_mid", 77);
    ("sign_outer", 78); ("sign_cont_strobe", 79);
    ("sign_flash_strobe", 80); ("spot_mitzi", 81);
    ("spot_beach_bear", 82); ("spot_looney_bird", 83);
    ("spot_billy_bob", 84); ("spot_fats", 85);
    ("spot_duke", 86); ("spot_rolfe", 87);
    ("spot_earl", 88); ("curtain_stage_right_open", 89);
    ("curtain_stage_right_close", 90); ("curtain_center_stage_open", 91);
    ("curtain_center_stage_close", 92); ("curtain_stage_left_open", 93);
    ("curtain_stage_left_close", 94) ].

Definition _BD_CH : list (string * Z) :=
  [ ("beachbear_left_eyelid", 1); ("beachbear_right_eyelid", 2);
    ("beachbear_eye_cross", 3); ("beachbear_left_hand_slide", 4);
    ("beachbear_guitar_raise", 5); ("beachbear_head_left", 6);
    ("beachbear_head_right", 7); ("beachbear_head_up", 8);
    ("beachbear_left_leg_kick", 9); ("beachbear_right_leg_kick", 10);
    ("beachbear_right_arm_raise", 11); ("beachbear_right_arm_twist", 12);
    ("beachbear_right_elbow_twist", 13); ("beachbear_right_wrist", 14);
    ("beachbear_body_lean", 15); ("beachbear_mouth", 16);
    ("looneybird_mouth", 17); ("mitzi_right_arm_raise", 18);
    ("mitzi_right_elbow", 19); ("mitzi_right_arm_twist", 20);
    ("looneybird_head_right", 21); ("looneybird_raise", 22);
    ("mitzi_left_arm_raise", 23); ("mitzi_left_elbow", 24);
    ("mitzi_left_arm_twist", 25); ("mitzi_left_ear", 26);
    ("mitzi_right_ear", 27); ("mitzi_head_left", 28);
    ("mitzi_head_right", 29); ("mitzi_head_up", 30);
    ("mitzi_left_eyelid", 31); ("mitzi_right_eyelid", 32);
    ("mitzi_eyes_left", 33); ("mitzi_eyes_right", 34);
    ("mitzi_mouth", 35); ("mitzi_body_twist_left", 36);
    ("mitzi_body_twist_right", 37); ("mitzi_body_lean", 38);
    ("billybob_left_arm_slide", 39); ("billybob_guitar_raise", 40);
    ("looneybird_left_eyelid", 41); ("looneybird_right_eyelid", 42);
    ("looneybird_eye_cross", 43); ("billybob_foot_tap", 44);
    ("billybob_mouth", 46); ("billybob_left_eyelid", 47);
    ("billybob_right_eyelid", 48); ("billybob_eyes_left", 49);
    ("billybob_eyes_right", 50); ("billybob_head_left", 51);
    ("billybob_head_right", 52); ("billybob_head_tip_left", 53);
    ("billybob_head_tip_right", 54); ("billybob_head_up", 55);
    ("billybob_right_arm_raise", 56); ("billybob_right_arm_twist", 57);
    ("billybob_right_elbow_twist", 58); ("billybob_right_wrist", 59);
    ("specials_dual_pressure_bd", 60); ("billybob_body_twist_left", 61);
    ("billybob_body_twist_right", 62); ("billybob_body_lean", 63);
    ("specials_tape_stop", 64); ("specials_tape_rewind", 65);
    ("flood_stage_right_blue", 66); ("flood_stage_right_green", 67);
    ("flood_stage_right_amber", 68); ("flood_stage_right_red", 69);
    ("prop_light_applause", 70); ("flood_center_stage_blue", 71);
    ("flood_center_stage_green", 72); ("flood_center_stage_amber", 73);
    ("flood_center_stage_red", 74); ("prop_light_drums", 75);
    ("flood_stage_left_blue", 76); ("flood_stage_left_green", 77);
    ("flood_stage_left_amber", 78); ("flood_stage_left_red", 79);
    ("prop_light_fire_still", 80); ("flood_backdrop_outside_blue", 81);
    ("flood_backdrop_inside_amber", 82); ("flood_treeline_blue", 83);
    ("flood_backdrop_inside_blue", 84); ("flood_treeline_red", 85);
    ("flood_bushes_green", 86); ("flood_bushes_red_amber", 87);
    ("spot_sun", 88); ("spot_moon", 89);
    ("spot_spider", 90); ("prop_light_gas_pump", 91);
    ("stage_light_service_stn_red", 92); ("stage_light_service_stn_blue", 93);
    ("stage_light_rainbow_1_red", 94); ("stage_light_rainbow_2_yellow", 95);
    ("spot_guitar", 96) ].

(** [_BMCEncoder]: the level. *)
Record _BMCEncoder : Type := { _level : Z }.

Definition new_encoder : _BMCEncoder := {| _level := _LOW |}.

Definition toggle (level : Z) : Z := if level =? _LOW then _HIGH else _LOW.

Definition encode_bit (enc : _BMCEncoder) (bit : Z) : list Z * _BMCEncoder :=
  let l1 := toggle (_level enc) in
  if Py.truthy bit then
    let first := repeat l1 (Z.to_nat _HALF_A) in
    let l2 := toggle l1 in
    let second := repeat l2 (Z.to_nat _HALF_B) in
    (first ++ second, {| _level := l2 |})
  else (repeat l1 (Z.to_nat _SPB), {| _level := l1 |}).

Fixpoint encode_frame_loop (enc : _BMCEncoder) (frame_bits : list Z)
  (out : list Z) : list Z * _BMCEncoder :=
  match frame_bits with
  | [] => (out, enc)
  | b :: tl =>
      let '(s, enc') := encode_bit enc b in
      encode_frame_loop enc' tl (out ++ s)
  end.

Definition encode_frame (enc : _BMCEncoder) (frame_bits : list Z)
  : list Z * _BMCEncoder :=
  encode_frame_loop enc frame_bits [].

(** [struct.pack(f"<{len(frame_pcm)}h", *frame_pcm)]. *)
Definition pack (samples : list Z) : Py.res (list Z) :=
  Encoder.to_raw_bytes samples.

Record _FrameBuilder : Type := {
  track : Constants.track;
  _ch_map : list (string * Z);
  _blank_bits : list Z;
  _frame_bits : Z;
  _frame_samps : Z;
  _frame : list Z
}.

Definition zeros (n : Z) : list Z := repeat 0 (Z.to_nat n).

Definition init (t : Constants.track) : _FrameBuilder :=
  let frame_bits :=
    match t with Constants.TD => _TD_BITS | Constants.BD => _BD_BITS end in
  {| track := t;
     _ch_map := match t with Constants.TD => _TD_CH | Constants.BD => _BD_CH end;
     _blank_bits :=
       match t with Constants.TD => _TD_BLANK | Constants.BD => _BD_BLANK end;
     _frame_bits := frame_bits;
     _frame_samps := frame_bits * _SPB;
     _frame := zeros frame_bits |}.

Definition with_frame (self : _FrameBuilder) (frame : list Z) : _FrameBuilder :=
  {| track := track self;
     _ch_map := _ch_map self;
     _blank_bits := _blank_bits self;
     _frame_bits := _frame_bits self;
     _frame_samps := _frame_samps self;
     _frame := frame |}.

Definition set_channel (self : _FrameBuilder) (channel : string)
  (active : bool) : Py.res _FrameBuilder :=
  match Py.lookup channel (_ch_map self) with
  | None => Py.Raise Py.ValueError
  | Some bit_num =>
      if existsb (Z.eqb bit_num) (_blank_bits self) then Py.Raise Py.ValueError
      else
        frame <- Py.setitem (_frame self) (bit_num - 1)
                   (if active then 1 else 0) ;;
        Py.Ok (with_frame self frame)
  end.

Definition clear_all (self : _FrameBuilder) : _FrameBuilder :=
  with_frame self (zeros (_frame_bits self)).

Record stream : Type := {
  output : list Z;
  enc : _BMCEncoder;
  encoded : list (list Z)
}.

(** The [while pos < end] loop of [_fill]. *)
Fixpoint fill_loop (fuel : nat) (self : _FrameBuilder) (st : stream)
  (pos end_ : Z) : Py.res (stream * Z) :=
  match fuel with
  | O => Py.Ok (st, pos)
  | S fuel' =>
      if pos <? end_ then
        let '(frame_pcm, enc') := encode_frame (enc st) (_frame self) in
        frame_bytes <- pack frame_pcm ;;
        let can_write := Z.min (_frame_samps self) (end_ - pos) in
        let byte_s := pos * 2 in
        let byte_e := byte_s + can_write * 2 in
        let output' :=
          Py.slice_assign (output st) byte_s byte_e
            (Py.slice frame_bytes 0 (can_write * 2)) in
        fill_loop fuel' self
          {| output := output'; enc := enc';
             encoded := encoded st ++ [_frame self] |}
          (pos + can_write) end_
      else Py.Ok (st, pos)
  end.

Definition _fill (self : _FrameBuilder) (st : stream) (start end_ : Z)
  : Py.res stream :=
  if start >=? end_ then Py.Ok st
  else
    '(st', _) <- fill_loop (Z.to_nat (end_ - start)) self st start end_ ;;
    Py.Ok st'.

Definition ev_sample_of (e : FrameBuilder.ChannelEvent) : Py.res Z :=
  Py.int_of_float
    (PrimFloat.mul (FrameBuilder.time e) (Py.float_of_Z _SR)).

Definition sort_events (events : list FrameBuilder.ChannelEvent)
  : Py.res (list FrameBuilder.ChannelEvent) :=
  keyed <- Py.mapM (fun e => k <- ev_sample_of e ;; Py.Ok (k, e)) events ;;
  Py.Ok (map snd (Py.sorted_by_key keyed)).

(** [for ev in sorted_ev], with the snap to the frame boundary and the
    [continue] of an event that falls in the frame of the cursor. *)
Fixpoint events_loop (self : _FrameBuilder) (st : stream) (cursor : Z)
  (sorted_ev : list FrameBuilder.ChannelEvent)
  : Py.res (_FrameBuilder * stream * Z) :=
  match sorted_ev with
  | [] => Py.Ok (self, st, cursor)
  | ev :: tl =>
      ev_sample0 <- ev_sample_of ev ;;
      let ev_sample := (ev_sample0 / _frame_samps self) * _frame_samps self in
      if ev_sample <=? cursor then
        self' <- set_channel self (FrameBuilder.channel ev)
                   (FrameBuilder.active ev) ;;
        events_loop self' st cursor tl
      else
        st' <- _fill self st cursor ev_sample ;;
        let cursor' := ev_sample in
        self' <- set_channel self (FrameBuilder.channel ev)
                   (FrameBuilder.active ev) ;;
        events_loop self' st' cursor' tl
  end.

Definition build_trace (self : _FrameBuilder)
  (events : list FrameBuilder.ChannelEvent) (duration_seconds : float)
  : Py.res (_FrameBuilder * stream) :=
  let self := clear_all self in
  total_samples0 <-
    Py.int_of_float (PrimFloat.mul duration_seconds (Py.float_of_Z _SR)) ;;
  let remainder := total_samples0 mod _frame_samps self in
  let total_samples :=
    if Py.truthy remainder
    then total_samples0 + (_frame_samps self - remainder)
    else total_samples0 in
  output0 <- FrameBuilder.bytearray (total_samples * 2) ;;
  let st := {| output := output0; enc := new_encoder; encoded := [] |} in
  sorted_ev <- sort_events events ;;
  '(self', st', cursor) <- events_loop self st 0 sorted_ev ;;
  st'' <- _fill self' st' cursor total_samples ;;
  Py.Ok (self', st'').

Definition build (self : _FrameBuilder)
  (events : list FrameBuilder.ChannelEvent) (duration_seconds : float)
  : Py.res (list Z) :=
  '(_, st) <- build_trace self events duration_seconds ;;
  Py.Ok (output st).

End ExportBridge.

(** ** SCME/SVM/hardware_sim.py: the verdict logic of [run_sim] *)

Module HardwareSim.
Import Constants.

Definition MAX_ERROR_RATE : float := 0.02%float.
Definition MIN_FRAME_LOCK_SCORE : Z := 3.
Definition MIN_BLANK_BIT_RATE : float := 0.98%float.

(** The [--track] argument. *)
Inductive track_arg : Type :=
| Only (t : track)
| BOTH.

(** [tracks_to_run = ["TD", "BD"] if track == "BOTH" else [track]]. *)
Definition tracks_to_run (a : track_arg) : list track :=
  match a with
  | BOTH => [TD; BD]
  | Only t => [t]
  end.

(** The two accumulators of [run_sim]. *)
Record sim_state : Type := {
  verdict_pass : bool;
  reasons : list string
}.

Definition fail_with (st : sim_state) (reason : string) : sim_state :=
  {| verdict_pass := false; reasons := reasons st ++ [reason] |}.

Section RunSim.

(** The float format specifications [:.2f] and [:.1f] of the reason
    strings. *)
Variable fmt_2f : float -> string.
Variable fmt_1f : float -> string.

(** The sample rate of the file, the tolerance and the samples of the
    channel of each track, as [run_sim] has them after reading the file. *)
Variable sr : Z.
Variable tolerance : float.
Variable data : track -> list Z.

Definition hundred : float := Py.float_of_Z 100.

Definition reason_error_rate (trk : track) (error_rate : float) : string :=
  (track_name trk ++ ": error rate " ++ fmt_2f (PrimFloat.mul error_rate hundred)
   ++ "% exceeds " ++ fmt_1f (PrimFloat.mul MAX_ERROR_RATE hundred)
   ++ "% limit")%string.

Definition reason_no_lock (trk : track) : string :=
  (track_name trk ++ ": failed to lock on frame boundaries")%string.

Definition reason_blank (trk : track) (blank_ok_rate : float) : string :=
  (track_name trk ++ ": blank-bit integrity "
   ++ fmt_1f (PrimFloat.mul blank_ok_rate hundred) ++ "% < "
   ++ fmt_1f (PrimFloat.mul MIN_BLANK_BIT_RATE hundred) ++ "%")%string.

(** [sum(1 for f in frames if f.blank_ok)]. *)
Definition count_blank_ok (frames : list FrameSync.DecodedFrame) : Z :=
  Z.of_nat (length (filter FrameSync.blank_ok frames)).

(** The body of [for trk in tracks_to_run]. *)
Definition track_body (st : sim_state) (trk : track) : Py.res sim_state :=
  let ch_data := data trk in
  dec <- Decoder.init sr BAUD_RATE tolerance 200 ;;
  let '(bits_decoded, decode_errors) := Decoder.decode dec ch_data in
  let n_bits := Z.of_nat (length bits_decoded) in
  let n_errors := Z.of_nat (length decode_errors) in
  error_rate <- Py.true_div n_errors (Z.max (n_bits + n_errors) 1) ;;
  let st :=
    if PrimFloat.ltb MAX_ERROR_RATE error_rate
    then fail_with st (reason_error_rate trk error_rate)
    else st in
  let bit_vals := map Decoder.bit bits_decoded in
  sync <- FrameSync.sync_frames bit_vals trk FrameSync.default_max_search_bits ;;
  let blank_ok_count := count_blank_ok (FrameSync.frames sync) in
  blank_ok_rate <-
    Py.true_div blank_ok_count
      (Z.max (Z.of_nat (length (FrameSync.frames sync))) 1) ;;
  let st :=
    if negb (FrameSync.locked sync) then fail_with st (reason_no_lock trk)
    else st in
  let st :=
    if PrimFloat.ltb blank_ok_rate MIN_BLANK_BIT_RATE
    then fail_with st (reason_blank trk blank_ok_rate)
    else st in
  Py.Ok st.

Fixpoint tracks_loop (st : sim_state) (trks : list track) : Py.res sim_state :=
  match trks with
  | [] => Py.Ok st
  | trk :: tl => st' <- track_body st trk ;; tracks_loop st' tl
  end.

(** [run_sim] from the channel data on: the verdict it returns and the
    reasons it prints. *)
Definition run_sim (track : track_arg) : Py.res sim_state :=
  tracks_loop {| verdict_pass := true; reasons := [] |} (tracks_to_run track).

End RunSim.

End HardwareSim.
(** ** SCME/SViz/visualizer_bridge.py: the inlined decoder and synchroniser *)

Module VisualizerBridge.

Definition _BAUD_RATE : Z := 4800.
Definition _TOLERANCE : float := 0.30%float.
Definition _ZERO_THRESH : Z := 200.
Definition _MAX_ERR_RATE : float := 0.02%float.
Definition _MIN_BLANK_RATE : float := 0.98%float.
Definition _LOCK_THRESHOLD : Z := 3.
Definition _TD_FRAME_BITS : Z := 94.
Definition _BD_FRAME_BITS : Z := 96.
Definition _TD_BLANK_IDX : list Z := [55; 64; 69].
Definition _BD_BLANK_IDX : list Z := [44].

(** The inner [while] of [_run_lengths], from a suffix [samples[i:]]: the
    number of samples it steps over and the suffix it stops at. *)
Fixpoint run_of (positive : bool) (rest : list Z) : Z * list Z :=
  match rest with
  | [] => (0, [])
  | s :: tl =>
      if Bool.eqb (s >? 0) positive && (Z.abs s >=? _ZERO_THRESH) then
        let '(k, rest') := run_of positive tl in (1 + k, rest')
      else (0, rest)
  end.

(** The outer [while i < n]: the index, the suffix [samples[i:]] and the
    runs so far.  Every iteration advances [i], so [len(samples)]
    iterations are enough. *)
Fixpoint run_lengths_loop (fuel : nat) (i : Z) (rest : list Z)
  (runs : list (Z * Z)) : list (Z * Z) :=
  match fuel with
  | O => runs
  | S fuel' =>
      match rest with
      | [] => runs
      | s :: tl =>
          if Z.abs s <? _ZERO_THRESH then
            run_lengths_loop fuel' (i + 1) tl runs
          else
            let positive := s >? 0 in
            let start := i in
            let '(k, rest') := run_of positive rest in
            let i' := i + k in
            run_lengths_loop fuel' i' rest' (runs ++ [(start, i' - start)])
      end
  end.

Definition _run_lengths (samples : list Z) : list (Z * Z) :=
  run_lengths_loop (length samples) 0 samples [].

(** The state of the loop of [_decode_bmc]. *)
Record decode_state : Type := {
  idx : nat;
  bits : list Z;
  errors : Z
}.

Section DecodeLoop.

Variables full_lo full_hi half_lo half_hi : Z.
Variable runs : list (Z * Z).

(** One iteration of [while idx < total]; called only when [idx < total]. *)
Definition decode_step (st : decode_state) : decode_state :=
  match nth_error runs (idx st) with
  | None => st
  | Some (_, r) =>
      if (full_lo <=? r) && (r <=? full_hi) then
        {| idx := idx st + 1; bits := bits st ++ [0]; errors := errors st |}
      else if (half_lo <=? r) && (r <=? half_hi) then
        if (idx st + 1 <? length runs)%nat then
          match nth_error runs (idx st + 1) with
          | None => st
          | Some (_, r2) =>
              if (half_lo <=? r2) && (r2 <=? half_hi) then
                {| idx := idx st + 2; bits := bits st ++ [1];
                   errors := errors st |}
              else
                let combined := r + r2 in
                if (full_lo <=? combined) && (combined <=? full_hi) then
                  {| idx := idx st + 2; bits := bits st ++ [1];
                     errors := errors st |}
                else
                  {| idx := idx st + 1; bits := bits st;
                     errors := errors st + 1 |}
          end
        else
          {| idx := idx st + 1; bits := bits st ++ [1]; errors := errors st |}
      else
        {| idx := idx st + 1; bits := bits st; errors := errors st + 1 |}
  end.

(** Every iteration advances [idx], so [len(runs)] iterations are enough. *)
Fixpoint decode_loop (fuel : nat) (st : decode_state) : decode_state :=
  match fuel with
  | O => st
  | S fuel' =>
      if (idx st <? length runs)%nat then decode_loop fuel' (decode_step st)
      else st
  end.

End DecodeLoop.

(** [_decode_bmc(samples, sample_rate)]: the bits and the error count. *)
Definition _decode_bmc (samples : list Z) (sample_rate : Z)
  : Py.res (list Z * Z) :=
  nom_full <- Py.true_div sample_rate _BAUD_RATE ;;
  let nom_half := PrimFloat.div nom_full (Py.float_of_Z 2) in
  let one := Py.float_of_Z 1 in
  full_lo <- Py.floor (PrimFloat.mul nom_full (PrimFloat.sub one _TOLERANCE)) ;;
  full_hi <- Py.ceil (PrimFloat.mul nom_full (PrimFloat.add one _TOLERANCE)) ;;
  half_lo <- Py.floor (PrimFloat.mul nom_half (PrimFloat.sub one _TOLERANCE)) ;;
  half_hi <- Py.ceil (PrimFloat.mul nom_half (PrimFloat.add one _TOLERANCE)) ;;
  let runs := _run_lengths samples in
  let st :=
    decode_loop full_lo full_hi half_lo half_hi runs (length runs)
      {| idx := 0; bits := []; errors := 0 |} in
  Py.Ok (bits st, errors st).

Section SyncFrames.

Variable bits_in : list Z.
Variable frame_bits : Z.
Variable blank_indices : list Z.

Let total : Z := Z.of_nat (length bits_in).

(** [for k in range(_LOCK_THRESHOLD)] with its two [break]s. *)
Fixpoint score_loop (ks : list Z) (candidate : Z) (score : Z) : Py.res Z :=
  match ks with
  | [] => Py.Ok score
  | k :: tl =>
      let start := candidate + k * frame_bits in
      let end_ := start + frame_bits in
      if end_ >? total then Py.Ok score
      else
        let frame_slice := Py.slice bits_in start end_ in
        ok <- FrameSync.all_blank_zero frame_slice blank_indices ;;
        if ok then score_loop tl candidate (score + 1) else Py.Ok score
  end.

(** [for candidate in range(max(0, search_end))] with its [break]. *)
Fixpoint search_loop (candidates : list Z) (best_offset best_score : Z)
  : Py.res (Z * Z) :=
  match candidates with
  | [] => Py.Ok (best_offset, best_score)
  | candidate :: tl =>
      score <- score_loop (FrameSync.range _LOCK_THRESHOLD) candidate 0 ;;
      if score >? best_score then
        if score >=? _LOCK_THRESHOLD then Py.Ok (candidate, score)
        else search_loop tl candidate score
      else search_loop tl best_offset best_score
  end.

(** [while pos + frame_bits <= total: frames.append(bits[pos:pos +
    frame_bits]); pos += frame_bits].  With [frame_bits >= 1], as at both
    call sites, [len(bits)] iterations are enough. *)
Fixpoint extract_loop (fuel : nat) (frames : list (list Z)) (pos : Z)
  : list (list Z) :=
  match fuel with
  | O => frames
  | S fuel' =>
      if pos + frame_bits <=? total then
        extract_loop fuel'
          (frames ++ [Py.slice bits_in pos (pos + frame_bits)])
          (pos + frame_bits)
      else frames
  end.

(** [_sync_frames(bits, frame_bits, blank_indices)]: the offset, the score
    and the frames. *)
Definition _sync_frames : Py.res (Z * Z * list (list Z)) :=
  let search_end := Z.min 500 (total - frame_bits * _LOCK_THRESHOLD) in
  '(best_offset, best_score) <-
    search_loop (FrameSync.range (Z.max 0 search_end)) 0 0 ;;
  let frames := extract_loop (length bits_in) [] best_offset in
  Py.Ok (best_offset, best_score, frames).

End SyncFrames.

(** [sum(1 for f in frames if all(f[bi] == 0 for bi in blank_indices))]. *)
Fixpoint count_blank_ok (frames : list (list Z)) (blank_indices : list Z)
  : Py.res Z :=
  match frames with
  | [] => Py.Ok 0
  | f :: tl =>
      ok <- FrameSync.all_blank_zero f blank_indices ;;
      n <- count_blank_ok tl blank_indices ;;
      Py.Ok ((if ok then 1 else 0) + n)
  end.

(** The verdict and the reasons that [verify_and_decode] accumulates. *)
Record verdict_state : Type := {
  verdict_pass : bool;
  reasons : list string
}.

Definition fail_with (st : verdict_state) (reason : string) : verdict_state :=
  {| verdict_pass := false; reasons := reasons st ++ [reason] |}.

Section Verify.

(** The float format specifications [:.2f] and [:.1f] of the reason
    strings. *)
Variable fmt_2f : float -> string.
Variable fmt_1f : float -> string.

Variable sample_rate : Z.

Definition hundred : float := Py.float_of_Z 100.

(** [_process_track], as far as the verdict and the reasons go: the channel
    timeline and the per-track figures of the returned dict are left out;
    they raise nothing and change neither. *)
Definition _process_track (st : verdict_state) (samples : list Z)
  (frame_bits : Z) (blank_indices : list Z) (label : string)
  : Py.res verdict_state :=
  '(bits, n_errors) <- _decode_bmc samples sample_rate ;;
  let n_bits := Z.of_nat (length bits) in
  error_rate <- Py.true_div n_errors (Z.max (n_bits + n_errors) 1) ;;
  '(_, score, frames) <- _sync_frames bits frame_bits blank_indices ;;
  let locked := score >=? _LOCK_THRESHOLD in
  blank_ok <- count_blank_ok frames blank_indices ;;
  blank_rate <- Py.true_div blank_ok (Z.max (Z.of_nat (length frames)) 1) ;;
  let st :=
    if PrimFloat.ltb _MAX_ERR_RATE error_rate then
      fail_with st
        (label ++ ": error rate " ++ fmt_2f (PrimFloat.mul error_rate hundred)
         ++ "% exceeds " ++ fmt_1f (PrimFloat.mul _MAX_ERR_RATE hundred)
         ++ "% limit")%string
    else st in
  let st :=
    if negb locked then
      fail_with st (label ++ ": failed to lock on frame boundaries")%string
    else st in
  let st :=
    if PrimFloat.ltb blank_rate _MIN_BLANK_RATE then
      fail_with st
        (label ++ ": blank-bit integrity "
         ++ fmt_1f (PrimFloat.mul blank_rate hundred) ++ "% < "
         ++ fmt_1f (PrimFloat.mul _MIN_BLANK_RATE hundred) ++ "%")%string
    else st in
  Py.Ok st.

(** [verify_and_decode]: the keys ["verdict"] (PASS when [verdict_pass]) and
    ["reasons"] of the dict it returns. *)
Definition verify_and_decode (td_samples bd_samples : list Z)
  : Py.res verdict_state :=
  duration_seconds <-
    Py.true_div (Z.of_nat (length td_samples)) sample_rate ;;
  let st := {| verdict_pass := true; reasons := [] |} in
  st <- _process_track st td_samples _TD_FRAME_BITS _TD_BLANK_IDX "TD" ;;
  st <- _process_track st bd_samples _BD_FRAME_BITS _BD_BLANK_IDX "BD" ;;
  Py.Ok st.

End Verify.

End VisualizerBridge.


(** ** SCME/SGM/rshw_builder.py: [_build_signal_data] *)

Module RshwBuilder.

Definition _BAUD_RATE : Z := 4800.
Definition _TD_FRAME_BITS : Z := 94.
Definition _BD_FRAME_BITS : Z := 96.
Definition _RSHW_FPS : Z := 60.
Definition _TOLERANCE : float := 0.30%float.
Definition _ZERO_THRESH : Z := 200.

(** [for bit_idx, bit_val in enumerate(frame): if bit_val:
      signal_data.append(bit_idx + offset)]. *)
Fixpoint append_set_bits (signal_data : list Z) (bit_idx : Z) (offset : Z)
  (frame : list Z) : list Z :=
  match frame with
  | [] => signal_data
  | bit_val :: tl =>
      let signal_data' :=
        if Py.truthy bit_val then signal_data ++ [bit_idx + offset]
        else signal_data in
      append_set_bits signal_data' (bit_idx + 1) offset tl
  end.

(** [if idx < len(frames): frame = frames[idx]; ...]. *)
Definition append_frame_at (signal_data : list Z) (frames : list (list Z))
  (idx : Z) (offset : Z) : Py.res (list Z) :=
  if idx <? Z.of_nat (length frames) then
    frame <- Py.getitem frames idx ;;
    Py.Ok (append_set_bits signal_data 0 offset frame)
  else Py.Ok signal_data.

Section BuildSignalData.

Variable td_frames : list (list Z).
Variable bd_frames : list (list Z).
Variable audio_length_s : float.
Variable fps : Z.
Variable baud_rate : Z.
Variable td_frame_bits : Z.
Variable bd_frame_bits : Z.

(** The body of [for rshw_frame_num in range(total_rshw_frames)];
    [td_frame_s] and [bd_frame_s] are computed once, before the loop. *)
Definition frame_body (td_frame_s bd_frame_s : float) (signal_data : list Z)
  (rshw_frame_num : Z) : Py.res (list Z) :=
  t <- Py.true_div rshw_frame_num fps ;;
  let signal_data := signal_data ++ [0] in
  q <- Py.float_div t td_frame_s ;;
  td_idx <- Py.int_of_float q ;;
  signal_data <- append_frame_at signal_data td_frames td_idx 1 ;;
  q <- Py.float_div t bd_frame_s ;;
  bd_idx <- Py.int_of_float q ;;
  signal_data <- append_frame_at signal_data bd_frames bd_idx 151 ;;
  Py.Ok signal_data.

Fixpoint frames_loop (td_frame_s bd_frame_s : float) (signal_data : list Z)
  (nums : list Z) : Py.res (list Z) :=
  match nums with
  | [] => Py.Ok signal_data
  | n :: tl =>
      signal_data' <- frame_body td_frame_s bd_frame_s signal_data n ;;
      frames_loop td_frame_s bd_frame_s signal_data' tl
  end.

Definition _build_signal_data : Py.res (list Z) :=
  td_frame_s <- Py.true_div td_frame_bits baud_rate ;;
  bd_frame_s <- Py.true_div bd_frame_bits baud_rate ;;
  total_rshw_frames <-
    Py.int_of_float (PrimFloat.mul audio_length_s (Py.float_of_Z fps)) ;;
  frames_loop td_frame_s bd_frame_s [] (FrameSync.range total_rshw_frames).

End BuildSignalData.

(** The call with the default keyword arguments. *)
Definition build_signal_data_default (td_frames bd_frames : list (list Z))
  (audio_length_s : float) : Py.res (list Z) :=
  _build_signal_data td_frames bd_frames audio_length_s
    _RSHW_FPS _BAUD_RATE _TD_FRAME_BITS _BD_FRAME_BITS.

(** *** [_decode_bmc] *)

(** The inner [while] of the run-length scan, from a suffix [samples[i:]]:
    the number of samples it steps over and the suffix it stops at. *)
Fixpoint run_of (zero_thresh : Z) (positive : bool) (rest : list Z)
  : Z * list Z :=
  match rest with
  | [] => (0, [])
  | s :: tl =>
      if Bool.eqb (s >? 0) positive && (Z.abs s >=? zero_thresh) then
        let '(k, rest') := run_of zero_thresh positive tl in (1 + k, rest')
      else (0, rest)
  end.

(** The outer [while i < n]; only the length of each run is stored.  Every
    iteration advances [i], so [len(samples)] iterations are enough. *)
Fixpoint runs_loop (fuel : nat) (zero_thresh : Z) (i : Z) (rest : list Z)
  (runs : list Z) : list Z :=
  match fuel with
  | O => runs
  | S fuel' =>
      match rest with
      | [] => runs
      | s :: tl =>
          if Z.abs s <? zero_thresh then
            runs_loop fuel' zero_thresh (i + 1) tl runs
          else
            let positive := s >? 0 in
            let start := i in
            let '(k, rest') := run_of zero_thresh positive rest in
            let i' := i + k in
            runs_loop fuel' zero_thresh i' rest' (runs ++ [i' - start])
      end
  end.

(** The state of the decoding loop. *)
Record decode_state : Type := {
  idx : nat;
  bits : list Z
}.

Section DecodeLoop.

Variables fl_lo fl_hi ha_lo ha_hi : Z.
Variable runs : list Z.

Definition is_full (r : Z) : bool := (fl_lo <=? r) && (r <=? fl_hi).
Definition is_half (r : Z) : bool := (ha_lo <=? r) && (r <=? ha_hi).

(** One iteration of [while idx < total]; called only when [idx < total]. *)
Definition decode_step (st : decode_state) : decode_state :=
  match nth_error runs (idx st) with
  | None => st
  | Some r =>
      if is_full r then {| idx := idx st + 1; bits := bits st ++ [0] |}
      else if is_half r then
        if (idx st + 1 <? length runs)%nat then
          match nth_error runs (idx st + 1) with
          | None => st
          | Some r2 =>
              if is_half r2 then
                {| idx := idx st + 2; bits := bits st ++ [1] |}
              else if is_full (r + r2) then
                {| idx := idx st + 2; bits := bits st ++ [1] |}
              else {| idx := idx st + 1; bits := bits st |}
          end
        else {| idx := idx st + 1; bits := bits st |}
      else {| idx := idx st + 1; bits := bits st |}
  end.

(** Every iteration advances [idx], so [len(runs)] iterations are enough. *)
Fixpoint decode_loop (fuel : nat) (st : decode_state) : decode_state :=
  match fuel with
  | O => st
  | S fuel' =>
      if (idx st <? length runs)%nat then decode_loop fuel' (decode_step st)
      else st
  end.

End DecodeLoop.

(** [_decode_bmc(samples, sample_rate, baud_rate, tolerance, zero_thresh)],
    the two rates being integers. *)
Definition _decode_bmc (samples : list Z) (sample_rate baud_rate : Z)
  (tolerance : float) (zero_thresh : Z) : Py.res (list Z) :=
  nom_full <- Py.true_div sample_rate baud_rate ;;
  let nom_half := PrimFloat.div nom_full 2.0%float in
  let one := Py.float_of_Z 1 in
  fl_lo <- Py.floor (PrimFloat.mul nom_full (PrimFloat.sub one tolerance)) ;;
  fl_hi <- Py.ceil (PrimFloat.mul nom_full (PrimFloat.add one tolerance)) ;;
  ha_lo <- Py.floor (PrimFloat.mul nom_half (PrimFloat.sub one tolerance)) ;;
  ha_hi <- Py.ceil (PrimFloat.mul nom_half (PrimFloat.add one tolerance)) ;;
  let runs := runs_loop (length samples) zero_thresh 0 samples [] in
  let st :=
    decode_loop fl_lo fl_hi ha_lo ha_hi runs (length runs)
      {| idx := 0; bits := [] |} in
  Py.Ok (bits st).

(** *** [_bits_to_frames] *)

(** [for i in range(0, len(bits) - frame_bits + 1, frame_bits):
      frames.append(bits[i:i + frame_bits])]. *)
Definition _bits_to_frames (bits : list Z) (frame_bits : Z)
  : Py.res (list (list Z)) :=
  starts <-
    Py.range3 0 (Z.of_nat (length bits) - frame_bits + 1) frame_bits ;;
  Py.Ok (map (fun i => Py.slice bits i (i + frame_bits)) starts).

(** *** The NRBF serializer *)

(** The [while True] loop of [_lps]: seven bits of the length per byte,
    lowest first, the high bit set on every byte but the last.  The length
    loses seven bits at each iteration, so [length + 1] iterations are
    enough. *)
Fixpoint lps_header (fuel : nat) (length : Z) (header : list Z) : list Z :=
  match fuel with
  | O => header
  | S fuel' =>
      if length <? 128 then header ++ [length]
      else
        lps_header fuel' (Z.shiftr length 7)
          (header ++ [Z.lor (Z.land length 127) 128])
  end.

(** [_lps(s)]. *)
Definition _lps (s : string) : list Z :=
  let b := Struct.encode_utf8 s in
  let length := Z.of_nat (List.length b) in
  lps_header (S (List.length b)) length [] ++ b.

(** [_i32(v)]: [struct.pack('<i', v)]. *)
Definition _i32 (v : Z) : Py.res (list Z) := Struct.pack_signed 4 v.

(** [array('i', signal_data).tobytes()]: an element that does not fit a C
    int raises OverflowError. *)
Fixpoint int_array_bytes (signal_data : list Z) : Py.res (list Z) :=
  match signal_data with
  | [] => Py.Ok []
  | v :: tl =>
      if (-2147483648 <=? v) && (v <=? 2147483647) then
        rest <- int_array_bytes tl ;;
        Py.Ok (Struct.le_bytes 4 (v mod 4294967296) ++ rest)
      else Py.Raise Py.OverflowError
  end.

Definition LIBRARY_NAME : string :=
  "Assembly-CSharp, Version=0.0.0.0, Culture=neutral, PublicKeyToken=null".

(** The records of [_serialize_rshw_format] that do not depend on its
    arguments: stream header, library, class with its three members, and
    the member references. *)
Definition nrbf_prologue : Py.res (list Z) :=
  let out := [] in
  let out := out ++ [0] in
  b <- _i32 1 ;; let out := out ++ b in
  b <- _i32 (-1) ;; let out := out ++ b in
  b <- _i32 1 ;; let out := out ++ b in
  b <- _i32 0 ;; let out := out ++ b in
  let lib_id := 2 in
  let out := out ++ [12] in
  b <- _i32 lib_id ;; let out := out ++ b in
  let out := out ++ _lps LIBRARY_NAME in
  let out := out ++ [5] in
  b <- _i32 1 ;; let out := out ++ b in
  let out := out ++ _lps "rshwFormat" in
  b <- _i32 3 ;; let out := out ++ b in
  let out := out ++ _lps "<audioData>k__BackingField" in
  let out := out ++ _lps "<signalData>k__BackingField" in
  let out := out ++ _lps "<videoData>k__BackingField" in
  let out := out ++ [7; 7; 7] in
  let out := out ++ [2; 8; 2] in
  b <- _i32 lib_id ;; let out := out ++ b in
  let audio_id := 3 in
  let signal_id := 4 in
  b <- _i32 audio_id ;; let out := out ++ ([9] ++ b) in
  b <- _i32 signal_id ;; let out := out ++ ([9] ++ b) in
  let out := out ++ [10] in
  Py.Ok out.

(** [_serialize_rshw_format(audio_data, signal_data)]. *)
Definition _serialize_rshw_format (audio_data : list Z) (signal_data : list Z)
  : Py.res (list Z) :=
  out <- nrbf_prologue ;;
  let audio_id := 3 in
  let signal_id := 4 in
  let out := out ++ [15] in
  b <- _i32 audio_id ;; let out := out ++ b in
  b <- _i32 (Z.of_nat (length audio_data)) ;; let out := out ++ b in
  let out := out ++ [2] in
  let out := out ++ audio_data in
  let out := out ++ [15] in
  b <- _i32 signal_id ;; let out := out ++ b in
  b <- _i32 (Z.of_nat (length signal_data)) ;; let out := out ++ b in
  let out := out ++ [8] in
  sig_bytes <- int_array_bytes signal_data ;;
  let out := out ++ sig_bytes in
  let out := out ++ [11] in
  Py.Ok out.

(** *** The stereo WAV builder *)

(** [max(-32768, min(32767, int(x)))] on an integer sample. *)
Definition clamp16 (x : Z) : Z := Z.max (-32768) (Z.min 32767 x).

(** [for i in range(min(len(left), len(right)))]: the left and the right
    sample of each position, clamped, in turn. *)
Fixpoint interleave (left right : list Z) : list Z :=
  match left, right with
  | l :: lt, r :: rt => clamp16 l :: clamp16 r :: interleave lt rt
  | _, _ => []
  end.

(** [array('h').tobytes()]: two bytes per sample, low byte first, two's
    complement (the samples are clamped, so [append] never overflows).  The
    host is little-endian. *)
Definition samples_bytes (samples : list Z) : list Z :=
  flat_map (fun s => Struct.le_bytes 2 (s mod 65536)) samples.

Definition RIFF : list Z := Struct.encode_utf8 "RIFF".
Definition WAVE : list Z := Struct.encode_utf8 "WAVE".
Definition FMT : list Z := Struct.encode_utf8 "fmt ".
Definition DATA : list Z := Struct.encode_utf8 "data".

(** [_build_stereo_wav(left, right, sample_rate)]. *)
Definition _build_stereo_wav (left right : list Z) (sample_rate : Z)
  : Py.res (list Z) :=
  let interleaved := interleave left right in
  let pcm_bytes := samples_bytes interleaved in
  let num_ch := 2 in
  let bps := 16 in
  let block_align := num_ch * (bps / 8) in
  let byte_rate := sample_rate * block_align in
  let data_size := Z.of_nat (length pcm_bytes) in
  riff_size <- Struct.pack_unsigned 4 (36 + data_size) ;;
  let hdr := RIFF ++ riff_size ++ WAVE in
  f_size <- Struct.pack_unsigned 4 16 ;;
  f_format <- Struct.pack_unsigned 2 1 ;;
  f_channels <- Struct.pack_unsigned 2 num_ch ;;
  f_rate <- Struct.pack_unsigned 4 sample_rate ;;
  f_byte_rate <- Struct.pack_unsigned 4 byte_rate ;;
  f_align <- Struct.pack_unsigned 2 block_align ;;
  f_bps <- Struct.pack_unsigned 2 bps ;;
  let fmt :=
    FMT ++ f_size ++ f_format ++ f_channels ++ f_rate ++ f_byte_rate
    ++ f_align ++ f_bps in
  d_size <- Struct.pack_unsigned 4 data_size ;;
  let dat := (DATA ++ d_size) ++ pcm_bytes in
  Py.Ok (hdr ++ fmt ++ dat).

(** *** The WAV parser *)

(** [f.read(n)] on a [BytesIO] at position [pos], for [n >= 0]: the bytes
    read (fewer than [n] at the end of the data) and the new position. *)
Definition read (data : list Z) (pos n : Z) : list Z * Z :=
  let chunk := firstn (Z.to_nat n) (skipn (Z.to_nat pos) data) in
  (chunk, pos + Z.of_nat (length chunk)).

(** What the chunk loop of [_parse_wav] keeps. *)
Record wav_state : Type := {
  w_pos : Z;
  w_num_channels : Z;
  w_sample_rate : Z;
  w_bits_per_sample : Z;
  w_pcm_data : option (list Z)
}.

(** [chunk_id == b'....']. *)
Definition bytes_eqb (a b : list Z) : bool :=
  (length a =? length b)%nat && forallb (fun p => fst p =? snd p) (combine a b).

(** [while f.tell() < len(wav_bytes) - 8], with the [break] at the data
    chunk.  Every iteration reads the eight bytes of a chunk header and
    never seeks backwards past them, so [len(wav_bytes)] iterations are
    enough. *)
Fixpoint chunks_loop (fuel : nat) (data : list Z) (st : wav_state)
  : Py.res wav_state :=
  match fuel with
  | O => Py.Ok st
  | S fuel' =>
      if w_pos st <? Z.of_nat (length data) - 8 then
        let '(chunk_id, p) := read data (w_pos st) 4 in
        let '(size_bytes, p) := read data p 4 in
        chunk_size <- Struct.unpack_unsigned 4 size_bytes ;;
        let chunk_start := p in
        if bytes_eqb chunk_id FMT then
          let '(b, p) := read data p 2 in
          _audio_fmt <- Struct.unpack_unsigned 2 b ;;
          let '(b, p) := read data p 2 in
          num_channels <- Struct.unpack_unsigned 2 b ;;
          let '(b, p) := read data p 4 in
          sample_rate <- Struct.unpack_unsigned 4 b ;;
          let '(_, p) := read data p 4 in
          let '(_, p) := read data p 2 in
          let '(b, p) := read data p 2 in
          bits_per_sample <- Struct.unpack_unsigned 2 b ;;
          chunks_loop fuel' data
            {| w_pos := chunk_start + chunk_size;
               w_num_channels := num_channels;
               w_sample_rate := sample_rate;
               w_bits_per_sample := bits_per_sample;
               w_pcm_data := w_pcm_data st |}
        else if bytes_eqb chunk_id DATA then
          let '(pcm, p) := read data p chunk_size in
          Py.Ok {| w_pos := p;
                   w_num_channels := w_num_channels st;
                   w_sample_rate := w_sample_rate st;
                   w_bits_per_sample := w_bits_per_sample st;
                   w_pcm_data := Some pcm |}
        else
          chunks_loop fuel' data
            {| w_pos := chunk_start + chunk_size;
               w_num_channels := w_num_channels st;
               w_sample_rate := w_sample_rate st;
               w_bits_per_sample := w_bits_per_sample st;
               w_pcm_data := w_pcm_data st |}
      else Py.Ok st
  end.

(** [list(array('h').frombytes(...))] on a byte string of even length:
    signed 16-bit samples, low byte first. *)
Fixpoint samples16 (bs : list Z) : list Z :=
  match bs with
  | lo :: hi :: tl => Struct.signed 2 (Struct.le_value [lo; hi]) :: samples16 tl
  | _ => []
  end.

(** The loop of the 24-bit branch, on the bytes [pcm_data[:total * 3]]. *)
Fixpoint samples24 (bs : list Z) : list Z :=
  match bs with
  | b0 :: b1 :: b2 :: tl =>
      let v := Z.lor (Z.lor b0 (Z.shiftl b1 8)) (Z.shiftl b2 16) in
      let v := if v >=? 8388608 then v - 16777216 else v in
      Z.shiftr v 8 :: samples24 tl
  | _ => []
  end.

(** [for i, s in enumerate(all_samples_list):
      channels[i % num_channels].append(s)]. *)
Fixpoint deinterleave (channels : list (list Z)) (num_channels : Z) (i : Z)
  (samples : list Z) : Py.res (list (list Z)) :=
  match samples with
  | [] => Py.Ok channels
  | s :: tl =>
      if num_channels =? 0 then Py.Raise Py.ZeroDivisionError
      else
        let k := i mod num_channels in
        ch <- Py.getitem channels k ;;
        channels <- Py.setitem channels k (ch ++ [s]) ;;
        deinterleave channels num_channels (i + 1) tl
  end.

Section ParseWav.

(** The 32-bit branch reads IEEE single-precision samples; its decoding is
    a parameter. *)
Variable samples_float32 : list Z -> Py.res (list Z).

(** [_parse_wav(wav_bytes)]: the channels, the sample rate and the number
    of channels. *)
Definition _parse_wav (wav_bytes : list Z)
  : Py.res (list (list Z) * Z * Z) :=
  let '(riff, p) := read wav_bytes 0 4 in
  if negb (bytes_eqb riff RIFF) then Py.Raise Py.ValueError
  else
    let '(_, p) := read wav_bytes p 4 in
    let '(wave, p) := read wav_bytes p 4 in
    if negb (bytes_eqb wave WAVE) then Py.Raise Py.ValueError
    else
      st <- chunks_loop (length wav_bytes) wav_bytes
              {| w_pos := p; w_num_channels := 0; w_sample_rate := 0;
                 w_bits_per_sample := 0; w_pcm_data := None |} ;;
      match w_pcm_data st with
      | None => Py.Raise Py.ValueError
      | Some pcm_data =>
          if w_sample_rate st =? 0 then Py.Raise Py.ValueError
          else
            let bits_per_sample := w_bits_per_sample st in
            let bytes_per_sample := bits_per_sample / 8 in
            if bytes_per_sample =? 0 then Py.Raise Py.ZeroDivisionError
            else
              let total_samples :=
                Z.of_nat (length pcm_data) / bytes_per_sample in
              all_samples_list <-
                (if bits_per_sample =? 16 then
                   Py.Ok (samples16 (Py.slice pcm_data 0 (total_samples * 2)))
                 else if bits_per_sample =? 8 then
                   Py.Ok (map (fun b => (b - 128) * 256) pcm_data)
                 else if bits_per_sample =? 24 then
                   Py.Ok (samples24 (Py.slice pcm_data 0 (total_samples * 3)))
                 else if bits_per_sample =? 32 then
                   samples_float32 (Py.slice pcm_data 0 (total_samples * 4))
                 else Py.Raise Py.ValueError) ;;
              let num_channels := w_num_channels st in
              channels <-
                deinterleave (repeat [] (Z.to_nat num_channels)) num_channels
                  0 all_samples_list ;;
              Py.Ok (channels, w_sample_rate st, num_channels)
      end.

End ParseWav.

(** *** The public API *)

(** [build_rshw(audio_l, audio_r, td_samples, bd_samples, sample_rate)]. *)
Definition build_rshw (audio_l audio_r td_samples bd_samples : list Z)
  (sample_rate : Z) : Py.res (list Z) :=
  td_bits <-
    _decode_bmc td_samples sample_rate _BAUD_RATE _TOLERANCE _ZERO_THRESH ;;
  bd_bits <-
    _decode_bmc bd_samples sample_rate _BAUD_RATE _TOLERANCE _ZERO_THRESH ;;
  td_frames <- _bits_to_frames td_bits _TD_FRAME_BITS ;;
  bd_frames <- _bits_to_frames bd_bits _BD_FRAME_BITS ;;
  audio_length_s <- Py.true_div (Z.of_nat (length audio_l)) sample_rate ;;
  signal_data <- build_signal_data_default td_frames bd_frames audio_length_s ;;
  stereo_wav_bytes <- _build_stereo_wav audio_l audio_r sample_rate ;;
  _serialize_rshw_format stereo_wav_bytes signal_data.

Section Convert.

Variable samples_float32 : list Z -> Py.res (list Z).

(** [convert_4ch_wav_to_rshw(wav_bytes)]. *)
Definition convert_4ch_wav_to_rshw (wav_bytes : list Z) : Py.res (list Z) :=
  '(channels, sample_rate, num_channels) <-
    _parse_wav samples_float32 wav_bytes ;;
  if negb (num_channels =? 4) then Py.Raise Py.ValueError
  else
    audio_l <- Py.getitem channels 0 ;;
    audio_r <- Py.getitem channels 1 ;;
    td_samples <- Py.getitem channels 2 ;;
    bd_samples <- Py.getitem channels 3 ;;
    build_rshw audio_l audio_r td_samples bd_samples sample_rate.

End Convert.

End RshwBuilder.

(** ** tools/analyze_rshw3.py: the readers of the NRBF primitives

    [read7bit] and [read_lpstr] are the same in tools/compare_nrbf.py and
    tools/analyze_rshw2.py. *)

Module NrbfTools.

(** The [while True] loop of [read7bit].  Every iteration reads one byte
    and advances [pos]; reading past the end raises IndexError, so
    [2 * len(data) + 1] iterations are never exhausted. *)
Fixpoint read7bit_loop (fuel : nat) (data : list Z) (pos result shift : Z)
  : Py.res (Z * Z) :=
  match fuel with
  | O => Py.Raise Py.IndexError
  | S fuel' =>
      b <- Py.getitem data pos ;;
      let pos := pos + 1 in
      let result := Z.lor result (Z.shiftl (Z.land b 127) shift) in
      if Z.land b 128 =? 0 then Py.Ok (result, pos)
      else read7bit_loop fuel' data pos result (shift + 7)
  end.

(** [read7bit(data, pos)]: the value and the new position. *)
Definition read7bit (data : list Z) (pos : Z) : Py.res (Z * Z) :=
  read7bit_loop (2 * length data + 1) data pos 0 0.

Section Decoding.

(** [bytes.decode('utf-8', errors='replace')] of the standard library is a
    parameter: malformed input is replaced by U+FFFD there, and nothing
    below depends on how.  Its result, a [str], is represented by its UTF-8
    bytes like every string here. *)
Variable decode_utf8_replace : list Z -> string.

(** [read_lpstr(data, pos)]: the decoded string and the new position. *)
Definition read_lpstr (data : list Z) (pos : Z) : Py.res (string * Z) :=
  '(length, pos) <- read7bit data pos ;;
  Py.Ok (decode_utf8_replace (Py.slice data pos (pos + length)),
         pos + length).

End Decoding.

(** [read_i32(data, pos)]. *)
Definition read_i32 (data : list Z) (pos : Z) : Py.res (Z * Z) :=
  bs <- Struct.from_offset 4 data pos ;;
  v <- Struct.unpack_signed 4 bs ;;
  Py.Ok (v, pos + 4).

End NrbfTools.

(** ** Auxiliary notions used to state and prove the properties *)

Module Aux.
Import Constants.

(** A square wave as a list of blocks [(level, length)], and its samples. *)
Fixpoint expand (bl : list (Z * Z)) : list Z :=
  match bl with
  | [] => []
  | (v, n) :: tl => Encoder.times v n ++ expand tl
  end.

(** The blocks the encoder emits for [bits] when its level is [level]. *)
Fixpoint blocks (level : Z) (bits : list Z) : list (Z * Z) :=
  match bits with
  | [] => []
  | b :: tl =>
      let l1 := Encoder.toggle level in
      if Py.truthy b then
        let l2 := Encoder.toggle l1 in
        (l1, BMC_HALF_A) :: (l2, BMC_HALF_B) :: blocks l2 tl
      else (l1, SAMPLES_PER_BIT) :: blocks l1 tl
  end.

(** The encoder level after [bits]. *)
Fixpoint final_level (level : Z) (bits : list Z) : Z :=
  match bits with
  | [] => level
  | b :: tl =>
      let l1 := Encoder.toggle level in
      if Py.truthy b then final_level (Encoder.toggle l1) tl
      else final_level l1 tl
  end.

(** The two output levels. *)
Definition is_level (v : Z) : Prop := v = BMC_HIGH \/ v = BMC_LOW.

(** Blocks of positive length whose levels alternate, the first one being
    different from [prev]. *)
Fixpoint alternating (prev : Z) (bl : list (Z * Z)) : Prop :=
  match bl with
  | [] => True
  | (v, n) :: tl => v <> prev /\ is_level v /\ 0 < n /\ alternating v tl
  end.

(** Start index and length of each block, from sample index [i]. *)
Fixpoint positions (i : Z) (bl : list (Z * Z)) : list (Z * Z) :=
  match bl with
  | [] => []
  | (_, n) :: tl => (i, n) :: positions (i + n) tl
  end.

(** The maximal runs of equal consecutive samples, as [itertools.groupby]
    returns them: [(value, length)]. *)
Fixpoint level_runs (l : list Z) : list (Z * nat) :=
  match l with
  | [] => []
  | x :: tl =>
      match level_runs tl with
      | (y, n) :: r => if x =? y then (y, S n) :: r else (x, 1%nat) :: (y, n) :: r
      | [] => [(x, 1%nat)]
      end
  end.

(** A bit is 0 or 1. *)
Definition is_bit (b : Z) : Prop := b = 0 \/ b = 1.

(** [_consume_runs] by recursion on the runs still to be consumed
    ([runs[idx:]]), returning what the loop appends; it is proved equal to
    the index loop in [consume_loop_list]. *)
Fixpoint consume_list (d : Decoder.BMCDecoder) (runs : list (Z * Z))
  : list Decoder.DecodedBit * list Decoder.BitError :=
  match runs with
  | [] => ([], [])
  | (pos, r) :: rest =>
      if Decoder._is_full d r then
        let '(bs, es) := consume_list d rest in
        (Decoder.Build_DecodedBit 0 pos r None true :: bs, es)
      else if Decoder._is_half d r then
        match rest with
        | (pos2, r2) :: rest2 =>
            if Decoder._is_half d r2 then
              let '(bs, es) := consume_list d rest2 in
              (Decoder.Build_DecodedBit 1 pos r (Some r2) true :: bs, es)
            else if Decoder._is_full d (r + r2) then
              let '(bs, es) := consume_list d rest2 in
              (Decoder.Build_DecodedBit 1 pos r (Some r2) false :: bs, es)
            else
              let '(bs, es) := consume_list d rest in
              (bs, Decoder.Build_BitError pos r
                     (Decoder.reason_non_half r r2 (r + r2)) :: es)
        | [] => ([Decoder.Build_DecodedBit 1 pos r None false], [])
        end
      else
        let '(bs, es) := consume_list d rest in
        (bs, Decoder.Build_BitError pos r (Decoder.reason_outside d r) :: es)
  end.


(** The four shapes of a decoded bit at zero tolerance (windows [9, 10]
    and [4, 5]): a 0 made of one full run; a 1 made of two half runs; a 1
    made of a 4 followed by a 6, marked out of tolerance (the 6 is not a
    half run, but 4 + 6 is in the full window); a 1 made of a single half
    run with no run after it, marked out of tolerance. *)
Definition zero_bit_shape (b : Decoder.DecodedBit) : Prop :=
  (Decoder.bit b = 0 /\ (Decoder.run_a b = 9 \/ Decoder.run_a b = 10) /\
   Decoder.run_b b = None /\ Decoder.in_tolerance b = true) \/
  (Decoder.bit b = 1 /\ (Decoder.run_a b = 4 \/ Decoder.run_a b = 5) /\
   (Decoder.run_b b = Some 4 \/ Decoder.run_b b = Some 5) /\
   Decoder.in_tolerance b = true) \/
  (Decoder.bit b = 1 /\ Decoder.run_a b = 4 /\
   Decoder.run_b b = Some 6 /\ Decoder.in_tolerance b = false) \/
  (Decoder.bit b = 1 /\ (Decoder.run_a b = 4 \/ Decoder.run_a b = 5) /\
   Decoder.run_b b = None /\ Decoder.in_tolerance b = false).

End Aux.

(** ** Frame states and blank bits *)

Module Frames.
Import Constants.

(** A frame state of track [t] has the width of the track and reads 0 at
    every blank position ([b] is the 1-based bit number, [b - 1] the index). *)
Definition blank_safe (t : track) (frame : list Z) : Prop :=
  Z.of_nat (length frame) = FrameSync.frame_bits_of t /\
  Forall (fun b => Py.getitem frame (b - 1) = Py.Ok 0)
         (FrameSync.blank_bits_of t).

(** The channel numbers of a table lie in [1, frame_bits]. *)
Definition table_in_range (frame_bits : Z) (table : list (string * Z)) : bool :=
  forallb (fun kv => (1 <=? snd kv) && (snd kv <=? frame_bits)) table.

(** A bit list that is [k] frames of track [t], each with 0 at every blank
    index; the other bits are arbitrary. *)
Definition clean_frames (t : track) (k : Z) (bits : list Z) : Prop :=
  Z.of_nat (length bits) = k * FrameSync.frame_bits_of t /\
  forall j bi,
    0 <= j < k -> In bi (FrameSync.blank_indices_of t) ->
    nth_error bits (Z.to_nat (j * FrameSync.frame_bits_of t + bi)) = Some 0.

(** A builder of track [t]: the tables of [init t], whatever the frame. *)
Definition builder_of (t : track) (self : FrameBuilder.FrameBuilder) : Prop :=
  self = FrameBuilder.with_frame (FrameBuilder.init t) (FrameBuilder._frame self).

(** The [w]-th window of [width] samples of a PCM byte string. *)
Definition window (width w : Z) (pcm : list Z) : list Z :=
  Py.slice pcm (w * width * 2) ((w + 1) * width * 2).

(** A PCM window that is the encoding of one frame state of track [t],
    from some encoder level. *)
Definition encodes_one_frame (t : track) (win : list Z) : Prop :=
  exists (enc : Encoder.BMCEncoder) (frame : list Z),
    Z.of_nat (length frame) = FrameSync.frame_bits_of t /\
    Encoder.to_raw_bytes (fst (Encoder.encode_frame enc frame)) = Py.Ok win.

(** The inlined builder of track [t]: the tables of [ExportBridge.init t],
    whatever the frame. *)
Definition bridge_of (t : track) (self : ExportBridge._FrameBuilder) : Prop :=
  self = ExportBridge.with_frame (ExportBridge.init t) (ExportBridge._frame self).

(** The inlined encoder with the level of [enc]. *)
Definition to_bridge (enc : Encoder.BMCEncoder) : ExportBridge._BMCEncoder :=
  {| ExportBridge._level := Encoder._level enc |}.

(** Samples per frame of track [t]. *)
Definition frame_samples_of (t : track) : Z :=
  FrameSync.frame_bits_of t * SAMPLES_PER_BIT.

(** A window of the right size that encodes one frame state. *)
Definition whole_frame (t : track) (win : list Z) : Prop :=
  Z.of_nat (length win) = 2 * frame_samples_of t /\ encodes_one_frame t win.

(** What the inlined scheduler maintains: the output is the windows written
    so far, one whole frame each, followed by the part of the zeroed buffer
    not yet written; [pos] is the write position and [total] the size of the
    buffer in samples. *)
Definition written (t : track) (total : Z) (ws : list (list Z))
  (out : list Z) (pos : Z) : Prop :=
  pos = frame_samples_of t * Z.of_nat (length ws) /\
  Forall (whole_frame t) ws /\
  exists rest,
    out = concat ws ++ rest /\
    Z.of_nat (length rest) = 2 * (Z.max total pos - pos).

(** The state of [FrameBuilder] seen as a state of the inlined scheduler. *)
Definition to_bridge_builder (self : FrameBuilder.FrameBuilder)
  : ExportBridge._FrameBuilder :=
  {| ExportBridge.track := FrameBuilder.track self;
     ExportBridge._ch_map := FrameBuilder._channel_map self;
     ExportBridge._blank_bits := FrameBuilder._blank_bits self;
     ExportBridge._frame_bits := FrameBuilder._frame_bits self;
     ExportBridge._frame_samps := FrameBuilder._frame_samps self;
     ExportBridge._frame := FrameBuilder._frame self |}.

Definition to_bridge_stream (st : FrameBuilder.stream) : ExportBridge.stream :=
  {| ExportBridge.output := FrameBuilder.output st;
     ExportBridge.enc := to_bridge (FrameBuilder.enc st);
     ExportBridge.encoded := FrameBuilder.encoded st |}.

(** [f] applied to the result of a computation that returned. *)
Definition res_map {A B : Type} (f : A -> B) (m : Py.res A) : Py.res B :=
  match m with
  | Py.Ok a => Py.Ok (f a)
  | Py.Raise e => Py.Raise e
  end.

(** An event whose sample position is on a frame boundary, at or after the
    start of the stream. *)
Definition on_frame_boundary (frame_samps : Z) (e : FrameBuilder.ChannelEvent)
  : Prop :=
  exists s,
    FrameBuilder.event_sample_of e = Py.Ok s /\
    0 <= s /\ s mod frame_samps = 0.

(** Events in the order of their sample positions, all on frame boundaries,
    none before [cursor]. *)
Fixpoint boundaries_from (frame_samps cursor : Z)
  (evs : list FrameBuilder.ChannelEvent) : Prop :=
  match evs with
  | [] => True
  | e :: tl =>
      exists s,
        FrameBuilder.event_sample_of e = Py.Ok s /\
        cursor <= s /\ s mod frame_samps = 0 /\
        boundaries_from frame_samps s tl
  end.

(** Keyed items in increasing order of key, none below [c]. *)
Fixpoint keys_from {A : Type} (c : Z) (l : list (Z * A)) : Prop :=
  match l with
  | [] => True
  | x :: tl => c <= fst x /\ keys_from (fst x) tl
  end.

(** The event and the duration used to exhibit a torn frame: one channel
    switched on 0.1 ms into a show of 10 ms (one TD frame of 846 samples). *)
Definition mid_frame_event : FrameBuilder.ChannelEvent :=
  {| FrameBuilder.time := 0.0001%float;
     FrameBuilder.channel := "rolfe_mouth";
     FrameBuilder.active := true |}.

Definition short_show : float := 0.01%float.

End Frames.

(** ** The signal-code array, stated group by group *)

Module Signal.

(** [(bit_index + offset)] for every set bit of [frame], in order, the
    first bit having index [bit_index]. *)
Fixpoint codes_from (bit_index offset : Z) (frame : list Z) : list Z :=
  match frame with
  | [] => []
  | v :: tl =>
      (if Py.truthy v then [bit_index + offset] else [])
      ++ codes_from (bit_index + 1) offset tl
  end.

(** The bit-frame active at index [idx], if the list reaches that far. *)
Definition frame_active_at (frames : list (list Z)) (idx : Z)
  : Py.res (list Z) :=
  if idx <? Z.of_nat (length frames) then Py.getitem frames idx
  else Py.Ok [].

(** The time of output frame [n] at 60 Hz, and the index of the bit-frame
    of period [bits / 4800] seconds active at time [t], as the code computes
    them: every quotient is a binary64 division, the index its truncation. *)
Definition time_at (n : Z) : float :=
  PrimFloat.div (Py.float_of_Z n) (Py.float_of_Z 60).

Definition frame_index_at (bits : Z) (t : float) : Py.res Z :=
  Py.int_of_float
    (PrimFloat.div t (PrimFloat.div (Py.float_of_Z bits) (Py.float_of_Z 4800))).

(** The group of output frame [n]: delimiter, TD codes, BD codes. *)
Definition group (td_frames bd_frames : list (list Z)) (n : Z)
  : Py.res (list Z) :=
  let t := time_at n in
  td_idx <- frame_index_at 94 t ;;
  td <- frame_active_at td_frames td_idx ;;
  bd_idx <- frame_index_at 96 t ;;
  bd <- frame_active_at bd_frames bd_idx ;;
  Py.Ok (0 :: codes_from 0 1 td ++ codes_from 0 (1 + 150) bd).

(** The number of groups: [int(duration_seconds * 60)]. *)
Definition group_count (duration_seconds : float) : Py.res Z :=
  Py.int_of_float (PrimFloat.mul duration_seconds (Py.float_of_Z 60)).

(** The index of the bit-frame active at the time of output frame [n], in
    the words of the specification: [floor(t / (bits / 4800))] at
    [t = n / 60], over the rationals, which is
    [floor((n * 4800) / (60 * bits))]. *)
Definition exact_frame_index (bits n : Z) : Z := (n * 4800) / (60 * bits).

(** The time of output frame [n] falls exactly on a boundary between two
    bit-frames of [bits] bits. *)
Definition on_boundary (bits n : Z) : bool :=
  (n * 4800) mod (60 * bits) =? 0.

(** The group of output frame [n] and the array of the first [total] output
    frames, in the words of the specification (exact frame indices). *)
Definition exact_group (td_frames bd_frames : list (list Z)) (n : Z)
  : Py.res (list Z) :=
  td <- frame_active_at td_frames (exact_frame_index 94 n) ;;
  bd <- frame_active_at bd_frames (exact_frame_index 96 n) ;;
  Py.Ok (0 :: codes_from 0 1 td ++ codes_from 0 (1 + 150) bd).

Definition exact_signal_data (td_frames bd_frames : list (list Z))
  (total : Z) : Py.res (list Z) :=
  groups <- Py.mapM (exact_group td_frames bd_frames) (FrameSync.range total) ;;
  Py.Ok (concat groups).

(** The index the code computes is the exact one, or the one before it at
    a boundary. *)
Definition index_near_exact (bits n : Z) : bool :=
  match frame_index_at bits (time_at n) with
  | Py.Ok i =>
      (i =? exact_frame_index bits n)
      || ((i =? exact_frame_index bits n - 1) && on_boundary bits n)
  | Py.Raise _ => false
  end.

(** [p] holds of the [count] integers from [start] on. *)
Fixpoint all_from (count : nat) (start : Z) (p : Z -> bool) : bool :=
  match count with
  | O => true
  | S count' => p start && all_from count' (start + 1) p
  end.

(** 116 BD frames, all bits 0 but the first bit of frame 114 and the second
    bit of frame 115. *)
Definition boundary_bd_frames : list (list Z) :=
  repeat (repeat 0 96) 114 ++ [1 :: repeat 0 95; 0 :: 1 :: repeat 0 94].

End Signal.

(** ** The figures the conformance simulator judges *)

Module Figures.
Import Constants.

Record figures : Type := {
  error_rate : float;
  blank_ok_rate : float;
  lock_score : Z;
  is_locked : bool
}.

(** [errors / (bits + errors)] and [passing / total]; as in the code the
    denominator is 1 when nothing was counted. *)
Definition rate (part whole : Z) : float :=
  PrimFloat.div (Py.float_of_Z part) (Py.float_of_Z (Z.max whole 1)).

(** Decoding and synchronising the channel of one track. *)
Definition measure (sr : Z) (tolerance : float) (ch_data : list Z)
  (trk : track) : Py.res figures :=
  dec <- Decoder.init sr BAUD_RATE tolerance 200 ;;
  let decoded := Decoder.decode dec ch_data in
  let n_bits := Z.of_nat (length (fst decoded)) in
  let n_errors := Z.of_nat (length (snd decoded)) in
  sync <- FrameSync.sync_frames (map Decoder.bit (fst decoded)) trk 500 ;;
  let passing := Z.of_nat (length (filter FrameSync.blank_ok (FrameSync.frames sync))) in
  let total := Z.of_nat (length (FrameSync.frames sync)) in
  Py.Ok {| error_rate := rate n_errors (n_bits + n_errors);
           blank_ok_rate := rate passing total;
           lock_score := FrameSync.score sync;
           is_locked := FrameSync.locked sync |}.

(** The three thresholds.  A rate is a quotient of a count by a positive
    count, never a NaN, so "not above 0.02" is "at most 0.02" and "not
    below 0.98" is "at least 0.98". *)
Definition error_rate_exceeded (f : figures) : bool :=
  PrimFloat.ltb 0.02%float (error_rate f).

Definition blank_rate_short (f : figures) : bool :=
  PrimFloat.ltb (blank_ok_rate f) 0.98%float.

Definition lock_missed (f : figures) : bool := lock_score f <? 3.

Definition meets_all (f : figures) : Prop :=
  error_rate_exceeded f = false /\
  blank_rate_short f = false /\
  3 <= lock_score f.

Definition count (b : bool) : nat := if b then 1%nat else 0%nat.

Definition violations (f : figures) : nat :=
  (count (error_rate_exceeded f) + count (lock_missed f)
   + count (blank_rate_short f))%nat.

(** The string [s] names track [trk]: it opens with the name and a colon. *)
Definition names_track (trk : track) (s : string) : Prop :=
  exists rest, s = (track_name trk ++ ": " ++ rest)%string.

End Figures.

(** ** SCME/SVM/validate.py: reading the generated stream back *)

Module Validate.

(** [struct.unpack(f"<{len(pcm_bytes)//2}h", pcm_bytes)]: one signed 16-bit
    sample for every two bytes, low byte first; a byte string of odd length
    does not match the format and raises struct.error. *)
Fixpoint unpack_samples (pcm_bytes : list Z) : Py.res (list Z) :=
  match pcm_bytes with
  | [] => Py.Ok []
  | [_] => Py.Raise Py.StructError
  | lo :: hi :: tl =>
      let u := lo + 256 * hi in
      let s := if u >=? 32768 then u - 65536 else u in
      rest <- unpack_samples tl ;;
      Py.Ok (s :: rest)
  end.

End Validate.

(** ** Notions used to state the codec properties *)

Module Codec.

(** The value of a bit list read as a binary numeral, first bit highest. *)
Definition value_msb_first (bits : list Z) : Z :=
  fold_left (fun acc b => 2 * acc + b) bits 0.

(** A sample that fits a signed 16-bit integer. *)
Definition is_int16 (s : Z) : Prop := -32768 <= s <= 32767.

(** A sample the decoder treats as silence. *)
Definition is_silent (d : Decoder.BMCDecoder) (s : Z) : Prop :=
  Z.abs s < Decoder.zero_threshold d.

(** A 1 decoded from a single half run at the very end of the stream, with
    no second run to pair it with. *)
Definition is_orphan (b : Decoder.DecodedBit) : bool :=
  match Decoder.run_b b with
  | None => negb (Decoder.bit b =? 0)
  | Some _ => false
  end.

(** The bits decoded from whole bit periods. *)
Definition whole_bits (decoded : list Decoder.DecodedBit) : list Z :=
  map Decoder.bit (filter (fun b => negb (is_orphan b)) decoded).

End Codec.

(** ** Notions used to state the properties of the WAV parser *)

Module WavSpec.

(** An element of a [bytes] object. *)
Definition is_byte (b : Z) : Prop := 0 <= b < 256.

(** What the chunk loop of [_parse_wav] keeps true: the header fields are
    in the range of their unsigned formats, and the data chunk, once read,
    is made of bytes. *)
Definition header_ok (st : RshwBuilder.wav_state) : Prop :=
  0 <= RshwBuilder.w_num_channels st < 65536 /\
  0 <= RshwBuilder.w_sample_rate st < 4294967296 /\
  0 <= RshwBuilder.w_bits_per_sample st < 65536 /\
  forall pcm,
    RshwBuilder.w_pcm_data st = Some pcm -> Forall is_byte pcm.

(** A 48-byte file: 16-bit stereo at 44100 Hz, one sample per channel (1 on
    the left, 2 on the right). *)
Definition tiny_wav : list Z :=
  [82; 73; 70; 70; 40; 0; 0; 0; 87; 65; 86; 69;
   102; 109; 116; 32; 16; 0; 0; 0; 1; 0; 2; 0;
   68; 172; 0; 0; 16; 177; 2; 0; 4; 0; 16; 0;
   100; 97; 116; 97; 4; 0; 0; 0; 1; 0; 2; 0].

End WavSpec.

(** ** Notions used to state what the frame synchroniser returns *)

Module SyncSpec.
Import Constants.

(** The frame of track [t] that starts at bit [c] of [bits] reads 0 at
    every blank index. *)
Definition frame_clean (bits : list Z) (t : track) (c : Z) : Prop :=
  Forall (fun bi => nth_error bits (Z.to_nat (c + bi)) = Some 0)
         (FrameSync.blank_indices_of t).

(** Three consecutive frames with clean blank bits start at bit [c]. *)
Definition lockable (bits : list Z) (t : track) (c : Z) : Prop :=
  frame_clean bits t c /\
  frame_clean bits t (c + FrameSync.frame_bits_of t) /\
  frame_clean bits t (c + 2 * FrameSync.frame_bits_of t).

(** The end of the lock search: [min(max_search_bits, total - frame_bits *
    LOCK_THRESHOLD)]. *)
Definition search_end (bits : list Z) (t : track) (max_search_bits : Z) : Z :=
  Z.min max_search_bits
    (Z.of_nat (length bits) - FrameSync.frame_bits_of t * FrameSync.LOCK_THRESHOLD).

(** [f] is the [i]-th frame cut from [bits] at lock offset [off]. *)
Definition frame_at (bits : list Z) (t : track) (off i : Z)
  (f : FrameSync.DecodedFrame) : Prop :=
  let fb := FrameSync.frame_bits_of t in
  FrameSync.frame_index f = i /\
  FrameSync.bit_offset f = off + i * fb /\
  FrameSync.bits f = firstn (Z.to_nat fb) (skipn (Z.to_nat (off + i * fb)) bits) /\
  Z.of_nat (length (FrameSync.bits f)) = fb /\
  (FrameSync.blank_ok f = true <-> frame_clean bits t (off + i * fb)) /\
  (forall name,
     In name (FrameSync.active_channels f) <->
     exists j,
       nth_error (FrameSync.bits f) j = Some 1 /\
       Py.lookupZ (Z.of_nat j + 1) (FrameSync.bit_to_name_of t) = Some name).

End SyncSpec.

(** ** The in-browser verifier against the command-line simulator *)

Module Viz.
Import Constants.

(** The frame width and the blank indices [verify_and_decode] passes to
    [_process_track] for each track. *)
Definition frame_bits (t : track) : Z :=
  match t with
  | TD => VisualizerBridge._TD_FRAME_BITS
  | BD => VisualizerBridge._BD_FRAME_BITS
  end.

Definition blank_idx (t : track) : list Z :=
  match t with
  | TD => VisualizerBridge._TD_BLANK_IDX
  | BD => VisualizerBridge._BD_BLANK_IDX
  end.

(** The verdict and reasons of the simulator, as the verifier records
    them. *)
Definition of_sim (st : HardwareSim.sim_state)
  : VisualizerBridge.verdict_state :=
  {| VisualizerBridge.verdict_pass := HardwareSim.verdict_pass st;
     VisualizerBridge.reasons := HardwareSim.reasons st |}.

(** The channel data of a two-track recording. *)
Definition channels (td_samples bd_samples : list Z) (t : track) : list Z :=
  match t with
  | TD => td_samples
  | BD => bd_samples
  end.

End Viz.

(** ** Notions used to state the properties of the channel tables *)

Module Tables.
Import Constants.

(** No element of [l] occurs twice, decided with the equality test [eqb]. *)
Fixpoint distinctb {A : Type} (eqb : A -> A -> bool) (l : list A) : bool :=
  match l with
  | [] => true
  | x :: tl => negb (existsb (eqb x) tl) && distinctb eqb tl
  end.

(** The channel table of a track. *)
Definition channels_of (t : track) : list (string * Z) :=
  match t with TD => TD_CHANNELS | BD => BD_CHANNELS end.

(** What validate.py checks of a channel table: no bit number twice, every
    bit number in [1, frame_bits], no blank bit number; and, the table
    being a dict, no name twice. *)
Definition table_ok (t : track) : bool :=
  distinctb String.eqb (map fst (channels_of t))
  && distinctb Z.eqb (map snd (channels_of t))
  && Frames.table_in_range (FrameSync.frame_bits_of t) (channels_of t)
  && forallb (fun kv => negb (FrameBuilder.mem (snd kv) (FrameSync.blank_bits_of t)))
       (channels_of t).

(** The channel [name] is active in [frame] according to [table]. *)
Definition active_in (table : list (string * Z)) (frame : list Z)
  (name : string) : Prop :=
  exists n v,
    In (name, n) table /\
    nth_error frame (Z.to_nat (n - 1)) = Some v /\ Py.truthy v = true.

End Tables.

(** ** Notions used to state what a rendered stream decodes to *)

Module Pipeline.
Import Constants.

(** A frame state of track [t]: the width of the track, 0 at every blank
    position, and every bit 0 or 1. *)
Definition frame_state (t : track) (f : list Z) : Prop :=
  Frames.blank_safe t f /\ Forall Aux.is_bit f.

(** The samples of a sequence of frames encoded back to back by one encoder
    that starts at [BMC_LOW]. *)
Definition samples_of (frames : list (list Z)) : list Z :=
  fst (Encoder.encode_bits (Encoder.init BMC_LOW) (concat frames)).

(** What the inlined scheduler maintains while it writes: the frames handed
    to the encoder so far (the ghost log) are frame states; the encoder is
    the one that has encoded them all; the output is their packed samples
    followed by the part of the buffer not yet written. *)
Definition streamed (t : track) (total : Z) (st : ExportBridge.stream)
  (pos : Z) : Prop :=
  let log := ExportBridge.encoded st in
  pos = Frames.frame_samples_of t * Z.of_nat (length log) /\
  Forall (frame_state t) log /\
  ExportBridge.enc st
  = Frames.to_bridge
      (snd (Encoder.encode_bits (Encoder.init BMC_LOW) (concat log))) /\
  exists bytes rest,
    Encoder.to_raw_bytes (samples_of log) = Py.Ok bytes /\
    ExportBridge.output st = bytes ++ rest /\
    Z.of_nat (length rest) = 2 * (Z.max total pos - pos).

End Pipeline.

(** * Properties *)

(** ** The line encoder *)

Section EncoderFacts.
Import Constants Encoder Aux.

Lemma toggle_is_level (l : Z) : is_level (toggle l).
Proof.
  unfold toggle, is_level. destruct (l =? BMC_LOW); [left | right]; reflexivity.
Qed.

Lemma toggle_neq (l : Z) : toggle l <> l.
Proof.
  unfold toggle. destruct (Z.eqb_spec l BMC_LOW) as [-> | Hne].
  - discriminate.
  - congruence.
Qed.

Lemma encode_bit_blocks (enc : BMCEncoder) (b : Z) :
  encode_bit enc b =
    (expand (blocks (_level enc) [b]), {| _level := final_level (_level enc) [b] |}).
Proof.
  unfold encode_bit. cbn [blocks final_level expand].
  destruct (Py.truthy b); cbn [expand]; rewrite ?app_nil_r; reflexivity.
Qed.

Lemma expand_app (b1 b2 : list (Z * Z)) :
  expand (b1 ++ b2) = expand b1 ++ expand b2.
Proof.
  induction b1 as [| [v n] tl IH]; cbn [expand app]; [reflexivity |].
  rewrite IH, app_assoc. reflexivity.
Qed.

Lemma encode_loop_blocks (bits : list Z) :
  forall (enc : BMCEncoder) (acc : list Z),
    encode_loop enc bits acc =
      (acc ++ expand (blocks (_level enc) bits),
       {| _level := final_level (_level enc) bits |}).
Proof.
  induction bits as [| b tl IH]; intros enc acc.
  - cbn. rewrite app_nil_r. destruct enc; reflexivity.
  - cbn [encode_loop]. rewrite encode_bit_blocks. rewrite IH.
    cbn [_level blocks final_level expand].
    destruct (Py.truthy b); cbn [expand]; rewrite ?app_nil_r, <- ?app_assoc;
      reflexivity.
Qed.

Lemma encode_bits_blocks (enc : BMCEncoder) (bits : list Z) :
  encode_bits enc bits =
    (expand (blocks (_level enc) bits),
     {| _level := final_level (_level enc) bits |}).
Proof. unfold encode_bits. rewrite encode_loop_blocks. reflexivity. Qed.

Lemma blocks_app (a b : list Z) :
  forall l, blocks l (a ++ b) = blocks l a ++ blocks (final_level l a) b.
Proof.
  induction a as [| x tl IH]; intros l; cbn [blocks final_level app];
    [reflexivity |].
  destruct (Py.truthy x); rewrite IH; reflexivity.
Qed.

Lemma final_level_app (a b : list Z) :
  forall l, final_level l (a ++ b) = final_level (final_level l a) b.
Proof.
  induction a as [| x tl IH]; intros l; cbn [final_level app]; [reflexivity |].
  destruct (Py.truthy x); apply IH.
Qed.

(** Two successive calls on one encoder emit what one call on the
    concatenated bits emits: the level is carried over. *)
Lemma encode_bits_app (enc : BMCEncoder) (a b : list Z) :
  let '(s1, enc1) := encode_bits enc a in
  let '(s2, enc2) := encode_bits enc1 b in
  encode_bits enc (a ++ b) = (s1 ++ s2, enc2).
Proof.
  rewrite !encode_bits_blocks. cbn [_level].
  rewrite blocks_app, expand_app, final_level_app. reflexivity.
Qed.

Lemma blocks_alternating (bits : list Z) :
  forall l, alternating l (blocks l bits).
Proof.
  induction bits as [| b tl IH]; intros l; cbn [blocks]; [exact I |].
  destruct (Py.truthy b); cbn [alternating].
  - repeat split; try apply toggle_neq; try apply toggle_is_level;
      try reflexivity. apply IH.
  - repeat split; try apply toggle_neq; try apply toggle_is_level;
      try reflexivity. apply IH.
Qed.

Lemma blocks_lengths (bits : list Z) :
  forall l, Forall (fun b => snd b <= SAMPLES_PER_BIT) (blocks l bits).
Proof.
  induction bits as [| b tl IH]; intros l; cbn [blocks]; [constructor |].
  destruct (Py.truthy b); repeat constructor; try apply IH;
    cbn; vm_compute; discriminate.
Qed.

(** The first sample of a non-empty alternating wave differs from [prev]. *)
Lemma expand_head (bl : list (Z * Z)) (prev : Z) :
  alternating prev bl ->
  match expand bl with
  | [] => bl = []
  | x :: _ => x <> prev /\ is_level x
  end.
Proof.
  destruct bl as [| [v n] tl]; cbn [alternating expand]; [reflexivity |].
  intros (Hne & Hlv & Hn & _). unfold times.
  destruct (Z.to_nat n) eqn:E; [lia |]. cbn. split; assumption.
Qed.

Lemma level_runs_block (v : Z) (n : nat) (rest : list Z) :
  match rest with [] => True | x :: _ => x <> v end ->
  level_runs (repeat v (S n) ++ rest) = (v, S n) :: level_runs rest.
Proof.
  intros Hrest. induction n as [| n IH].
  - cbn [repeat app level_runs]. destruct rest as [| x tl]; [reflexivity |].
    cbn [level_runs]. destruct (level_runs tl) as [| [y m] r].
    + destruct (Z.eqb_spec v x); [congruence | reflexivity].
    + destruct (Z.eqb_spec x y) as [-> | Hxy].
      * destruct (Z.eqb_spec v y); [congruence | reflexivity].
      * destruct (Z.eqb_spec v x); [congruence | reflexivity].
  - change (repeat v (S (S n)) ++ rest) with (v :: (repeat v (S n) ++ rest)).
    cbn [level_runs]. rewrite IH. rewrite Z.eqb_refl. reflexivity.
Qed.

Lemma level_runs_expand (bl : list (Z * Z)) :
  forall prev, alternating prev bl ->
    level_runs (expand bl) = map (fun b => (fst b, Z.to_nat (snd b))) bl.
Proof.
  induction bl as [| [v n] tl IH]; intros prev Halt; [reflexivity |].
  cbn [alternating] in Halt. destruct Halt as (_ & _ & Hn & Htl).
  cbn [expand map fst snd]. unfold times.
  destruct (Z.to_nat n) as [| k] eqn:E; [lia |].
  rewrite level_runs_block.
  - rewrite (IH v Htl). reflexivity.
  - pose proof (expand_head tl v Htl) as Hh.
    destruct (expand tl); [exact I | apply Hh].
Qed.

End EncoderFacts.

(** C5.  Two successive [encode_bits] calls on the same encoder, whatever its
    level and whatever the two bit sequences: every maximal run of equal
    samples in the concatenated output has at most [SAMPLES_PER_BIT] = 9
    samples, so no run crosses the boundary with a length above 9. *)
Theorem C5_phase_continuity :
  forall (enc : Encoder.BMCEncoder) (a b : list Z),
    let '(s1, enc1) := Encoder.encode_bits enc a in
    let '(s2, enc2) := Encoder.encode_bits enc1 b in
    Forall (fun g => (snd g <= 9)%nat) (Aux.level_runs (s1 ++ s2)).
Proof.
  intros enc a b.
  pose proof (encode_bits_app enc a b) as Happ.
  destruct (Encoder.encode_bits enc a) as [s1 enc1].
  destruct (Encoder.encode_bits enc1 b) as [s2 enc2].
  rewrite encode_bits_blocks in Happ. injection Happ as Hs _.
  rewrite <- Hs.
  rewrite (level_runs_expand _ _ (blocks_alternating (a ++ b) _)).
  apply Forall_map.
  eapply Forall_impl; [| apply blocks_lengths].
  intros [v n]; cbn [fst snd]. change Constants.SAMPLES_PER_BIT with 9. lia.
Qed.

(** ** The line decoder: run extraction *)

Section RunLengths.
Import Constants Decoder Aux.




Lemma level_sign (v w : Z) :
  is_level v -> is_level w -> w <> v -> Bool.eqb (w >? 0) (v >? 0) = false.
Proof.
  unfold is_level. intros [-> | ->] [-> | ->] Hne; try congruence; reflexivity.
Qed.

Lemma level_abs (thresh v : Z) :
  thresh <= BMC_HIGH -> is_level v -> (Z.abs v <? thresh) = false.
Proof.
  unfold is_level, BMC_HIGH, BMC_LOW. intros Ht [-> | ->]; cbn [Z.abs]; lia.
Qed.

Lemma same_run_block (thresh v : Z) (n : nat) (rest : list Z) :
  thresh <= BMC_HIGH -> is_level v ->
  match rest with [] => True | x :: _ => x <> v /\ is_level x end ->
  same_run thresh (v >? 0) (repeat v n ++ rest) = (Z.of_nat n, rest).
Proof.
  intros Ht Hv Hrest. induction n as [| n IH].
  - cbn [repeat app]. destruct rest as [| x tl]; [reflexivity |].
    cbn [same_run]. destruct Hrest as [Hne Hx].
    rewrite (level_sign v x Hv Hx Hne). reflexivity.
  - cbn [repeat app same_run]. rewrite Bool.eqb_reflx.
    pose proof (level_abs thresh v Ht Hv).
    replace (Z.abs v >=? thresh) with true by lia. cbn [andb].
    rewrite IH. f_equal. lia.
Qed.

(** Scanning a wave of alternating blocks returns one run per block. *)
Lemma run_lengths_loop_blocks (thresh : Z) (bl : list (Z * Z)) :
  thresh <= BMC_HIGH ->
  forall prev fuel i acc,
    alternating prev bl -> (length bl <= fuel)%nat ->
    scan_runs (run_lengths_loop fuel thresh
                 {| scan_i := i; scan_rest := expand bl; scan_runs := acc |})
    = acc ++ positions i bl.
Proof.
  intros Ht. induction bl as [| [v n] tl IH]; intros prev fuel i acc Halt Hf.
  - cbn [expand positions]. rewrite app_nil_r. destruct fuel; reflexivity.
  - destruct fuel as [| fuel]; [cbn in Hf; lia |].
    cbn [alternating] in Halt. destruct Halt as (_ & Hv & Hn & Htl).
    cbn [run_lengths_loop scan_rest scan_i scan_runs expand positions].
    unfold Encoder.times.
    destruct (Z.to_nat n) as [| k] eqn:E; [lia |].
    change (repeat v (S k) ++ expand tl) with (v :: (repeat v k ++ expand tl)).
    cbv iota. rewrite (level_abs thresh v Ht Hv).
    change (v :: (repeat v k ++ expand tl)) with (repeat v (S k) ++ expand tl).
    rewrite same_run_block; [| assumption | assumption |].
    + rewrite (IH v); [| assumption | cbn in Hf; lia].
      rewrite <- E, Z2Nat.id by lia.
      replace (i + n - i) with n by lia.
      rewrite <- app_assoc. reflexivity.
    + pose proof (expand_head tl v Htl) as Hh.
      destruct (expand tl); [exact I | exact Hh].
Qed.

Lemma blocks_shorter (bl : list (Z * Z)) :
  forall prev, alternating prev bl -> (length bl <= length (expand bl))%nat.
Proof.
  induction bl as [| [v n] tl IH]; intros prev Halt; [cbn; lia |].
  cbn [alternating] in Halt. destruct Halt as (_ & _ & Hn & Htl).
  cbn [expand length]. rewrite length_app. unfold Encoder.times.
  rewrite repeat_length. specialize (IH v Htl). lia.
Qed.

(** The runs the decoder extracts from the output of the encoder. *)
Lemma run_lengths_encode (d : BMCDecoder) (enc : Encoder.BMCEncoder)
  (bits : list Z) :
  zero_threshold d <= BMC_HIGH ->
  _run_lengths d (fst (Encoder.encode_bits enc bits))
  = positions 0 (blocks (Encoder._level enc) bits).
Proof.
  intros Ht. rewrite encode_bits_blocks. cbn [fst]. unfold _run_lengths.
  rewrite (run_lengths_loop_blocks _ _ Ht (Encoder._level enc)).
  - reflexivity.
  - apply blocks_alternating.
  - eapply blocks_shorter. apply blocks_alternating.
Qed.

End RunLengths.

(** ** The line decoder: classification of runs *)

Section ConsumeRuns.
Import Constants Decoder Aux.

Variable d : BMCDecoder.

Lemma consume_step_split (pre suf : list (Z * Z)) (st : consume_state) :
  idx st = length pre ->
  consume_step d (pre ++ suf) st =
  match suf with
  | [] => st
  | (pos, r) :: rest =>
      if _is_full d r then
        emit_bit st (Build_DecodedBit 0 pos r None true) 1
      else if _is_half d r then
        match rest with
        | (pos2, r2) :: _ =>
            if _is_half d r2 then
              emit_bit st (Build_DecodedBit 1 pos r (Some r2) true) 2
            else if _is_full d (r + r2) then
              emit_bit st (Build_DecodedBit 1 pos r (Some r2) false) 2
            else
              emit_error st
                (Build_BitError pos r (reason_non_half r r2 (r + r2)))
        | [] => emit_bit st (Build_DecodedBit 1 pos r None false) 1
        end
      else emit_error st (Build_BitError pos r (reason_outside d r))
  end.
Proof.
  intros Hidx. unfold consume_step.
  rewrite Hidx, nth_error_app2, Nat.sub_diag by lia.
  destruct suf as [| [pos r] rest]; cbn [nth_error]; [reflexivity |].
  destruct (_is_full d r); [reflexivity |].
  destruct (_is_half d r); [| reflexivity].
  rewrite nth_error_app2 by lia.
  replace (length pre + 1 - length pre)%nat with 1%nat by lia.
  rewrite length_app. cbn [length nth_error].
  destruct rest as [| [pos2 r2] rest2]; cbn [nth_error length].
  - replace (length pre + 1 <? length pre + 1)%nat with false
      by (symmetry; apply Nat.ltb_ge; lia).
    reflexivity.
  - replace (length pre + 1 <? length pre + S (S (length rest2)))%nat with true
      by (symmetry; apply Nat.ltb_lt; lia).
    reflexivity.
Qed.

Lemma consume_loop_done (pre : list (Z * Z)) (st : consume_state) (fuel : nat) :
  idx st = length pre ->
  consume_loop d fuel (pre ++ []) st =
    {| idx := length (pre ++ []);
       bits := bits st ++ fst (consume_list d []);
       errors := errors st ++ snd (consume_list d []) |}.
Proof.
  intros Hidx. simpl consume_list. simpl fst. simpl snd.
  destruct st as [i bs es]. cbn [idx bits errors] in *. subst i.
  rewrite !app_nil_r.
  destruct fuel; cbn [consume_loop idx]; rewrite ?Nat.ltb_irrefl; reflexivity.
Qed.

(** The index loop appends to [bits] and [errors] exactly what the recursion
    on the remaining runs returns, and stops with [idx = total]. *)
Lemma consume_loop_list (n : nat) :
  forall suf, (length suf <= n)%nat ->
  forall pre st fuel,
    idx st = length pre -> (length suf <= fuel)%nat ->
    consume_loop d fuel (pre ++ suf) st =
      {| idx := length (pre ++ suf);
         bits := bits st ++ fst (consume_list d suf);
         errors := errors st ++ snd (consume_list d suf) |}.
Proof.
  induction n as [| n IH]; intros suf Hn pre st fuel Hidx Hfuel.
  - destruct suf; [| cbn in Hn; lia]. apply consume_loop_done. exact Hidx.
  - destruct suf as [| [pos r] rest].
    + apply consume_loop_done. exact Hidx.
    + destruct fuel as [| fuel]; [cbn in Hfuel; lia |].
      cbn [consume_loop].
      replace (idx st <? length (pre ++ (pos, r) :: rest))%nat with true
        by (symmetry; apply Nat.ltb_lt; rewrite length_app; cbn; lia).
      rewrite (consume_step_split pre _ st Hidx).
      cbn [length] in Hn, Hfuel.
      assert (Hone : forall st', idx st' = (length pre + 1)%nat ->
                consume_loop d fuel (pre ++ (pos, r) :: rest) st' =
                {| idx := length (pre ++ (pos, r) :: rest);
                   bits := bits st' ++ fst (consume_list d rest);
                   errors := errors st' ++ snd (consume_list d rest) |}).
      { intros st' Hst'.
        replace (pre ++ (pos, r) :: rest) with ((pre ++ [(pos, r)]) ++ rest)
          by (rewrite <- app_assoc; reflexivity).
        apply IH; [lia | rewrite length_app; cbn; lia | lia]. }
      cbn [consume_list].
      destruct (_is_full d r).
      { rewrite Hone by (cbn; lia).
        destruct (consume_list d rest) as [bs es]. cbn [emit_bit bits errors fst snd].
        rewrite <- app_assoc. reflexivity. }
      destruct (_is_half d r).
      2:{ rewrite Hone by (cbn; lia).
          destruct (consume_list d rest) as [bs es].
          cbn [emit_error bits errors fst snd].
          rewrite <- app_assoc. reflexivity. }
      destruct rest as [| [pos2 r2] rest2].
      { rewrite Hone by (cbn; lia). cbn [consume_list emit_bit bits errors fst snd].
        rewrite app_nil_r. reflexivity. }
      assert (Htwo : forall st', idx st' = (length pre + 2)%nat ->
                consume_loop d fuel (pre ++ (pos, r) :: (pos2, r2) :: rest2) st' =
                {| idx := length (pre ++ (pos, r) :: (pos2, r2) :: rest2);
                   bits := bits st' ++ fst (consume_list d rest2);
                   errors := errors st' ++ snd (consume_list d rest2) |}).
      { intros st' Hst'.
        replace (pre ++ (pos, r) :: (pos2, r2) :: rest2)
          with ((pre ++ [(pos, r); (pos2, r2)]) ++ rest2)
          by (rewrite <- app_assoc; reflexivity).
        cbn [length] in Hn, Hfuel.
        apply IH; [lia | rewrite length_app; cbn; lia | lia]. }
      destruct (_is_half d r2).
      { rewrite Htwo by (cbn; lia).
        destruct (consume_list d rest2) as [bs es].
        cbn [emit_bit bits errors fst snd]. rewrite <- app_assoc. reflexivity. }
      destruct (_is_full d (r + r2)).
      { rewrite Htwo by (cbn; lia).
        destruct (consume_list d rest2) as [bs es].
        cbn [emit_bit bits errors fst snd]. rewrite <- app_assoc. reflexivity. }
      rewrite Hone by (cbn; lia).
      destruct (consume_list d ((pos2, r2) :: rest2)) as [bs es].
      cbn [emit_error bits errors fst snd]. rewrite <- app_assoc. reflexivity.
Qed.

(** [_consume_runs] consumes every run: the loop ends with [idx = total],
    and its outputs are those of the recursion on the run list. *)
Lemma consume_runs_exhausts (runs : list (Z * Z))
  (bits0 : list DecodedBit) (errors0 : list BitError) :
  _consume_runs d runs bits0 errors0 =
    {| idx := length runs;
       bits := bits0 ++ fst (consume_list d runs);
       errors := errors0 ++ snd (consume_list d runs) |}.
Proof.
  unfold _consume_runs.
  apply (consume_loop_list (length runs) runs (le_n _) []); [reflexivity | lia].
Qed.

Lemma decode_list (samples : list Z) :
  decode d samples = consume_list d (_run_lengths d samples).
Proof.
  unfold decode. rewrite consume_runs_exhausts. cbn [bits errors app].
  destruct (consume_list d (_run_lengths d samples)); reflexivity.
Qed.

End ConsumeRuns.

(** ** Encoding then decoding *)

Section RoundTrip.
Import Constants Decoder Aux.

Variable d : BMCDecoder.
Hypothesis full_9 : _is_full d 9 = true.
Hypothesis full_4 : _is_full d 4 = false.
Hypothesis half_4 : _is_half d 4 = true.
Hypothesis half_5 : _is_half d 5 = true.

Lemma consume_list_blocks (bs : list Z) :
  Forall is_bit bs ->
  forall l i,
    map bit (fst (consume_list d (positions i (blocks l bs)))) = bs /\
    snd (consume_list d (positions i (blocks l bs))) = [].
Proof.
  induction 1 as [| b tl Hb _ IH]; intros l i; [split; reflexivity |].
  cbn [blocks]. destruct Hb as [-> | ->].
  - change (Py.truthy 0) with false. cbv iota.
    change SAMPLES_PER_BIT with 9. cbn [positions consume_list].
    rewrite full_9.
    destruct (IH (Encoder.toggle l) (i + 9)) as [Hbits Herrs].
    destruct (consume_list d _) as [bs' es']. cbn [fst snd map bit] in *.
    split; congruence.
  - change (Py.truthy 1) with true. cbv iota.
    change BMC_HALF_A with 4. change BMC_HALF_B with 5.
    cbn [positions consume_list]. rewrite full_4, half_4, half_5.
    destruct (IH (Encoder.toggle (Encoder.toggle l)) (i + 4 + 5))
      as [Hbits Herrs].
    destruct (consume_list d _) as [bs' es']. cbn [fst snd map bit] in *.
    split; congruence.
Qed.

Lemma decode_encode (enc : Encoder.BMCEncoder) (bs : list Z) :
  zero_threshold d <= BMC_HIGH ->
  Forall is_bit bs ->
  map bit (fst (decode d (fst (Encoder.encode_bits enc bs)))) = bs /\
  snd (decode d (fst (Encoder.encode_bits enc bs))) = [].
Proof.
  intros Ht Hbs. rewrite decode_list, run_lengths_encode by assumption.
  apply consume_list_blocks. assumption.
Qed.

End RoundTrip.

(** C1.  With the decoder built at 44100 Hz, 4800 baud, tolerance 0.30 and
    zero threshold 200: for every sequence of 0/1 bits and every initial
    level of the encoder, decoding the samples of [encode_bits] returns the
    original bits, in order, and no error. *)
Theorem C1_decode_encode_roundtrip :
  forall (dec : Decoder.BMCDecoder) (initial_level : Z) (bits : list Z),
    Decoder.init 44100 4800 Decoder.TOLERANCE_FACTOR 200 = Py.Ok dec ->
    Forall Aux.is_bit bits ->
    let samples := fst (Encoder.encode_bits (Encoder.init initial_level) bits) in
    map Decoder.bit (fst (Decoder.decode dec samples)) = bits /\
    snd (Decoder.decode dec samples) = [].
Proof.
  intros dec initial_level bits Hdec Hbits.
  vm_compute in Hdec. injection Hdec as <-.
  apply decode_encode; try reflexivity; try assumption.
  cbn. discriminate.
Qed.

Lemma C1_decode_encode_roundtrip_witness :
  exists dec,
    Decoder.init 44100 4800 Decoder.TOLERANCE_FACTOR 200 = Py.Ok dec /\
    Forall Aux.is_bit [1; 0; 1; 1; 0; 0; 1; 0] /\
    map Decoder.bit
      (fst (Decoder.decode dec
              (fst (Encoder.encode_bits (Encoder.init Constants.BMC_LOW)
                      [1; 0; 1; 1; 0; 0; 1; 0]))))
      = [1; 0; 1; 1; 0; 0; 1; 0] /\
    snd (Decoder.decode dec
           (fst (Encoder.encode_bits (Encoder.init Constants.BMC_LOW)
                   [1; 0; 1; 1; 0; 0; 1; 0]))) = [].
Proof.
  eexists. split; [vm_compute; reflexivity |].
  assert (Hb : Forall Aux.is_bit [1; 0; 1; 1; 0; 0; 1; 0]).
  { repeat (apply Forall_cons; [unfold Aux.is_bit; lia |]). apply Forall_nil. }
  split; [exact Hb |].
  apply (C1_decode_encode_roundtrip _ Constants.BMC_LOW [1; 0; 1; 1; 0; 0; 1; 0]);
    [vm_compute; reflexivity | exact Hb].
Defined.

(** ** Zero tolerance *)

Section PairInduction.

Variable A : Type.
Variable P : list A -> Prop.
Hypothesis P_nil : P [].
Hypothesis P_one : forall x, P [x].
Hypothesis P_two : forall x y l, P l -> P (y :: l) -> P (x :: y :: l).

(** Induction for functions that consume one or two elements at a time. *)
Lemma list_pair_ind (l : list A) : P l.
Proof.
  assert (H : P l /\ forall x, P (x :: l)).
  { induction l as [| y tl [IH1 IH2]].
    - split; [exact P_nil | exact P_one].
    - split; [apply IH2 |]. intros x. apply P_two; [exact IH1 | apply IH2]. }
  exact (proj1 H).
Qed.

End PairInduction.

Section ConsumeListEquations.
Import Constants Decoder Aux.

Variable d : BMCDecoder.

(** The defining equation of [consume_list], with the recursive results
    named. *)
Lemma consume_list_unfold (pos r : Z) (rest : list (Z * Z)) :
  consume_list d ((pos, r) :: rest) =
  let one := consume_list d rest in
  if _is_full d r then
    (Build_DecodedBit 0 pos r None true :: fst one, snd one)
  else if _is_half d r then
    match rest with
    | (pos2, r2) :: rest2 =>
        let two := consume_list d rest2 in
        if _is_half d r2 then
          (Build_DecodedBit 1 pos r (Some r2) true :: fst two, snd two)
        else if _is_full d (r + r2) then
          (Build_DecodedBit 1 pos r (Some r2) false :: fst two, snd two)
        else
          (fst one,
           Build_BitError pos r (reason_non_half r r2 (r + r2)) :: snd one)
    | [] => ([Build_DecodedBit 1 pos r None false], [])
    end
  else (fst one, Build_BitError pos r (reason_outside d r) :: snd one).
Proof.
  cbv zeta. cbn [consume_list].
  destruct (_is_full d r).
  { destruct (consume_list d rest); reflexivity. }
  destruct (_is_half d r).
  2:{ destruct (consume_list d rest); reflexivity. }
  destruct rest as [| [pos2 r2] rest2]; [reflexivity |].
  destruct (_is_half d r2).
  { destruct (consume_list d rest2); reflexivity. }
  destruct (_is_full d (r + r2)).
  { destruct (consume_list d rest2); reflexivity. }
  destruct (consume_list d ((pos2, r2) :: rest2)); reflexivity.
Qed.

End ConsumeListEquations.

Section ZeroTolerance.
Import Constants Decoder Aux.

Variable d : BMCDecoder.
Hypothesis full_lo : _full_lo d = 9.
Hypothesis full_hi : _full_hi d = 10.
Hypothesis half_lo : _half_lo d = 4.
Hypothesis half_hi : _half_hi d = 5.

Lemma zero_full (r : Z) : _is_full d r = true <-> r = 9 \/ r = 10.
Proof. unfold _is_full. rewrite full_lo, full_hi. lia. Qed.

Lemma zero_half (r : Z) : _is_half d r = true <-> r = 4 \/ r = 5.
Proof. unfold _is_half. rewrite half_lo, half_hi. lia. Qed.

Lemma zero_shapes (runs : list (Z * Z)) :
  Forall zero_bit_shape (fst (consume_list d runs)).
Proof.
  unfold zero_bit_shape.
  induction runs as [| [p1 r1] | [p1 r1] [p2 r2] l IH1 IH2] using list_pair_ind.
  - constructor.
  - cbn [consume_list].
    destruct (_is_full d r1) eqn:Ef; [apply zero_full in Ef |].
    { cbn [fst]. constructor; [cbn; tauto | constructor]. }
    destruct (_is_half d r1) eqn:Eh; [apply zero_half in Eh |].
    { cbn [fst]. constructor; [cbn; tauto | constructor]. }
    constructor.
  - rewrite consume_list_unfold. cbv beta iota zeta.
    destruct (_is_full d r1) eqn:Ef1.
    { apply zero_full in Ef1. cbn [fst].
      constructor; [cbn; tauto | exact IH2]. }
    destruct (_is_half d r1) eqn:Eh1; [| exact IH2].
    apply zero_half in Eh1.
    destruct (_is_half d r2) eqn:Eh2.
    { apply zero_half in Eh2. cbn [fst].
      constructor; [| exact IH1].
      cbn [bit run_a run_b in_tolerance]. right. left.
      split; [reflexivity |]. split; [exact Eh1 |].
      split; [destruct Eh2 as [-> | ->]; tauto | reflexivity]. }
    destruct (_is_full d (r1 + r2)) eqn:Ef12.
    { apply zero_full in Ef12. cbn [fst].
      assert (Hnot : ~ (r2 = 4 \/ r2 = 5)).
      { intros H. apply zero_half in H. rewrite H in Eh2. discriminate. }
      assert (E : r1 = 4 /\ r2 = 6) by lia. destruct E as [-> ->].
      constructor; [| exact IH1].
      cbn [bit run_a run_b in_tolerance]. right. right. left. tauto. }
    exact IH2.
Qed.

(** A run that is neither full nor half is reported, unless it is a 6 that
    directly follows a 4 opening a bit, which takes it as its second run. *)
Lemma zero_runs (runs : list (Z * Z)) :
  forall (i : nat) (pos r : Z),
    nth_error runs i = Some (pos, r) ->
    r <> 4 -> r <> 5 -> r <> 9 -> r <> 10 ->
    In (Build_BitError pos r (reason_outside d r)) (snd (consume_list d runs))
    \/ (r = 6 /\
        exists (j : nat) (pos' : Z),
          i = S j /\ nth_error runs j = Some (pos', 4) /\
          In (Build_DecodedBit 1 pos' 4 (Some 6) false)
             (fst (consume_list d runs))).
Proof.
  induction runs as [| [p1 r1] | [p1 r1] [p2 r2] l IH1 IH2] using list_pair_ind;
    intros i pos r Hi H4 H5 H9 H10.
  - destruct i; discriminate Hi.
  - destruct i as [| i]; [| destruct i; discriminate Hi].
    injection Hi as -> ->. left.
    rewrite consume_list_unfold. cbv zeta.
    destruct (_is_full d r) eqn:Ef; [apply zero_full in Ef; lia |].
    destruct (_is_half d r) eqn:Eh; [apply zero_half in Eh; lia |].
    cbn. left. reflexivity.
  - assert (Hone : forall k,
              nth_error ((p2, r2) :: l) k = Some (pos, r) ->
              forall bs es,
                (forall e, In e (snd (consume_list d ((p2, r2) :: l))) ->
                           In e es) ->
                (forall b, In b (fst (consume_list d ((p2, r2) :: l))) ->
                           In b bs) ->
                In (Build_BitError pos r (reason_outside d r)) es
                \/ (r = 6 /\
                    exists (j : nat) (pos' : Z),
                      S k = S j /\
                      nth_error ((p1, r1) :: (p2, r2) :: l) j
                      = Some (pos', 4) /\
                      In (Build_DecodedBit 1 pos' 4 (Some 6) false) bs)).
    { intros k Hk bs es Hes Hbs.
      destruct (IH2 k pos r Hk H4 H5 H9 H10)
        as [He | (-> & j & pos' & -> & Hj & Hb)].
      - left. apply Hes, He.
      - right. split; [reflexivity |]. exists (S j), pos'.
        split; [reflexivity |]. split; [exact Hj | apply Hbs, Hb]. }
    assert (Htwo : forall k,
              nth_error l k = Some (pos, r) ->
              forall bs,
                (forall b, In b (fst (consume_list d l)) -> In b bs) ->
                In (Build_BitError pos r (reason_outside d r))
                   (snd (consume_list d l))
                \/ (r = 6 /\
                    exists (j : nat) (pos' : Z),
                      S (S k) = S j /\
                      nth_error ((p1, r1) :: (p2, r2) :: l) j
                      = Some (pos', 4) /\
                      In (Build_DecodedBit 1 pos' 4 (Some 6) false) bs)).
    { intros k Hk bs Hbs.
      destruct (IH1 k pos r Hk H4 H5 H9 H10)
        as [He | (-> & j & pos' & -> & Hj & Hb)].
      - left. exact He.
      - right. split; [reflexivity |]. exists (S (S j)), pos'.
        split; [reflexivity |]. split; [exact Hj | apply Hbs, Hb]. }
    rewrite consume_list_unfold. cbv beta iota zeta.
    destruct (_is_full d r1) eqn:Ef1.
    { apply zero_full in Ef1. cbn [fst snd].
      destruct i as [| k]; [injection Hi as -> ->; lia |].
      cbn [nth_error] in Hi.
      apply (Hone k Hi); [auto | intros b Hb; right; exact Hb]. }
    destruct (_is_half d r1) eqn:Eh1.
    2:{ cbn [fst snd]. destruct i as [| k].
        - injection Hi as -> ->. left. left. reflexivity.
        - cbn [nth_error] in Hi.
          apply (Hone k Hi); [intros e He; right; exact He | auto]. }
    apply zero_half in Eh1.
    destruct (_is_half d r2) eqn:Eh2.
    { apply zero_half in Eh2. cbn [fst snd].
      destruct i as [| [| k]];
        [injection Hi as -> ->; lia | injection Hi as -> ->; lia |].
      cbn [nth_error] in Hi.
      apply (Htwo k Hi). intros b Hb. right. exact Hb. }
    destruct (_is_full d (r1 + r2)) eqn:Ef12.
    { apply zero_full in Ef12. cbn [fst snd].
      assert (Hnot : ~ (r2 = 4 \/ r2 = 5)).
      { intros H. apply zero_half in H. rewrite H in Eh2. discriminate. }
      assert (E : r1 = 4 /\ r2 = 6) by lia. destruct E as [-> ->].
      destruct i as [| [| k]]; [injection Hi as E1 E2; lia | |].
      - injection Hi as E1 E2. subst pos r. right. split; [reflexivity |].
        exists 0%nat, p1. split; [reflexivity |].
        split; [reflexivity | left; reflexivity].
      - cbn [nth_error] in Hi.
        apply (Htwo k Hi). intros b Hb. right. exact Hb. }
    cbn [fst snd].
    destruct i as [| k]; [injection Hi as -> ->; lia |].
    cbn [nth_error] in Hi.
    apply (Hone k Hi); [intros e He; right; exact He | auto].
Qed.

End ZeroTolerance.

(** C6, as the code has it.  With tolerance 0 (44100 Hz, 4800 baud) the
    windows are the floor and the ceiling of the nominal lengths 9.1875 and
    4.59375: a run is in the full window iff its length is 9 or 10, and in
    the half window iff it is 4 or 5.  Every decoded bit has one of four
    shapes: a 0 made of one run of 9 or 10; a 1 made of two runs of 4 or 5;
    a 1 made of a 4 followed by a 6, marked out of tolerance; a 1 made of a
    single run of 4 or 5 with no run after it, marked out of tolerance.
    Every extracted run whose length is none of 4, 5, 9, 10 produces an
    error record carrying its position and length, with one exception: a 6
    that directly follows a 4 and is taken with it as that 1 bit.  So a run
    of 6 that is the first run, or that follows a run other than 4, always
    produces an error. *)
Theorem C6_zero_tolerance_windows :
  forall (dec : Decoder.BMCDecoder),
    Decoder.init 44100 4800 0%float 200 = Py.Ok dec ->
    (forall r, Decoder._is_full dec r = true <-> r = 9 \/ r = 10) /\
    (forall r, Decoder._is_half dec r = true <-> r = 4 \/ r = 5) /\
    (forall samples,
        Forall Aux.zero_bit_shape (fst (Decoder.decode dec samples))) /\
    (forall samples i pos r,
        nth_error (Decoder._run_lengths dec samples) i = Some (pos, r) ->
        r <> 4 -> r <> 5 -> r <> 9 -> r <> 10 ->
        In (Decoder.Build_BitError pos r (Decoder.reason_outside dec r))
           (snd (Decoder.decode dec samples))
        \/ (r = 6 /\
            exists (j : nat) (pos' : Z),
              i = S j /\
              nth_error (Decoder._run_lengths dec samples) j
              = Some (pos', 4) /\
              In (Decoder.Build_DecodedBit 1 pos' 4 (Some 6) false)
                 (fst (Decoder.decode dec samples)))) /\
    (forall samples i pos,
        nth_error (Decoder._run_lengths dec samples) i = Some (pos, 6) ->
        (i = 0%nat \/
         exists (j : nat) (pos' r' : Z),
           i = S j /\
           nth_error (Decoder._run_lengths dec samples) j = Some (pos', r') /\
           r' <> 4) ->
        In (Decoder.Build_BitError pos 6 (Decoder.reason_outside dec 6))
           (snd (Decoder.decode dec samples))).
Proof.
  intros dec Hdec. vm_compute in Hdec. injection Hdec as <-.
  split; [intros r; apply zero_full; reflexivity |].
  split; [intros r; apply zero_half; reflexivity |].
  split; [intros samples; rewrite decode_list; apply zero_shapes; reflexivity |].
  split.
  - intros samples i pos r Hi H4 H5 H9 H10. rewrite decode_list.
    apply zero_runs; try reflexivity; assumption.
  - intros samples i pos Hi Hprev. rewrite decode_list.
    match goal with
    | |- In ?e (snd (Aux.consume_list ?d ?runs)) =>
        destruct (zero_runs d eq_refl eq_refl eq_refl eq_refl runs i pos 6 Hi
                    ltac:(lia) ltac:(lia) ltac:(lia) ltac:(lia))
          as [He | (_ & j & pos' & Hij & Hj & _)]
    end; [exact He |].
    destruct Hprev as [H0 | (j' & p' & r' & Hij' & Hj' & Hr')]; [lia |].
    assert (j' = j) by lia. subst j'. rewrite Hj in Hj'.
    injection Hj' as _ E. lia.
Qed.

Lemma C6_zero_tolerance_windows_witness :
  exists dec,
    Decoder.init 44100 4800 0%float 200 = Py.Ok dec /\
    Decoder._is_full dec 9 = true /\
    Decoder._is_half dec 6 = false /\
    In (Decoder.Build_BitError 0 7 (Decoder.reason_outside dec 7))
       (snd (Decoder.decode dec (repeat Constants.BMC_HIGH 7))) /\
    In (Decoder.Build_BitError 0 6 (Decoder.reason_outside dec 6))
       (snd (Decoder.decode dec (repeat Constants.BMC_HIGH 6))).
Proof.
  eexists. split; [vm_compute; reflexivity |].
  match goal with
  | |- ?G => match G with context [Decoder._is_full ?d 9] =>
      destruct (C6_zero_tolerance_windows d) as (Hf & Hh & _ & He & H6);
        [vm_compute; reflexivity |]
    end
  end.
  split; [apply Hf; left; reflexivity |].
  split.
  - destruct (Decoder._is_half _ 6) eqn:E; [apply Hh in E; lia | reflexivity].
  - split.
    + destruct (He (repeat Constants.BMC_HIGH 7) 0%nat 0 7)
        as [Herr | (E & _)];
        [vm_compute; reflexivity | lia | lia | lia | lia | exact Herr | lia].
    + apply (H6 (repeat Constants.BMC_HIGH 6) 0%nat 0);
        [vm_compute; reflexivity | left; reflexivity].
Defined.

(** C6 as stated fails: at tolerance 0 a run of 10 samples, which is not a
    nominal length (9.1875 exactly, 9 on the sample grid), is accepted as
    bit 0 and no error is recorded. *)
Lemma C6_counterexample_run_of_10 :
  exists dec,
    Decoder.init 44100 4800 0%float 200 = Py.Ok dec /\
    Decoder._run_lengths dec (repeat Constants.BMC_HIGH 10) = [(0, 10)] /\
    Decoder.decode dec (repeat Constants.BMC_HIGH 10)
      = ([Decoder.Build_DecodedBit 0 0 10 None true], []).
Proof.
  eexists. split; [vm_compute; reflexivity |].
  split; vm_compute; reflexivity.
Qed.

(** ** Decoding never aborts *)

Section DecodeTotal.
Import Constants Decoder Aux.

Variable d : BMCDecoder.





End DecodeTotal.




(** ** The frame scheduler: blank bits *)

Section BuilderInvariant.
Import Constants FrameBuilder Frames.

Lemma lookup_in_range (frame_bits : Z) (table : list (string * Z))
  (k : string) (v : Z) :
  table_in_range frame_bits table = true ->
  Py.lookup k table = Some v ->
  1 <= v <= frame_bits.
Proof.
  unfold table_in_range. induction table as [| [k' v'] tl IH]; cbn; [discriminate |].
  intros Hall Hl. apply andb_prop in Hall. destruct Hall as [Hhd Htl].
  destruct (String.eqb k k').
  - injection Hl as <-. lia.
  - apply IH; assumption.
Qed.

Lemma update_length {A : Type} (l : list A) (n : nat) (v : A) :
  length (Py.update l n v) = length l.
Proof.
  revert n. induction l as [| x tl IH]; intros [| n]; cbn; try reflexivity.
  rewrite IH. reflexivity.
Qed.

Lemma update_other {A : Type} (l : list A) (n m : nat) (v : A) :
  n <> m -> nth_error (Py.update l n v) m = nth_error l m.
Proof.
  revert n m. induction l as [| x tl IH]; intros [| n] [| m] Hne; cbn;
    try reflexivity; try congruence.
  apply IH. congruence.
Qed.

(** Writing at a non-negative index leaves every other non-negative index
    as it was. *)
Lemma getitem_setitem_other (l l' : list Z) (i j v : Z) :
  0 <= i -> 0 <= j -> i <> j ->
  Py.setitem l i v = Py.Ok l' ->
  Py.getitem l' j = Py.getitem l j.
Proof.
  intros Hi Hj Hne. unfold Py.setitem, Py.getitem.
  replace (i <? 0) with false by lia. replace (j <? 0) with false by lia.
  destruct ((0 <=? i) && (i <? Z.of_nat (length l))); [| discriminate].
  intros H. injection H as <-.
  rewrite update_length, update_other by lia. reflexivity.
Qed.

Lemma setitem_length (l l' : list Z) (i v : Z) :
  Py.setitem l i v = Py.Ok l' -> length l' = length l.
Proof.
  unfold Py.setitem.
  destruct ((0 <=? _) && _); [| discriminate].
  intros H. injection H as <-. apply update_length.
Qed.

Lemma tables_in_range (t : Constants.track) :
  table_in_range (_frame_bits (FrameBuilder.init t))
                 (_channel_map (FrameBuilder.init t)) = true.
Proof. destruct t; vm_compute; reflexivity. Qed.

Lemma blank_bits_positive (t : Constants.track) :
  Forall (fun b => 1 <= b) (FrameSync.blank_bits_of t).
Proof. destruct t; repeat constructor; discriminate. Qed.

Lemma mem_false (x : Z) (s : list Z) :
  mem x s = false -> Forall (fun b => b <> x) s.
Proof.
  unfold mem. induction s as [| y tl IH]; cbn; [constructor |].
  intros H. apply orb_false_elim in H. destruct H as [Hxy Htl].
  constructor; [| apply IH; exact Htl]. intros ->. lia.
Qed.

(** [set_channel] keeps the blank positions at 0: the guard refuses a blank
    bit number, and every other channel writes elsewhere. *)
Lemma set_channel_blank_safe (t : Constants.track) (self self' : FrameBuilder.FrameBuilder)
  (ch : string) (a : bool) :
  builder_of t self ->
  blank_safe t (_frame self) ->
  set_channel self ch a = Py.Ok self' ->
  builder_of t self' /\ blank_safe t (_frame self').
Proof.
  intros Hself [Hlen Hblank]. unfold set_channel.
  destruct (Py.lookup ch (_channel_map self)) as [bit_number |] eqn:Hl;
    [| discriminate].
  destruct (mem bit_number (_blank_bits self)) eqn:Hmem; [discriminate |].
  destruct (Py.setitem (_frame self) (bit_number - 1) (if a then 1 else 0))
    as [frame |] eqn:Hset; cbn [Py.bind]; [| discriminate].
  intros H. injection H as <-.
  assert (Hrange : 1 <= bit_number <= _frame_bits (FrameBuilder.init t)).
  { apply (lookup_in_range _ (_channel_map (FrameBuilder.init t)) ch).
    - apply tables_in_range.
    - rewrite Hself in Hl. exact Hl. }
  split.
  - unfold builder_of. rewrite Hself. reflexivity.
  - change (_frame (with_frame self frame)) with frame. split.
    + rewrite (setitem_length _ _ _ _ Hset). exact Hlen.
    + assert (Hb : _blank_bits self = FrameSync.blank_bits_of t).
      { rewrite Hself. destruct t; reflexivity. }
      rewrite Hb in Hmem. apply mem_false in Hmem.
      pose proof (blank_bits_positive t) as Hpos.
      rewrite Forall_forall in *. intros b Hin.
      specialize (Hpos b Hin). specialize (Hmem b Hin).
      rewrite (getitem_setitem_other (_frame self) frame (bit_number - 1)
                 (b - 1) _ ltac:(lia) ltac:(lia) ltac:(lia) Hset).
      apply Hblank. exact Hin.
Qed.

Lemma fill_loop_encoded (P : list Z -> Prop) (self : FrameBuilder.FrameBuilder)
  (fuel : nat) :
  P (_frame self) ->
  forall st pos end_sample st' pos',
    Forall P (encoded st) ->
    fill_loop fuel self st pos end_sample = Py.Ok (st', pos') ->
    Forall P (encoded st').
Proof.
  intros Hframe. induction fuel as [| fuel IH];
    intros st pos end_sample st' pos' Hst; cbn [fill_loop].
  - intros H. injection H as <- _. exact Hst.
  - destruct (pos <? end_sample).
    + destruct (Encoder.encode_frame (enc st) (_frame self)) as [pcm enc'].
      destruct (Encoder.to_raw_bytes pcm) as [bytes |]; cbn [Py.bind];
        [| discriminate].
      apply IH. cbn [encoded]. apply Forall_app. split; [exact Hst |].
      constructor; [exact Hframe | constructor].
    + intros H. injection H as <- _. exact Hst.
Qed.

(** The fill loop stops because [pos] reached [end_sample], never because
    the iteration bound was hit. *)
Lemma fill_loop_reaches_end (self : FrameBuilder.FrameBuilder) (fuel : nat) :
  0 < _frame_samps self ->
  forall st pos end_sample st' pos',
    (Z.to_nat (end_sample - pos) <= fuel)%nat ->
    fill_loop fuel self st pos end_sample = Py.Ok (st', pos') ->
    pos' = Z.max pos end_sample.
Proof.
  intros Hfs. induction fuel as [| fuel IH];
    intros st pos end_sample st' pos' Hfuel; cbn [fill_loop].
  - intros H. injection H as _ <-. lia.
  - destruct (Z.ltb_spec pos end_sample) as [Hlt | Hge].
    + destruct (Encoder.encode_frame (enc st) (_frame self)) as [pcm enc'].
      destruct (Encoder.to_raw_bytes pcm) as [bytes |]; cbn [Py.bind];
        [| discriminate].
      intros H. apply IH in H; [| lia]. lia.
    + intros H. injection H as _ <-. lia.
Qed.

Lemma fill_frames_encoded (P : list Z -> Prop)
  (self : FrameBuilder.FrameBuilder) (st st' : stream) (a b : Z) :
  P (_frame self) ->
  Forall P (encoded st) ->
  _fill_frames self st a b = Py.Ok st' ->
  Forall P (encoded st').
Proof.
  intros Hframe Hst. unfold _fill_frames.
  destruct (a >=? b); [intros H; injection H as <-; exact Hst |].
  destruct (fill_loop _ self st a b) as [[st1 pos1] |] eqn:E; cbn [Py.bind];
    [| discriminate].
  intros H. injection H as <-.
  eapply fill_loop_encoded; eassumption.
Qed.

Lemma events_loop_blank_safe (t : Constants.track) (evs : list ChannelEvent) :
  forall self st cursor self' st' cursor',
    builder_of t self ->
    blank_safe t (_frame self) ->
    Forall (blank_safe t) (encoded st) ->
    events_loop self st cursor evs = Py.Ok (self', st', cursor') ->
    builder_of t self' /\ blank_safe t (_frame self') /\
    Forall (blank_safe t) (encoded st').
Proof.
  induction evs as [| ev tl IH]; intros self st cursor self' st' cursor'
    Hself Hframe Hst; cbn [events_loop].
  - intros H. injection H as <- <- _. auto.
  - destruct (event_sample_of ev) as [s |]; cbn [Py.bind]; [| discriminate].
    destruct (_fill_frames self st cursor s) as [st1 |] eqn:Hfill;
      cbn [Py.bind]; [| discriminate].
    destruct (set_channel self (channel ev) (active ev)) as [self1 |] eqn:Hset;
      cbn [Py.bind]; [| discriminate].
    destruct (set_channel_blank_safe t self self1 _ _ Hself Hframe Hset)
      as [Hself1 Hframe1].
    apply IH; try assumption.
    exact (fill_frames_encoded _ self st st1 cursor s Hframe Hst Hfill).
Qed.

Lemma zeros_blank_safe (t : Constants.track) :
  blank_safe t (zeros (FrameSync.frame_bits_of t)).
Proof. destruct t; split; try reflexivity; repeat constructor. Qed.

End BuilderInvariant.

(** C4.  Whenever [build] returns (the channel names are those of the
    track), each frame state it handed to the encoder, and so each frame
    encoded into the PCM stream, has the width of the track and the value 0
    at every blank position: 56, 65 and 70 for TD, 45 for BD. *)
Theorem C4_frames_blank_bits_zero :
  forall (t : Constants.track) (events : list FrameBuilder.ChannelEvent)
         (duration_seconds : float)
         (self' : FrameBuilder.FrameBuilder) (st : FrameBuilder.stream),
    FrameBuilder.build_trace (FrameBuilder.init t) events duration_seconds
      = Py.Ok (self', st) ->
    FrameBuilder.build (FrameBuilder.init t) events duration_seconds
      = Py.Ok (FrameBuilder.output st) /\
    Forall (Frames.blank_safe t) (FrameBuilder.encoded st).
Proof.
  intros t events duration_seconds self' st Hbuild.
  split; [unfold FrameBuilder.build; rewrite Hbuild; reflexivity |].
  unfold FrameBuilder.build_trace in Hbuild.
  destruct (Py.int_of_float _) as [n |]; cbn [Py.bind] in Hbuild;
    [| discriminate].
  destruct (FrameBuilder.bytearray _) as [out0 |]; cbn [Py.bind] in Hbuild;
    [| discriminate].
  destruct (FrameBuilder.sort_events events) as [sorted |];
    cbn [Py.bind] in Hbuild; [| discriminate].
  destruct (FrameBuilder.events_loop _ _ 0 sorted) as [[[self1 st1] c1] |] eqn:Hloop;
    cbn [Py.bind] in Hbuild; [| discriminate].
  destruct (FrameBuilder._fill_frames self1 st1 c1 _) as [st2 |] eqn:Hfill;
    cbn [Py.bind] in Hbuild; [| discriminate].
  injection Hbuild as _ <-.
  eapply (events_loop_blank_safe t) in Hloop;
    [| destruct t; reflexivity | exact (zeros_blank_safe t) | constructor].
  destruct Hloop as (Hself1 & Hframe1 & Hst1).
  exact (fill_frames_encoded _ self1 st1 st2 c1 _ Hframe1 Hst1 Hfill).
Qed.

Lemma C4_frames_blank_bits_zero_witness :
  exists self' st,
    FrameBuilder.build_trace (FrameBuilder.init Constants.TD)
      [Frames.mid_frame_event] Frames.short_show = Py.Ok (self', st) /\
    Forall (Frames.blank_safe Constants.TD) (FrameBuilder.encoded st).
Proof.
  destruct (FrameBuilder.build_trace (FrameBuilder.init Constants.TD)
              [Frames.mid_frame_event] Frames.short_show)
    as [[self' st] | e] eqn:E.
  - exists self', st. split; [reflexivity |].
    apply (C4_frames_blank_bits_zero Constants.TD [Frames.mid_frame_event]
             Frames.short_show self' st E).
  - vm_compute in E. discriminate E.
Defined.

(** ** The two frame schedulers on an event inside a frame *)

Section TornFrames.
Import Constants Encoder Frames.

Lemma Ok_inj {A : Type} (a b : A) : Py.Ok a = Py.Ok b -> a = b.
Proof. intros H. injection H as ->. reflexivity. Qed.

Lemma to_raw_bytes_prefix (a b : list Z) (w : list Z) :
  to_raw_bytes (a ++ b) = Py.Ok w ->
  exists wa, to_raw_bytes a = Py.Ok wa /\ firstn (length wa) w = wa.
Proof.
  revert w. induction a as [| s tl IH]; intros w; cbn [app to_raw_bytes].
  - intros _. exists []. split; reflexivity.
  - unfold pack_h at 1 2.
    destruct ((-32768 <=? s) && (s <=? 32767)); cbn [Py.bind]; [| discriminate].
    destruct (to_raw_bytes (tl ++ b)) as [wt |] eqn:E; cbn [Py.bind];
      [| discriminate].
    intros H. injection H as <-.
    destruct (IH wt eq_refl) as (wa & Ha & Hpre).
    rewrite Ha. cbn [Py.bind]. eexists. split; [reflexivity |].
    cbn [app length firstn]. rewrite Hpre. reflexivity.
Qed.

(** The first nine samples of an encoded frame are four equal samples and
    five of the other level, or nine equal samples. *)
Lemma encode_frame_head (enc : BMCEncoder) (b : Z) (tl : list Z) :
  exists rest,
    fst (encode_frame enc (b :: tl)) =
      (if Py.truthy b
       then times (toggle (_level enc)) 4 ++ times (toggle (toggle (_level enc))) 5
       else times (toggle (_level enc)) 9) ++ rest.
Proof.
  unfold encode_frame. rewrite encode_bits_blocks. cbn [fst Aux.blocks Aux.expand].
  destruct (Py.truthy b); cbn [Aux.expand]; eexists; rewrite <- ?app_assoc;
    reflexivity.
Qed.

End TornFrames.

(** C2 at a failing input.  One TD event 0.1 ms into a 10 ms show has sample
    position 4, inside the first frame.  [FrameBuilder.build] does not snap
    it: it writes four samples of the previous frame state, then restarts
    with the updated state, so the first 846-sample window of its output is
    not the encoding of any single frame state.  The inlined scheduler of
    export_bridge.py snaps the event to the frame boundary, and its window
    is the encoding of one frame state. *)
Theorem C2_frame_builder_tears_a_frame :
  exists pcm pcm_bridge,
    FrameBuilder.event_sample_of Frames.mid_frame_event = Py.Ok 4 /\
    FrameBuilder.build (FrameBuilder.init Constants.TD)
      [Frames.mid_frame_event] Frames.short_show = Py.Ok pcm /\
    ~ Frames.encodes_one_frame Constants.TD (Frames.window 846 0 pcm) /\
    ExportBridge.build (ExportBridge.init Constants.TD)
      [Frames.mid_frame_event] Frames.short_show = Py.Ok pcm_bridge /\
    Frames.encodes_one_frame Constants.TD (Frames.window 846 0 pcm_bridge).
Proof.
  assert (Hhead :
    Py.bind (FrameBuilder.build (FrameBuilder.init Constants.TD)
               [Frames.mid_frame_event] Frames.short_show)
            (fun pcm => Py.Ok (firstn 18 (Frames.window 846 0 pcm)))
    = Py.Ok [255; 127; 255; 127; 255; 127; 255; 127; 255; 127; 255; 127;
             255; 127; 255; 127; 0; 128])
    by (vm_compute; reflexivity).
  assert (Hbridge :
    Py.bind (ExportBridge.build (ExportBridge.init Constants.TD)
               [Frames.mid_frame_event] Frames.short_show)
            (fun pcm => Py.Ok (Frames.window 846 0 pcm))
    = Encoder.to_raw_bytes
        (fst (Encoder.encode_frame (Encoder.init Constants.BMC_LOW)
                (1 :: repeat 0 93))))
    by (vm_compute; reflexivity).
  destruct (FrameBuilder.build _ _ _) as [pcm | e]; [| discriminate Hhead].
  destruct (ExportBridge.build _ _ _) as [pcm_bridge | e].
  2:{ vm_compute in Hbridge. discriminate Hbridge. }
  unfold Py.bind in Hhead, Hbridge. apply Ok_inj in Hhead.
  exists pcm, pcm_bridge.
  split; [vm_compute; reflexivity |].
  split; [reflexivity |].
  split.
  - intros (enc & frame & Hlen & Henc).
    destruct frame as [| b tl]; [discriminate Hlen |].
    destruct (encode_frame_head enc b tl) as [rest Hrest].
    rewrite Hrest in Henc. apply to_raw_bytes_prefix in Henc.
    destruct Henc as (wa & Ha & Hpre).
    unfold Encoder.toggle in Ha.
    destruct (Py.truthy b); destruct (Encoder._level enc =? Constants.BMC_LOW);
      vm_compute in Ha; apply Ok_inj in Ha; subst wa;
      change (length _) with 18%nat in Hpre; rewrite Hhead in Hpre;
      discriminate Hpre.
  - split; [reflexivity |].
    exists (Encoder.init Constants.BMC_LOW), (1 :: repeat 0 93).
    split; [reflexivity | symmetry; exact Hbridge].
Qed.

(** C10 at a failing input.  On the same event the two schedulers return
    different byte strings: [FrameBuilder.build] opens with eight samples at
    the high level, the inlined scheduler with four. *)
Theorem C10_schedulers_differ :
  exists pcm pcm_bridge,
    FrameBuilder.build (FrameBuilder.init Constants.TD)
      [Frames.mid_frame_event] Frames.short_show = Py.Ok pcm /\
    ExportBridge.build (ExportBridge.init Constants.TD)
      [Frames.mid_frame_event] Frames.short_show = Py.Ok pcm_bridge /\
    length pcm = length pcm_bridge /\
    firstn 18 pcm =
      [255; 127; 255; 127; 255; 127; 255; 127; 255; 127; 255; 127; 255; 127;
       255; 127; 0; 128] /\
    firstn 18 pcm_bridge =
      [255; 127; 255; 127; 255; 127; 255; 127; 0; 128; 0; 128; 0; 128; 0; 128;
       0; 128] /\
    pcm <> pcm_bridge.
Proof.
  assert (H1 :
    Py.bind (FrameBuilder.build (FrameBuilder.init Constants.TD)
               [Frames.mid_frame_event] Frames.short_show)
            (fun pcm => Py.Ok (length pcm, firstn 18 pcm))
    = Py.Ok (1692%nat,
             [255; 127; 255; 127; 255; 127; 255; 127; 255; 127; 255; 127;
              255; 127; 255; 127; 0; 128]))
    by (vm_compute; reflexivity).
  assert (H2 :
    Py.bind (ExportBridge.build (ExportBridge.init Constants.TD)
               [Frames.mid_frame_event] Frames.short_show)
            (fun pcm => Py.Ok (length pcm, firstn 18 pcm))
    = Py.Ok (1692%nat,
             [255; 127; 255; 127; 255; 127; 255; 127; 0; 128; 0; 128; 0; 128;
              0; 128; 0; 128]))
    by (vm_compute; reflexivity).
  destruct (FrameBuilder.build _ _ _) as [pcm | e]; [| discriminate H1].
  destruct (ExportBridge.build _ _ _) as [pcm_bridge | e]; [| discriminate H2].
  unfold Py.bind in H1, H2. apply Ok_inj in H1. apply Ok_inj in H2.
  assert (Hl1 := f_equal fst H1). assert (Hf1 := f_equal snd H1).
  assert (Hl2 := f_equal fst H2). assert (Hf2 := f_equal snd H2).
  cbn [fst snd] in Hl1, Hf1, Hl2, Hf2.
  exists pcm, pcm_bridge.
  split; [reflexivity |].
  split; [reflexivity |].
  split; [congruence |].
  split; [exact Hf1 |].
  split; [exact Hf2 |].
  intros ->. rewrite Hf1 in Hf2. discriminate Hf2.
Qed.

(** ** The frame synchroniser *)

Section SyncFacts.
Import Constants FrameSync.

Lemma clamp_inside (len i : Z) : 0 <= i <= len -> Py.clamp len i = i.
Proof. unfold Py.clamp. intros H. replace (i <? 0) with false by lia. lia. Qed.

Lemma slice_length {A : Type} (l : list A) (a b : Z) :
  0 <= a -> a <= b -> b <= Z.of_nat (length l) ->
  length (Py.slice l a b) = Z.to_nat (b - a).
Proof.
  intros Ha Hab Hb. unfold Py.slice.
  rewrite !clamp_inside by lia.
  rewrite length_firstn, length_skipn. lia.
Qed.

Lemma getitem_slice {A : Type} (l : list A) (a b i : Z) :
  0 <= a -> a <= b -> b <= Z.of_nat (length l) -> 0 <= i < b - a ->
  Py.getitem (Py.slice l a b) i =
    match nth_error l (Z.to_nat (a + i)) with
    | Some x => Py.Ok x
    | None => Py.Raise Py.IndexError
    end.
Proof.
  intros Ha Hab Hb Hi. unfold Py.getitem.
  rewrite slice_length by lia.
  replace (i <? 0) with false by lia.
  rewrite Z2Nat.id by lia.
  replace (0 <=? i) with true by lia. replace (i <? b - a) with true by lia.
  cbn [andb].
  unfold Py.slice. rewrite !clamp_inside by lia.
  rewrite nth_error_firstn.
  replace (Z.to_nat i <? Z.to_nat (b - a))%nat with true
    by (symmetry; apply Nat.ltb_lt; lia).
  rewrite nth_error_skipn.
  replace (Z.to_nat a + Z.to_nat i)%nat with (Z.to_nat (a + i)) by lia.
  reflexivity.
Qed.

Lemma getitem_total {A : Type} (l : list A) (i : Z) :
  0 <= i < Z.of_nat (length l) -> exists x, Py.getitem l i = Py.Ok x.
Proof.
  intros Hi. unfold Py.getitem.
  replace (i <? 0) with false by lia.
  replace ((0 <=? i) && (i <? Z.of_nat (length l))) with true by lia.
  destruct (nth_error l (Z.to_nat i)) as [x |] eqn:E; [eauto |].
  apply nth_error_None in E. lia.
Qed.

Lemma blank_indices_in_frame (t : track) :
  Forall (fun bi => 0 <= bi < frame_bits_of t) (blank_indices_of t).
Proof. destruct t; repeat constructor; cbn; lia. Qed.

Lemma all_blank_zero_total (fs : list Z) (idxs : list Z) :
  Forall (fun bi => 0 <= bi < Z.of_nat (length fs)) idxs ->
  exists b, all_blank_zero fs idxs = Py.Ok b.
Proof.
  induction 1 as [| bi tl Hbi _ IH]; cbn [all_blank_zero]; [eauto |].
  destruct (getitem_total fs bi Hbi) as [x ->]. cbn [Py.bind].
  destruct (x =? 0); eauto.
Qed.

Lemma frame_slice_check_total (bits : list Z) (t : track) (pos : Z) :
  0 <= pos -> pos + frame_bits_of t <= Z.of_nat (length bits) ->
  exists b,
    all_blank_zero (Py.slice bits pos (pos + frame_bits_of t))
      (blank_indices_of t) = Py.Ok b.
Proof.
  intros Hpos Hend. apply all_blank_zero_total.
  assert (Hfb : 0 < frame_bits_of t) by (destruct t; reflexivity).
  rewrite slice_length by lia.
  eapply Forall_impl; [| apply blank_indices_in_frame].
  cbv beta. intros bi Hbi. lia.
Qed.

Lemma score_loop_total (bits : list Z) (t : track) (ks : list Z) :
  Forall (fun k => 0 <= k) ks ->
  forall candidate score, 0 <= candidate ->
    exists s, score_loop bits t ks candidate score = Py.Ok s.
Proof.
  assert (Hfb : 0 < frame_bits_of t) by (destruct t; reflexivity).
  induction 1 as [| k tl Hk _ IH]; intros candidate score Hc;
    cbn [score_loop]; [eauto |].
  destruct (_ >? _) eqn:Egt; [eauto |].
  destruct (frame_slice_check_total bits t (candidate + k * frame_bits_of t))
    as [b Hb]; [nia | lia |].
  rewrite Hb. cbn [Py.bind]. destruct b; [apply IH; exact Hc | eauto].
Qed.

Lemma range_nonneg (n : Z) : Forall (fun k => 0 <= k) (range n).
Proof.
  unfold range. apply Forall_map. apply Forall_forall. intros x _. lia.
Qed.

Lemma search_loop_total (bits : list Z) (t : track) (cands : list Z) :
  Forall (fun k => 0 <= k) cands ->
  forall bo bs, 0 <= bo ->
    exists bo' bs',
      search_loop bits t cands bo bs = Py.Ok (bo', bs') /\ 0 <= bo'.
Proof.
  induction 1 as [| c tl Hc _ IH]; intros bo bs Hbo; cbn [search_loop];
    [eauto |].
  destruct (score_loop_total bits t (range LOCK_THRESHOLD)
              (range_nonneg _) c 0 Hc) as [s ->].
  cbn [Py.bind]. destruct (s >? bs).
  - destruct (s >=? LOCK_THRESHOLD); [eauto | apply IH; exact Hc].
  - apply IH. exact Hbo.
Qed.

Lemma extract_loop_total (bits : list Z) (t : track) (fuel : nat) :
  forall acc pos, 0 <= pos ->
    exists r, extract_loop bits t fuel acc pos = Py.Ok r.
Proof.
  assert (Hfb : 0 < frame_bits_of t) by (destruct t; reflexivity).
  induction fuel as [| fuel IH]; intros acc pos Hpos; cbn [extract_loop];
    [eauto |].
  destruct (_ <=? _) eqn:Ele; [| eauto].
  destruct (frame_slice_check_total bits t pos Hpos) as [b Hb]; [lia |].
  rewrite Hb. cbn [Py.bind]. apply IH. lia.
Qed.

(** [sync_frames] never raises. *)
Lemma sync_frames_total (bits : list Z) (t : track) (max_search_bits : Z) :
  exists r, sync_frames bits t max_search_bits = Py.Ok r.
Proof.
  unfold sync_frames.
  destruct (search_loop_total bits t (range (Z.min max_search_bits
              (Z.of_nat (length bits) - frame_bits_of t * LOCK_THRESHOLD)))
              (range_nonneg _) 0 0 (Z.le_refl 0)) as (bo & bs & Hs & Hbo).
  rewrite Hs. cbn [Py.bind].
  destruct (extract_loop_total bits t (length bits) [] bo Hbo) as [[fr p] Hx].
  rewrite Hx. cbn [Py.bind]. eauto.
Qed.

(** With at most three frames of bits the search window is empty: no
    candidate is tried, whatever the bits are. *)
Lemma sync_short_stream (bits : list Z) (t : track) (max_search_bits : Z) :
  Z.of_nat (length bits) <= 3 * frame_bits_of t ->
  exists r,
    sync_frames bits t max_search_bits = Py.Ok r /\
    locked r = false /\ score r = 0 /\ lock_offset r = 0.
Proof.
  intros Hshort. destruct (sync_frames_total bits t max_search_bits) as [r Hr].
  exists r. split; [exact Hr |].
  unfold sync_frames in Hr.
  replace (range _) with (@nil Z) in Hr.
  - cbn [search_loop Py.bind] in Hr.
    destruct (extract_loop bits t (length bits) [] 0) as [[fr p] |];
      cbn [Py.bind] in Hr; [| discriminate].
    injection Hr as <-. cbn. auto.
  - unfold range, LOCK_THRESHOLD.
    replace (Z.to_nat _) with 0%nat by lia. reflexivity.
Qed.

End SyncFacts.

Section SyncLock.
Import Constants FrameSync Frames.

Lemma all_blank_zero_clean (fs : list Z) (idxs : list Z) :
  Forall (fun bi => Py.getitem fs bi = Py.Ok 0) idxs ->
  all_blank_zero fs idxs = Py.Ok true.
Proof.
  induction 1 as [| bi tl Hbi _ IH]; cbn [all_blank_zero]; [reflexivity |].
  rewrite Hbi. cbn [Py.bind]. exact IH.
Qed.

Lemma clean_frame_check (t : track) (k : Z) (bits : list Z) (j : Z) :
  clean_frames t k bits -> 0 <= j < k ->
  all_blank_zero
    (Py.slice bits (j * frame_bits_of t) (j * frame_bits_of t + frame_bits_of t))
    (blank_indices_of t) = Py.Ok true.
Proof.
  intros [Hlen Hclean] Hj. apply all_blank_zero_clean.
  assert (Hfb : 0 < frame_bits_of t) by (destruct t; reflexivity).
  pose proof (blank_indices_in_frame t) as Hin.
  rewrite Forall_forall in *. intros bi Hbi.
  rewrite getitem_slice; try nia.
  - rewrite (Hclean j bi Hj Hbi). reflexivity.
  - specialize (Hin bi Hbi). lia.
Qed.

Lemma range_cons (n : Z) :
  1 <= n -> exists tl, range n = 0 :: tl.
Proof.
  intros Hn. unfold range. destruct (Z.to_nat n) as [| m] eqn:E; [lia |].
  cbn [seq map]. eauto.
Qed.

(** From four clean frames on, the first candidate, offset 0, scores 3 and
    the search stops there. *)
Lemma sync_clean_stream_locks (t : track) (k : Z) (bits : list Z) :
  4 <= k ->
  clean_frames t k bits ->
  exists r,
    sync_frames bits t default_max_search_bits = Py.Ok r /\
    locked r = true /\ score r = Z.min 3 k /\ lock_offset r = 0.
Proof.
  intros Hk Hclean.
  destruct (sync_frames_total bits t default_max_search_bits) as [r Hr].
  exists r. split; [exact Hr |].
  assert (Hfb : 94 <= frame_bits_of t)
    by (destruct t; unfold frame_bits_of, TD_FRAME_BITS, BD_FRAME_BITS; lia).
  pose proof Hclean as [Hlen _].
  unfold sync_frames in Hr.
  destruct (range_cons (Z.min default_max_search_bits
              (Z.of_nat (length bits) - frame_bits_of t * LOCK_THRESHOLD)))
    as [tl Htl]; [unfold default_max_search_bits, LOCK_THRESHOLD; nia |].
  rewrite Htl in Hr. cbn [search_loop] in Hr.
  change (range LOCK_THRESHOLD) with [0; 1; 2] in Hr.
  cbn [score_loop] in Hr.
  replace (0 + 0 * frame_bits_of t) with (0 * frame_bits_of t) in Hr by lia.
  replace (0 + 1 * frame_bits_of t) with (1 * frame_bits_of t) in Hr by lia.
  replace (0 + 2 * frame_bits_of t) with (2 * frame_bits_of t) in Hr by lia.
  rewrite !(clean_frame_check t k bits) in Hr by (assumption || lia).
  cbn [Py.bind] in Hr.
  replace (0 * frame_bits_of t + frame_bits_of t >? Z.of_nat (length bits))
    with false in Hr by nia.
  replace (1 * frame_bits_of t + frame_bits_of t >? Z.of_nat (length bits))
    with false in Hr by nia.
  replace (2 * frame_bits_of t + frame_bits_of t >? Z.of_nat (length bits))
    with false in Hr by nia.
  cbn [Py.bind Z.add Z.gtb Z.geb Z.compare Pos.compare Pos.compare_cont
       LOCK_THRESHOLD Pos.add Pos.succ] in Hr.
  destruct (extract_loop bits t (length bits) [] 0) as [[fr p] |];
    cbn [Py.bind] in Hr; [| discriminate].
  injection Hr as <-. cbn [locked score lock_offset].
  repeat split; lia.
Qed.

End SyncLock.

Section SyncLockFlag.
Import Constants FrameSync.

(** [locked] is [best_score >= LOCK_THRESHOLD]. *)
Lemma sync_locked_score (bits : list Z) (t : track) (m : Z)
  (r : SyncResult) :
  sync_frames bits t m = Py.Ok r ->
  locked r = (score r >=? 3).
Proof.
  unfold sync_frames.
  destruct (search_loop _ _ _ _ _) as [[bo bs] |]; cbn [Py.bind];
    [| discriminate].
  destruct (extract_loop _ _ _ _ _) as [[fr p] |]; cbn [Py.bind];
    [| discriminate].
  intros H. injection H as <-. reflexivity.
Qed.

End SyncLockFlag.

(** C3, as the code has it.  The candidates are the offsets below
    [min(500, total - 3 * frame_bits)], so the search needs room for three
    frames.  For every track and every stream of [K] clean frames: when
    [K >= 4], [sync_frames] returns lock offset 0, score [min(3, K) = 3] and
    [locked = true]; when [K <= 2] no candidate is tried and it returns lock
    offset 0, score 0 and [locked = false].  In every result [locked] holds
    exactly when the score is at least 3. *)
Theorem C3_sync_clean_frames :
  forall (t : Constants.track) (k : Z) (bits : list Z),
    Frames.clean_frames t k bits ->
    exists r,
      FrameSync.sync_frames bits t FrameSync.default_max_search_bits = Py.Ok r /\
      FrameSync.lock_offset r = 0 /\
      (FrameSync.locked r = true <-> 3 <= FrameSync.score r) /\
      (4 <= k -> FrameSync.score r = Z.min 3 k /\ FrameSync.locked r = true) /\
      (k <= 2 -> FrameSync.score r = 0 /\ FrameSync.locked r = false).
Proof.
  intros t k bits Hclean.
  destruct (sync_frames_total bits t FrameSync.default_max_search_bits)
    as [r Hr].
  exists r. split; [exact Hr |].
  assert (Hflag : FrameSync.locked r = true <-> 3 <= FrameSync.score r).
  { rewrite (sync_locked_score _ _ _ _ Hr). lia. }
  assert (Hfb : 0 < FrameSync.frame_bits_of t) by (destruct t; reflexivity).
  destruct (Z_le_gt_dec 4 k) as [Hbig | Hsmall].
  - destruct (sync_clean_stream_locks t k bits Hbig Hclean)
      as (r' & Hr' & Hl & Hs & Ho).
    rewrite Hr in Hr'. apply Ok_inj in Hr'. subst r'.
    repeat split; try tauto; try lia.
  - destruct (sync_short_stream bits t FrameSync.default_max_search_bits)
      as (r' & Hr' & Hl & Hs & Ho).
    { destruct Hclean as [Hlen _]. nia. }
    rewrite Hr in Hr'. apply Ok_inj in Hr'. subst r'.
    repeat split; try tauto; try lia.
Qed.

Lemma C3_sync_clean_frames_witness :
  Frames.clean_frames Constants.TD 4 (repeat 0 376) /\
  exists r,
    FrameSync.sync_frames (repeat 0 376) Constants.TD
      FrameSync.default_max_search_bits = Py.Ok r /\
    FrameSync.lock_offset r = 0 /\
    FrameSync.score r = 3 /\
    FrameSync.locked r = true.
Proof.
  assert (Hclean : Frames.clean_frames Constants.TD 4 (repeat 0 376)).
  { split; [reflexivity |].
    intros j bi Hj Hbi.
    assert (Hin := blank_indices_in_frame Constants.TD).
    rewrite Forall_forall in Hin. specialize (Hin bi Hbi).
    change (FrameSync.frame_bits_of Constants.TD) with 94 in *.
    rewrite nth_error_repeat; [reflexivity | lia]. }
  split; [exact Hclean |].
  destruct (C3_sync_clean_frames Constants.TD 4 (repeat 0 376) Hclean)
    as (r & Hr & Ho & _ & Hbig & _).
  exists r. split; [exact Hr |]. split; [exact Ho |].
  destruct (Hbig ltac:(lia)) as [Hs Hl]. split; [exact Hs | exact Hl].
Defined.

(** C3 as stated fails: one clean frame (K = 1) leaves no room for three
    frames, no candidate is tried, and the score is 0, not min(3, 1) = 1. *)
Lemma C3_counterexample_one_frame :
  Frames.clean_frames Constants.TD 1 (repeat 0 94) /\
  exists r,
    FrameSync.sync_frames (repeat 0 94) Constants.TD
      FrameSync.default_max_search_bits = Py.Ok r /\
    FrameSync.score r = 0 /\
    FrameSync.score r <> Z.min 3 1.
Proof.
  split.
  - split; [reflexivity |].
    intros j bi Hj Hbi.
    assert (Hin := blank_indices_in_frame Constants.TD).
    rewrite Forall_forall in Hin. specialize (Hin bi Hbi).
    change (FrameSync.frame_bits_of Constants.TD) with 94 in *.
    rewrite nth_error_repeat; [reflexivity | lia].
  - assert (H :
      Py.bind (FrameSync.sync_frames (repeat 0 94) Constants.TD
                 FrameSync.default_max_search_bits)
        (fun r => Py.Ok (FrameSync.score r)) = Py.Ok 0)
      by (vm_compute; reflexivity).
    destruct (FrameSync.sync_frames (repeat 0 94) Constants.TD
                FrameSync.default_max_search_bits) as [r | e];
      [| discriminate H].
    unfold Py.bind in H. apply Ok_inj in H.
    exists r. split; [reflexivity |]. split; [exact H |].
    rewrite H. discriminate.
Qed.

(** Exactly three clean frames of either track (all bits 0): the bound
    [total - 3 * frame_bits] is 0 and excludes offset 0, at which three
    frames fit; no candidate is tried, and [sync_frames] returns score 0 and
    no lock, although all three extracted frames pass the blank-bit check. *)
Lemma three_clean_frames_do_not_lock :
  forall t : Constants.track,
    let bits := repeat 0 (Z.to_nat (3 * FrameSync.frame_bits_of t)) in
    Frames.clean_frames t 3 bits /\
    exists r,
      FrameSync.sync_frames bits t FrameSync.default_max_search_bits = Py.Ok r /\
      FrameSync.locked r = false /\
      FrameSync.score r = 0 /\
      FrameSync.lock_offset r = 0 /\
      map FrameSync.blank_ok (FrameSync.frames r) = [true; true; true].
Proof.
  intros t bits. split.
  - split; [destruct t; reflexivity |].
    intros j bi Hj Hbi. unfold bits.
    assert (Hin := blank_indices_in_frame t).
    rewrite Forall_forall in Hin. specialize (Hin bi Hbi).
    assert (Hfb : 0 < FrameSync.frame_bits_of t) by (destruct t; reflexivity).
    rewrite nth_error_repeat; [reflexivity | nia].
  - assert (H :
      Py.bind (FrameSync.sync_frames bits t FrameSync.default_max_search_bits)
        (fun r => Py.Ok (FrameSync.locked r, FrameSync.score r,
                         FrameSync.lock_offset r,
                         map FrameSync.blank_ok (FrameSync.frames r)))
      = Py.Ok (false, 0, 0, [true; true; true]))
      by (destruct t; vm_compute; reflexivity).
    destruct (FrameSync.sync_frames bits t FrameSync.default_max_search_bits)
      as [r | e]; [| discriminate H].
    unfold Py.bind in H. apply Ok_inj in H.
    exists r. split; [reflexivity |].
    injection H as -> -> -> ->. auto.
Qed.

(** ** The signal-code array *)

Section SignalData.
Import RshwBuilder Signal.

Lemma append_set_bits_codes (frame : list Z) :
  forall acc i offset,
    append_set_bits acc i offset frame = acc ++ codes_from i offset frame.
Proof.
  induction frame as [| v tl IH]; intros acc i offset;
    cbn [append_set_bits codes_from].
  - rewrite app_nil_r. reflexivity.
  - rewrite IH. destruct (Py.truthy v); cbn [app].
    + rewrite <- app_assoc. reflexivity.
    + reflexivity.
Qed.

Lemma append_frame_at_codes (acc : list Z) (frames : list (list Z))
  (idx offset : Z) :
  append_frame_at acc frames idx offset =
    (frame <- frame_active_at frames idx ;;
     Py.Ok (acc ++ codes_from 0 offset frame)).
Proof.
  unfold append_frame_at, frame_active_at.
  destruct (idx <? Z.of_nat (length frames)).
  - destruct (Py.getitem frames idx); cbn [Py.bind]; [| reflexivity].
    rewrite append_set_bits_codes. reflexivity.
  - cbn [Py.bind codes_from]. rewrite app_nil_r. reflexivity.
Qed.

Variable td_frames bd_frames : list (list Z).

Lemma frame_body_group (acc : list Z) (n : Z) :
  frame_body td_frames bd_frames _RSHW_FPS
    (PrimFloat.div (Py.float_of_Z 94) (Py.float_of_Z 4800))
    (PrimFloat.div (Py.float_of_Z 96) (Py.float_of_Z 4800)) acc n =
    (g <- group td_frames bd_frames n ;; Py.Ok (acc ++ g)).
Proof.
  unfold frame_body, group, frame_index_at, time_at, Py.true_div,
    Py.float_div, _RSHW_FPS.
  change (60 =? 0) with false. cbv iota. cbn [Py.bind].
  replace (PrimFloat.eqb
             (PrimFloat.div (Py.float_of_Z 94) (Py.float_of_Z 4800))
             PrimFloat.zero) with false by (vm_compute; reflexivity).
  replace (PrimFloat.eqb
             (PrimFloat.div (Py.float_of_Z 96) (Py.float_of_Z 4800))
             PrimFloat.zero) with false by (vm_compute; reflexivity).
  cbn [Py.bind].
  destruct (Py.int_of_float _) as [td_idx |]; cbn [Py.bind]; [| reflexivity].
  rewrite append_frame_at_codes.
  destruct (frame_active_at td_frames td_idx) as [td |]; cbn [Py.bind];
    [| reflexivity].
  destruct (Py.int_of_float _) as [bd_idx |]; cbn [Py.bind]; [| reflexivity].
  rewrite append_frame_at_codes.
  destruct (frame_active_at bd_frames bd_idx) as [bd |]; cbn [Py.bind];
    [| reflexivity].
  rewrite <- !app_assoc. reflexivity.
Qed.

Lemma frames_loop_groups (nums : list Z) :
  forall acc,
    frames_loop td_frames bd_frames _RSHW_FPS
      (PrimFloat.div (Py.float_of_Z 94) (Py.float_of_Z 4800))
      (PrimFloat.div (Py.float_of_Z 96) (Py.float_of_Z 4800)) acc nums =
      (gs <- Py.mapM (group td_frames bd_frames) nums ;;
       Py.Ok (acc ++ concat gs)).
Proof.
  induction nums as [| n tl IH]; intros acc; cbn [frames_loop Py.mapM].
  - cbn [Py.bind concat]. rewrite app_nil_r. reflexivity.
  - rewrite frame_body_group.
    destruct (group td_frames bd_frames n) as [g |]; cbn [Py.bind];
      [| reflexivity].
    rewrite IH.
    destruct (Py.mapM (group td_frames bd_frames) tl) as [gs |];
      cbn [Py.bind concat]; [| reflexivity].
    rewrite <- app_assoc. reflexivity.
Qed.

End SignalData.

Section MapMFacts.

Lemma mapM_length {A B : Type} (f : A -> Py.res B) (l : list A) (r : list B) :
  Py.mapM f l = Py.Ok r -> length r = length l.
Proof.
  revert r. induction l as [| x tl IH]; intros r; cbn [Py.mapM].
  - intros H. injection H as <-. reflexivity.
  - destruct (f x) as [y |]; cbn [Py.bind]; [| discriminate].
    destruct (Py.mapM f tl) as [ys |]; cbn [Py.bind]; [| discriminate].
    intros H. injection H as <-. cbn [length]. rewrite (IH ys eq_refl).
    reflexivity.
Qed.

End MapMFacts.

Lemma all_from_spec (p : Z -> bool) :
  forall (count : nat) (start n : Z),
    Signal.all_from count start p = true ->
    start <= n < start + Z.of_nat count ->
    p n = true.
Proof.
  induction count as [| count IH]; intros start n H Hn; [lia |].
  cbn [Signal.all_from] in H. apply andb_prop in H. destruct H as [H0 H].
  destruct (Z.eq_dec n start) as [-> | Hne]; [exact H0 |].
  apply (IH (start + 1)); [exact H | lia].
Qed.

Lemma index_near_exact_first_frames (bits : Z) :
  bits = 94 \/ bits = 96 ->
  Signal.all_from (Z.to_nat 3600) 0 (Signal.index_near_exact bits) = true.
Proof. intros [-> | ->]; vm_compute; reflexivity. Qed.

(** C9, as the code has it.  For all TD and BD frame lists and every
    duration, the signalData array is the concatenation of
    [int(duration * 60)] groups, one per output frame [n] at time
    [t = n / 60], in order; the group of frame [n] is the delimiter 0, then
    [bit_index + 1] for every set bit of the TD frame of index
    [int(t / (94 / 4800))], then [bit_index + 1 + 150] for every set bit of
    the BD frame of index [int(t / (96 / 4800))]; a track whose list does
    not reach that index contributes nothing.  All quotients are the
    binary64 operations of the code.  Over the first 3600 output frames
    (one minute) the index so computed is the exact floor of the
    specification, or one less at an output frame whose time falls exactly
    on a boundary between two bit-frames. *)
Theorem C9_signal_data_groups :
  forall (td_frames bd_frames : list (list Z)) (duration_seconds : float),
    RshwBuilder._build_signal_data td_frames bd_frames duration_seconds
      RshwBuilder._RSHW_FPS RshwBuilder._BAUD_RATE
      RshwBuilder._TD_FRAME_BITS RshwBuilder._BD_FRAME_BITS
    = (total <- Signal.group_count duration_seconds ;;
       groups <- Py.mapM (Signal.group td_frames bd_frames)
                   (FrameSync.range total) ;;
       Py.Ok (concat groups)) /\
    (forall total groups,
        Signal.group_count duration_seconds = Py.Ok total ->
        Py.mapM (Signal.group td_frames bd_frames) (FrameSync.range total)
          = Py.Ok groups ->
        length groups = Z.to_nat total /\
        Forall (fun g => exists codes, g = 0 :: codes) groups) /\
    (forall bits n,
        bits = 94 \/ bits = 96 -> 0 <= n < 3600 ->
        exists i,
          Signal.frame_index_at bits (Signal.time_at n) = Py.Ok i /\
          (i = Signal.exact_frame_index bits n \/
           (i = Signal.exact_frame_index bits n - 1 /\
            Signal.on_boundary bits n = true))).
Proof.
  intros td_frames bd_frames duration_seconds. split; [| split].
  - unfold RshwBuilder._build_signal_data, Signal.group_count, Py.true_div,
      RshwBuilder._TD_FRAME_BITS, RshwBuilder._BD_FRAME_BITS,
      RshwBuilder._BAUD_RATE.
    change (4800 =? 0) with false. cbv iota. cbn [Py.bind].
    change (Py.float_of_Z RshwBuilder._RSHW_FPS) with (Py.float_of_Z 60).
    destruct (Py.int_of_float _) as [total |]; cbn [Py.bind]; [| reflexivity].
    rewrite frames_loop_groups. reflexivity.
  - intros total groups _ Hgroups. split.
    + rewrite (mapM_length _ _ _ Hgroups). unfold FrameSync.range.
      rewrite length_map, length_seq. reflexivity.
    + revert groups Hgroups. generalize (FrameSync.range total) as nums.
      induction nums as [| n tl IH]; intros groups; cbn [Py.mapM].
      * intros H. injection H as <-. constructor.
      * destruct (Signal.group td_frames bd_frames n) as [g |] eqn:Eg;
          cbn [Py.bind]; [| discriminate].
        destruct (Py.mapM _ tl) as [gs |]; cbn [Py.bind]; [| discriminate].
        intros H. injection H as <-. constructor; [| apply IH; reflexivity].
        unfold Signal.group in Eg.
        destruct (Signal.frame_index_at 94 _); cbn [Py.bind] in Eg;
          [| discriminate].
        destruct (Signal.frame_active_at td_frames _); cbn [Py.bind] in Eg;
          [| discriminate].
        destruct (Signal.frame_index_at 96 _); cbn [Py.bind] in Eg;
          [| discriminate].
        destruct (Signal.frame_active_at bd_frames _); cbn [Py.bind] in Eg;
          [| discriminate].
        injection Eg as <-. eauto.
  - intros bits n Hbits Hn.
    assert (Hin : 0 <= n < 0 + Z.of_nat (Z.to_nat 3600))
      by (rewrite Z2Nat.id by lia; lia).
    pose proof (all_from_spec _ _ _ n
                  (index_near_exact_first_frames bits Hbits) Hin) as H.
    unfold Signal.index_near_exact in H.
    destruct (Signal.frame_index_at bits (Signal.time_at n)) as [i |];
      [| discriminate H].
    exists i. split; [reflexivity |].
    apply orb_prop in H. destruct H as [H | H].
    + left. apply Z.eqb_eq. exact H.
    + right. apply andb_prop in H. destruct H as [H1 H2].
      split; [apply Z.eqb_eq; exact H1 | exact H2].
Qed.

(** C9 as stated fails: with the exact index [floor(t / (96 / 4800))] the
    group of output frame 138 (t = 2.3 s) holds the code 152 of BD frame
    115, which starts at that instant; the code divides in binary64, gets
    index 114 and emits the code 151 of the frame before.  In the same way
    it reads TD frame 199 at output frame 235, where the exact index is
    200. *)
Lemma C9_counterexample_frame_boundary :
  Signal.group_count 2.32%float = Py.Ok 139 /\
  Signal.exact_frame_index 96 138 = 115 /\
  Signal.frame_index_at 96 (Signal.time_at 138) = Py.Ok 114 /\
  Signal.exact_frame_index 94 235 = 200 /\
  Signal.frame_index_at 94 (Signal.time_at 235) = Py.Ok 199 /\
  Signal.exact_signal_data [] Signal.boundary_bd_frames 139
  = Py.Ok (repeat 0 137 ++ [0; 151; 0; 152]) /\
  RshwBuilder._build_signal_data [] Signal.boundary_bd_frames 2.32%float
    RshwBuilder._RSHW_FPS RshwBuilder._BAUD_RATE
    RshwBuilder._TD_FRAME_BITS RshwBuilder._BD_FRAME_BITS
  = Py.Ok (repeat 0 137 ++ [0; 151; 0; 151]) /\
  RshwBuilder._build_signal_data [] Signal.boundary_bd_frames 2.32%float
    RshwBuilder._RSHW_FPS RshwBuilder._BAUD_RATE
    RshwBuilder._TD_FRAME_BITS RshwBuilder._BD_FRAME_BITS
  <> Signal.exact_signal_data [] Signal.boundary_bd_frames 139.
Proof.
  repeat split; try (vm_compute; reflexivity).
  intros H. vm_compute in H. discriminate H.
Qed.

Lemma C9_signal_data_groups_witness :
  RshwBuilder._build_signal_data [[1; 0; 1]; [0; 1]] [[1; 1]] 0.05%float
    RshwBuilder._RSHW_FPS RshwBuilder._BAUD_RATE
    RshwBuilder._TD_FRAME_BITS RshwBuilder._BD_FRAME_BITS
  = Py.Ok [0; 1; 3; 151; 152; 0; 1; 3; 151; 152; 0; 2] /\
  Signal.group_count 0.05%float = Py.Ok 3 /\
  Py.mapM (Signal.group [[1; 0; 1]; [0; 1]] [[1; 1]]) (FrameSync.range 3)
    = Py.Ok [[0; 1; 3; 151; 152]; [0; 1; 3; 151; 152]; [0; 2]] /\
  length [[0; 1; 3; 151; 152]; [0; 1; 3; 151; 152]; [0; 2]] = Z.to_nat 3.
Proof.
  destruct (C9_signal_data_groups [[1; 0; 1]; [0; 1]] [[1; 1]] 0.05%float)
    as (Heq & Hgroups & _).
  split; [rewrite Heq; vm_compute; reflexivity |].
  split; [vm_compute; reflexivity |].
  split; [vm_compute; reflexivity |].
  apply (Hgroups 3 [[0; 1; 3; 151; 152]; [0; 1; 3; 151; 152]; [0; 2]]);
    vm_compute; reflexivity.
Defined.

(** ** The conformance verdict *)

Section ViolationCount.
Import Figures.

Lemma violations_none (f : figures) :
  (violations f =? 0)%nat = true <-> meets_all f.
Proof.
  unfold violations, meets_all, lock_missed.
  destruct (error_rate_exceeded f); destruct (blank_rate_short f);
    destruct (Z.ltb_spec (lock_score f) 3); cbn; intuition (lia || congruence).
Qed.

End ViolationCount.

Section Verdict.
Import Constants HardwareSim Figures.

Variable fmt_2f fmt_1f : float -> string.
Variable sr : Z.
Variable tolerance : float.
Variable data : track -> list Z.

Lemma names_track_intro (trk : track) (rest : string) :
  names_track trk (track_name trk ++ ": " ++ rest)%string.
Proof. exists rest. reflexivity. Qed.

(** One track: the body of the loop appends one reason per violated
    threshold, each naming the track, and clears the verdict iff there is
    one. *)
Lemma track_body_figures (st st' : sim_state) (trk : track) :
  track_body fmt_2f fmt_1f sr tolerance data st trk = Py.Ok st' ->
  exists f,
    measure sr tolerance (data trk) trk = Py.Ok f /\
    is_locked f = negb (lock_missed f) /\
    exists rs,
      reasons st' = reasons st ++ rs /\
      length rs = violations f /\
      Forall (names_track trk) rs /\
      verdict_pass st' = verdict_pass st && (violations f =? 0)%nat.
Proof.
  unfold track_body, measure.
  destruct (Decoder.init sr BAUD_RATE tolerance 200) as [dec |];
    cbn [Py.bind]; [| discriminate].
  destruct (Decoder.decode dec (data trk)) as [bits_decoded decode_errors].
  cbn [fst snd]. unfold Py.true_div at 1.
  replace (Z.max _ 1 =? 0) with false by lia. cbn [Py.bind].
  change FrameSync.default_max_search_bits with 500.
  destruct (FrameSync.sync_frames (map Decoder.bit bits_decoded) trk 500)
    as [sync |] eqn:Hsync; cbn [Py.bind]; [| discriminate].
  pose proof (sync_locked_score _ _ _ _ Hsync) as Hlocked.
  unfold Py.true_div. replace (Z.max _ 1 =? 0) with false by lia.
  cbn [Py.bind].
  intros H. apply Ok_inj in H. subst st'.
  eexists. split; [reflexivity |].
  unfold violations, error_rate_exceeded, blank_rate_short, lock_missed,
    count_blank_ok, rate.
  cbn [error_rate blank_ok_rate lock_score is_locked].
  change MAX_ERROR_RATE with 0.02%float.
  change MIN_BLANK_BIT_RATE with 0.98%float.
  split; [rewrite Hlocked; lia |].
  replace (negb (FrameSync.locked sync)) with (FrameSync.score sync <? 3)
    by (rewrite Hlocked; lia).
  destruct (PrimFloat.ltb 0.02 _); destruct (FrameSync.score sync <? 3);
    destruct (PrimFloat.ltb _ 0.98);
    cbn [fail_with reasons verdict_pass count Nat.add Nat.eqb];
    rewrite <- ?app_assoc; cbn [app]; eexists;
    (split; [first [reflexivity | symmetry; apply app_nil_r] |]);
    (split; [reflexivity |]);
    (split; [repeat constructor; apply names_track_intro |]);
    rewrite ?andb_true_r, ?andb_false_r; reflexivity.
Qed.

End Verdict.

(** C8.  Running both tracks: the verdict is PASS iff on both tracks the
    error rate [errors / (bits + errors)] is not above 0.02, the blank rate
    [passing / total] is not below 0.98, and the lock score is at least 3
    (which is what [locked] says); and the reasons are, in order, those of
    TD then those of BD, one reason per violated threshold, each opening
    with the name of its track. *)
Theorem C8_verdict_and_reasons :
  forall (fmt_2f fmt_1f : float -> string) (sr : Z) (tolerance : float)
         (data : Constants.track -> list Z) (st : HardwareSim.sim_state),
    HardwareSim.run_sim fmt_2f fmt_1f sr tolerance data HardwareSim.BOTH
      = Py.Ok st ->
    exists ftd fbd rtd rbd,
      Figures.measure sr tolerance (data Constants.TD) Constants.TD = Py.Ok ftd /\
      Figures.measure sr tolerance (data Constants.BD) Constants.BD = Py.Ok fbd /\
      (Figures.is_locked ftd = true <-> 3 <= Figures.lock_score ftd) /\
      (Figures.is_locked fbd = true <-> 3 <= Figures.lock_score fbd) /\
      (HardwareSim.verdict_pass st = true <->
         Figures.meets_all ftd /\ Figures.meets_all fbd) /\
      HardwareSim.reasons st = rtd ++ rbd /\
      length rtd = Figures.violations ftd /\
      length rbd = Figures.violations fbd /\
      Forall (Figures.names_track Constants.TD) rtd /\
      Forall (Figures.names_track Constants.BD) rbd.
Proof.
  intros fmt_2f fmt_1f sr tolerance data st Hrun.
  unfold HardwareSim.run_sim in Hrun.
  cbn [HardwareSim.tracks_to_run HardwareSim.tracks_loop] in Hrun.
  destruct (HardwareSim.track_body _ _ _ _ _ _ Constants.TD)
    as [st1 |] eqn:Htd; cbn [Py.bind] in Hrun; [| discriminate].
  destruct (HardwareSim.track_body _ _ _ _ _ st1 Constants.BD)
    as [st2 |] eqn:Hbd; cbn [Py.bind] in Hrun; [| discriminate].
  apply Ok_inj in Hrun. subst st2.
  destruct (track_body_figures _ _ _ _ _ _ _ _ Htd)
    as (ftd & Hmtd & Hltd & rtd & Hrtd & Hntd & Hftd & Hvtd).
  destruct (track_body_figures _ _ _ _ _ _ _ _ Hbd)
    as (fbd & Hmbd & Hlbd & rbd & Hrbd & Hnbd & Hfbd & Hvbd).
  exists ftd, fbd, rtd, rbd.
  split; [exact Hmtd |]. split; [exact Hmbd |].
  split; [rewrite Hltd; unfold Figures.lock_missed; lia |].
  split; [rewrite Hlbd; unfold Figures.lock_missed; lia |].
  split.
  - rewrite Hvbd, Hvtd. cbn [HardwareSim.verdict_pass andb].
    rewrite andb_true_iff, !violations_none. reflexivity.
  - rewrite Hrbd, Hrtd. cbn [HardwareSim.reasons app]. auto.
Qed.

Lemma C8_verdict_and_reasons_witness :
  exists st,
    HardwareSim.run_sim (fun _ => "") (fun _ => "") 44100
      Decoder.TOLERANCE_FACTOR
      (fun t => fst (Encoder.encode_bits (Encoder.init Constants.BMC_LOW)
                       (repeat 0 (Z.to_nat (4 * FrameSync.frame_bits_of t)))))
      HardwareSim.BOTH = Py.Ok st /\
    exists ftd fbd,
      (HardwareSim.verdict_pass st = true <->
         Figures.meets_all ftd /\ Figures.meets_all fbd) /\
      length (HardwareSim.reasons st)
        = (Figures.violations ftd + Figures.violations fbd)%nat.
Proof.
  destruct (HardwareSim.run_sim (fun _ => "") (fun _ => "") 44100
              Decoder.TOLERANCE_FACTOR
              (fun t => fst (Encoder.encode_bits (Encoder.init Constants.BMC_LOW)
                               (repeat 0 (Z.to_nat (4 * FrameSync.frame_bits_of t)))))
              HardwareSim.BOTH) as [st | e] eqn:E.
  - exists st. split; [reflexivity |].
    destruct (C8_verdict_and_reasons _ _ _ _ _ _ E)
      as (ftd & fbd & rtd & rbd & _ & _ & _ & _ & Hv & Hr & Hn1 & Hn2 & _).
    exists ftd, fbd. split; [exact Hv |].
    rewrite Hr, length_app, Hn1, Hn2. reflexivity.
  - vm_compute in E. discriminate E.
Defined.

(** ** The inlined scheduler never tears a frame *)

Section BridgeEncoder.
Import Constants Frames.

Lemma bridge_encode_bit (enc : Encoder.BMCEncoder) (b : Z) :
  ExportBridge.encode_bit (to_bridge enc) b =
    (fst (Encoder.encode_bit enc b), to_bridge (snd (Encoder.encode_bit enc b))).
Proof.
  unfold ExportBridge.encode_bit, Encoder.encode_bit.
  destruct (Py.truthy b); reflexivity.
Qed.

Lemma bridge_encode_loop (bits : list Z) :
  forall enc acc,
    ExportBridge.encode_frame_loop (to_bridge enc) bits acc =
      (fst (Encoder.encode_loop enc bits acc),
       to_bridge (snd (Encoder.encode_loop enc bits acc))).
Proof.
  induction bits as [| b tl IH]; intros enc acc;
    cbn [ExportBridge.encode_frame_loop Encoder.encode_loop]; [reflexivity |].
  rewrite bridge_encode_bit.
  destruct (Encoder.encode_bit enc b) as [s enc']. cbn [fst snd].
  apply IH.
Qed.

(** The inlined encoder emits what [BMCEncoder] emits. *)
Lemma bridge_encode_frame (enc : Encoder.BMCEncoder) (frame : list Z) :
  ExportBridge.encode_frame (to_bridge enc) frame =
    (fst (Encoder.encode_frame enc frame),
     to_bridge (snd (Encoder.encode_frame enc frame))).
Proof. apply bridge_encode_loop. Qed.

Lemma expand_length (bits : list Z) :
  forall l,
    Z.of_nat (length (Aux.expand (Aux.blocks l bits)))
      = SAMPLES_PER_BIT * Z.of_nat (length bits).
Proof.
  induction bits as [| b tl IH]; intros l; cbn [Aux.blocks]; [reflexivity |].
  destruct (Py.truthy b); cbn [Aux.expand length];
    rewrite ?length_app; unfold Encoder.times; rewrite ?repeat_length;
    rewrite ?Nat2Z.inj_add, ?IH;
    change SAMPLES_PER_BIT with 9; change BMC_HALF_A with 4;
    change BMC_HALF_B with 5; cbn [length]; lia.
Qed.

Lemma expand_levels (bl : list (Z * Z)) :
  forall prev, Aux.alternating prev bl -> Forall Aux.is_level (Aux.expand bl).
Proof.
  induction bl as [| [v n] tl IH]; intros prev Halt; cbn [Aux.expand];
    [constructor |].
  cbn [Aux.alternating] in Halt. destruct Halt as (_ & Hv & _ & Htl).
  apply Forall_app. split; [| apply (IH v Htl)].
  unfold Encoder.times. apply Forall_forall. intros x Hx.
  apply repeat_spec in Hx. subst x. exact Hv.
Qed.

Lemma to_raw_bytes_levels (samples : list Z) :
  Forall Aux.is_level samples ->
  exists bytes,
    Encoder.to_raw_bytes samples = Py.Ok bytes /\
    Z.of_nat (length bytes) = 2 * Z.of_nat (length samples).
Proof.
  induction 1 as [| s tl Hs _ (bytes & Hb & Hlen)]; cbn [Encoder.to_raw_bytes].
  - exists []. split; reflexivity.
  - rewrite Hb.
    destruct Hs as [-> | ->]; cbn [Py.bind];
      eexists; (split; [reflexivity |]); cbn [length app]; lia.
Qed.

(** Encoding a frame always packs, into two bytes per sample and nine
    samples per bit. *)
Lemma encode_frame_bytes (enc : Encoder.BMCEncoder) (frame : list Z) :
  exists bytes,
    Encoder.to_raw_bytes (fst (Encoder.encode_frame enc frame)) = Py.Ok bytes /\
    Z.of_nat (length bytes) = 2 * (SAMPLES_PER_BIT * Z.of_nat (length frame)).
Proof.
  unfold Encoder.encode_frame. rewrite encode_bits_blocks. cbn [fst].
  destruct (to_raw_bytes_levels _
              (expand_levels _ _ (blocks_alternating frame (Encoder._level enc))))
    as (bytes & Hb & Hlen).
  exists bytes. split; [exact Hb |]. rewrite Hlen, expand_length. reflexivity.
Qed.

End BridgeEncoder.

Section BridgeScheduler.
Import Constants Frames.

Lemma slice_whole {A : Type} (l : list A) (n : Z) :
  n = Z.of_nat (length l) -> Py.slice l 0 n = l.
Proof.
  intros ->. unfold Py.slice. rewrite !clamp_inside by lia.
  cbn [skipn Z.to_nat]. rewrite Z.sub_0_r, Nat2Z.id. apply firstn_all.
Qed.

(** Assigning [data] right after a prefix: the prefix stays, [data] takes
    the place of as many bytes as it has, and the bytearray grows when there
    are fewer left. *)
Lemma slice_assign_after {A : Type} (pre rest data : list A) (a b : Z) :
  a = Z.of_nat (length pre) ->
  b = a + Z.of_nat (length data) ->
  Py.slice_assign (pre ++ rest) a b data
    = pre ++ data ++ skipn (length data) rest.
Proof.
  intros -> ->. unfold Py.slice_assign, Py.clamp.
  rewrite length_app.
  pose proof (Nat2Z.is_nonneg (length pre)) as Hpre.
  pose proof (Nat2Z.is_nonneg (length data)) as Hdata.
  replace (Z.of_nat (length pre) <? 0) with false by lia.
  replace (Z.of_nat (length pre) + Z.of_nat (length data) <? 0) with false
    by lia.
  rewrite Z.min_l by lia. rewrite Nat2Z.id.
  rewrite firstn_app, Nat.sub_diag, firstn_all. cbn [firstn].
  rewrite app_nil_r. f_equal. f_equal.
  destruct (Z_le_gt_dec (Z.of_nat (length data)) (Z.of_nat (length rest)))
    as [Hle | Hgt].
  - rewrite Z.min_l, Z.max_r by lia.
    rewrite skipn_app.
    replace (Z.to_nat _ - length pre)%nat with (length data) by lia.
    rewrite skipn_all2 by lia. reflexivity.
  - rewrite Z.min_r, Z.max_r by lia.
    rewrite Nat2Z.id, <- length_app, skipn_all.
    rewrite skipn_all2 by lia. reflexivity.
Qed.

Lemma concat_whole_length (t : track) (ws : list (list Z)) :
  Forall (whole_frame t) ws ->
  Z.of_nat (length (concat ws)) = 2 * (frame_samples_of t * Z.of_nat (length ws)).
Proof.
  induction 1 as [| w tl [Hw _] _ IH]; [cbn [concat length]; lia |].
  cbn [concat length]. rewrite length_app. lia.
Qed.

Lemma bridge_frame_samps (t : track) (self : ExportBridge._FrameBuilder) :
  bridge_of t self -> ExportBridge._frame_samps self = frame_samples_of t.
Proof. intros ->. destruct t; reflexivity. Qed.

Lemma frame_samples_positive (t : track) : 0 < frame_samples_of t.
Proof. destruct t; reflexivity. Qed.

(** One pass of the fill loop between two frame boundaries appends whole
    frames only. *)
Lemma bridge_fill_loop_written (t : track) (total : Z)
  (self : ExportBridge._FrameBuilder) (fuel : nat) :
  bridge_of t self ->
  Z.of_nat (length (ExportBridge._frame self)) = FrameSync.frame_bits_of t ->
  forall st pos end_ st' pos' ws m,
    end_ = frame_samples_of t * m ->
    written t total ws (ExportBridge.output st) pos ->
    ExportBridge.fill_loop fuel self st pos end_ = Py.Ok (st', pos') ->
    exists ws', written t total ws' (ExportBridge.output st') pos'.
Proof.
  intros Hself Hframe. pose proof (frame_samples_positive t) as Hfs.
  induction fuel as [| fuel IH];
    intros st pos end_ st' pos' ws m Hend Hw; cbn [ExportBridge.fill_loop].
  - intros H. apply Ok_inj in H. injection H as <- <-. eauto.
  - destruct (Z.ltb_spec pos end_) as [Hlt | Hge].
    2:{ intros H. apply Ok_inj in H. injection H as <- <-. eauto. }
    destruct st as [out [lvl] log]. cbn [ExportBridge.output ExportBridge.enc
      ExportBridge.encoded] in *.
    change {| ExportBridge._level := lvl |}
      with (to_bridge {| Encoder._level := lvl |}).
    rewrite bridge_encode_frame.
    destruct (encode_frame_bytes {| Encoder._level := lvl |}
                (ExportBridge._frame self)) as (bytes & Hbytes & Hlen).
    unfold ExportBridge.pack. rewrite Hbytes. cbn [Py.bind].
    rewrite (bridge_frame_samps t self Hself).
    destruct Hw as (Hpos & Hall & rest & Hout & Hrest).
    assert (Hlenb : Z.of_nat (length bytes) = 2 * frame_samples_of t).
    { rewrite Hlen, Hframe. unfold frame_samples_of. lia. }
    assert (Hmin : Z.min (frame_samples_of t) (end_ - pos) = frame_samples_of t).
    { apply Z.min_l. subst pos end_.
      assert (Hk : Z.of_nat (length ws) < m) by nia.
      assert (Hk' : 1 <= m - Z.of_nat (length ws)) by lia.
      replace (frame_samples_of t * m - frame_samples_of t * Z.of_nat (length ws))
        with (frame_samples_of t * (m - Z.of_nat (length ws))) by ring.
      nia. }
    rewrite Hmin. rewrite slice_whole by lia.
    apply (IH _ _ _ _ _ (ws ++ [bytes]) m Hend).
    cbn [ExportBridge.output]. split; [| split].
    + rewrite length_app. cbn [length]. lia.
    + apply Forall_app. split; [exact Hall |].
      constructor; [| constructor]. split; [exact Hlenb |].
      exists {| Encoder._level := lvl |}, (ExportBridge._frame self).
      split; [exact Hframe | exact Hbytes].
    + exists (skipn (length bytes) rest). split.
      * rewrite Hout.
        rewrite (slice_assign_after (concat ws) rest bytes).
        -- rewrite concat_app. cbn [concat]. rewrite app_nil_r, <- app_assoc.
           reflexivity.
        -- rewrite (concat_whole_length t ws Hall). lia.
        -- lia.
      * rewrite length_skipn. lia.
Qed.

Lemma bridge_fill_loop_reaches_end (self : ExportBridge._FrameBuilder)
  (fuel : nat) :
  0 < ExportBridge._frame_samps self ->
  forall st pos end_ st' pos',
    (Z.to_nat (end_ - pos) <= fuel)%nat ->
    ExportBridge.fill_loop fuel self st pos end_ = Py.Ok (st', pos') ->
    pos' = Z.max pos end_.
Proof.
  intros Hfs. induction fuel as [| fuel IH];
    intros st pos end_ st' pos' Hfuel; cbn [ExportBridge.fill_loop].
  - intros H. injection H as _ <-. lia.
  - destruct (Z.ltb_spec pos end_) as [Hlt | Hge].
    + destruct (ExportBridge.encode_frame _ _) as [pcm enc'].
      destruct (ExportBridge.pack pcm) as [bytes |]; cbn [Py.bind];
        [| discriminate].
      intros H. apply IH in H; [| lia]. lia.
    + intros H. injection H as _ <-. lia.
Qed.

(** [_fill] between two frame boundaries. *)
Lemma bridge_fill_written (t : track) (total : Z)
  (self : ExportBridge._FrameBuilder) (st st' : ExportBridge.stream)
  (start end_ : Z) (ws : list (list Z)) (m : Z) :
  bridge_of t self ->
  Z.of_nat (length (ExportBridge._frame self)) = FrameSync.frame_bits_of t ->
  end_ = frame_samples_of t * m ->
  written t total ws (ExportBridge.output st) start ->
  ExportBridge._fill self st start end_ = Py.Ok st' ->
  exists ws', written t total ws' (ExportBridge.output st') (Z.max start end_).
Proof.
  intros Hself Hframe Hend Hw. unfold ExportBridge._fill.
  destruct (Z.geb_spec start end_) as [Hge | Hlt].
  - intros H. apply Ok_inj in H. subst st'.
    rewrite Z.max_l by lia. eauto.
  - destruct (ExportBridge.fill_loop _ self st start end_)
      as [[st1 pos1] |] eqn:E; cbn [Py.bind]; [| discriminate].
    intros H. apply Ok_inj in H. subst st1.
    pose proof (bridge_fill_loop_reaches_end self _
                  ltac:(rewrite (bridge_frame_samps t self Hself);
                        apply frame_samples_positive)
                  _ _ _ _ _ (le_n _) E) as Hpos1.
    subst pos1.
    eapply bridge_fill_loop_written; eassumption.
Qed.

End BridgeScheduler.

Section BridgeBuild.
Import Constants Frames.

Lemma bridge_set_channel_frame (t : track)
  (self self' : ExportBridge._FrameBuilder) (ch : string) (a : bool) :
  bridge_of t self ->
  Z.of_nat (length (ExportBridge._frame self)) = FrameSync.frame_bits_of t ->
  ExportBridge.set_channel self ch a = Py.Ok self' ->
  bridge_of t self' /\
  Z.of_nat (length (ExportBridge._frame self')) = FrameSync.frame_bits_of t.
Proof.
  intros Hself Hlen. unfold ExportBridge.set_channel.
  destruct (Py.lookup ch (ExportBridge._ch_map self)) as [bit_num |];
    [| discriminate].
  destruct (existsb _ _); [discriminate |].
  destruct (Py.setitem _ _ _) as [frame |] eqn:Hset; cbn [Py.bind];
    [| discriminate].
  intros H. apply Ok_inj in H. subst self'. split.
  - unfold bridge_of. rewrite Hself. reflexivity.
  - change (ExportBridge._frame (ExportBridge.with_frame self frame)) with frame.
    rewrite (setitem_length _ _ _ _ Hset). exact Hlen.
Qed.

Lemma bridge_events_written (t : track) (total : Z)
  (evs : list FrameBuilder.ChannelEvent) :
  forall self st cursor self' st' cursor' ws,
    bridge_of t self ->
    Z.of_nat (length (ExportBridge._frame self)) = FrameSync.frame_bits_of t ->
    written t total ws (ExportBridge.output st) cursor ->
    ExportBridge.events_loop self st cursor evs = Py.Ok (self', st', cursor') ->
    bridge_of t self' /\
    Z.of_nat (length (ExportBridge._frame self')) = FrameSync.frame_bits_of t /\
    exists ws', written t total ws' (ExportBridge.output st') cursor'.
Proof.
  induction evs as [| ev tl IH];
    intros self st cursor self' st' cursor' ws Hself Hlen Hw;
    cbn [ExportBridge.events_loop].
  - intros H. apply Ok_inj in H. injection H as <- <- <-. eauto.
  - destruct (ExportBridge.ev_sample_of ev) as [ev0 |]; cbn [Py.bind];
      [| discriminate].
    rewrite (bridge_frame_samps t self Hself).
    destruct (Z.leb_spec (ev0 / frame_samples_of t * frame_samples_of t) cursor)
      as [Hle | Hgt].
    + destruct (ExportBridge.set_channel self _ _) as [self1 |] eqn:Hset;
        cbn [Py.bind]; [| discriminate].
      destruct (bridge_set_channel_frame t _ _ _ _ Hself Hlen Hset)
        as [Hself1 Hlen1].
      apply (IH _ _ _ _ _ _ ws Hself1 Hlen1 Hw).
    + destruct (ExportBridge._fill self st cursor _) as [st1 |] eqn:Hfill;
        cbn [Py.bind]; [| discriminate].
      destruct (ExportBridge.set_channel self _ _) as [self1 |] eqn:Hset;
        cbn [Py.bind]; [| discriminate].
      destruct (bridge_set_channel_frame t _ _ _ _ Hself Hlen Hset)
        as [Hself1 Hlen1].
      destruct (bridge_fill_written t total self st st1 cursor
                  (ev0 / frame_samples_of t * frame_samples_of t) ws
                  (ev0 / frame_samples_of t) Hself Hlen
                  (Z.mul_comm _ _) Hw Hfill) as [ws1 Hw1].
      rewrite Z.max_r in Hw1 by lia.
      apply (IH _ _ _ _ _ _ ws1 Hself1 Hlen1 Hw1).
Qed.

Lemma round_up_multiple (fs n : Z) :
  0 < fs ->
  exists m,
    (if Py.truthy (n mod fs) then n + (fs - n mod fs) else n) = fs * m.
Proof.
  intros Hfs. unfold Py.truthy.
  pose proof (Z.div_mod n fs ltac:(lia)) as Hdm.
  destruct (Z.eqb_spec (n mod fs) 0) as [H0 | Hn0]; cbn [negb].
  - exists (n / fs). lia.
  - exists (n / fs + 1). lia.
Qed.

(** The output of the inlined scheduler is a sequence of whole frames. *)
Lemma bridge_build_whole_frames (t : track)
  (events : list FrameBuilder.ChannelEvent) (duration_seconds : float)
  (pcm : list Z) :
  ExportBridge.build (ExportBridge.init t) events duration_seconds = Py.Ok pcm ->
  exists ws, pcm = concat ws /\ Forall (whole_frame t) ws.
Proof.
  unfold ExportBridge.build, ExportBridge.build_trace.
  destruct (Py.int_of_float _) as [n |]; cbn [Py.bind]; [| discriminate].
  assert (Hself : bridge_of t (ExportBridge.clear_all (ExportBridge.init t)))
    by (destruct t; reflexivity).
  assert (Hlen : Z.of_nat (length (ExportBridge._frame
                   (ExportBridge.clear_all (ExportBridge.init t))))
                 = FrameSync.frame_bits_of t)
    by (destruct t; reflexivity).
  rewrite (bridge_frame_samps t _ Hself).
  destruct (round_up_multiple (frame_samples_of t) n (frame_samples_positive t))
    as [m Hm].
  rewrite Hm. remember (frame_samples_of t * m) as total eqn:Htotal.
  unfold FrameBuilder.bytearray.
  destruct (Z.ltb_spec (total * 2) 0) as [Hneg | Hpos]; cbn [Py.bind];
    [discriminate |].
  destruct (ExportBridge.sort_events events) as [sorted |]; cbn [Py.bind];
    [| discriminate].
  destruct (ExportBridge.events_loop _ _ 0 sorted) as [[[self1 st1] c1] |]
    eqn:Hloop; cbn [Py.bind]; [| discriminate].
  destruct (ExportBridge._fill self1 st1 c1 total) as [st2 |] eqn:Hfill;
    cbn [Py.bind]; [| discriminate].
  intros H. apply Ok_inj in H. subst pcm.
  assert (Hw0 : written t total []
                  (ExportBridge.output
                     {| ExportBridge.output := FrameBuilder.zeros (total * 2);
                        ExportBridge.enc := ExportBridge.new_encoder;
                        ExportBridge.encoded := [] |}) 0).
  { split; [cbn [length]; lia |]. split; [constructor |].
    exists (FrameBuilder.zeros (total * 2)). split; [reflexivity |].
    unfold FrameBuilder.zeros. rewrite repeat_length. lia. }
  destruct (bridge_events_written t total sorted _ _ _ _ _ _ _ Hself Hlen Hw0 Hloop)
    as (Hself1 & Hlen1 & ws1 & Hw1).
  destruct (bridge_fill_written t total self1 st1 st2 c1 total ws1 m
              Hself1 Hlen1 Htotal Hw1 Hfill)
    as (ws2 & _ & Hall2 & rest & Hout & Hrest).
  exists ws2. split; [| exact Hall2].
  destruct rest as [| x rest]; [| cbn [length] in Hrest; lia].
  rewrite Hout, app_nil_r. reflexivity.
Qed.

End BridgeBuild.

Section Windows.
Import Constants Frames.

Lemma slice_app_first {A : Type} (x r : list A) (n : Z) :
  n = Z.of_nat (length x) -> Py.slice (x ++ r) 0 n = x.
Proof.
  intros ->. unfold Py.slice, Py.clamp. rewrite length_app.
  pose proof (Nat2Z.is_nonneg (length x)).
  replace (0 <? 0) with false by reflexivity.
  replace (Z.of_nat (length x) <? 0) with false by lia.
  rewrite !Z.min_l by lia. cbn [Z.to_nat skipn].
  rewrite Z.sub_0_r, Nat2Z.id, firstn_app, Nat.sub_diag, firstn_all.
  cbn [firstn]. apply app_nil_r.
Qed.

Lemma slice_app_later {A : Type} (x r : list A) (a b : Z) :
  Z.of_nat (length x) <= a -> a <= b ->
  Py.slice (x ++ r) a b
    = Py.slice r (a - Z.of_nat (length x)) (b - Z.of_nat (length x)).
Proof.
  intros Ha Hab. unfold Py.slice, Py.clamp. rewrite length_app.
  pose proof (Nat2Z.is_nonneg (length x)).
  replace (a <? 0) with false by lia. replace (b <? 0) with false by lia.
  replace (a - Z.of_nat (length x) <? 0) with false by lia.
  replace (b - Z.of_nat (length x) <? 0) with false by lia.
  rewrite skipn_app, skipn_all2 by lia. cbn [app].
  f_equal; [lia |]. f_equal. lia.
Qed.

Lemma window_of_concat (width : Z) (ws : list (list Z)) :
  0 <= width ->
  Forall (fun w => Z.of_nat (length w) = 2 * width) ws ->
  forall i, 0 <= i < Z.of_nat (length ws) ->
    window width i (concat ws) = nth (Z.to_nat i) ws [].
Proof.
  intros Hwidth. induction 1 as [| x tl Hx _ IH]; intros i Hi;
    [cbn [length] in Hi; lia |].
  cbn [concat]. unfold window.
  destruct (Z.eq_dec i 0) as [-> | Hne].
  - cbn [Z.to_nat nth]. replace (0 * width * 2) with 0 by lia.
    apply slice_app_first. lia.
  - rewrite slice_app_later by nia.
    replace (i * width * 2 - Z.of_nat (length x)) with ((i - 1) * width * 2)
      by lia.
    replace ((i + 1) * width * 2 - Z.of_nat (length x))
      with ((i - 1 + 1) * width * 2) by lia.
    fold (window width (i - 1) (concat tl)).
    rewrite IH by (cbn [length] in Hi; lia).
    replace (Z.to_nat i) with (S (Z.to_nat (i - 1))) by lia. reflexivity.
Qed.

End Windows.

(** X1.  The inlined scheduler of export_bridge.py never tears a frame: whenever
    its [build] returns, the PCM stream is a whole number of frames long and
    every frame-aligned window of it is the encoding of one frame state. *)
Theorem bridge_build_never_tears :
  forall (t : Constants.track) (events : list FrameBuilder.ChannelEvent)
         (duration_seconds : float) (pcm : list Z),
    ExportBridge.build (ExportBridge.init t) events duration_seconds
      = Py.Ok pcm ->
    exists k,
      Z.of_nat (length pcm) = k * (2 * Frames.frame_samples_of t) /\
      forall w, 0 <= w < k ->
        Frames.encodes_one_frame t
          (Frames.window (Frames.frame_samples_of t) w pcm).
Proof.
  intros t events duration_seconds pcm Hbuild.
  destruct (bridge_build_whole_frames t events duration_seconds pcm Hbuild)
    as (ws & -> & Hall).
  exists (Z.of_nat (length ws)). split.
  - rewrite (concat_whole_length t ws Hall). lia.
  - intros w Hw.
    rewrite window_of_concat;
      [| pose proof (frame_samples_positive t); lia
       | eapply Forall_impl; [| exact Hall]; intros a [Ha _]; exact Ha
       | exact Hw].
    rewrite Forall_forall in Hall.
    apply (Hall (nth (Z.to_nat w) ws [])). apply nth_In. lia.
Qed.

Lemma bridge_build_never_tears_witness :
  exists pcm,
    ExportBridge.build (ExportBridge.init Constants.TD)
      [Frames.mid_frame_event] Frames.short_show = Py.Ok pcm /\
    Frames.encodes_one_frame Constants.TD
      (Frames.window (Frames.frame_samples_of Constants.TD) 0 pcm).
Proof.
  destruct (ExportBridge.build (ExportBridge.init Constants.TD)
              [Frames.mid_frame_event] Frames.short_show) as [pcm | e] eqn:E.
  - exists pcm. split; [reflexivity |].
    destruct (bridge_build_never_tears Constants.TD [Frames.mid_frame_event]
                Frames.short_show pcm E) as (k & Hk & Hw).
    apply Hw.
    assert (Hlen :
      Py.bind (ExportBridge.build (ExportBridge.init Constants.TD)
                 [Frames.mid_frame_event] Frames.short_show)
              (fun p => Py.Ok (Z.of_nat (length p))) = Py.Ok 1692)
      by (vm_compute; reflexivity).
    rewrite E in Hlen. unfold Py.bind in Hlen. apply Ok_inj in Hlen.
    rewrite Hlen in Hk.
    change (Frames.frame_samples_of Constants.TD) with 846 in Hk. lia.
  - vm_compute in E. discriminate E.
Defined.

(** ** The two schedulers on events that fall on frame boundaries *)

Section SchedulersAgree.
Import Constants Frames.

Lemma agree_init (t : track) :
  ExportBridge.init t = to_bridge_builder (FrameBuilder.init t).
Proof. destruct t; reflexivity. Qed.

Lemma agree_clear_all (self : FrameBuilder.FrameBuilder) :
  ExportBridge.clear_all (to_bridge_builder self)
    = to_bridge_builder (FrameBuilder.clear_all self).
Proof. reflexivity. Qed.

Lemma agree_set_channel (self : FrameBuilder.FrameBuilder) (ch : string)
  (a : bool) :
  ExportBridge.set_channel (to_bridge_builder self) ch a
    = res_map to_bridge_builder (FrameBuilder.set_channel self ch a).
Proof.
  unfold ExportBridge.set_channel, FrameBuilder.set_channel, FrameBuilder.mem.
  cbn [to_bridge_builder ExportBridge._ch_map ExportBridge._blank_bits
       ExportBridge._frame].
  destruct (Py.lookup ch (FrameBuilder._channel_map self)) as [bit |];
    [| reflexivity].
  destruct (existsb _ _); [reflexivity |].
  destruct (Py.setitem _ _ _); reflexivity.
Qed.

Lemma agree_fill_loop (self : FrameBuilder.FrameBuilder) (fuel : nat) :
  forall st pos end_,
    ExportBridge.fill_loop fuel (to_bridge_builder self) (to_bridge_stream st)
      pos end_
    = res_map (fun r => (to_bridge_stream (fst r), snd r))
        (FrameBuilder.fill_loop fuel self st pos end_).
Proof.
  induction fuel as [| fuel IH]; intros st pos end_;
    cbn [ExportBridge.fill_loop FrameBuilder.fill_loop]; [reflexivity |].
  destruct (pos <? end_); [| reflexivity].
  cbn [to_bridge_stream ExportBridge.enc to_bridge_builder ExportBridge._frame
       ExportBridge._frame_samps ExportBridge.output ExportBridge.encoded].
  rewrite bridge_encode_frame.
  destruct (Encoder.encode_frame (FrameBuilder.enc st) (FrameBuilder._frame self))
    as [pcm enc']. cbn [fst snd]. unfold ExportBridge.pack.
  destruct (Encoder.to_raw_bytes pcm) as [bytes |]; cbn [Py.bind];
    [| reflexivity].
  apply (IH {| FrameBuilder.output := _; FrameBuilder.enc := enc';
               FrameBuilder.encoded := _ |}).
Qed.

Lemma agree_fill (self : FrameBuilder.FrameBuilder) (st : FrameBuilder.stream)
  (a b : Z) :
  ExportBridge._fill (to_bridge_builder self) (to_bridge_stream st) a b
    = res_map to_bridge_stream (FrameBuilder._fill_frames self st a b).
Proof.
  unfold ExportBridge._fill, FrameBuilder._fill_frames.
  destruct (a >=? b); [reflexivity |].
  rewrite agree_fill_loop.
  destruct (FrameBuilder.fill_loop _ self st a b) as [[st' p] |]; reflexivity.
Qed.

Lemma set_channel_frame_samps (self self' : FrameBuilder.FrameBuilder)
  (ch : string) (a : bool) :
  FrameBuilder.set_channel self ch a = Py.Ok self' ->
  FrameBuilder._frame_samps self' = FrameBuilder._frame_samps self.
Proof.
  unfold FrameBuilder.set_channel.
  destruct (Py.lookup _ _); [| discriminate].
  destruct (FrameBuilder.mem _ _); [discriminate |].
  destruct (Py.setitem _ _ _); cbn [Py.bind]; [| discriminate].
  intros H. apply Ok_inj in H. subst self'. reflexivity.
Qed.

(** On events that sit on frame boundaries in increasing order the snap
    changes nothing, and an event at the cursor is coalesced by both. *)
Lemma agree_events_loop (evs : list FrameBuilder.ChannelEvent) :
  forall self st cursor,
    0 < FrameBuilder._frame_samps self ->
    boundaries_from (FrameBuilder._frame_samps self) cursor evs ->
    ExportBridge.events_loop (to_bridge_builder self) (to_bridge_stream st)
      cursor evs
    = res_map (fun r => (to_bridge_builder (fst (fst r)),
                         to_bridge_stream (snd (fst r)), snd r))
        (FrameBuilder.events_loop self st cursor evs).
Proof.
  induction evs as [| ev tl IH]; intros self st cursor Hfs Hb;
    cbn [ExportBridge.events_loop FrameBuilder.events_loop]; [reflexivity |].
  cbn [boundaries_from] in Hb. destruct Hb as (s & Hs & Hcur & Hmod & Htl).
  change (ExportBridge.ev_sample_of ev) with (FrameBuilder.event_sample_of ev).
  rewrite Hs. cbn [Py.bind].
  cbn [to_bridge_builder ExportBridge._frame_samps].
  assert (Hsnap : s / FrameBuilder._frame_samps self
                    * FrameBuilder._frame_samps self = s).
  { pose proof (Z.div_mod s (FrameBuilder._frame_samps self) ltac:(lia)). lia. }
  rewrite Hsnap.
  assert (Hsame : forall self', FrameBuilder._frame_samps self' =
                                FrameBuilder._frame_samps self ->
            boundaries_from (FrameBuilder._frame_samps self') s tl)
    by (intros self' ->; exact Htl).
  destruct (Z.leb_spec s cursor) as [Hle | Hgt].
  - assert (s = cursor) by lia. subst s.
    unfold FrameBuilder._fill_frames.
    replace (cursor >=? cursor) with true by lia. cbn [Py.bind].
    rewrite (agree_set_channel self).
    destruct (FrameBuilder.set_channel self _ _) as [self1 |] eqn:E;
      cbn [res_map Py.bind]; [| reflexivity].
    apply IH;
      [rewrite (set_channel_frame_samps _ _ _ _ E); exact Hfs
      | apply Hsame, (set_channel_frame_samps _ _ _ _ E)].
  - rewrite (agree_fill self).
    destruct (FrameBuilder._fill_frames self st cursor s) as [st1 |];
      cbn [res_map Py.bind]; [| reflexivity].
    rewrite (agree_set_channel self).
    destruct (FrameBuilder.set_channel self _ _) as [self1 |] eqn:E;
      cbn [res_map Py.bind]; [| reflexivity].
    apply IH;
      [rewrite (set_channel_frame_samps _ _ _ _ E); exact Hfs
      | apply Hsame, (set_channel_frame_samps _ _ _ _ E)].
Qed.

End SchedulersAgree.

Section SortedEvents.
Import Constants Frames.

Lemma insert_keeps {A : Type} (Q : Z * A -> Prop) (x : Z * A)
  (l : list (Z * A)) :
  Q x -> Forall Q l -> Forall Q (Py.insert_by_key x l).
Proof.
  intros Hx. induction 1 as [| h tl Hh Htl IH]; cbn [Py.insert_by_key].
  - constructor; [exact Hx | constructor].
  - destruct (fst x <=? fst h).
    + constructor; [exact Hx |]. constructor; assumption.
    + constructor; assumption.
Qed.

Lemma sorted_keeps {A : Type} (Q : Z * A -> Prop) (l : list (Z * A)) :
  Forall Q l -> Forall Q (Py.sorted_by_key l).
Proof.
  induction 1 as [| x tl Hx _ IH]; cbn [Py.sorted_by_key fold_right];
    [constructor |].
  apply insert_keeps; assumption.
Qed.

Lemma insert_in_order {A : Type} (x : Z * A) (l : list (Z * A)) :
  forall c, keys_from c l -> c <= fst x -> keys_from c (Py.insert_by_key x l).
Proof.
  induction l as [| h tl IH]; intros c Hl Hc; cbn [Py.insert_by_key].
  - cbn [keys_from]. auto.
  - cbn [keys_from] in Hl. destruct Hl as [Hch Htl].
    destruct (Z.leb_spec (fst x) (fst h)) as [Hle | Hgt]; cbn [keys_from].
    + auto.
    + split; [exact Hch |]. apply IH; [exact Htl | lia].
Qed.

(** [sorted] returns its items in increasing order of key. *)
Lemma sorted_in_order {A : Type} (c : Z) (l : list (Z * A)) :
  Forall (fun x => c <= fst x) l -> keys_from c (Py.sorted_by_key l).
Proof.
  induction 1 as [| x tl Hx _ IH]; cbn [Py.sorted_by_key fold_right];
    [exact I |].
  apply insert_in_order; assumption.
Qed.

Lemma keyed_events (events : list FrameBuilder.ChannelEvent) :
  forall keyed,
    Py.mapM (fun e => k <- FrameBuilder.event_sample_of e ;; Py.Ok (k, e))
      events = Py.Ok keyed ->
    Forall2 (fun e ke => FrameBuilder.event_sample_of e = Py.Ok (fst ke)
                         /\ snd ke = e) events keyed.
Proof.
  induction events as [| e tl IH]; intros keyed; cbn [Py.mapM].
  - intros H. apply Ok_inj in H. subst keyed. constructor.
  - destruct (FrameBuilder.event_sample_of e) as [k |] eqn:Ek; cbn [Py.bind];
      [| discriminate].
    destruct (Py.mapM _ tl) as [ks |]; cbn [Py.bind]; [| discriminate].
    intros H. apply Ok_inj in H. subst keyed.
    constructor; [split; [exact Ek | reflexivity] | apply IH; reflexivity].
Qed.

Lemma boundaries_of_sorted (fs : Z) (l : list (Z * FrameBuilder.ChannelEvent)) :
  forall c,
    keys_from c l ->
    Forall (fun ke => FrameBuilder.event_sample_of (snd ke) = Py.Ok (fst ke)
                      /\ fst ke mod fs = 0) l ->
    boundaries_from fs c (map snd l).
Proof.
  induction l as [| [k e] tl IH]; intros c Hk Hq; [exact I |].
  cbn [keys_from fst] in Hk. destruct Hk as [Hc Htl].
  inversion Hq as [| ? ? [Hs Hm] Hq' ]; subst.
  cbn [map snd boundaries_from]. exists k. cbn [fst snd] in *.
  repeat split; try assumption. apply IH; assumption.
Qed.

(** Sorting events that all sit on frame boundaries. *)
Lemma sort_events_boundaries (fs : Z) (events sorted : list FrameBuilder.ChannelEvent) :
  Forall (on_frame_boundary fs) events ->
  FrameBuilder.sort_events events = Py.Ok sorted ->
  boundaries_from fs 0 sorted.
Proof.
  intros Hall. unfold FrameBuilder.sort_events.
  destruct (Py.mapM _ events) as [keyed |] eqn:Ek; cbn [Py.bind];
    [| discriminate].
  intros H. apply Ok_inj in H. subst sorted.
  apply keyed_events in Ek.
  assert (Hq : Forall (fun ke =>
                 (FrameBuilder.event_sample_of (snd ke) = Py.Ok (fst ke)
                  /\ fst ke mod fs = 0) /\ 0 <= fst ke) keyed).
  { clear - Hall Ek. induction Ek as [| e ke es kes [Hs He] _ IH];
      [constructor |].
    inversion Hall as [| ? ? (s & Hs' & Hpos & Hmod) Hall']; subst.
    constructor; [| apply IH; exact Hall'].
    rewrite Hs in Hs'. apply Ok_inj in Hs'. subst s.
    rewrite Hs. auto. }
  apply boundaries_of_sorted.
  - apply sorted_in_order. eapply Forall_impl; [| exact Hq].
    intros ke [_ H0]. exact H0.
  - apply sorted_keeps. eapply Forall_impl; [| exact Hq].
    intros ke [H1 _]. exact H1.
Qed.

End SortedEvents.

(** X2.  When every event sits on a frame boundary (sample position a
    non-negative multiple of the frame size; in particular when there is no
    event), the two schedulers return the same thing: the same bytes, or
    the same exception. *)
Theorem schedulers_agree_on_frame_boundaries :
  forall (t : Constants.track) (events : list FrameBuilder.ChannelEvent)
         (duration_seconds : float),
    Forall (Frames.on_frame_boundary (Frames.frame_samples_of t)) events ->
    ExportBridge.build (ExportBridge.init t) events duration_seconds
      = FrameBuilder.build (FrameBuilder.init t) events duration_seconds.
Proof.
  intros t events duration_seconds Hall.
  unfold ExportBridge.build, FrameBuilder.build, ExportBridge.build_trace,
    FrameBuilder.build_trace, FrameBuilder.round_up_to_frame.
  rewrite agree_init, agree_clear_all.
  change (Py.float_of_Z ExportBridge._SR)
    with (Py.float_of_Z Constants.SAMPLE_RATE).
  destruct (Py.int_of_float _) as [n |]; cbn [Py.bind]; [| reflexivity].
  cbn [Frames.to_bridge_builder ExportBridge._frame_samps].
  destruct (FrameBuilder.bytearray _) as [out0 |]; cbn [Py.bind];
    [| reflexivity].
  change (ExportBridge.sort_events events)
    with (FrameBuilder.sort_events events).
  destruct (FrameBuilder.sort_events events) as [sorted |] eqn:Hsort;
    cbn [Py.bind]; [| reflexivity].
  assert (Hfs : FrameBuilder._frame_samps
                  (FrameBuilder.clear_all (FrameBuilder.init t))
                = Frames.frame_samples_of t) by (destruct t; reflexivity).
  pose proof (sort_events_boundaries _ _ _ Hall Hsort) as Hb.
  rewrite <- Hfs in Hb.
  change {| ExportBridge.output := out0; ExportBridge.enc := ExportBridge.new_encoder;
            ExportBridge.encoded := [] |}
    with (Frames.to_bridge_stream
            {| FrameBuilder.output := out0;
               FrameBuilder.enc := Encoder.init Constants.BMC_LOW;
               FrameBuilder.encoded := [] |}).
  rewrite agree_events_loop;
    [| rewrite Hfs; apply frame_samples_positive | exact Hb].
  destruct (FrameBuilder.events_loop _ _ 0 sorted) as [[[self1 st1] c1] |];
    cbn [Frames.res_map Py.bind fst snd]; [| reflexivity].
  rewrite agree_fill.
  destruct (FrameBuilder._fill_frames self1 st1 c1 _) as [st2 |];
    cbn [Frames.res_map Py.bind]; reflexivity.
Qed.

Lemma schedulers_agree_on_frame_boundaries_witness :
  Forall (Frames.on_frame_boundary (Frames.frame_samples_of Constants.TD))
    [FrameBuilder.Build_ChannelEvent 0%float "rolfe_mouth" true] /\
  ExportBridge.build (ExportBridge.init Constants.TD)
    [FrameBuilder.Build_ChannelEvent 0%float "rolfe_mouth" true]
    Frames.short_show
  = FrameBuilder.build (FrameBuilder.init Constants.TD)
      [FrameBuilder.Build_ChannelEvent 0%float "rolfe_mouth" true]
      Frames.short_show.
Proof.
  assert (H : Forall (Frames.on_frame_boundary
                        (Frames.frame_samples_of Constants.TD))
                [FrameBuilder.Build_ChannelEvent 0%float "rolfe_mouth" true]).
  { constructor; [| constructor]. exists 0.
    split; [vm_compute; reflexivity |]. split; [lia | reflexivity]. }
  split; [exact H |].
  apply (schedulers_agree_on_frame_boundaries Constants.TD _ _ H).
Defined.

(** X3.  [sync_frames] returns a result for every bit list, either track and
    every search bound: no slice or index of the lock search or of the frame
    extraction goes out of range. *)
Theorem sync_frames_always_returns :
  forall (bits : list Z) (t : Constants.track) (max_search_bits : Z),
    exists r, FrameSync.sync_frames bits t max_search_bits = Py.Ok r.
Proof.
  intros bits t max_search_bits. apply sync_frames_total.
Qed.

(** * Further properties of the codec *)

Section EncoderOutput.
Import Constants Encoder Aux.

Lemma blocks_expand_levels (bits : list Z) (l : Z) :
  Forall is_level (expand (blocks l bits)).
Proof. apply (expand_levels _ l). apply blocks_alternating. Qed.

Lemma byte_bits_are_bits (byte : Z) (msb_first : bool) :
  Forall is_bit (byte_bits byte msb_first).
Proof.
  unfold byte_bits. apply Forall_forall. intros b Hb.
  apply in_map_iff in Hb. destruct Hb as (i & <- & _).
  change 1 with (Z.ones 1). rewrite Z.land_ones by lia.
  unfold is_bit. change (2 ^ 1) with 2.
  pose proof (Z.mod_pos_bound (Z.shiftr byte i) 2 ltac:(lia)). lia.
Qed.

Lemma byte_bits_lsb_first (byte : Z) :
  byte_bits byte false = rev (byte_bits byte true).
Proof. reflexivity. Qed.

Lemma land_one (x : Z) : Z.land x 1 = x mod 2.
Proof. change 1 with (Z.ones 1). rewrite Z.land_ones by lia. reflexivity. Qed.

Lemma byte_bits_value (byte : Z) :
  Codec.value_msb_first (byte_bits byte true) = byte mod 256.
Proof.
  unfold byte_bits, Codec.value_msb_first.
  cbn [seq rev app map fold_left Z.of_nat Pos.of_succ_nat Pos.succ].
  rewrite !land_one. rewrite !Z.shiftr_div_pow2 by lia.
  change (2 ^ 1) with 2. change (2 ^ 0) with 1.
  replace (byte / 2 ^ 7) with (byte / 2 / 2 / 2 / 2 / 2 / 2 / 2)
    by (rewrite !Z.div_div by lia; reflexivity).
  replace (byte / 2 ^ 6) with (byte / 2 / 2 / 2 / 2 / 2 / 2)
    by (rewrite !Z.div_div by lia; reflexivity).
  replace (byte / 2 ^ 5) with (byte / 2 / 2 / 2 / 2 / 2)
    by (rewrite !Z.div_div by lia; reflexivity).
  replace (byte / 2 ^ 4) with (byte / 2 / 2 / 2 / 2)
    by (rewrite !Z.div_div by lia; reflexivity).
  replace (byte / 2 ^ 3) with (byte / 2 / 2 / 2)
    by (rewrite !Z.div_div by lia; reflexivity).
  replace (byte / 2 ^ 2) with (byte / 2 / 2)
    by (rewrite !Z.div_div by lia; reflexivity).
  rewrite Z.div_1_r.
  set (q1 := byte / 2). set (q2 := q1 / 2). set (q3 := q2 / 2).
  set (q4 := q3 / 2). set (q5 := q4 / 2). set (q6 := q5 / 2).
  set (q7 := q6 / 2).
  pose proof (Z.div_mod byte 2 ltac:(lia)) as E0. fold q1 in E0.
  pose proof (Z.div_mod q1 2 ltac:(lia)) as E1. fold q2 in E1.
  pose proof (Z.div_mod q2 2 ltac:(lia)) as E2. fold q3 in E2.
  pose proof (Z.div_mod q3 2 ltac:(lia)) as E3. fold q4 in E3.
  pose proof (Z.div_mod q4 2 ltac:(lia)) as E4. fold q5 in E4.
  pose proof (Z.div_mod q5 2 ltac:(lia)) as E5. fold q6 in E5.
  pose proof (Z.div_mod q6 2 ltac:(lia)) as E6. fold q7 in E6.
  pose proof (Z.div_mod q7 2 ltac:(lia)) as E7.
  pose proof (Z.mod_pos_bound byte 2 ltac:(lia)).
  pose proof (Z.mod_pos_bound q1 2 ltac:(lia)).
  pose proof (Z.mod_pos_bound q2 2 ltac:(lia)).
  pose proof (Z.mod_pos_bound q3 2 ltac:(lia)).
  pose proof (Z.mod_pos_bound q4 2 ltac:(lia)).
  pose proof (Z.mod_pos_bound q5 2 ltac:(lia)).
  pose proof (Z.mod_pos_bound q6 2 ltac:(lia)).
  pose proof (Z.mod_pos_bound q7 2 ltac:(lia)).
  apply (Z.mod_unique_pos _ _ (q7 / 2)); lia.
Qed.

End EncoderOutput.

Section PackUnpackFacts.
Import Constants Encoder Aux.


Lemma pack_h_unpack (s : Z) (tl : list Z) :
  Codec.is_int16 s ->
  exists lo hi,
    pack_h s = Py.Ok [lo; hi] /\
    Validate.unpack_samples (lo :: hi :: tl)
      = Py.bind (Validate.unpack_samples tl) (fun rest => Py.Ok (s :: rest)).
Proof.
  intros [Hlo Hhi]. unfold pack_h.
  replace ((-32768 <=? s) && (s <=? 32767)) with true
    by (symmetry; apply andb_true_intro; split; lia).
  eexists _, _. split; [reflexivity |].
  cbn [Validate.unpack_samples].
  change 255 with (Z.ones 8). rewrite Z.land_ones by lia.
  rewrite Z.shiftr_div_pow2 by lia. change (2 ^ 8) with 256.
  set (u := s mod 65536).
  assert (Hu : u mod 256 + 256 * (u / 256) = u).
  { pose proof (Z.div_mod u 256 ltac:(lia)). lia. }
  rewrite Hu.
  assert (Hs : (if u >=? 32768 then u - 65536 else u) = s).
  { subst u. destruct (Z_lt_le_dec s 0) as [Hneg | Hpos].
    - replace (s mod 65536) with (s + 65536)
        by (apply (Z.mod_unique_pos _ _ (-1)); lia).
      destruct (Z.geb_spec (s + 65536) 32768); lia.
    - rewrite Z.mod_small by lia.
      destruct (Z.geb_spec s 32768); lia. }
  rewrite Hs. reflexivity.
Qed.

Lemma to_raw_bytes_unpack_ok (samples : list Z) :
  Forall Codec.is_int16 samples ->
  exists bytes,
    to_raw_bytes samples = Py.Ok bytes /\
    Z.of_nat (length bytes) = 2 * Z.of_nat (length samples) /\
    Validate.unpack_samples bytes = Py.Ok samples.
Proof.
  induction 1 as [| s tl Hs _ (bytes & Hb & Hlen & Hun)];
    cbn [to_raw_bytes].
  - exists []. repeat split; reflexivity.
  - destruct (pack_h_unpack s bytes Hs) as (lo & hi & Hp & Hu).
    rewrite Hp, Hb. cbn [Py.bind app].
    exists (lo :: hi :: bytes). split; [reflexivity |]. split.
    + cbn [length]. lia.
    + rewrite Hu, Hun. reflexivity.
Qed.

Lemma to_raw_bytes_out_of_range (samples : list Z) :
  ~ Forall Codec.is_int16 samples ->
  to_raw_bytes samples = Py.Raise Py.StructError.
Proof.
  induction samples as [| s tl IH]; intros Hnot.
  - exfalso. apply Hnot. constructor.
  - cbn [to_raw_bytes]. unfold pack_h.
    destruct ((-32768 <=? s) && (s <=? 32767)) eqn:E; [| reflexivity].
    cbn [Py.bind]. rewrite IH; [reflexivity |].
    intros Htl. apply Hnot. constructor; [| exact Htl].
    apply andb_prop in E. unfold Codec.is_int16. lia.
Qed.

End PackUnpackFacts.

Section Silence.
Import Constants Encoder Aux Decoder.

Lemma run_lengths_loop_silent (thresh : Z) (fuel : nat) :
  forall st,
    Forall (fun s => Z.abs s < thresh) (scan_rest st) ->
    scan_runs (run_lengths_loop fuel thresh st) = scan_runs st.
Proof.
  induction fuel as [| fuel IH]; intros st Hst; [reflexivity |].
  cbn [run_lengths_loop]. destruct (scan_rest st) as [| s tl] eqn:E;
    [reflexivity |].
  inversion Hst as [| ? ? Hs Htl]; subst.
  replace (Z.abs s <? thresh) with true by (symmetry; apply Z.ltb_lt; exact Hs).
  rewrite IH; [reflexivity | exact Htl].
Qed.

Lemma decode_silent (d : BMCDecoder) (samples : list Z) :
  Forall (Codec.is_silent d) samples -> decode d samples = ([], []).
Proof.
  intros H. rewrite decode_list. unfold _run_lengths.
  rewrite run_lengths_loop_silent; [reflexivity | exact H].
Qed.

End Silence.

Section PolarityFacts.
Import Constants Encoder Aux.

Section Polarity.
Import Decoder.

Variable thresh : Z.
Hypothesis thresh_pos : 0 < thresh.

Lemma loud_flips (x : Z) (p : bool) :
  Bool.eqb (- x >? 0) (negb p) && (Z.abs (- x) >=? thresh)
  = Bool.eqb (x >? 0) p && (Z.abs x >=? thresh).
Proof.
  rewrite Z.abs_opp.
  destruct (Z.geb_spec (Z.abs x) thresh) as [Hloud | Hquiet];
    [| rewrite !andb_false_r; reflexivity].
  rewrite !andb_true_r.
  destruct (Z.gtb_spec (- x) 0), (Z.gtb_spec x 0), p; try reflexivity; lia.
Qed.

Lemma same_run_opp (positive : bool) (rest : list Z) :
  same_run thresh (negb positive) (map Z.opp rest)
  = (fst (same_run thresh positive rest),
     map Z.opp (snd (same_run thresh positive rest))).
Proof.
  induction rest as [| s tl IH]; [reflexivity |].
  cbn [map same_run]. rewrite loud_flips.
  destruct (Bool.eqb (s >? 0) positive && (Z.abs s >=? thresh));
    [| reflexivity].
  rewrite IH. destruct (same_run thresh positive tl). reflexivity.
Qed.

Lemma run_lengths_loop_opp (fuel : nat) :
  forall i rest acc,
    scan_runs (run_lengths_loop fuel thresh
                 {| scan_i := i; scan_rest := map Z.opp rest; scan_runs := acc |})
    = scan_runs (run_lengths_loop fuel thresh
                   {| scan_i := i; scan_rest := rest; scan_runs := acc |}).
Proof.
  induction fuel as [| fuel IH]; intros i rest acc; [reflexivity |].
  cbn [run_lengths_loop scan_rest scan_i scan_runs].
  destruct rest as [| s tl]; [reflexivity |].
  cbn [map]. rewrite Z.abs_opp.
  destruct (Z.ltb_spec (Z.abs s) thresh) as [Hq | Hl]; [apply IH |].
  assert (Hp : (- s >? 0) = negb (s >? 0)).
  { destruct (Z.gtb_spec (- s) 0), (Z.gtb_spec s 0); try reflexivity; lia. }
  rewrite Hp.
  change (- s :: map Z.opp tl) with (map Z.opp (s :: tl)).
  rewrite same_run_opp.
  destruct (same_run thresh (s >? 0) (s :: tl)) as [k rest'].
  cbn [fst snd]. apply IH.
Qed.

End Polarity.

Lemma decode_opp (d : Decoder.BMCDecoder) (samples : list Z) :
  0 < Decoder.zero_threshold d ->
  Decoder.decode d (map Z.opp samples) = Decoder.decode d samples.
Proof.
  intros Hpos. rewrite !decode_list. unfold Decoder._run_lengths.
  rewrite length_map.
  rewrite run_lengths_loop_opp by exact Hpos. reflexivity.
Qed.

End PolarityFacts.

Section DefaultDecoder.
Import Constants Encoder Aux.

(** The round trip through the decoder with the constructor's defaults. *)
Lemma default_round_trip (dec : Decoder.BMCDecoder) (enc : BMCEncoder)
  (bs : list Z) :
  Decoder.default = Py.Ok dec ->
  Forall is_bit bs ->
  map Decoder.bit (fst (Decoder.decode dec (fst (encode_bits enc bs)))) = bs /\
  snd (Decoder.decode dec (fst (encode_bits enc bs))) = [].
Proof.
  intros Hdec Hbits. vm_compute in Hdec. injection Hdec as <-.
  apply decode_encode; try reflexivity; try assumption.
  cbn. discriminate.
Qed.

Lemma encode_bits_length (enc : BMCEncoder) (bits : list Z) :
  Z.of_nat (length (fst (encode_bits enc bits)))
  = SAMPLES_PER_BIT * Z.of_nat (length bits).
Proof. rewrite encode_bits_blocks. apply expand_length. Qed.

End DefaultDecoder.

(** X4.  [to_raw_bytes] packs every sample into two bytes, and reading the
    bytes back as validate.py does returns the samples; it raises
    struct.error exactly when a sample does not fit a signed 16-bit
    integer. *)
Theorem to_raw_bytes_round_trip :
  forall samples : list Z,
    (Forall Codec.is_int16 samples ->
     exists bytes,
       Encoder.to_raw_bytes samples = Py.Ok bytes /\
       Z.of_nat (length bytes) = 2 * Z.of_nat (length samples) /\
       Validate.unpack_samples bytes = Py.Ok samples) /\
    (~ Forall Codec.is_int16 samples ->
     Encoder.to_raw_bytes samples = Py.Raise Py.StructError).
Proof.
  intros samples. split.
  - apply to_raw_bytes_unpack_ok.
  - apply to_raw_bytes_out_of_range.
Qed.

(** X5.  Whatever the level of the encoder and whatever the bits (any
    integers, read by truth value), [encode_bits] returns 9 samples per bit,
    each of them [BMC_HIGH] or [BMC_LOW], so [to_raw_bytes] never raises on
    them and returns 18 bytes per bit. *)
Theorem encode_bits_output :
  forall (enc : Encoder.BMCEncoder) (bits : list Z),
    let samples := fst (Encoder.encode_bits enc bits) in
    Z.of_nat (length samples) = 9 * Z.of_nat (length bits) /\
    Forall Aux.is_level samples /\
    exists bytes,
      Encoder.to_raw_bytes samples = Py.Ok bytes /\
      Z.of_nat (length bytes) = 18 * Z.of_nat (length bits).
Proof.
  intros enc bits samples.
  assert (Hlen : Z.of_nat (length samples) = 9 * Z.of_nat (length bits))
    by apply encode_bits_length.
  assert (Hlev : Forall Aux.is_level samples).
  { unfold samples. rewrite encode_bits_blocks. apply blocks_expand_levels. }
  split; [exact Hlen |]. split; [exact Hlev |].
  destruct (to_raw_bytes_levels samples Hlev) as (bytes & Hb & Hl).
  exists bytes. split; [exact Hb | lia].
Qed.

(** X6.  [encode_byte] sends the eight low bits of [byte], highest first when
    [msb_first] and lowest first otherwise: the decoder with the default
    windows returns them without error, and read highest bit first they are
    [byte mod 256].  The output is 72 samples. *)
Theorem encode_byte_round_trip :
  exists dec,
    Decoder.default = Py.Ok dec /\
    forall (initial_level byte : Z) (msb_first : bool),
      let samples :=
        fst (Encoder.encode_byte (Encoder.init initial_level) byte msb_first) in
      let got := map Decoder.bit (fst (Decoder.decode dec samples)) in
      Z.of_nat (length samples) = 72 /\
      snd (Decoder.decode dec samples) = [] /\
      Codec.value_msb_first (if msb_first then got else rev got) = byte mod 256.
Proof.
  destruct Decoder.default as [dec |] eqn:Hdec; [| discriminate Hdec].
  exists dec. split; [reflexivity |].
  intros initial_level byte msb_first samples got.
  destruct (default_round_trip dec (Encoder.init initial_level)
              (Encoder.byte_bits byte msb_first) Hdec
              (byte_bits_are_bits byte msb_first)) as [Hbits Herr].
  split.
  - unfold samples, Encoder.encode_byte. rewrite encode_bits_length.
    destruct msb_first; reflexivity.
  - split; [exact Herr |].
    unfold got, samples, Encoder.encode_byte. rewrite Hbits.
    destruct msb_first.
    + apply byte_bits_value.
    + rewrite byte_bits_lsb_first, rev_involutive. apply byte_bits_value.
Qed.

(** X7.  Samples whose amplitude is below the zero threshold are skipped: a
    channel that holds nothing else, in particular an empty one, decodes to
    no bit and no error. *)
Theorem silence_decodes_to_nothing :
  forall (d : Decoder.BMCDecoder) (samples : list Z),
    Forall (Codec.is_silent d) samples ->
    Decoder.decode d samples = ([], []).
Proof. exact decode_silent. Qed.

Lemma silence_decodes_to_nothing_witness :
  exists d,
    Decoder.default = Py.Ok d /\
    Forall (Codec.is_silent d) [0; 150; -199] /\
    Decoder.decode d [0; 150; -199] = ([], []).
Proof.
  destruct Decoder.default as [d |] eqn:Hd; [| discriminate Hd].
  exists d. split; [reflexivity |].
  assert (Hs : Forall (Codec.is_silent d) [0; 150; -199]).
  { vm_compute in Hd. injection Hd as <-.
    repeat (constructor; [unfold Codec.is_silent; cbn; lia |]). constructor. }
  split; [exact Hs |].
  exact (silence_decodes_to_nothing d [0; 150; -199] Hs).
Defined.

(** X8.  The line code carries its bits in the transitions, not in the
    levels: with a positive zero threshold, inverting the polarity of every
    sample changes nothing in what [decode] returns (bits, positions, run
    lengths and errors). *)
Theorem decode_ignores_polarity :
  forall (d : Decoder.BMCDecoder) (samples : list Z),
    0 < Decoder.zero_threshold d ->
    Decoder.decode d (map Z.opp samples) = Decoder.decode d samples.
Proof. exact decode_opp. Qed.

Lemma decode_ignores_polarity_witness :
  exists d,
    Decoder.default = Py.Ok d /\
    0 < Decoder.zero_threshold d /\
    Decoder.decode d (map Z.opp [300; 300; -300])
    = Decoder.decode d [300; 300; -300].
Proof.
  destruct Decoder.default as [d |] eqn:Hd; [| discriminate Hd].
  exists d. split; [reflexivity |].
  assert (Hp : 0 < Decoder.zero_threshold d).
  { vm_compute in Hd. injection Hd as <-. reflexivity. }
  split; [exact Hp |].
  exact (decode_ignores_polarity d [300; 300; -300] Hp).
Defined.

(** * Further properties of the frame synchroniser *)

Section SyncSearchFacts.
Import Constants FrameSync SyncSpec.

Section SyncSearch.

Variable bits : list Z.
Variable t : track.

Let fb := frame_bits_of t.
Let total := Z.of_nat (length bits).

Lemma frame_bits_positive : 0 < frame_bits_of t.
Proof. destruct t; reflexivity. Qed.

(** The blank-bit check on a frame that lies inside the bit list. *)
Lemma check_indices (c : Z) (idxs : list Z) :
  0 <= c -> c + fb <= total ->
  Forall (fun bi => 0 <= bi < fb) idxs ->
  exists b,
    all_blank_zero (Py.slice bits c (c + fb)) idxs = Py.Ok b /\
    (b = true <->
     Forall (fun bi => nth_error bits (Z.to_nat (c + bi)) = Some 0) idxs).
Proof.
  intros Hc Hend. induction 1 as [| bi tl Hbi _ (b & Hb & Hiff)];
    cbn [all_blank_zero].
  - exists true. split; [reflexivity |]. split; [constructor | reflexivity].
  - rewrite getitem_slice by (fold total; lia).
    destruct (nth_error bits (Z.to_nat (c + bi))) as [v |] eqn:Ev.
    + cbn [Py.bind]. destruct (Z.eqb_spec v 0) as [-> | Hv].
      * exists b. split; [exact Hb |]. rewrite Hiff. split.
        -- intros H. constructor; [exact Ev | exact H].
        -- intros H. inversion H; assumption.
      * exists false. split; [reflexivity |]. split; [discriminate |].
        intros H. inversion H as [| ? ? H1 _]. congruence.
    + exfalso. apply nth_error_None in Ev. fold total in Hend. lia.
Qed.

Lemma check_frame (c : Z) :
  0 <= c -> c + fb <= total ->
  exists b,
    all_blank_zero (Py.slice bits c (c + fb)) (blank_indices_of t) = Py.Ok b /\
    (b = true <-> frame_clean bits t c).
Proof.
  intros Hc Hend. apply check_indices; try assumption.
  apply blank_indices_in_frame.
Qed.

(** The score of a candidate with room for three frames. *)
Lemma score_of_candidate (c : Z) :
  0 <= c -> c + 3 * fb <= total ->
  exists s,
    score_loop bits t (range LOCK_THRESHOLD) c 0 = Py.Ok s /\
    0 <= s <= 3 /\ (s = 3 <-> lockable bits t c).
Proof.
  intros Hc Hend. pose proof frame_bits_positive as Hfb. fold fb in Hfb.
  change (range LOCK_THRESHOLD) with [0; 1; 2].
  unfold lockable. fold fb.
  destruct (check_frame c) as (b0 & E0 & I0); [lia | lia |].
  destruct (check_frame (c + fb)) as (b1 & E1 & I1); [lia | lia |].
  destruct (check_frame (c + 2 * fb)) as (b2 & E2 & I2); [lia | lia |].
  cbn [score_loop]. fold fb. fold total.
  replace (c + 0 * fb) with c by lia.
  replace (c + 1 * fb) with (c + fb) by lia.
  replace (c + fb + fb >? total) with false by lia.
  replace (c + fb >? total) with false by lia.
  replace (c + 2 * fb + fb >? total) with false by lia.
  rewrite E0. cbn [Py.bind].
  destruct b0.
  2:{ exists 0. split; [reflexivity |]. split; [lia |].
      split; [lia |]. intros [H _]. apply I0 in H. discriminate. }
  rewrite E1. cbn [Py.bind].
  destruct b1.
  2:{ exists 1. split; [reflexivity |]. split; [lia |].
      split; [lia |]. intros (_ & H & _). apply I1 in H. discriminate. }
  rewrite E2. cbn [Py.bind].
  destruct b2.
  2:{ exists 2. split; [reflexivity |]. split; [lia |].
      split; [lia |]. intros (_ & _ & H). apply I2 in H. discriminate. }
  exists 3. split; [reflexivity |]. split; [lia |].
  split; [| reflexivity]. intros _.
  repeat split; [apply I0 | apply I1 | apply I2]; reflexivity.
Qed.

(** The lock search over candidates that all leave room for three frames:
    it stops at the first lockable one. *)
Lemma search_loop_first (cands : list Z) :
  Forall (fun c => 0 <= c /\ c + 3 * fb <= total) cands ->
  forall bo0 bs0, 0 <= bs0 < 3 ->
    exists bo bs,
      search_loop bits t cands bo0 bs0 = Py.Ok (bo, bs) /\
      0 <= bs <= 3 /\
      ((bs = 3 /\ exists pre suf,
           cands = pre ++ bo :: suf /\
           Forall (fun c => ~ lockable bits t c) pre /\
           lockable bits t bo)
       \/ (bs < 3 /\ Forall (fun c => ~ lockable bits t c) cands /\
           (bo = bo0 \/ In bo cands))).
Proof.
  induction 1 as [| c tl [Hc Hend] _ IH]; intros bo0 bs0 Hbs; cbn [search_loop].
  - exists bo0, bs0. split; [reflexivity |]. split; [lia |]. right.
    split; [lia |]. split; [constructor | left; reflexivity].
  - destruct (score_of_candidate c Hc Hend) as (s & -> & Hs & Hlock).
    cbn [Py.bind].
    destruct (Z.gtb_spec s bs0) as [Hgt | Hle].
    + unfold LOCK_THRESHOLD. destruct (Z.geb_spec s 3) as [H3 | Hlt].
      * exists c, s. split; [reflexivity |]. split; [lia |]. left.
        split; [lia |]. exists [], tl. split; [reflexivity |].
        split; [constructor | apply Hlock; lia].
      * destruct (IH c s ltac:(lia)) as (bo & bs & E & Hb & Hcase).
        exists bo, bs. split; [exact E |]. split; [exact Hb |].
        destruct Hcase as [(H3 & pre & suf & -> & Hpre & Hl)
                          | (Hlt3 & Hnone & Hin)].
        -- left. split; [exact H3 |]. exists (c :: pre), suf.
           split; [reflexivity |]. split; [| exact Hl].
           constructor; [| exact Hpre]. intros Hl'. apply Hlock in Hl'. lia.
        -- right. split; [exact Hlt3 |]. split.
           ++ constructor; [| exact Hnone]. intros Hl'. apply Hlock in Hl'. lia.
           ++ right. destruct Hin as [-> | Hin]; [left; reflexivity
                                                 | right; exact Hin].
    + destruct (IH bo0 bs0 Hbs) as (bo & bs & E & Hb & Hcase).
      exists bo, bs. split; [exact E |]. split; [exact Hb |].
      destruct Hcase as [(H3 & pre & suf & -> & Hpre & Hl)
                        | (Hlt3 & Hnone & Hin)].
      * left. split; [exact H3 |]. exists (c :: pre), suf.
        split; [reflexivity |]. split; [| exact Hl].
        constructor; [| exact Hpre]. intros Hl'. apply Hlock in Hl'. lia.
      * right. split; [exact Hlt3 |]. split.
        -- constructor; [| exact Hnone]. intros Hl'. apply Hlock in Hl'. lia.
        -- destruct Hin as [-> | Hin]; [left; reflexivity | right; right; exact Hin].
Qed.

End SyncSearch.

Section RangeFacts.

Lemma in_range (n c : Z) : In c (range n) <-> 0 <= c < n.
Proof.
  unfold range. rewrite in_map_iff. split.
  - intros (k & <- & Hk). apply in_seq in Hk. lia.
  - intros Hc. exists (Z.to_nat c). split; [lia |]. apply in_seq. lia.
Qed.

Lemma range_split (n : Z) (pre suf : list Z) (x : Z) :
  range n = pre ++ x :: suf ->
  x = Z.of_nat (length pre) /\ forall c, 0 <= c < x -> In c pre.
Proof.
  unfold range. intros H.
  assert (Hlen : (length pre < Z.to_nat n)%nat).
  { apply (f_equal (@length Z)) in H.
    rewrite length_map, length_seq, length_app in H. cbn [length] in H. lia. }
  assert (Hx : x = Z.of_nat (length pre)).
  { assert (E : nth_error (map Z.of_nat (seq 0 (Z.to_nat n))) (length pre)
                = Some x).
    { rewrite H. rewrite nth_error_app2 by lia.
      rewrite Nat.sub_diag. reflexivity. }
    rewrite nth_error_map in E.
    rewrite nth_error_seq in E.
    destruct (Nat.ltb_spec (length pre) (Z.to_nat n)); [| lia].
    cbn in E. injection E as <-. reflexivity. }
  split; [exact Hx |].
  intros c Hc.
  assert (Hpre : pre = map Z.of_nat (seq 0 (length pre))).
  { replace (Z.to_nat n)
      with (length pre + (Z.to_nat n - length pre))%nat in H by lia.
    rewrite seq_app, map_app in H.
    apply (f_equal (firstn (length pre))) in H.
    rewrite !firstn_app in H.
    rewrite length_map, length_seq, Nat.sub_diag in H. cbn [firstn] in H.
    rewrite !app_nil_r in H.
    rewrite (firstn_all2 pre) in H by lia.
    rewrite firstn_all2 in H by (rewrite length_map, length_seq; lia).
    symmetry. exact H. }
  rewrite Hpre. apply in_map_iff. exists (Z.to_nat c).
  split; [lia |]. apply in_seq. lia.
Qed.

End RangeFacts.

Section SyncExtract.

Variable bits : list Z.
Variable t : track.

Let fb := frame_bits_of t.
Let total := Z.of_nat (length bits).

Lemma active_names_in (fs : list Z) :
  forall (i : Z) (name : string),
    In name (active_names t i fs) <->
    exists j,
      nth_error fs j = Some 1 /\
      Py.lookupZ (i + Z.of_nat j + 1) (bit_to_name_of t) = Some name.
Proof.
  induction fs as [| v tl IH]; intros i name; cbn [active_names].
  - split; [intros [] | intros ([| j] & H & _); discriminate H].
  - rewrite in_app_iff, IH. split.
    + intros [Hhere | (j & Hj & Hn)].
      * exists 0%nat. destruct (Z.eqb_spec v 1) as [-> | Hv]; [| destruct Hhere].
        replace (i + Z.of_nat 0 + 1) with (i + 1) by lia.
        destruct (Py.lookupZ (i + 1) (bit_to_name_of t)) as [n |];
          [| destruct Hhere].
        destruct Hhere as [-> | []]. split; reflexivity.
      * exists (S j). split; [exact Hj |].
        replace (i + Z.of_nat (S j) + 1) with (i + 1 + Z.of_nat j + 1) by lia.
        exact Hn.
    + intros ([| j] & Hj & Hn).
      * left. cbn in Hj. injection Hj as ->. cbn [Z.eqb Pos.eqb].
        replace (i + Z.of_nat 0 + 1) with (i + 1) in Hn by lia.
        rewrite Hn. left. reflexivity.
      * right. exists j. split; [exact Hj |].
        replace (i + 1 + Z.of_nat j + 1) with (i + Z.of_nat (S j) + 1) by lia.
        exact Hn.
Qed.

Lemma slice_inside (a b : Z) :
  0 <= a -> a <= b -> b <= total ->
  Py.slice bits a b = firstn (Z.to_nat (b - a)) (skipn (Z.to_nat a) bits).
Proof.
  intros Ha Hab Hb. unfold Py.slice. cbv zeta. fold total.
  rewrite !clamp_inside by lia. reflexivity.
Qed.

(** The frames [extract_loop] appends, from lock offset [off]. *)
Lemma extract_loop_frames (off : Z) (fuel : nat) :
  0 <= off ->
  forall acc pos frames pos',
    pos = off + Z.of_nat (length acc) * fb ->
    extract_loop bits t fuel acc pos = Py.Ok (frames, pos') ->
    exists new,
      frames = acc ++ new /\
      pos' = pos + Z.of_nat (length new) * fb /\
      (new <> [] -> pos' <= total) /\
      (total - pos <= Z.of_nat fuel -> total < pos' + fb) /\
      forall i f, nth_error new i = Some f ->
        frame_at bits t off (Z.of_nat (length acc + i)) f.
Proof.
  intros Hoff. pose proof (frame_bits_positive t) as Hfb. fold fb in Hfb.
  induction fuel as [| fuel IH]; intros acc pos frames pos' Hpos;
    cbn [extract_loop].
  - intros H. injection H as <- <-. exists []. rewrite app_nil_r.
    split; [reflexivity |]. split; [cbn; lia |].
    split; [congruence |]. split; [cbn; lia |].
    intros [| i] f H; discriminate H.
  - fold fb. fold total.
    destruct (Z.leb_spec (pos + fb) total) as [Hin | Hout].
    + destruct (check_frame bits t pos) as (b & Hb & Hiff);
        [lia | fold fb; fold total; lia |].
      fold fb in Hb. rewrite Hb. cbn [Py.bind]. intros H.
      apply IH in H;
        [| rewrite length_app; cbn [length]; lia].
      destruct H as (new & -> & Hp' & Hle & Hstop & Hnew).
      assert (Hnew' : forall i f, nth_error new i = Some f ->
                frame_at bits t off (Z.of_nat (length acc + 1 + i)) f).
      { intros i f Hf. specialize (Hnew i f Hf).
        rewrite length_app in Hnew. exact Hnew. }
      clear Hnew.
      eexists (_ :: new). rewrite <- app_assoc. split; [reflexivity |].
      split; [cbn [length]; lia |].
      split.
      { intros _. destruct new as [| f0 new0]; [cbn [length] in Hp'; lia |].
        apply Hle. discriminate. }
      split; [intros Hf; apply Hstop; lia |].
      intros [| i] f Hf.
      * cbn in Hf. injection Hf as <-.
        unfold frame_at. cbv zeta. cbn [frame_index bit_offset FrameSync.bits
                                        blank_ok active_channels].
        fold fb. rewrite Nat.add_0_r.
        replace (off + Z.of_nat (length acc) * fb) with pos by lia.
        split; [reflexivity |]. split; [reflexivity |].
        split.
        { rewrite slice_inside by (fold total; lia). f_equal. lia. }
        split.
        { rewrite slice_length by (fold total; lia). lia. }
        split.
        { split; intros H.
          - apply Hiff. exact H.
          - apply Hiff in H. exact H. }
        intros name. rewrite active_names_in.
        split; intros (j & Hj & Hn); exists j; (split; [exact Hj |]);
          [replace (Z.of_nat j + 1) with (0 + Z.of_nat j + 1) by lia
          | replace (0 + Z.of_nat j + 1) with (Z.of_nat j + 1) by lia];
          exact Hn.
      * cbn [nth_error] in Hf. apply Hnew' in Hf.
        replace (length acc + S i)%nat with (length acc + 1 + i)%nat by lia.
        exact Hf.
    + intros H. injection H as <- <-. exists []. rewrite app_nil_r.
      split; [reflexivity |]. split; [cbn; lia |].
      split; [congruence |]. split; [intros _; lia |].
      intros [| i] f H; discriminate H.
Qed.

End SyncExtract.

Section SyncResultFacts.

Variable bits : list Z.
Variable t : track.
Variable m : Z.

Let fb := frame_bits_of t.
Let total := Z.of_nat (length bits).

Lemma sync_frames_parts (r : SyncResult) :
  sync_frames bits t m = Py.Ok r ->
  exists bo bs fr p,
    search_loop bits t (range (search_end bits t m)) 0 0 = Py.Ok (bo, bs) /\
    extract_loop bits t (length bits) [] bo = Py.Ok (fr, p) /\
    r = {| locked := bs >=? LOCK_THRESHOLD; lock_offset := bo; score := bs;
           frames := fr; orphan_bits := bo |}.
Proof.
  unfold sync_frames. fold (search_end bits t m).
  destruct (search_loop _ _ _ _ _) as [[bo bs] |] eqn:Es; cbn [Py.bind];
    [| discriminate].
  destruct (extract_loop _ _ _ _ _) as [[fr p] |] eqn:Ex; cbn [Py.bind];
    [| discriminate].
  intros H. injection H as <-. exists bo, bs, fr, p.
  split; [reflexivity |]. split; [exact Ex | reflexivity].
Qed.

Lemma candidates_have_room :
  Forall (fun c => 0 <= c /\ c + 3 * fb <= total)
         (range (search_end bits t m)).
Proof.
  apply Forall_forall. intros c Hc. apply in_range in Hc.
  unfold search_end, LOCK_THRESHOLD in Hc. fold fb total in Hc. lia.
Qed.

Lemma search_result :
  exists bo bs,
    search_loop bits t (range (search_end bits t m)) 0 0 = Py.Ok (bo, bs) /\
    0 <= bs <= 3 /\ 0 <= bo <= total /\
    ((bs = 3 /\ 0 <= bo < search_end bits t m /\ lockable bits t bo /\
      forall c, 0 <= c < bo -> ~ lockable bits t c)
     \/ (bs < 3 /\
         forall c, 0 <= c < search_end bits t m -> ~ lockable bits t c)).
Proof.
  destruct (search_loop_first bits t _ candidates_have_room 0 0 ltac:(lia))
    as (bo & bs & E & Hbs & Hcase).
  exists bo, bs. split; [exact E |]. split; [exact Hbs |].
  pose proof candidates_have_room as Hroom. rewrite Forall_forall in Hroom.
  pose proof (frame_bits_positive t) as Hfb. fold fb in Hfb.
  destruct Hcase as [(H3 & pre & suf & Hsplit & Hpre & Hl)
                    | (Hlt & Hnone & Hin)].
  - assert (Hbo : In bo (range (search_end bits t m))).
    { rewrite Hsplit. apply in_or_app. right. left. reflexivity. }
    pose proof (Hroom bo Hbo) as Hb. apply in_range in Hbo.
    split; [fold fb total in Hb; lia |]. left.
    split; [exact H3 |]. split; [exact Hbo |]. split; [exact Hl |].
    destruct (range_split _ _ _ _ Hsplit) as [_ Hbefore].
    intros c Hc. rewrite Forall_forall in Hpre. apply Hpre, Hbefore, Hc.
  - split.
    + destruct Hin as [-> | Hin]; [lia |].
      pose proof (Hroom bo Hin) as Hb. fold fb total in Hb. lia.
    + right. split; [exact Hlt |]. intros c Hc.
      rewrite Forall_forall in Hnone. apply Hnone, in_range, Hc.
Qed.

End SyncResultFacts.

End SyncSearchFacts.

Section SyncTheorems.
Import Constants FrameSync SyncSpec.

(** X9.  What the lock search returns, for every bit list, track and search
    bound.  The score is between 0 and 3 and lock is declared exactly at 3.
    A declared lock is sound: the lock offset lies in the search window
    [0, min(max_search_bits, total - 3 * frame_bits)) and three consecutive
    frames with clean blank bits start there; and it is the first such
    offset.  When no lock is declared, no offset of the search window starts
    three clean frames. *)
Theorem sync_lock_sound_and_complete :
  forall (bits : list Z) (t : Constants.track) (max_search_bits : Z),
    exists r,
      FrameSync.sync_frames bits t max_search_bits = Py.Ok r /\
      0 <= FrameSync.score r <= 3 /\
      (FrameSync.locked r = true <-> FrameSync.score r = 3) /\
      (FrameSync.locked r = true ->
         0 <= FrameSync.lock_offset r < SyncSpec.search_end bits t max_search_bits /\
         SyncSpec.lockable bits t (FrameSync.lock_offset r) /\
         forall c, 0 <= c < FrameSync.lock_offset r ->
                   ~ SyncSpec.lockable bits t c) /\
      (FrameSync.locked r = false ->
         forall c, 0 <= c < SyncSpec.search_end bits t max_search_bits ->
                   ~ SyncSpec.lockable bits t c).
Proof.
  intros bits t m.
  destruct (sync_frames_total bits t m) as [r Hr].
  exists r. split; [exact Hr |].
  destruct (sync_frames_parts bits t m r Hr) as (bo & bs & fr & p & Es & _ & ->).
  destruct (search_result bits t m) as (bo' & bs' & Es' & Hbs & _ & Hcase).
  rewrite Es in Es'. injection Es' as <- <-.
  cbn [score locked lock_offset]. unfold LOCK_THRESHOLD.
  split; [exact Hbs |].
  destruct Hcase as [(H3 & Hwin & Hl & Hfirst) | (Hlt & Hnone)].
  - subst bs. split; [split; reflexivity |].
    split; [intros _; split; [exact Hwin | split; [exact Hl | exact Hfirst]] |].
    cbn. discriminate.
  - destruct (Z.geb_spec bs 3) as [Hge | _]; [lia |].
    split; [split; [discriminate | lia] |].
    split; [discriminate |]. intros _. exact Hnone.
Qed.

(** X10.  The frames [sync_frames] returns tile the bit list from the lock
    offset on: there are [(total - lock_offset) // frame_bits] of them, the
    [i]-th has index [i], starts at bit [lock_offset + i * frame_bits], holds
    the [frame_bits] bits from there, has [blank_ok] exactly when its blank
    bits are 0, and lists as active the names of its bits that are 1 and
    have a name.  The orphan bits are the bits before the lock offset. *)
Theorem sync_frames_tile_the_stream :
  forall (bits : list Z) (t : Constants.track) (max_search_bits : Z),
    exists r,
      FrameSync.sync_frames bits t max_search_bits = Py.Ok r /\
      0 <= FrameSync.lock_offset r <= Z.of_nat (length bits) /\
      FrameSync.orphan_bits r = FrameSync.lock_offset r /\
      Z.of_nat (length (FrameSync.frames r))
        = (Z.of_nat (length bits) - FrameSync.lock_offset r)
          / FrameSync.frame_bits_of t /\
      forall i f, nth_error (FrameSync.frames r) i = Some f ->
                  SyncSpec.frame_at bits t (FrameSync.lock_offset r) (Z.of_nat i) f.
Proof.
  intros bits t m.
  destruct (sync_frames_total bits t m) as [r Hr].
  exists r. split; [exact Hr |].
  destruct (sync_frames_parts bits t m r Hr) as (bo & bs & fr & p & Es & Ex & ->).
  destruct (search_result bits t m) as (bo' & bs' & Es' & _ & Hbo & _).
  rewrite Es in Es'. injection Es' as <- <-.
  cbn [lock_offset orphan_bits frames].
  split; [exact Hbo |]. split; [reflexivity |].
  pose proof (frame_bits_positive t) as Hfb.
  destruct (extract_loop_frames bits t bo (length bits) ltac:(lia) [] bo fr p
              ltac:(cbn [length]; lia) Ex)
    as (new & Hfr & Hp & Hle & Hstop & Hnew).
  cbn [app] in Hfr. subst fr. split.
  - specialize (Hstop ltac:(lia)).
    assert (Hp_le : p <= Z.of_nat (length bits)).
    { destruct new as [| f0 new0]; [cbn [length] in Hp; lia |].
      apply Hle. discriminate. }
    apply (Z.div_unique_pos _ _ _ (Z.of_nat (length bits) - p)); nia.
  - intros i f Hf. exact (Hnew i f Hf).
Qed.

End SyncTheorems.

(** * The inlined decoder and synchroniser of the visualizer *)

Section VisualizerFacts.
Import Constants.

Section VizDecode.

Lemma viz_run_of (positive : bool) (rest : list Z) :
  VisualizerBridge.run_of positive rest
  = Decoder.same_run VisualizerBridge._ZERO_THRESH positive rest.
Proof.
  induction rest as [| s tl IH]; [reflexivity |].
  cbn [VisualizerBridge.run_of Decoder.same_run]. rewrite IH. reflexivity.
Qed.

Lemma viz_run_lengths_loop (fuel : nat) :
  forall i rest runs,
    VisualizerBridge.run_lengths_loop fuel i rest runs
    = Decoder.scan_runs
        (Decoder.run_lengths_loop fuel VisualizerBridge._ZERO_THRESH
           {| Decoder.scan_i := i; Decoder.scan_rest := rest;
              Decoder.scan_runs := runs |}).
Proof.
  induction fuel as [| fuel IH]; intros i rest runs; [reflexivity |].
  cbn [VisualizerBridge.run_lengths_loop Decoder.run_lengths_loop
       Decoder.scan_rest Decoder.scan_i Decoder.scan_runs].
  destruct rest as [| s tl]; [reflexivity |].
  destruct (Z.abs s <? VisualizerBridge._ZERO_THRESH); [apply IH |].
  rewrite viz_run_of.
  destruct (Decoder.same_run _ _ _) as [k rest']. apply IH.
Qed.

Variable d : Decoder.BMCDecoder.

(** The state of the inlined loop seen from the state of the decoder. *)
Let same_state (v : VisualizerBridge.decode_state) (s : Decoder.consume_state)
  : Prop :=
  VisualizerBridge.idx v = Decoder.idx s /\
  VisualizerBridge.bits v = map Decoder.bit (Decoder.bits s) /\
  VisualizerBridge.errors v = Z.of_nat (length (Decoder.errors s)).

Lemma viz_decode_step (runs : list (Z * Z)) v s :
  same_state v s ->
  same_state
    (VisualizerBridge.decode_step (Decoder._full_lo d) (Decoder._full_hi d)
       (Decoder._half_lo d) (Decoder._half_hi d) runs v)
    (Decoder.consume_step d runs s).
Proof.
  intros (Hi & Hb & He).
  unfold VisualizerBridge.decode_step, Decoder.consume_step,
    Decoder._is_full, Decoder._is_half, Decoder.emit_bit, Decoder.emit_error,
    same_state.
  rewrite Hi.
  destruct (nth_error runs (Decoder.idx s)) as [[pos r] |];
    [| repeat split; assumption].
  destruct ((Decoder._full_lo d <=? r) && (r <=? Decoder._full_hi d)).
  { cbn. rewrite ?Hi, Hb, map_app. repeat split. exact He. }
  destruct ((Decoder._half_lo d <=? r) && (r <=? Decoder._half_hi d)).
  2:{ cbn. rewrite ?Hi, Hb, He, length_app. cbn [length].
      repeat split. lia. }
  destruct (Decoder.idx s + 1 <? length runs)%nat.
  2:{ cbn. rewrite ?Hi, Hb, map_app. repeat split. exact He. }
  destruct (nth_error runs (Decoder.idx s + 1)) as [[pos2 r2] |];
    [| repeat split; assumption].
  destruct ((Decoder._half_lo d <=? r2) && (r2 <=? Decoder._half_hi d)).
  { cbn. rewrite ?Hi, Hb, map_app. repeat split. exact He. }
  cbv zeta.
  destruct ((Decoder._full_lo d <=? r + r2) && (r + r2 <=? Decoder._full_hi d)).
  { cbn. rewrite ?Hi, Hb, map_app. repeat split. exact He. }
  cbn. rewrite ?Hi, Hb, He, length_app. cbn [length]. repeat split. lia.
Qed.

Lemma viz_decode_loop (runs : list (Z * Z)) (fuel : nat) :
  forall v s,
    same_state v s ->
    same_state
      (VisualizerBridge.decode_loop (Decoder._full_lo d) (Decoder._full_hi d)
         (Decoder._half_lo d) (Decoder._half_hi d) runs fuel v)
      (Decoder.consume_loop d fuel runs s).
Proof.
  induction fuel as [| fuel IH]; intros v s H; [exact H |].
  cbn [VisualizerBridge.decode_loop Decoder.consume_loop].
  destruct H as (Hi & Hb & He). rewrite Hi.
  destruct (Decoder.idx s <? length runs)%nat.
  - apply IH. apply viz_decode_step. repeat split; assumption.
  - repeat split; assumption.
Qed.

Lemma viz_decode_result (runs : list (Z * Z)) :
  let v := VisualizerBridge.decode_loop (Decoder._full_lo d)
             (Decoder._full_hi d) (Decoder._half_lo d) (Decoder._half_hi d)
             runs (length runs)
             {| VisualizerBridge.idx := 0; VisualizerBridge.bits := [];
                VisualizerBridge.errors := 0 |} in
  let s := Decoder._consume_runs d runs [] [] in
  VisualizerBridge.bits v = map Decoder.bit (Decoder.bits s) /\
  VisualizerBridge.errors v = Z.of_nat (length (Decoder.errors s)).
Proof.
  cbv zeta. unfold Decoder._consume_runs.
  destruct (viz_decode_loop runs (length runs)
              {| VisualizerBridge.idx := 0; VisualizerBridge.bits := [];
                 VisualizerBridge.errors := 0 |}
              {| Decoder.idx := 0; Decoder.bits := []; Decoder.errors := [] |})
    as (_ & Hb & He); [repeat split |].
  split; assumption.
Qed.

End VizDecode.

Lemma viz_decode_bmc :
  forall (samples : list Z) (sample_rate : Z),
    VisualizerBridge._decode_bmc samples sample_rate
    = (dec <- Decoder.init sample_rate 4800 Decoder.TOLERANCE_FACTOR 200 ;;
       let decoded := Decoder.decode dec samples in
       Py.Ok (map Decoder.bit (fst decoded),
              Z.of_nat (length (snd decoded)))).
Proof.
  intros samples sample_rate.
  unfold VisualizerBridge._decode_bmc, Decoder.init.
  change VisualizerBridge._BAUD_RATE with 4800.
  change VisualizerBridge._TOLERANCE with Decoder.TOLERANCE_FACTOR.
  destruct (Py.true_div sample_rate 4800) as [spb |]; cbn [Py.bind];
    [| reflexivity].
  destruct (Py.floor _) as [full_lo |]; cbn [Py.bind]; [| reflexivity].
  destruct (Py.ceil _) as [full_hi |]; cbn [Py.bind]; [| reflexivity].
  destruct (Py.floor _) as [half_lo |]; cbn [Py.bind]; [| reflexivity].
  destruct (Py.ceil _) as [half_hi |]; cbn [Py.bind]; [| reflexivity].
  set (d := {| Decoder.sample_rate := sample_rate |}).
  unfold Decoder.decode. cbv zeta. cbn [fst snd].
  assert (Hruns : VisualizerBridge._run_lengths samples
                  = Decoder._run_lengths d samples).
  { unfold VisualizerBridge._run_lengths, Decoder._run_lengths.
    apply viz_run_lengths_loop. }
  rewrite Hruns.
  destruct (viz_decode_result d (Decoder._run_lengths d samples)) as [Hb He].
  cbn [Decoder._full_lo Decoder._full_hi Decoder._half_lo Decoder._half_hi d]
    in Hb, He.
  rewrite Hb, He. reflexivity.
Qed.

Section VizSync.

Variable bits : list Z.
Variable t : track.

Lemma viz_score_loop (ks : list Z) :
  forall c s,
    VisualizerBridge.score_loop bits (FrameSync.frame_bits_of t)
      (FrameSync.blank_indices_of t) ks c s
    = FrameSync.score_loop bits t ks c s.
Proof.
  induction ks as [| k tl IH]; intros c s; [reflexivity |].
  cbn [VisualizerBridge.score_loop FrameSync.score_loop].
  destruct (_ >? _); [reflexivity |].
  destruct (FrameSync.all_blank_zero _ _) as [[|] |]; cbn [Py.bind];
    [apply IH | reflexivity | reflexivity].
Qed.

Lemma viz_search_loop (cands : list Z) :
  forall bo bs,
    VisualizerBridge.search_loop bits (FrameSync.frame_bits_of t)
      (FrameSync.blank_indices_of t) cands bo bs
    = FrameSync.search_loop bits t cands bo bs.
Proof.
  induction cands as [| c tl IH]; intros bo bs; [reflexivity |].
  cbn [VisualizerBridge.search_loop FrameSync.search_loop].
  change VisualizerBridge._LOCK_THRESHOLD with FrameSync.LOCK_THRESHOLD.
  rewrite viz_score_loop.
  destruct (FrameSync.score_loop _ _ _ _ _) as [s |]; cbn [Py.bind];
    [| reflexivity].
  destruct (s >? bs); [| apply IH].
  destruct (s >=? FrameSync.LOCK_THRESHOLD); [reflexivity | apply IH].
Qed.

(** The frames of the inlined extraction are the bits of the frames of
    [sync_frames], each of which carries the result of its blank check. *)
Lemma viz_extract_loop (fuel : nat) :
  forall acc pos fr p,
    0 <= pos ->
    Forall (fun f => FrameSync.all_blank_zero (FrameSync.bits f)
                       (FrameSync.blank_indices_of t)
                     = Py.Ok (FrameSync.blank_ok f)) acc ->
    FrameSync.extract_loop bits t fuel acc pos = Py.Ok (fr, p) ->
    VisualizerBridge.extract_loop bits (FrameSync.frame_bits_of t) fuel
      (map FrameSync.bits acc) pos = map FrameSync.bits fr /\
    Forall (fun f => FrameSync.all_blank_zero (FrameSync.bits f)
                       (FrameSync.blank_indices_of t)
                     = Py.Ok (FrameSync.blank_ok f)) fr.
Proof.
  pose proof (frame_bits_positive t) as Hfb.
  induction fuel as [| fuel IH]; intros acc pos fr p Hpos Hacc;
    cbn [VisualizerBridge.extract_loop FrameSync.extract_loop].
  - intros H. injection H as <- <-. split; [reflexivity | exact Hacc].
  - destruct (_ <=? _) eqn:Ele.
    + destruct (FrameSync.all_blank_zero _ _) as [b |] eqn:Eb; cbn [Py.bind];
        [| discriminate].
      intros H. apply IH in H; [| lia |].
      * rewrite map_app in H. exact H.
      * apply Forall_app. split; [exact Hacc |].
        constructor; [exact Eb | constructor].
    + intros H. injection H as <- <-. split; [reflexivity | exact Hacc].
Qed.

Lemma viz_count_blank_ok (fr : list FrameSync.DecodedFrame) :
  Forall (fun f => FrameSync.all_blank_zero (FrameSync.bits f)
                     (FrameSync.blank_indices_of t)
                   = Py.Ok (FrameSync.blank_ok f)) fr ->
  VisualizerBridge.count_blank_ok (map FrameSync.bits fr)
    (FrameSync.blank_indices_of t)
  = Py.Ok (Z.of_nat (length (filter FrameSync.blank_ok fr))).
Proof.
  induction 1 as [| f tl Hf _ IH]; [reflexivity |].
  cbn [map VisualizerBridge.count_blank_ok filter].
  rewrite Hf, IH. cbn [Py.bind].
  destruct (FrameSync.blank_ok f); cbn [length]; f_equal; lia.
Qed.

Lemma viz_sync_frames :
  exists r,
    FrameSync.sync_frames bits t FrameSync.default_max_search_bits = Py.Ok r /\
    VisualizerBridge._sync_frames bits (FrameSync.frame_bits_of t)
      (FrameSync.blank_indices_of t)
    = Py.Ok (FrameSync.lock_offset r, FrameSync.score r,
             map FrameSync.bits (FrameSync.frames r)) /\
    Forall (fun f => FrameSync.all_blank_zero (FrameSync.bits f)
                       (FrameSync.blank_indices_of t)
                     = Py.Ok (FrameSync.blank_ok f)) (FrameSync.frames r).
Proof.
  destruct (sync_frames_total bits t FrameSync.default_max_search_bits)
    as [r Hr].
  exists r. split; [exact Hr |].
  destruct (sync_frames_parts bits t _ r Hr) as (bo & bs & fr & p & Es & Ex & ->).
  destruct (search_result bits t FrameSync.default_max_search_bits)
    as (bo' & bs' & Es' & _ & Hbo & _).
  rewrite Es in Es'. injection Es' as <- <-.
  cbn [FrameSync.lock_offset FrameSync.score FrameSync.frames].
  destruct (viz_extract_loop (length bits) [] bo fr p ltac:(lia)
              (Forall_nil _) Ex) as [Hx Hall].
  split; [| exact Hall].
  unfold VisualizerBridge._sync_frames. rewrite viz_search_loop.
  change VisualizerBridge._LOCK_THRESHOLD with FrameSync.LOCK_THRESHOLD.
  replace (FrameSync.range (Z.max 0 _))
    with (FrameSync.range (SyncSpec.search_end bits t
                             FrameSync.default_max_search_bits)).
  - rewrite Es. cbn [Py.bind]. cbn [map] in Hx. rewrite Hx. reflexivity.
  - unfold FrameSync.range, SyncSpec.search_end,
      FrameSync.default_max_search_bits.
    f_equal. f_equal. lia.
Qed.

End VizSync.

Section VizVerdict.

Variables fmt_2f fmt_1f : float -> string.
Variable sr : Z.
Variables td_samples bd_samples : list Z.

Lemma viz_process_track (st : HardwareSim.sim_state) (t : track) :
  VisualizerBridge._process_track fmt_2f fmt_1f sr (Viz.of_sim st)
    (Viz.channels td_samples bd_samples t) (Viz.frame_bits t) (Viz.blank_idx t)
    (track_name t)
  = Frames.res_map Viz.of_sim
      (HardwareSim.track_body fmt_2f fmt_1f sr Decoder.TOLERANCE_FACTOR
         (Viz.channels td_samples bd_samples) st t).
Proof.
  unfold VisualizerBridge._process_track, HardwareSim.track_body.
  rewrite viz_decode_bmc. change BAUD_RATE with 4800.
  destruct (Decoder.init sr 4800 Decoder.TOLERANCE_FACTOR 200) as [dec |];
    cbn [Py.bind Frames.res_map]; [| reflexivity].
  destruct (Decoder.decode dec (Viz.channels td_samples bd_samples t))
    as [bits_decoded decode_errors].
  cbn [fst snd]. rewrite length_map.
  destruct (Py.true_div _ _) as [error_rate |]; cbn [Py.bind Frames.res_map];
    [| reflexivity].
  destruct (viz_sync_frames (map Decoder.bit bits_decoded) t)
    as (r & Hr & Hv & Hall).
  replace (Viz.frame_bits t) with (FrameSync.frame_bits_of t)
    by (destruct t; reflexivity).
  replace (Viz.blank_idx t) with (FrameSync.blank_indices_of t)
    by (destruct t; reflexivity).
  rewrite Hv, Hr. cbn [Py.bind].
  rewrite (viz_count_blank_ok t _ Hall). cbn [Py.bind].
  unfold HardwareSim.count_blank_ok. rewrite length_map.
  destruct (Py.true_div _ _) as [blank_rate |]; cbn [Py.bind Frames.res_map];
    [| reflexivity].
  rewrite (sync_locked_score _ _ _ _ Hr).
  change VisualizerBridge._LOCK_THRESHOLD with 3.
  change VisualizerBridge._MAX_ERR_RATE with HardwareSim.MAX_ERROR_RATE.
  change VisualizerBridge._MIN_BLANK_RATE with HardwareSim.MIN_BLANK_BIT_RATE.
  destruct (PrimFloat.ltb HardwareSim.MAX_ERROR_RATE error_rate),
    (FrameSync.score r >=? 3),
    (PrimFloat.ltb blank_rate HardwareSim.MIN_BLANK_BIT_RATE);
    destruct t; reflexivity.
Qed.

End VizVerdict.

End VisualizerFacts.

(** X11.  The decoder inlined in visualizer_bridge.py and [BMCDecoder] agree
    on every channel and at every sample rate: [_decode_bmc] returns the bit
    values [BMCDecoder(sample_rate, 4800, 0.30, 200).decode] returns and the
    number of its errors, or raises as the constructor does. *)
Theorem visualizer_decoder_agrees :
  forall (samples : list Z) (sample_rate : Z),
    VisualizerBridge._decode_bmc samples sample_rate
    = (dec <- Decoder.init sample_rate 4800 Decoder.TOLERANCE_FACTOR 200 ;;
       let decoded := Decoder.decode dec samples in
       Py.Ok (map Decoder.bit (fst decoded),
              Z.of_nat (length (snd decoded)))).
Proof. exact viz_decode_bmc. Qed.

(** X12.  The synchroniser inlined in visualizer_bridge.py and [sync_frames]
    agree on every bit list and for both tracks: [_sync_frames], called with
    the frame width and the blank indices of the track, returns the lock
    offset, the score and the frame bits that [sync_frames] returns with its
    default search window. *)
Theorem visualizer_sync_agrees :
  forall (bits : list Z) (t : Constants.track),
    exists r,
      FrameSync.sync_frames bits t FrameSync.default_max_search_bits = Py.Ok r /\
      VisualizerBridge._sync_frames bits (Viz.frame_bits t) (Viz.blank_idx t)
      = Py.Ok (FrameSync.lock_offset r, FrameSync.score r,
               map FrameSync.bits (FrameSync.frames r)).
Proof.
  intros bits t. destruct (viz_sync_frames bits t) as (r & Hr & Hv & _).
  exists r. split; [exact Hr |].
  replace (Viz.frame_bits t) with (FrameSync.frame_bits_of t)
    by (destruct t; reflexivity).
  replace (Viz.blank_idx t) with (FrameSync.blank_indices_of t)
    by (destruct t; reflexivity).
  exact Hv.
Qed.

(** X13.  The in-browser verifier and the command-line simulator judge a
    recording alike: for a non-zero sample rate, [verify_and_decode] on the
    TD and BD channels reaches the verdict and the list of reasons that
    [run_sim] reaches on both tracks at the default tolerance 0.30, and
    raises when it raises. *)
Theorem visualizer_verdict_agrees :
  forall (fmt_2f fmt_1f : float -> string) (sample_rate : Z)
         (td_samples bd_samples : list Z),
    sample_rate <> 0 ->
    VisualizerBridge.verify_and_decode fmt_2f fmt_1f sample_rate
      td_samples bd_samples
    = Frames.res_map Viz.of_sim
        (HardwareSim.run_sim fmt_2f fmt_1f sample_rate
           Decoder.TOLERANCE_FACTOR (Viz.channels td_samples bd_samples)
           HardwareSim.BOTH).
Proof.
  intros fmt_2f fmt_1f sr td bd Hsr.
  unfold VisualizerBridge.verify_and_decode, HardwareSim.run_sim.
  cbn [HardwareSim.tracks_to_run HardwareSim.tracks_loop].
  unfold Py.true_div at 1.
  destruct (Z.eqb_spec sr 0) as [H0 | _]; [contradiction |].
  cbn [Py.bind].
  change {| VisualizerBridge.verdict_pass := true;
            VisualizerBridge.reasons := [] |}
    with (Viz.of_sim {| HardwareSim.verdict_pass := true;
                        HardwareSim.reasons := [] |}).
  pose proof (viz_process_track fmt_2f fmt_1f sr td bd) as Hstep.
  rewrite (Hstep _ Constants.TD
           : VisualizerBridge._process_track fmt_2f fmt_1f sr _ td
               VisualizerBridge._TD_FRAME_BITS VisualizerBridge._TD_BLANK_IDX
               "TD" = _).
  destruct (HardwareSim.track_body _ _ _ _ _ _ Constants.TD) as [st1 |];
    cbn [Py.bind Frames.res_map]; [| reflexivity].
  rewrite (Hstep st1 Constants.BD
           : VisualizerBridge._process_track fmt_2f fmt_1f sr _ bd
               VisualizerBridge._BD_FRAME_BITS VisualizerBridge._BD_BLANK_IDX
               "BD" = _).
  destruct (HardwareSim.track_body _ _ _ _ _ st1 Constants.BD) as [st2 |];
    cbn [Py.bind Frames.res_map]; reflexivity.
Qed.

Lemma visualizer_verdict_agrees_witness :
  44100 <> 0 /\
  VisualizerBridge.verify_and_decode (fun _ => "") (fun _ => "") 44100 [] []
  = Frames.res_map Viz.of_sim
      (HardwareSim.run_sim (fun _ => "") (fun _ => "") 44100
         Decoder.TOLERANCE_FACTOR (Viz.channels [] []) HardwareSim.BOTH).
Proof.
  assert (H : 44100 <> 0) by lia.
  split; [exact H |].
  exact (visualizer_verdict_agrees (fun _ => "") (fun _ => "") 44100 [] [] H).
Defined.

(** * The decoder and the framing of rshw_builder.py *)

Section RshwFacts.
Import Constants.

Section RshwDecode.

Lemma rshw_run_of (thresh : Z) (positive : bool) (rest : list Z) :
  RshwBuilder.run_of thresh positive rest
  = Decoder.same_run thresh positive rest.
Proof.
  induction rest as [| s tl IH]; [reflexivity |].
  cbn [RshwBuilder.run_of Decoder.same_run]. rewrite IH. reflexivity.
Qed.

Lemma rshw_runs_loop (thresh : Z) (fuel : nat) :
  forall i rest runs,
    RshwBuilder.runs_loop fuel thresh i rest (map snd runs)
    = map snd
        (Decoder.scan_runs
           (Decoder.run_lengths_loop fuel thresh
              {| Decoder.scan_i := i; Decoder.scan_rest := rest;
                 Decoder.scan_runs := runs |})).
Proof.
  induction fuel as [| fuel IH]; intros i rest runs; [reflexivity |].
  cbn [RshwBuilder.runs_loop Decoder.run_lengths_loop
       Decoder.scan_rest Decoder.scan_i Decoder.scan_runs].
  destruct rest as [| s tl]; [reflexivity |].
  destruct (Z.abs s <? thresh); [apply IH |].
  rewrite rshw_run_of.
  destruct (Decoder.same_run _ _ _) as [k rest'].
  rewrite <- IH. rewrite map_app. reflexivity.
Qed.

Variable d : Decoder.BMCDecoder.

(** The state of the inlined loop seen from the state of the decoder. *)
Let same_state (v : RshwBuilder.decode_state) (s : Decoder.consume_state)
  : Prop :=
  RshwBuilder.idx v = Decoder.idx s /\
  RshwBuilder.bits v = Codec.whole_bits (Decoder.bits s).

Lemma whole_bits_app (a b : list Decoder.DecodedBit) :
  Codec.whole_bits (a ++ b) = Codec.whole_bits a ++ Codec.whole_bits b.
Proof. unfold Codec.whole_bits. rewrite filter_app, map_app. reflexivity. Qed.

Lemma rshw_decode_step (runs : list (Z * Z)) v s :
  same_state v s ->
  same_state
    (RshwBuilder.decode_step (Decoder._full_lo d) (Decoder._full_hi d)
       (Decoder._half_lo d) (Decoder._half_hi d) (map snd runs) v)
    (Decoder.consume_step d runs s).
Proof.
  intros (Hi & Hb).
  unfold RshwBuilder.decode_step, Decoder.consume_step,
    RshwBuilder.is_full, RshwBuilder.is_half,
    Decoder._is_full, Decoder._is_half, Decoder.emit_bit, Decoder.emit_error,
    same_state.
  rewrite Hi, !nth_error_map, length_map.
  destruct (nth_error runs (Decoder.idx s)) as [[pos r] |];
    cbn [option_map snd]; [| split; assumption].
  destruct ((Decoder._full_lo d <=? r) && (r <=? Decoder._full_hi d)).
  { cbn [RshwBuilder.idx RshwBuilder.bits Decoder.idx Decoder.bits]. rewrite whole_bits_app, <- Hb.
    split; reflexivity. }
  destruct ((Decoder._half_lo d <=? r) && (r <=? Decoder._half_hi d)).
  2:{ cbn [RshwBuilder.idx RshwBuilder.bits Decoder.idx Decoder.bits]. split; [reflexivity | exact Hb]. }
  destruct (Decoder.idx s + 1 <? length runs)%nat.
  2:{ cbn [RshwBuilder.idx RshwBuilder.bits Decoder.idx Decoder.bits]. rewrite whole_bits_app, <- Hb.
      split; [reflexivity | symmetry; apply app_nil_r]. }
  destruct (nth_error runs (Decoder.idx s + 1)) as [[pos2 r2] |];
    cbn [option_map snd]; [| split; assumption].
  destruct ((Decoder._half_lo d <=? r2) && (r2 <=? Decoder._half_hi d)).
  { cbn [RshwBuilder.idx RshwBuilder.bits Decoder.idx Decoder.bits]. rewrite whole_bits_app, <- Hb.
    split; reflexivity. }
  destruct ((Decoder._full_lo d <=? r + r2) && (r + r2 <=? Decoder._full_hi d)).
  { cbn [RshwBuilder.idx RshwBuilder.bits Decoder.idx Decoder.bits]. rewrite whole_bits_app, <- Hb.
    split; reflexivity. }
  cbn [RshwBuilder.idx RshwBuilder.bits Decoder.idx Decoder.bits]. split; [reflexivity | exact Hb].
Qed.

Lemma rshw_decode_loop (runs : list (Z * Z)) (fuel : nat) :
  forall v s,
    same_state v s ->
    same_state
      (RshwBuilder.decode_loop (Decoder._full_lo d) (Decoder._full_hi d)
         (Decoder._half_lo d) (Decoder._half_hi d) (map snd runs) fuel v)
      (Decoder.consume_loop d fuel runs s).
Proof.
  induction fuel as [| fuel IH]; intros v s H; [exact H |].
  cbn [RshwBuilder.decode_loop Decoder.consume_loop].
  destruct H as (Hi & Hb). rewrite Hi, length_map.
  destruct (Decoder.idx s <? length runs)%nat.
  - apply IH. apply rshw_decode_step. split; assumption.
  - split; assumption.
Qed.

End RshwDecode.

Lemma rshw_decode_bmc (samples : list Z) (sample_rate baud_rate : Z)
  (tolerance : float) (zero_thresh : Z) :
  RshwBuilder._decode_bmc samples sample_rate baud_rate tolerance zero_thresh
  = (dec <- Decoder.init sample_rate baud_rate tolerance zero_thresh ;;
     Py.Ok (Codec.whole_bits (fst (Decoder.decode dec samples)))).
Proof.
  unfold RshwBuilder._decode_bmc, Decoder.init.
  destruct (Py.true_div sample_rate baud_rate) as [spb |]; cbn [Py.bind];
    [| reflexivity].
  change (Py.float_of_Z 2) with 2.0%float.
  destruct (Py.floor _) as [full_lo |]; cbn [Py.bind]; [| reflexivity].
  destruct (Py.ceil _) as [full_hi |]; cbn [Py.bind]; [| reflexivity].
  destruct (Py.floor _) as [half_lo |]; cbn [Py.bind]; [| reflexivity].
  destruct (Py.ceil _) as [half_hi |]; cbn [Py.bind]; [| reflexivity].
  set (d := {| Decoder.sample_rate := sample_rate |}).
  unfold Decoder.decode. cbv zeta. cbn [fst].
  pose proof (rshw_runs_loop zero_thresh (length samples) 0 samples []) as Hruns.
  cbn [map] in Hruns. rewrite Hruns.
  fold (Decoder._run_lengths d samples).
  set (runs := Decoder._run_lengths d samples).
  destruct (rshw_decode_loop d runs (length runs)
              {| RshwBuilder.idx := 0; RshwBuilder.bits := [] |}
              {| Decoder.idx := 0; Decoder.bits := []; Decoder.errors := [] |})
    as (_ & Hb); [split; reflexivity |].
  cbn [Decoder._full_lo Decoder._full_hi Decoder._half_lo Decoder._half_hi d]
    in Hb.
  rewrite length_map. apply f_equal. exact Hb.
Qed.

Section WholeBits.
Import Decoder Aux.

Variable d : BMCDecoder.

(** Only the last decoded bit can be an orphan. *)
Lemma orphan_is_last (runs : list (Z * Z)) :
  filter (fun b => negb (Codec.is_orphan b)) (fst (consume_list d runs))
  = fst (consume_list d runs)
  \/ filter (fun b => negb (Codec.is_orphan b)) (fst (consume_list d runs))
     = removelast (fst (consume_list d runs)).
Proof.
  induction runs as [| | [pos r] [pos2 r2] rest IH2 IH1] using list_pair_ind.
  - left. reflexivity.
  - destruct x as [pos r]. rewrite consume_list_unfold. cbv zeta.
    destruct (_is_full d r); [left; reflexivity |].
    destruct (_is_half d r); [right; reflexivity | left; reflexivity].
  - rewrite consume_list_unfold. cbv zeta.
    assert (Hcons : forall b l,
              Codec.is_orphan b = false ->
              (filter (fun b => negb (Codec.is_orphan b)) l = l \/
               filter (fun b => negb (Codec.is_orphan b)) l = removelast l) ->
              filter (fun b => negb (Codec.is_orphan b)) (b :: l) = b :: l \/
              filter (fun b => negb (Codec.is_orphan b)) (b :: l)
              = removelast (b :: l)).
    { intros b l Hb [H | H]; cbn [filter]; rewrite Hb; cbn [negb].
      - left. rewrite H. reflexivity.
      - destruct l as [| x l'].
        + left. reflexivity.
        + right. rewrite H. reflexivity. }
    destruct (_is_full d r); [apply Hcons; [reflexivity | exact IH1] |].
    destruct (_is_half d r); [| exact IH1].
    destruct (_is_half d r2); [apply Hcons; [reflexivity | exact IH2] |].
    destruct (_is_full d (r + r2)); [apply Hcons; [reflexivity | exact IH2] |].
    exact IH1.
Qed.

Hypothesis full_9 : _is_full d 9 = true.
Hypothesis full_4 : _is_full d 4 = false.
Hypothesis half_4 : _is_half d 4 = true.
Hypothesis half_5 : _is_half d 5 = true.

Lemma consume_list_blocks_whole (bs : list Z) :
  Forall is_bit bs ->
  forall l i,
    Codec.whole_bits (fst (consume_list d (positions i (blocks l bs)))) = bs.
Proof.
  induction 1 as [| b tl Hb _ IH]; intros l i; [reflexivity |].
  cbn [blocks]. destruct Hb as [-> | ->].
  - change (Py.truthy 0) with false. cbv iota.
    change SAMPLES_PER_BIT with 9. cbn [positions].
    rewrite consume_list_unfold. cbv zeta. rewrite full_9. cbn [fst].
    unfold Codec.whole_bits. cbn [filter Codec.is_orphan run_b bit Z.eqb negb map].
    fold (Codec.whole_bits
            (fst (consume_list d (positions (i + 9) (blocks (Encoder.toggle l) tl))))).
    rewrite IH. reflexivity.
  - change (Py.truthy 1) with true. cbv iota.
    change BMC_HALF_A with 4. change BMC_HALF_B with 5. cbn [positions].
    rewrite consume_list_unfold. cbv zeta. rewrite full_4, half_4, half_5.
    cbn [fst].
    unfold Codec.whole_bits. cbn [filter Codec.is_orphan run_b bit negb map].
    fold (Codec.whole_bits
            (fst (consume_list d
                    (positions (i + 4 + 5)
                       (blocks (Encoder.toggle (Encoder.toggle l)) tl))))).
    rewrite IH. reflexivity.
Qed.

Lemma decode_encode_whole (enc : Encoder.BMCEncoder) (bs : list Z) :
  zero_threshold d <= BMC_HIGH ->
  Forall is_bit bs ->
  Codec.whole_bits (fst (decode d (fst (Encoder.encode_bits enc bs)))) = bs.
Proof.
  intros Ht Hbs. rewrite decode_list, run_lengths_encode by assumption.
  apply consume_list_blocks_whole. assumption.
Qed.

End WholeBits.

End RshwFacts.

(** X14.  The decoder inlined in rshw_builder.py returns the bit values
    [BMCDecoder] returns at the same rates, tolerance and threshold, except
    for a 1 read from a single half run at the very end of the stream, which
    it leaves out (it raises when the constructor raises).  Such a bit can
    only be the last one, so the two bit lists are equal or differ by that
    last bit. *)
Theorem rshw_decoder_agrees :
  forall (samples : list Z) (sample_rate baud_rate : Z) (tolerance : float)
         (zero_thresh : Z),
    RshwBuilder._decode_bmc samples sample_rate baud_rate tolerance zero_thresh
    = (dec <- Decoder.init sample_rate baud_rate tolerance zero_thresh ;;
       Py.Ok (Codec.whole_bits (fst (Decoder.decode dec samples)))) /\
    forall dec,
      let decoded := fst (Decoder.decode dec samples) in
      Codec.whole_bits decoded = map Decoder.bit decoded \/
      Codec.whole_bits decoded = map Decoder.bit (removelast decoded).
Proof.
  intros samples sample_rate baud_rate tolerance zero_thresh.
  split; [apply rshw_decode_bmc |].
  intros dec decoded. unfold decoded, Codec.whole_bits.
  rewrite decode_list.
  destruct (orphan_is_last dec (Decoder._run_lengths dec samples)) as [-> | ->];
    [left | right]; reflexivity.
Qed.

(** X15.  The decoder inlined in rshw_builder.py, at 44100 Hz with the
    constants of the module, returns the bits that were encoded, for every
    sequence of 0/1 bits and every initial level of the encoder. *)
Theorem rshw_decoder_round_trip :
  forall (initial_level : Z) (bits : list Z),
    Forall Aux.is_bit bits ->
    RshwBuilder._decode_bmc
      (fst (Encoder.encode_bits (Encoder.init initial_level) bits))
      44100 RshwBuilder._BAUD_RATE RshwBuilder._TOLERANCE
      RshwBuilder._ZERO_THRESH
    = Py.Ok bits.
Proof.
  intros initial_level bits Hbits. rewrite rshw_decode_bmc.
  destruct (Decoder.init 44100 RshwBuilder._BAUD_RATE RshwBuilder._TOLERANCE
              RshwBuilder._ZERO_THRESH) as [dec |] eqn:Hdec;
    [| vm_compute in Hdec; discriminate Hdec].
  cbn [Py.bind]. f_equal.
  vm_compute in Hdec. injection Hdec as <-.
  apply decode_encode_whole; try reflexivity; try assumption.
  cbn. discriminate.
Qed.

Lemma rshw_decoder_round_trip_witness :
  Forall Aux.is_bit [1; 0; 0; 1; 1] /\
  RshwBuilder._decode_bmc
    (fst (Encoder.encode_bits (Encoder.init Constants.BMC_LOW) [1; 0; 0; 1; 1]))
    44100 RshwBuilder._BAUD_RATE RshwBuilder._TOLERANCE
    RshwBuilder._ZERO_THRESH
  = Py.Ok [1; 0; 0; 1; 1].
Proof.
  assert (Hb : Forall Aux.is_bit [1; 0; 0; 1; 1]).
  { repeat (apply Forall_cons; [unfold Aux.is_bit; lia |]). apply Forall_nil. }
  split; [exact Hb |].
  exact (rshw_decoder_round_trip Constants.BMC_LOW [1; 0; 0; 1; 1] Hb).
Defined.

Section FramingFacts.
Import Constants.

Section Chunks.

Variable A : Type.

Lemma firstn_add_skipn (l : list A) (a b : nat) :
  firstn (a + b) l = firstn a l ++ firstn b (skipn a l).
Proof.
  revert l. induction a as [| a IH]; intros l; [reflexivity |].
  destruct l as [| x tl]; [cbn; rewrite firstn_nil; reflexivity |].
  cbn [Nat.add firstn skipn app]. rewrite IH. reflexivity.
Qed.

(** Cutting the first [n * w] elements into [n] chunks of [w]. *)
Lemma concat_chunks (l : list A) (w n : nat) :
  concat (map (fun k => firstn w (skipn (k * w) l)) (seq 0 n))
  = firstn (n * w) l.
Proof.
  induction n as [| n IH]; [reflexivity |].
  rewrite seq_S, map_app, concat_app, IH. cbn [map concat Nat.add].
  rewrite app_nil_r.
  replace (S n * w)%nat with (n * w + w)%nat by lia.
  symmetry. apply firstn_add_skipn.
Qed.

End Chunks.

Section BitsToFrames.

Variable bits : list Z.
Variable frame_bits : Z.

Let total := Z.of_nat (length bits).

Lemma bits_to_frames_chunks :
  0 < frame_bits ->
  RshwBuilder._bits_to_frames bits frame_bits
  = Py.Ok (map (fun k => firstn (Z.to_nat frame_bits)
                           (skipn (k * Z.to_nat frame_bits) bits))
             (seq 0 (Z.to_nat (total / frame_bits)))).
Proof.
  intros Hfb. unfold RshwBuilder._bits_to_frames, Py.range3. fold total.
  destruct (Z.eqb_spec frame_bits 0) as [H0 | _]; [lia |].
  destruct (Z.gtb_spec frame_bits 0) as [_ | Hle]; [| lia].
  cbn [Py.bind]. rewrite map_map. f_equal.
  replace ((total - frame_bits + 1 - 0 + frame_bits - 1) / frame_bits)
    with (total / frame_bits) by (f_equal; lia).
  apply map_ext_in. intros k Hk. apply in_seq in Hk.
  assert (Hq : 0 <= total / frame_bits) by (apply Z.div_pos; lia).
  assert (Hmul : frame_bits * (total / frame_bits) <= total)
    by (apply Z.mul_div_le; lia).
  assert (Hend : 0 + Z.of_nat k * frame_bits + frame_bits <= total) by nia.
  unfold Py.slice. cbv zeta. fold total.
  rewrite !clamp_inside by nia.
  f_equal; [lia |]. f_equal. nia.
Qed.

End BitsToFrames.

End FramingFacts.

(** X16.  [_bits_to_frames] with a positive frame width cuts the bit list
    into [len(bits) // frame_bits] frames of exactly [frame_bits] bits, in
    order and without gap: their concatenation is the list without its last
    partial frame.  A zero width raises ValueError; a negative width gives
    no frame. *)
Theorem bits_to_frames_partition :
  forall (bits : list Z) (frame_bits : Z),
    let total := Z.of_nat (length bits) in
    (0 < frame_bits ->
     exists frames,
       RshwBuilder._bits_to_frames bits frame_bits = Py.Ok frames /\
       Z.of_nat (length frames) = total / frame_bits /\
       Forall (fun f => Z.of_nat (length f) = frame_bits) frames /\
       concat frames
       = firstn (Z.to_nat (frame_bits * (total / frame_bits))) bits) /\
    (frame_bits = 0 ->
     RshwBuilder._bits_to_frames bits frame_bits = Py.Raise Py.ValueError) /\
    (frame_bits < 0 ->
     RshwBuilder._bits_to_frames bits frame_bits = Py.Ok []).
Proof.
  intros bits frame_bits total. split; [| split].
  - intros Hfb. eexists. split; [apply bits_to_frames_chunks; exact Hfb |].
    fold total.
    assert (Hq : 0 <= total / frame_bits) by (apply Z.div_pos; lia).
    assert (Hmul : frame_bits * (total / frame_bits) <= total)
      by (apply Z.mul_div_le; lia).
    split; [rewrite length_map, length_seq; lia |]. split.
    + apply Forall_forall. intros f Hf. apply in_map_iff in Hf.
      destruct Hf as (k & <- & Hk). apply in_seq in Hk.
      rewrite length_firstn, length_skipn. fold total in Hmul. nia.
    + rewrite concat_chunks. f_equal. nia.
  - intros ->. reflexivity.
  - intros Hneg. unfold RshwBuilder._bits_to_frames, Py.range3.
    destruct (Z.eqb_spec frame_bits 0) as [H0 | _]; [lia |].
    destruct (Z.gtb_spec frame_bits 0) as [Hgt | _]; [lia |].
    cbn [Py.bind].
    replace (Z.to_nat _) with 0%nat; [reflexivity |].
    assert (H : (0 - (Z.of_nat (length bits) - frame_bits + 1) - frame_bits - 1)
                / (- frame_bits) < 0).
    { apply Z.div_lt_upper_bound; lia. }
    lia.
Qed.

(** * The channel tables and the frame state of the builder *)

Section ChannelTableFacts.
Import Constants.

Section AssocLists.

Lemma distinctb_sound {A : Type} (eqb : A -> A -> bool) (l : list A) :
  (forall x y, eqb x y = true <-> x = y) ->
  Tables.distinctb eqb l = true -> NoDup l.
Proof.
  intros Heq. induction l as [| x tl IH]; cbn [Tables.distinctb]; intros H.
  - constructor.
  - apply andb_prop in H. destruct H as [Hx Htl].
    constructor; [| apply IH; exact Htl].
    intros Hin. apply negb_true_iff in Hx.
    assert (E : existsb (eqb x) tl = true).
    { apply existsb_exists. exists x. split; [exact Hin | apply Heq; reflexivity]. }
    congruence.
Qed.

Lemma lookup_in {V : Type} (k : string) (d : list (string * V)) (v : V) :
  Py.lookup k d = Some v -> In (k, v) d.
Proof.
  induction d as [| [k' v'] tl IH]; cbn [Py.lookup]; [discriminate |].
  destruct (String.eqb_spec k k') as [-> | Hne].
  - intros H. injection H as ->. left. reflexivity.
  - intros H. right. apply IH. exact H.
Qed.

Lemma in_lookup {V : Type} (k : string) (d : list (string * V)) (v : V) :
  NoDup (map fst d) -> In (k, v) d -> Py.lookup k d = Some v.
Proof.
  induction d as [| [k' v'] tl IH]; cbn [map fst Py.lookup]; intros Hnd Hin;
    [destruct Hin |].
  inversion Hnd as [| ? ? Hnot Hnd']; subst.
  destruct Hin as [H | Hin].
  - injection H as -> ->. rewrite String.eqb_refl. reflexivity.
  - destruct (String.eqb_spec k k') as [-> | Hne].
    + exfalso. apply Hnot. apply in_map_iff. exists (k', v). split;
        [reflexivity | exact Hin].
    + apply IH; assumption.
Qed.

Lemma same_key {K V : Type} (d : list (K * V)) (k : K) (v v' : V) :
  NoDup (map fst d) -> In (k, v) d -> In (k, v') d -> v = v'.
Proof.
  induction d as [| [k0 v0] tl IH]; cbn [map fst]; intros Hnd H1 H2;
    [destruct H1 |].
  inversion Hnd as [| ? ? Hnot Hnd']; subst.
  destruct H1 as [H1 | H1], H2 as [H2 | H2].
  - congruence.
  - injection H1 as -> ->. exfalso. apply Hnot. apply in_map_iff.
    exists (k, v'). split; [reflexivity | exact H2].
  - injection H2 as -> ->. exfalso. apply Hnot. apply in_map_iff.
    exists (k, v). split; [reflexivity | exact H1].
  - apply IH; assumption.
Qed.

Lemma same_value {K V : Type} (d : list (K * V)) (k k' : K) (v : V) :
  NoDup (map snd d) -> In (k, v) d -> In (k', v) d -> k = k'.
Proof.
  induction d as [| [k0 v0] tl IH]; cbn [map snd]; intros Hnd H1 H2;
    [destruct H1 |].
  inversion Hnd as [| ? ? Hnot Hnd']; subst.
  destruct H1 as [H1 | H1], H2 as [H2 | H2].
  - congruence.
  - injection H1 as -> ->. exfalso. apply Hnot. apply in_map_iff.
    exists (k', v). split; [reflexivity | exact H2].
  - injection H2 as -> ->. exfalso. apply Hnot. apply in_map_iff.
    exists (k, v). split; [reflexivity | exact H1].
  - apply IH; assumption.
Qed.

Lemma lookupZ_in {V : Type} (k : Z) (d : list (Z * V)) (v : V) :
  Py.lookupZ k d = Some v -> In (k, v) d.
Proof.
  induction d as [| [k' v'] tl IH]; cbn [Py.lookupZ]; [discriminate |].
  destruct (Z.eqb_spec k k') as [-> | Hne].
  - intros H. injection H as ->. left. reflexivity.
  - intros H. right. apply IH. exact H.
Qed.

Lemma in_lookupZ {V : Type} (k : Z) (d : list (Z * V)) (v : V) :
  NoDup (map fst d) -> In (k, v) d -> Py.lookupZ k d = Some v.
Proof.
  induction d as [| [k' v'] tl IH]; cbn [map fst Py.lookupZ]; intros Hnd Hin;
    [destruct Hin |].
  inversion Hnd as [| ? ? Hnot Hnd']; subst.
  destruct Hin as [H | Hin].
  - injection H as -> ->. rewrite Z.eqb_refl. reflexivity.
  - destruct (Z.eqb_spec k k') as [-> | Hne].
    + exfalso. apply Hnot. apply in_map_iff. exists (k', v). split;
        [reflexivity | exact Hin].
    + apply IH; assumption.
Qed.

Lemma in_reverse_map (d : list (string * Z)) (n : Z) (name : string) :
  In (n, name) (reverse_map d) <-> In (name, n) d.
Proof.
  unfold reverse_map. rewrite <- in_rev, in_map_iff. split.
  - intros ([k v] & H & Hin). cbn in H. injection H as <- <-. exact Hin.
  - intros Hin. exists (name, n). split; [reflexivity | exact Hin].
Qed.

Lemma reverse_map_keys (d : list (string * Z)) :
  map fst (reverse_map d) = rev (map snd d).
Proof.
  unfold reverse_map. rewrite map_rev, map_map. reflexivity.
Qed.

End AssocLists.

Section TableFacts.

Lemma table_ok_all (t : track) : Tables.table_ok t = true.
Proof. destruct t; vm_compute; reflexivity. Qed.

Lemma table_facts (t : track) :
  NoDup (map fst (Tables.channels_of t)) /\
  NoDup (map snd (Tables.channels_of t)) /\
  (forall name n, In (name, n) (Tables.channels_of t) ->
     1 <= n <= FrameSync.frame_bits_of t /\
     FrameBuilder.mem n (FrameSync.blank_bits_of t) = false).
Proof.
  pose proof (table_ok_all t) as H. unfold Tables.table_ok in H.
  apply andb_prop in H. destruct H as [H Hblank].
  apply andb_prop in H. destruct H as [H Hrange].
  apply andb_prop in H. destruct H as [Hnames Hbits].
  split; [| split].
  - apply (distinctb_sound String.eqb); [| exact Hnames].
    intros x y. apply String.eqb_eq.
  - apply (distinctb_sound Z.eqb); [| exact Hbits].
    intros x y. apply Z.eqb_eq.
  - intros name n Hin. unfold Frames.table_in_range in Hrange.
    rewrite forallb_forall in Hrange, Hblank.
    specialize (Hrange _ Hin). specialize (Hblank _ Hin). cbn [snd] in *.
    apply andb_prop in Hrange. apply negb_true_iff in Hblank.
    split; [lia | exact Hblank].
Qed.

End TableFacts.

Section ActiveChannels.

Lemma getitem_inside {A : Type} (l : list A) (i : Z) :
  0 <= i < Z.of_nat (length l) ->
  exists x, Py.getitem l i = Py.Ok x /\ nth_error l (Z.to_nat i) = Some x.
Proof.
  intros Hi. unfold Py.getitem. cbv zeta.
  destruct (Z.ltb_spec i 0) as [Hneg | _]; [lia |].
  replace ((0 <=? i) && (i <? Z.of_nat (length l))) with true
    by (symmetry; apply andb_true_intro; split; [apply Z.leb_le | apply Z.ltb_lt]; lia).
  destruct (nth_error l (Z.to_nat i)) as [x |] eqn:E.
  - exists x. split; reflexivity.
  - apply nth_error_None in E. lia.
Qed.

Lemma active_of_spec (frame : list Z) (table : list (string * Z)) :
  (forall name n, In (name, n) table -> 1 <= n <= Z.of_nat (length frame)) ->
  exists l,
    FrameBuilder.active_of frame table = Py.Ok l /\
    forall name, In name l <-> Tables.active_in table frame name.
Proof.
  induction table as [| [k n] tl IH]; intros Hrange.
  - exists []. split; [reflexivity |]. intros name. split; [intros [] |].
    intros (m & v & [] & _).
  - destruct IH as (l & Hl & Hspec).
    { intros name m Hin. apply (Hrange name m). right. exact Hin. }
    cbn [FrameBuilder.active_of].
    destruct (getitem_inside frame (n - 1)) as (v & Hg & Hn).
    { specialize (Hrange k n (or_introl eq_refl)). lia. }
    rewrite Hg, Hl. cbn [Py.bind]. eexists. split; [reflexivity |].
    intros name. unfold Tables.active_in. split.
    + intros Hin.
      destruct (Py.truthy v) eqn:Ev.
      * destruct Hin as [<- | Hin].
        -- exists n, v. split; [left; reflexivity | split; assumption].
        -- apply Hspec in Hin. destruct Hin as (m & w & Hm & Hw).
           exists m, w. split; [right; exact Hm | exact Hw].
      * apply Hspec in Hin. destruct Hin as (m & w & Hm & Hw).
        exists m, w. split; [right; exact Hm | exact Hw].
    + intros (m & w & [Hm | Hm] & Hw & Ht).
      * injection Hm as -> ->. rewrite Hn in Hw. injection Hw as ->.
        rewrite Ht. left. reflexivity.
      * assert (Hin : In name l).
        { apply Hspec. exists m, w. split; [exact Hm | split; assumption]. }
        destruct (Py.truthy v); [right |]; exact Hin.
Qed.

Lemma nth_error_update {A : Type} (l : list A) (i j : nat) (v : A) :
  nth_error (Py.update l i v) j
  = if (i =? j)%nat then
      match nth_error l j with Some _ => Some v | None => None end
    else nth_error l j.
Proof.
  revert i j. induction l as [| x tl IH]; intros i j.
  - cbn. destruct (i =? j)%nat; destruct j; reflexivity.
  - destruct i as [| i], j as [| j]; cbn; try reflexivity. apply IH.
Qed.

End ActiveChannels.

End ChannelTableFacts.

(** X17.  [set_channel] on a builder of either track whose frame has the
    width of the track.  A name that is not in the channel table raises
    ValueError.  A name of the table never raises: the blank-bit guard
    cannot fire, the frame changes at the bit of that channel only, and
    among the active channels that [get_active_channels] reports only that
    one changes: it is reported afterwards exactly when it was switched on,
    and every other channel is reported afterwards exactly when it was
    before. *)
Theorem set_channel_switches_one_channel :
  forall (t : Constants.track) (self : FrameBuilder.FrameBuilder)
         (name : string) (active : bool),
    Frames.builder_of t self ->
    Z.of_nat (length (FrameBuilder._frame self)) = FrameSync.frame_bits_of t ->
    match Py.lookup name (FrameBuilder._channel_map self) with
    | None =>
        FrameBuilder.set_channel self name active = Py.Raise Py.ValueError
    | Some n =>
        exists self' before after,
          FrameBuilder.set_channel self name active = Py.Ok self' /\
          Frames.builder_of t self' /\
          FrameBuilder.get_frame_snapshot self'
          = Py.update (FrameBuilder._frame self) (Z.to_nat (n - 1))
              (if active then 1 else 0) /\
          FrameBuilder.get_active_channels self = Py.Ok before /\
          FrameBuilder.get_active_channels self' = Py.Ok after /\
          (In name after <-> active = true) /\
          (forall other, other <> name ->
             (In other after <-> In other before))
    end.
Proof.
  intros t self name active Hself Hlen.
  destruct (table_facts t) as (Hnames & Hbits & Hrange).
  assert (Hmap : FrameBuilder._channel_map self = Tables.channels_of t).
  { rewrite Hself. destruct t; reflexivity. }
  assert (Hblank : FrameBuilder._blank_bits self = FrameSync.blank_bits_of t).
  { rewrite Hself. destruct t; reflexivity. }
  destruct (Py.lookup name (FrameBuilder._channel_map self)) as [n |] eqn:El.
  2:{ unfold FrameBuilder.set_channel. rewrite El. reflexivity. }
  rewrite Hmap in El. pose proof (lookup_in _ _ _ El) as Hin.
  destruct (Hrange name n Hin) as [Hn Hnb].
  unfold FrameBuilder.set_channel. rewrite Hmap, El, Hblank, Hnb.
  unfold Py.setitem. cbv zeta.
  destruct (Z.ltb_spec (n - 1) 0) as [Hneg | _]; [lia |].
  replace ((0 <=? n - 1) && (n - 1 <? Z.of_nat (length (FrameBuilder._frame self))))
    with true
    by (symmetry; apply andb_true_intro; split;
        [apply Z.leb_le | apply Z.ltb_lt]; lia).
  cbn [Py.bind].
  set (frame' := Py.update (FrameBuilder._frame self) (Z.to_nat (n - 1))
                   (if active then 1 else 0)).
  assert (Hlen' : length frame' = length (FrameBuilder._frame self))
    by apply update_length.
  destruct (active_of_spec (FrameBuilder._frame self) (Tables.channels_of t))
    as (before & Hb & Hbspec).
  { intros k m Hk. destruct (Hrange k m Hk). lia. }
  destruct (active_of_spec frame' (Tables.channels_of t))
    as (after & Ha & Haspec).
  { intros k m Hk. destruct (Hrange k m Hk). lia. }
  exists (FrameBuilder.with_frame self frame'), before, after.
  split; [reflexivity |]. split.
  { unfold Frames.builder_of. rewrite Hself at 1. reflexivity. }
  split; [reflexivity |].
  split; [unfold FrameBuilder.get_active_channels; rewrite Hmap; exact Hb |].
  split; [unfold FrameBuilder.get_active_channels; cbn; rewrite Hmap; exact Ha |].
  split.
  - rewrite Haspec. unfold Tables.active_in. split.
    + intros (m & v & Hm & Hv & Ht).
      assert (m = n) by (eapply same_key; eassumption). subst m.
      unfold frame' in Hv. rewrite nth_error_update, Nat.eqb_refl in Hv.
      destruct (nth_error _ _); [| discriminate].
      injection Hv as <-. destruct active; [reflexivity | discriminate].
    + intros ->. exists n, 1. split; [exact Hin |]. split; [| reflexivity].
      unfold frame'. rewrite nth_error_update, Nat.eqb_refl.
      destruct (nth_error _ _) eqn:E; [reflexivity |].
      apply nth_error_None in E. lia.
  - intros other Hother. rewrite Haspec, Hbspec. unfold Tables.active_in.
    assert (Hsame : forall m, In (other, m) (Tables.channels_of t) ->
              nth_error frame' (Z.to_nat (m - 1))
              = nth_error (FrameBuilder._frame self) (Z.to_nat (m - 1))).
    { intros m Hm. unfold frame'. rewrite nth_error_update.
      destruct (Nat.eqb_spec (Z.to_nat (n - 1)) (Z.to_nat (m - 1))) as [E | _];
        [| reflexivity].
      destruct (Hrange other m Hm) as [Hmr _].
      assert (m = n) by lia. subst m. exfalso. apply Hother.
      eapply same_value; eassumption. }
    split; intros (m & v & Hm & Hv & Ht); exists m, v;
      (split; [exact Hm |]); (split; [| exact Ht]);
      [rewrite <- Hsame by exact Hm | rewrite Hsame by exact Hm]; exact Hv.
Qed.

Lemma set_channel_switches_one_channel_witness :
  Frames.builder_of Constants.TD (FrameBuilder.init Constants.TD) /\
  Z.of_nat (length (FrameBuilder._frame (FrameBuilder.init Constants.TD)))
  = FrameSync.frame_bits_of Constants.TD /\
  match Py.lookup "duke_mouth"
          (FrameBuilder._channel_map (FrameBuilder.init Constants.TD)) with
  | None =>
      FrameBuilder.set_channel (FrameBuilder.init Constants.TD) "duke_mouth" true
      = Py.Raise Py.ValueError
  | Some n =>
      exists self' before after,
        FrameBuilder.set_channel (FrameBuilder.init Constants.TD)
          "duke_mouth" true = Py.Ok self' /\
        Frames.builder_of Constants.TD self' /\
        FrameBuilder.get_frame_snapshot self'
        = Py.update (FrameBuilder._frame (FrameBuilder.init Constants.TD))
            (Z.to_nat (n - 1)) (if true then 1 else 0) /\
        FrameBuilder.get_active_channels (FrameBuilder.init Constants.TD)
        = Py.Ok before /\
        FrameBuilder.get_active_channels self' = Py.Ok after /\
        (In "duke_mouth" after <-> true = true) /\
        (forall other, other <> "duke_mouth" ->
           (In other after <-> In other before))
  end.
Proof.
  assert (H1 : Frames.builder_of Constants.TD (FrameBuilder.init Constants.TD))
    by reflexivity.
  assert (H2 : Z.of_nat (length (FrameBuilder._frame
                                   (FrameBuilder.init Constants.TD)))
               = FrameSync.frame_bits_of Constants.TD) by reflexivity.
  split; [exact H1 |]. split; [exact H2 |].
  exact (set_channel_switches_one_channel Constants.TD
           (FrameBuilder.init Constants.TD) "duke_mouth" true H1 H2).
Defined.

Section ReverseTableFacts.
Import Constants.

Section ReverseMaps.

Lemma bit_to_name_is_reverse (t : track) :
  FrameSync.bit_to_name_of t = reverse_map (Tables.channels_of t).
Proof. destruct t; reflexivity. Qed.

Lemma named_bits_complete (t : track) :
  forallb (fun n =>
             FrameBuilder.mem n (FrameSync.blank_bits_of t)
             || match Py.lookupZ n (FrameSync.bit_to_name_of t) with
                | Some _ => true
                | None => false
                end)
          (map (fun k => Z.of_nat k + 1)
               (seq 0 (Z.to_nat (FrameSync.frame_bits_of t)))) = true.
Proof. destruct t; vm_compute; reflexivity. Qed.

End ReverseMaps.

End ReverseTableFacts.

(** X18.  The channel tables of constants.py, for both tracks: the reverse
    table [BIT_TO_NAME] is the inverse of [CHANNELS] (a name has bit number
    [n] exactly when bit [n] has that name); a channel's bit number lies in
    [1, frame_bits] and is never a blank bit; and every bit of the frame that
    is not blank has a name.  These are the integrity checks of
    validate.py. *)
Theorem channel_tables_are_inverse :
  forall (t : Constants.track),
    (forall name n,
       Py.lookup name (Tables.channels_of t) = Some n <->
       Py.lookupZ n (FrameSync.bit_to_name_of t) = Some name) /\
    (forall name n,
       Py.lookup name (Tables.channels_of t) = Some n ->
       1 <= n <= FrameSync.frame_bits_of t /\
       ~ In n (FrameSync.blank_bits_of t)) /\
    (forall n,
       1 <= n <= FrameSync.frame_bits_of t ->
       ~ In n (FrameSync.blank_bits_of t) ->
       exists name, Py.lookupZ n (FrameSync.bit_to_name_of t) = Some name).
Proof.
  intros t. destruct (table_facts t) as (Hnames & Hbits & Hrange).
  assert (Hkeys : NoDup (map fst (Constants.reverse_map (Tables.channels_of t)))).
  { rewrite reverse_map_keys. apply NoDup_rev. exact Hbits. }
  assert (Hmem : forall n, FrameBuilder.mem n (FrameSync.blank_bits_of t) = true
                           <-> In n (FrameSync.blank_bits_of t)).
  { intros n. unfold FrameBuilder.mem. rewrite existsb_exists. split.
    - intros (x & Hx & E). apply Z.eqb_eq in E. subst x. exact Hx.
    - intros Hin. exists n. split; [exact Hin | apply Z.eqb_refl]. }
  split; [| split].
  - intros name n. rewrite bit_to_name_is_reverse. split.
    + intros H. apply in_lookupZ; [exact Hkeys |].
      apply in_reverse_map. apply lookup_in. exact H.
    + intros H. apply in_lookup; [exact Hnames |].
      apply in_reverse_map. apply lookupZ_in. exact H.
  - intros name n H. apply lookup_in in H.
    destruct (Hrange name n H) as [Hr Hb]. split; [exact Hr |].
    intros Hin. apply Hmem in Hin. congruence.
  - intros n Hn Hnot.
    pose proof (named_bits_complete t) as Hall.
    rewrite forallb_forall in Hall.
    specialize (Hall n). 
    assert (Hin : In n (map (fun k => Z.of_nat k + 1)
                          (seq 0 (Z.to_nat (FrameSync.frame_bits_of t))))).
    { apply in_map_iff. exists (Z.to_nat (n - 1)). split; [lia |].
      apply in_seq. lia. }
    specialize (Hall Hin). apply orb_prop in Hall.
    destruct Hall as [Hb | Hl].
    + exfalso. apply Hnot, Hmem, Hb.
    + destruct (Py.lookupZ n (FrameSync.bit_to_name_of t)) as [name |];
        [exists name; reflexivity | discriminate].
Qed.

(** * From the scheduler to the synchroniser *)

Section PipelineFacts.
Import Constants Frames Pipeline.

Section StreamInvariant.

Lemma to_raw_bytes_app (a b x y : list Z) :
  Encoder.to_raw_bytes a = Py.Ok x ->
  Encoder.to_raw_bytes b = Py.Ok y ->
  Encoder.to_raw_bytes (a ++ b) = Py.Ok (x ++ y).
Proof.
  revert x. induction a as [| s tl IH]; intros x; cbn [app Encoder.to_raw_bytes].
  - intros H. apply Ok_inj in H. subst x. intros Hb. exact Hb.
  - destruct (Encoder.pack_h s) as [p |]; cbn [Py.bind]; [| discriminate].
    destruct (Encoder.to_raw_bytes tl) as [xt |]; cbn [Py.bind];
      [| discriminate].
    intros H Hb. apply Ok_inj in H. subst x.
    rewrite (IH xt eq_refl Hb). cbn [Py.bind]. rewrite app_assoc. reflexivity.
Qed.

Lemma update_forall {A : Type} (P : A -> Prop) (l : list A) (n : nat) (v : A) :
  P v -> Forall P l -> Forall P (Py.update l n v).
Proof.
  intros Hv H. revert n. induction H as [| x tl Hx Htl IH]; intros n.
  - constructor.
  - destruct n as [| n]; cbn [Py.update]; constructor; auto.
Qed.

Lemma set_channel_bits (self self' : FrameBuilder.FrameBuilder)
  (ch : string) (a : bool) :
  Forall Aux.is_bit (FrameBuilder._frame self) ->
  FrameBuilder.set_channel self ch a = Py.Ok self' ->
  Forall Aux.is_bit (FrameBuilder._frame self').
Proof.
  intros Hbits. unfold FrameBuilder.set_channel.
  destruct (Py.lookup ch _) as [n |]; [| discriminate].
  destruct (FrameBuilder.mem n _); [discriminate |].
  unfold Py.setitem. cbv zeta.
  destruct (_ && _); cbn [Py.bind]; [| discriminate].
  intros H. apply Ok_inj in H. subst self'. cbn [FrameBuilder._frame].
  apply update_forall; [| exact Hbits].
  destruct a; [right | left]; reflexivity.
Qed.

Lemma bridge_as_builder (t : track) (self : ExportBridge._FrameBuilder) :
  bridge_of t self ->
  self = to_bridge_builder
           (FrameBuilder.with_frame (FrameBuilder.init t)
              (ExportBridge._frame self)).
Proof. intros H. rewrite H at 1. destruct t; reflexivity. Qed.

Lemma bridge_set_channel_state (t : track)
  (self self' : ExportBridge._FrameBuilder) (ch : string) (a : bool) :
  bridge_of t self ->
  frame_state t (ExportBridge._frame self) ->
  ExportBridge.set_channel self ch a = Py.Ok self' ->
  bridge_of t self' /\ frame_state t (ExportBridge._frame self').
Proof.
  intros Hself [Hsafe Hbits] Hset.
  assert (Hlen : Z.of_nat (length (ExportBridge._frame self))
                 = FrameSync.frame_bits_of t) by (destruct Hsafe; assumption).
  destruct (bridge_set_channel_frame t _ _ _ _ Hself Hlen Hset) as [Hself' _].
  split; [exact Hself' |].
  rewrite (bridge_as_builder t self Hself) in Hset.
  rewrite agree_set_channel in Hset.
  destruct (FrameBuilder.set_channel _ ch a) as [fb' |] eqn:E;
    cbn [res_map] in Hset; [| discriminate].
  apply Ok_inj in Hset. subst self'. cbn [to_bridge_builder ExportBridge._frame].
  split.
  - eapply (set_channel_blank_safe t); [| | exact E].
    + reflexivity.
    + exact Hsafe.
  - eapply set_channel_bits; [| exact E]. exact Hbits.
Qed.

Lemma samples_snoc (log : list (list Z)) (frame : list Z) :
  let enc1 := snd (Encoder.encode_bits (Encoder.init BMC_LOW) (concat log)) in
  samples_of (log ++ [frame])
  = samples_of log ++ fst (Encoder.encode_frame enc1 frame) /\
  snd (Encoder.encode_bits (Encoder.init BMC_LOW) (concat (log ++ [frame])))
  = snd (Encoder.encode_frame enc1 frame).
Proof.
  cbv zeta. unfold samples_of, Encoder.encode_frame.
  rewrite concat_app. cbn [concat]. rewrite app_nil_r.
  rewrite !encode_bits_blocks. cbn [fst snd Encoder._level Encoder.init].
  rewrite blocks_app, expand_app, final_level_app. split; reflexivity.
Qed.

Lemma bridge_fill_loop_streamed (t : track) (total : Z)
  (self : ExportBridge._FrameBuilder) (fuel : nat) :
  bridge_of t self ->
  frame_state t (ExportBridge._frame self) ->
  forall st pos end_ st' pos' m,
    end_ = frame_samples_of t * m ->
    streamed t total st pos ->
    ExportBridge.fill_loop fuel self st pos end_ = Py.Ok (st', pos') ->
    streamed t total st' pos'.
Proof.
  intros Hself Hstate. pose proof (frame_samples_positive t) as Hfs.
  assert (Hframe : Z.of_nat (length (ExportBridge._frame self))
                   = FrameSync.frame_bits_of t)
    by (destruct Hstate as [[H _] _]; exact H).
  induction fuel as [| fuel IH];
    intros st pos end_ st' pos' m Hend Hw; cbn [ExportBridge.fill_loop].
  - intros H. apply Ok_inj in H. injection H as <- <-. exact Hw.
  - destruct (Z.ltb_spec pos end_) as [Hlt | Hge].
    2:{ intros H. apply Ok_inj in H. injection H as <- <-. exact Hw. }
    destruct st as [out enc log].
    destruct Hw as (Hpos & Hall & Henc & bytes0 & rest & Hb0 & Hout & Hrest).
    cbn [ExportBridge.output ExportBridge.enc ExportBridge.encoded] in *.
    subst enc. rewrite bridge_encode_frame.
    set (enc1 := snd (Encoder.encode_bits (Encoder.init BMC_LOW) (concat log)))
      in *.
    destruct (encode_frame_bytes enc1 (ExportBridge._frame self))
      as (bytes & Hbytes & Hlen).
    unfold ExportBridge.pack. rewrite Hbytes. cbn [Py.bind].
    rewrite (bridge_frame_samps t self Hself).
    assert (Hlenb : Z.of_nat (length bytes) = 2 * frame_samples_of t).
    { rewrite Hlen, Hframe. unfold frame_samples_of. lia. }
    assert (Hmin : Z.min (frame_samples_of t) (end_ - pos) = frame_samples_of t).
    { apply Z.min_l. subst pos end_.
      assert (Hk : Z.of_nat (length log) < m) by nia.
      assert (Hk' : 1 <= m - Z.of_nat (length log)) by lia.
      replace (frame_samples_of t * m - frame_samples_of t * Z.of_nat (length log))
        with (frame_samples_of t * (m - Z.of_nat (length log))) by ring.
      nia. }
    rewrite Hmin. rewrite slice_whole by lia.
    apply (IH _ _ _ _ _ m Hend).
    destruct (samples_snoc log (ExportBridge._frame self)) as [Hsamp Hsnd].
    fold enc1 in Hsamp, Hsnd.
    assert (Hlen0 : Z.of_nat (length bytes0) = 2 * pos).
    { destruct (to_raw_bytes_levels (samples_of log)) as (b' & Hb' & Hl').
      { unfold samples_of. rewrite encode_bits_blocks. apply blocks_expand_levels. }
      rewrite Hb0 in Hb'. apply Ok_inj in Hb'. subst b'. rewrite Hl'.
      unfold samples_of. rewrite encode_bits_length.
      rewrite length_concat.
      assert (Hsum : Z.of_nat (list_sum (map (@length Z) log))
                     = FrameSync.frame_bits_of t * Z.of_nat (length log)).
      { clear - Hall. unfold list_sum.
        induction Hall as [| f tl [[Hf _] _] _ IH]; [cbn; lia |].
        cbn [map fold_right length]. rewrite Nat2Z.inj_add, IH, Hf. lia. }
      rewrite Hsum. unfold frame_samples_of in *. lia. }
    unfold streamed. cbv zeta.
    cbn [ExportBridge.output ExportBridge.enc ExportBridge.encoded].
    split; [| split; [| split]].
    + rewrite length_app. cbn [length]. lia.
    + apply Forall_app. split; [exact Hall |].
      constructor; [exact Hstate | constructor].
    + rewrite Hsnd. reflexivity.
    + exists (bytes0 ++ bytes), (skipn (length bytes) rest). split; [| split].
      * rewrite Hsamp. apply to_raw_bytes_app; assumption.
      * rewrite Hout.
        rewrite (slice_assign_after bytes0 rest bytes) by lia.
        rewrite <- app_assoc. reflexivity.
      * rewrite length_skipn. lia.
Qed.


Lemma bridge_fill_streamed (t : track) (total : Z)
  (self : ExportBridge._FrameBuilder) (st st' : ExportBridge.stream)
  (start end_ : Z) (m : Z) :
  bridge_of t self ->
  frame_state t (ExportBridge._frame self) ->
  end_ = frame_samples_of t * m ->
  streamed t total st start ->
  ExportBridge._fill self st start end_ = Py.Ok st' ->
  streamed t total st' (Z.max start end_).
Proof.
  intros Hself Hstate Hend Hw. unfold ExportBridge._fill.
  destruct (Z.geb_spec start end_) as [Hge | Hlt].
  - intros H. apply Ok_inj in H. subst st'.
    rewrite Z.max_l by lia. exact Hw.
  - destruct (ExportBridge.fill_loop _ self st start end_)
      as [[st1 pos1] |] eqn:E; cbn [Py.bind]; [| discriminate].
    intros H. apply Ok_inj in H. subst st1.
    pose proof (bridge_fill_loop_reaches_end self _
                  ltac:(rewrite (bridge_frame_samps t self Hself);
                        apply frame_samples_positive)
                  _ _ _ _ _ (le_n _) E) as Hpos1.
    subst pos1.
    eapply bridge_fill_loop_streamed; eassumption.
Qed.

Lemma bridge_events_streamed (t : track) (total : Z)
  (evs : list FrameBuilder.ChannelEvent) :
  forall self st cursor self' st' cursor',
    bridge_of t self ->
    frame_state t (ExportBridge._frame self) ->
    streamed t total st cursor ->
    ExportBridge.events_loop self st cursor evs = Py.Ok (self', st', cursor') ->
    bridge_of t self' /\
    frame_state t (ExportBridge._frame self') /\
    streamed t total st' cursor'.
Proof.
  induction evs as [| ev tl IH];
    intros self st cursor self' st' cursor' Hself Hstate Hw;
    cbn [ExportBridge.events_loop].
  - intros H. apply Ok_inj in H. injection H as <- <- <-. auto.
  - destruct (ExportBridge.ev_sample_of ev) as [ev0 |]; cbn [Py.bind];
      [| discriminate].
    rewrite (bridge_frame_samps t self Hself).
    destruct (Z.leb_spec (ev0 / frame_samples_of t * frame_samples_of t) cursor)
      as [Hle | Hgt].
    + destruct (ExportBridge.set_channel self _ _) as [self1 |] eqn:Hset;
        cbn [Py.bind]; [| discriminate].
      destruct (bridge_set_channel_state t _ _ _ _ Hself Hstate Hset)
        as [Hself1 Hstate1].
      apply (IH _ _ _ _ _ _ Hself1 Hstate1 Hw).
    + destruct (ExportBridge._fill self st cursor _) as [st1 |] eqn:Hfill;
        cbn [Py.bind]; [| discriminate].
      destruct (ExportBridge.set_channel self _ _) as [self1 |] eqn:Hset;
        cbn [Py.bind]; [| discriminate].
      destruct (bridge_set_channel_state t _ _ _ _ Hself Hstate Hset)
        as [Hself1 Hstate1].
      pose proof (bridge_fill_streamed t total self st st1 cursor
                    (ev0 / frame_samples_of t * frame_samples_of t)
                    (ev0 / frame_samples_of t) Hself Hstate
                    (Z.mul_comm _ _) Hw Hfill) as Hw1.
      rewrite Z.max_r in Hw1 by lia.
      apply (IH _ _ _ _ _ _ Hself1 Hstate1 Hw1).
Qed.

Lemma zeros_frame_state (t : track) :
  frame_state t (ExportBridge.zeros (FrameSync.frame_bits_of t)).
Proof.
  split; [apply zeros_blank_safe |].
  unfold ExportBridge.zeros. apply Forall_forall. intros x Hx.
  apply repeat_spec in Hx. left. exact Hx.
Qed.

(** The stream the inlined scheduler returns is the packed samples of the
    frames it encoded back to back. *)
Lemma bridge_build_streamed (t : track)
  (events : list FrameBuilder.ChannelEvent) (duration_seconds : float)
  (pcm : list Z) :
  ExportBridge.build (ExportBridge.init t) events duration_seconds = Py.Ok pcm ->
  exists frames,
    Forall (frame_state t) frames /\
    Encoder.to_raw_bytes (samples_of frames) = Py.Ok pcm.
Proof.
  unfold ExportBridge.build, ExportBridge.build_trace.
  destruct (Py.int_of_float _) as [n |]; cbn [Py.bind]; [| discriminate].
  assert (Hself : bridge_of t (ExportBridge.clear_all (ExportBridge.init t)))
    by (destruct t; reflexivity).
  assert (Hstate : frame_state t (ExportBridge._frame
                     (ExportBridge.clear_all (ExportBridge.init t)))).
  { replace (ExportBridge._frame (ExportBridge.clear_all (ExportBridge.init t)))
      with (ExportBridge.zeros (FrameSync.frame_bits_of t))
      by (destruct t; reflexivity).
    apply zeros_frame_state. }
  rewrite (bridge_frame_samps t _ Hself).
  destruct (round_up_multiple (frame_samples_of t) n (frame_samples_positive t))
    as [m Hm].
  rewrite Hm. remember (frame_samples_of t * m) as total eqn:Htotal.
  unfold FrameBuilder.bytearray.
  destruct (Z.ltb_spec (total * 2) 0) as [Hneg | Hpos]; cbn [Py.bind];
    [discriminate |].
  destruct (ExportBridge.sort_events events) as [sorted |]; cbn [Py.bind];
    [| discriminate].
  destruct (ExportBridge.events_loop _ _ 0 sorted) as [[[self1 st1] c1] |]
    eqn:Hloop; cbn [Py.bind]; [| discriminate].
  destruct (ExportBridge._fill self1 st1 c1 total) as [st2 |] eqn:Hfill;
    cbn [Py.bind]; [| discriminate].
  intros H. apply Ok_inj in H. subst pcm.
  assert (Hw0 : streamed t total
                  {| ExportBridge.output := FrameBuilder.zeros (total * 2);
                     ExportBridge.enc := ExportBridge.new_encoder;
                     ExportBridge.encoded := [] |} 0).
  { unfold streamed. cbv zeta.
    cbn [ExportBridge.output ExportBridge.enc ExportBridge.encoded].
    split; [cbn [length]; lia |]. split; [constructor |].
    split; [reflexivity |].
    exists [], (FrameBuilder.zeros (total * 2)).
    split; [reflexivity |]. split; [reflexivity |].
    unfold FrameBuilder.zeros. rewrite repeat_length. lia. }
  destruct (bridge_events_streamed t total sorted _ _ _ _ _ _ Hself Hstate
              Hw0 Hloop) as (Hself1 & Hstate1 & Hw1).
  pose proof (bridge_fill_streamed t total self1 st1 st2 c1 total m
                Hself1 Hstate1 Htotal Hw1 Hfill)
    as (_ & Hall2 & _ & bytes & rest & Hb & Hout & Hrest).
  exists (ExportBridge.encoded st2). split; [exact Hall2 |].
  destruct rest as [| x rest]; [| cbn [length] in Hrest; lia].
  rewrite Hout, app_nil_r. exact Hb.
Qed.

End StreamInvariant.

End PipelineFacts.

(** X19.  Whenever the scheduler of export_bridge.py returns a stream, the
    stream is the packed samples of a sequence of frame states (each of the
    width of the track, with 0 at every blank position and every bit 0 or
    1) encoded back to back by one encoder from [BMC_LOW]; it holds one
    frame of samples per frame state; unpacked as validate.py does and
    decoded by [BMCDecoder] with its defaults, it gives back exactly the
    bits of those frames, in order, and no error. *)
Theorem bridge_stream_decodes :
  forall (t : Constants.track) (events : list FrameBuilder.ChannelEvent)
         (duration_seconds : float) (pcm : list Z),
    ExportBridge.build (ExportBridge.init t) events duration_seconds
      = Py.Ok pcm ->
    exists (frames : list (list Z)) (samples : list Z) (dec : Decoder.BMCDecoder),
      Forall (Pipeline.frame_state t) frames /\
      Z.of_nat (length pcm)
      = 2 * Frames.frame_samples_of t * Z.of_nat (length frames) /\
      Validate.unpack_samples pcm = Py.Ok samples /\
      samples = Pipeline.samples_of frames /\
      Decoder.default = Py.Ok dec /\
      map Decoder.bit (fst (Decoder.decode dec samples)) = concat frames /\
      snd (Decoder.decode dec samples) = [].
Proof.
  intros t events duration_seconds pcm Hbuild.
  destruct (bridge_build_streamed t events duration_seconds pcm Hbuild)
    as (frames & Hall & Hpcm).
  destruct Decoder.default as [dec |] eqn:Hdec; [| discriminate Hdec].
  exists frames, (Pipeline.samples_of frames), dec.
  assert (Hlev : Forall Aux.is_level (Pipeline.samples_of frames)).
  { unfold Pipeline.samples_of. rewrite encode_bits_blocks.
    apply blocks_expand_levels. }
  assert (H16 : Forall Codec.is_int16 (Pipeline.samples_of frames)).
  { eapply Forall_impl; [| exact Hlev]. intros s [-> | ->];
      unfold Codec.is_int16, Constants.BMC_HIGH, Constants.BMC_LOW; lia. }
  destruct (to_raw_bytes_unpack_ok _ H16) as (bytes & Hb & Hlen & Hun).
  rewrite Hpcm in Hb. apply Ok_inj in Hb. subst bytes.
  assert (Hbits : Forall Aux.is_bit (concat frames)).
  { clear - Hall. induction Hall as [| f tl [_ Hf] _ IH]; [constructor |].
    cbn [concat]. apply Forall_app. split; assumption. }
  destruct (default_round_trip dec (Encoder.init Constants.BMC_LOW)
              (concat frames) Hdec Hbits) as [Hdecoded Herr].
  split; [exact Hall |]. split.
  - rewrite Hlen. unfold Pipeline.samples_of. rewrite encode_bits_length.
    rewrite length_concat.
    assert (Hsum : Z.of_nat (list_sum (map (@length Z) frames))
                   = FrameSync.frame_bits_of t * Z.of_nat (length frames)).
    { clear - Hall. unfold list_sum.
      induction Hall as [| f tl [[Hf _] _] _ IH]; [cbn; lia |].
      cbn [map fold_right length]. rewrite Nat2Z.inj_add, IH, Hf. lia. }
    rewrite Hsum. unfold Frames.frame_samples_of. lia.
  - split; [exact Hun |]. split; [reflexivity |]. split; [reflexivity |].
    split; [exact Hdecoded | exact Herr].
Qed.

Lemma bridge_stream_decodes_witness :
  exists pcm,
    ExportBridge.build (ExportBridge.init Constants.TD)
      [Frames.mid_frame_event] Frames.short_show = Py.Ok pcm /\
    exists (frames : list (list Z)) (samples : list Z) (dec : Decoder.BMCDecoder),
      Forall (Pipeline.frame_state Constants.TD) frames /\
      Z.of_nat (length pcm)
      = 2 * Frames.frame_samples_of Constants.TD * Z.of_nat (length frames) /\
      Validate.unpack_samples pcm = Py.Ok samples /\
      samples = Pipeline.samples_of frames /\
      Decoder.default = Py.Ok dec /\
      map Decoder.bit (fst (Decoder.decode dec samples)) = concat frames /\
      snd (Decoder.decode dec samples) = [].
Proof.
  destruct (ExportBridge.build (ExportBridge.init Constants.TD)
              [Frames.mid_frame_event] Frames.short_show) as [pcm | e] eqn:E.
  - exists pcm. split; [reflexivity |].
    exact (bridge_stream_decodes Constants.TD [Frames.mid_frame_event]
             Frames.short_show pcm E).
  - vm_compute in E. discriminate E.
Defined.

Section CleanStreamFacts.
Import Constants Frames Pipeline.

Section CleanStream.

Lemma chunk_of_concat {A : Type} (w : nat) (ws : list (list A)) :
  Forall (fun f => length f = w) ws ->
  forall j f, nth_error ws j = Some f ->
    firstn w (skipn (j * w) (concat ws)) = f.
Proof.
  induction 1 as [| x tl Hx Htl IH]; intros j f Hj.
  - destruct j; discriminate Hj.
  - destruct j as [| j]; cbn [nth_error] in Hj.
    + injection Hj as <-. cbn [Nat.mul skipn concat].
      rewrite firstn_app, <- Hx, firstn_all, Nat.sub_diag.
      cbn [firstn]. apply app_nil_r.
    + cbn [concat]. replace (S j * w)%nat with (length x + j * w)%nat by lia.
      rewrite skipn_app, skipn_all2 by lia.
      replace (length x + j * w - length x)%nat with (j * w)%nat by lia.
      cbn [app]. apply IH. exact Hj.
Qed.

Lemma concat_chunks_length {A : Type} (w : nat) (ws : list (list A)) :
  Forall (fun f => length f = w) ws ->
  length (concat ws) = (length ws * w)%nat.
Proof.
  induction 1 as [| x tl Hx _ IH]; [reflexivity |].
  cbn [concat length]. rewrite length_app, IH, Hx. lia.
Qed.

Variable t : track.
Variable frames : list (list Z).
Hypothesis Hsafe : Forall (blank_safe t) frames.

Let fb := FrameSync.frame_bits_of t.
Let bits := concat frames.

Lemma frames_width : Forall (fun f => length f = Z.to_nat fb) frames.
Proof.
  eapply Forall_impl; [| exact Hsafe]. intros f [Hlen _]. fold fb in Hlen. lia.
Qed.

Lemma clean_stream_length :
  Z.of_nat (length bits) = Z.of_nat (length frames) * fb.
Proof.
  unfold bits. rewrite (concat_chunks_length _ _ frames_width).
  pose proof (frame_bits_positive t). fold fb in H. lia.
Qed.

Lemma clean_stream_frame (j : nat) (f : list Z) :
  nth_error frames j = Some f ->
  firstn (Z.to_nat fb) (skipn (Z.to_nat (0 + Z.of_nat j * fb)) bits) = f /\
  SyncSpec.frame_clean bits t (0 + Z.of_nat j * fb).
Proof.
  intros Hj. pose proof (frame_bits_positive t) as Hfb. fold fb in Hfb.
  assert (Hchunk : firstn (Z.to_nat fb)
                     (skipn (Z.to_nat (0 + Z.of_nat j * fb)) bits) = f).
  { replace (Z.to_nat (0 + Z.of_nat j * fb)) with (j * Z.to_nat fb)%nat by nia.
    apply (chunk_of_concat _ _ frames_width). exact Hj. }
  split; [exact Hchunk |].
  unfold SyncSpec.frame_clean. apply Forall_forall. intros bi Hbi.
  pose proof (blank_indices_in_frame t) as Hin.
  rewrite Forall_forall in Hin. specialize (Hin bi Hbi). fold fb in Hin.
  assert (Hf : blank_safe t f).
  { rewrite Forall_forall in Hsafe. apply Hsafe.
    eapply nth_error_In. exact Hj. }
  destruct Hf as [Hlen Hblank].
  unfold FrameSync.blank_indices_of in Hbi. apply in_map_iff in Hbi.
  destruct Hbi as (b & <- & Hb).
  rewrite Forall_forall in Hblank. specialize (Hblank b Hb).
  destruct (getitem_inside f (b - 1)) as (x & Hg & Hn); [fold fb in Hlen; lia |].
  rewrite Hg in Hblank. apply Ok_inj in Hblank. subst x.
  rewrite <- Hchunk in Hn.
  rewrite nth_error_firstn, nth_error_skipn in Hn.
  destruct (Nat.ltb_spec (Z.to_nat (b - 1)) (Z.to_nat fb)); [| discriminate].
  rewrite <- Hn. f_equal. lia.
Qed.

Lemma clean_stream_is_clean :
  clean_frames t (Z.of_nat (length frames)) bits.
Proof.
  split; [apply clean_stream_length |].
  intros j bi Hj Hbi.
  destruct (nth_error frames (Z.to_nat j)) as [f |] eqn:E.
  2:{ apply nth_error_None in E. lia. }
  destruct (clean_stream_frame _ _ E) as [_ Hclean].
  unfold SyncSpec.frame_clean in Hclean. rewrite Forall_forall in Hclean.
  specialize (Hclean bi Hbi). rewrite <- Hclean.
  rewrite Z2Nat.id by lia. reflexivity.
Qed.

Lemma clean_stream_sync :
  4 <= Z.of_nat (length frames) ->
  exists r,
    FrameSync.sync_frames bits t FrameSync.default_max_search_bits = Py.Ok r /\
    FrameSync.locked r = true /\
    FrameSync.lock_offset r = 0 /\
    FrameSync.score r = 3 /\
    map FrameSync.bits (FrameSync.frames r) = frames /\
    Forall (fun f => FrameSync.blank_ok f = true) (FrameSync.frames r).
Proof.
  intros Hk. pose proof (frame_bits_positive t) as Hfb. fold fb in Hfb.
  destruct (sync_clean_stream_locks t _ bits Hk clean_stream_is_clean)
    as (r & Hr & Hlocked & Hscore & Hoff).
  exists r. split; [exact Hr |]. split; [exact Hlocked |].
  split; [exact Hoff |]. split; [lia |].
  destruct (sync_frames_parts bits t _ r Hr) as (bo & bs & fr & p & _ & Ex & ->).
  cbn [FrameSync.lock_offset FrameSync.frames] in *. subst bo.
  destruct (extract_loop_frames bits t 0 (length bits) ltac:(lia) [] 0 fr p
              ltac:(cbn [length]; lia) Ex)
    as (new & Hfr & Hp & Hle & Hstop & Hnew).
  cbn [app] in Hfr. subst fr. fold fb in Hp, Hstop.
  assert (Hcount : length new = length frames).
  { specialize (Hstop ltac:(lia)).
    assert (Hp_le : p <= Z.of_nat (length bits)).
    { destruct new as [| f0 new0]; [cbn [length] in Hp; lia |].
      apply Hle. discriminate. }
    pose proof clean_stream_length as Hlen. nia. }
  split.
  - apply nth_error_ext. intros i. rewrite nth_error_map.
    destruct (nth_error new i) as [f |] eqn:Ef; cbn [option_map].
    + destruct (nth_error frames i) as [g |] eqn:Eg.
      2:{ apply nth_error_None in Eg.
          assert (i < length new)%nat by (apply nth_error_Some; congruence).
          lia. }
      destruct (Hnew i f Ef) as (_ & _ & Hbits & _).
      cbn [length Nat.add] in Hbits. fold fb in Hbits.
      destruct (clean_stream_frame i g Eg) as [Hchunk _].
      rewrite Hbits, Hchunk. reflexivity.
    + symmetry. apply nth_error_None. apply nth_error_None in Ef. lia.
  - apply Forall_forall. intros f Hf. apply In_nth_error in Hf.
    destruct Hf as [i Hi].
    destruct (Hnew i f Hi) as (_ & _ & _ & _ & Hok & _).
    cbn [length Nat.add] in Hok. fold fb in Hok. apply Hok.
    destruct (nth_error frames i) as [g |] eqn:Eg.
    2:{ apply nth_error_None in Eg.
        assert (i < length new)%nat by (apply nth_error_Some; congruence).
        lia. }
    exact (proj2 (clean_stream_frame i g Eg)).
Qed.

End CleanStream.

End CleanStreamFacts.

(** X20.  A bit stream made of at least four frames of a track, each with 0
    at every blank position, is synchronised at offset 0: [sync_frames]
    declares lock with score 3 and no orphan bit, the frames it returns are
    exactly the frames of the stream, in order, and each has [blank_ok]. *)
Theorem clean_stream_resyncs :
  forall (t : Constants.track) (frames : list (list Z)),
    Forall (Frames.blank_safe t) frames ->
    4 <= Z.of_nat (length frames) ->
    exists r,
      FrameSync.sync_frames (concat frames) t FrameSync.default_max_search_bits
      = Py.Ok r /\
      FrameSync.locked r = true /\
      FrameSync.lock_offset r = 0 /\
      FrameSync.score r = 3 /\
      map FrameSync.bits (FrameSync.frames r) = frames /\
      Forall (fun f => FrameSync.blank_ok f = true) (FrameSync.frames r).
Proof.
  intros t frames Hsafe Hk. exact (clean_stream_sync t frames Hsafe Hk).
Qed.

Lemma clean_stream_resyncs_witness :
  Forall (Frames.blank_safe Constants.TD) (repeat (FrameBuilder.zeros 94) 4) /\
  4 <= Z.of_nat (length (repeat (FrameBuilder.zeros 94) 4)) /\
  exists r,
    FrameSync.sync_frames (concat (repeat (FrameBuilder.zeros 94) 4))
      Constants.TD FrameSync.default_max_search_bits = Py.Ok r /\
    FrameSync.locked r = true /\
    FrameSync.lock_offset r = 0 /\
    FrameSync.score r = 3 /\
    map FrameSync.bits (FrameSync.frames r) = repeat (FrameBuilder.zeros 94) 4 /\
    Forall (fun f => FrameSync.blank_ok f = true) (FrameSync.frames r).
Proof.
  assert (H1 : Forall (Frames.blank_safe Constants.TD)
                 (repeat (FrameBuilder.zeros 94) 4)).
  { apply Forall_forall. intros f Hf. apply repeat_spec in Hf. subst f.
    exact (zeros_blank_safe Constants.TD). }
  assert (H2 : 4 <= Z.of_nat (length (repeat (FrameBuilder.zeros 94) 4)))
    by (cbn; lia).
  split; [exact H1 |]. split; [exact H2 |].
  exact (clean_stream_resyncs Constants.TD _ H1 H2).
Defined.

(** * The NRBF serializer and the readers of the tools *)

Section VarintFacts.
Import Constants.

Section Varint.

Lemma lps_header_acc (fuel : nat) :
  forall n hd,
    RshwBuilder.lps_header fuel n hd
    = hd ++ RshwBuilder.lps_header fuel n [].
Proof.
  induction fuel as [| fuel IH]; intros n hd; cbn [RshwBuilder.lps_header].
  - rewrite app_nil_r. reflexivity.
  - destruct (n <? 128); [reflexivity |].
    rewrite IH. rewrite (IH _ ([] ++ _)). cbn [app].
    rewrite <- app_assoc. reflexivity.
Qed.

Lemma getitem_middle (pre rest : list Z) (x : Z) :
  Py.getitem (pre ++ x :: rest) (Z.of_nat (length pre)) = Py.Ok x.
Proof.
  unfold Py.getitem. cbv zeta.
  destruct (Z.ltb_spec (Z.of_nat (length pre)) 0) as [H | _]; [lia |].
  rewrite length_app. cbn [length].
  replace ((0 <=? Z.of_nat (length pre))
           && (Z.of_nat (length pre) <? Z.of_nat (length pre + S (length rest))))
    with true
    by (symmetry; apply andb_true_intro; split;
        [apply Z.leb_le | apply Z.ltb_lt]; lia).
  rewrite Nat2Z.id, nth_error_app2 by lia. rewrite Nat.sub_diag. reflexivity.
Qed.

Lemma low_seven (n : Z) :
  Z.land (Z.lor (Z.land n 127) 128) 127 = Z.land n 127 /\
  Z.land (Z.lor (Z.land n 127) 128) 128 = 128.
Proof.
  split.
  - rewrite Z.land_lor_distr_l. rewrite <- Z.land_assoc.
    change (Z.land 127 127) with 127. change (Z.land 128 127) with 0.
    apply Z.lor_0_r.
  - rewrite Z.land_lor_distr_l. rewrite <- Z.land_assoc.
    change (Z.land 127 128) with 0. change (Z.land 128 128) with 128.
    rewrite Z.land_0_r. reflexivity.
Qed.

Lemma split_seven (n shift acc : Z) :
  0 <= shift ->
  Z.lor (Z.lor acc (Z.shiftl (Z.land n 127) shift))
        (Z.shiftl (Z.shiftr n 7) (shift + 7))
  = Z.lor acc (Z.shiftl n shift).
Proof.
  intros Hs. rewrite <- Z.lor_assoc. f_equal.
  replace (shift + 7) with (7 + shift) by lia.
  rewrite <- (Z.shiftl_shiftl (Z.shiftr n 7) 7 shift) by lia.
  rewrite <- Z.shiftl_lor. f_equal.
  change 127 with (Z.ones 7).
  rewrite <- Z.ldiff_ones_r by lia.
  rewrite Z.lor_comm. apply Z.lor_ldiff_and.
Qed.

Lemma small_byte (n : Z) :
  0 <= n < 128 -> Z.land n 127 = n /\ Z.land n 128 = 0.
Proof.
  intros Hn. split.
  - change 127 with (Z.ones 7). rewrite Z.land_ones by lia.
    apply Z.mod_small. change (2 ^ 7) with 128. lia.
  - apply Z.bits_inj'. intros k Hk. rewrite Z.land_spec, Z.bits_0.
    destruct (Z.eq_dec k 7) as [-> | Hne].
    + rewrite (Z.bits_above_log2 n 7); [reflexivity | lia |].
      destruct (Z.eq_dec n 0) as [-> | H0]; [cbn; lia |].
      apply Z.log2_lt_pow2; [lia |]. change (2 ^ 7) with 128. lia.
    + change 128 with (2 ^ 7). rewrite Z.pow2_bits_false by lia.
      apply andb_false_r.
Qed.

Lemma read7bit_lps (fw : nat) :
  forall n pre rest acc shift fr,
    0 <= n < 128 ^ Z.of_nat fw -> (1 <= fw)%nat -> 0 <= shift ->
    (fw <= fr)%nat ->
    NrbfTools.read7bit_loop fr
      (pre ++ RshwBuilder.lps_header fw n [] ++ rest)
      (Z.of_nat (length pre)) acc shift
    = Py.Ok (Z.lor acc (Z.shiftl n shift),
             Z.of_nat (length pre
                       + length (RshwBuilder.lps_header fw n []))).
Proof.
  induction fw as [| fw IH]; intros n pre rest acc shift fr Hn Hfw Hs Hfr;
    [lia |].
  destruct fr as [| fr]; [lia |].
  cbn [RshwBuilder.lps_header NrbfTools.read7bit_loop].
  destruct (Z.ltb_spec n 128) as [Hsmall | Hbig].
  - cbn [app]. rewrite getitem_middle. cbn [Py.bind].
    destruct (small_byte n ltac:(lia)) as [-> ->]. cbn [Z.eqb length].
    do 2 f_equal. lia.
  - rewrite lps_header_acc. cbn [app]. rewrite getitem_middle. cbn [Py.bind].
    destruct (low_seven n) as [-> ->]. cbn [Z.eqb].
    assert (Hfw' : (1 <= fw)%nat).
    { destruct fw as [| fw']; [| lia]. cbn in Hn. lia. }
    assert (Hn' : 0 <= Z.shiftr n 7 < 128 ^ Z.of_nat fw).
    { rewrite Z.shiftr_div_pow2 by lia. change (2 ^ 7) with 128.
      split; [apply Z.div_pos; lia |].
      apply Z.div_lt_upper_bound; [lia |].
      rewrite Nat2Z.inj_succ, Z.pow_succ_r in Hn by lia. lia. }
    replace (pre ++ Z.lor (Z.land n 127) 128
                 :: RshwBuilder.lps_header fw (Z.shiftr n 7) [] ++ rest)
      with ((pre ++ [Z.lor (Z.land n 127) 128])
            ++ RshwBuilder.lps_header fw (Z.shiftr n 7) [] ++ rest)
      by (rewrite <- app_assoc; reflexivity).
    replace (Z.of_nat (length pre) + 1)
      with (Z.of_nat (length (pre ++ [Z.lor (Z.land n 127) 128])))
      by (rewrite length_app; cbn [length]; lia).
    rewrite IH by (assumption || lia).
    rewrite split_seven by lia. do 2 f_equal.
    rewrite length_app. cbn [length]. lia.
Qed.

Lemma length_below_power (n : nat) :
  0 <= Z.of_nat n < 128 ^ Z.of_nat (S n).
Proof.
  split; [lia |].
  pose proof (Z.pow_gt_lin_r 128 (Z.of_nat (S n)) ltac:(lia) ltac:(lia)). lia.
Qed.

Lemma read_lpstr_lps (decode : list Z -> string) (s : string)
  (pre rest : list Z) :
  NrbfTools.read_lpstr decode (pre ++ RshwBuilder._lps s ++ rest)
    (Z.of_nat (length pre))
  = Py.Ok (decode (Struct.encode_utf8 s),
           Z.of_nat (length pre) + Z.of_nat (length (RshwBuilder._lps s))).
Proof.
  unfold NrbfTools.read_lpstr, NrbfTools.read7bit, RshwBuilder._lps.
  cbv zeta. set (b := Struct.encode_utf8 s).
  rewrite <- app_assoc.
  rewrite read7bit_lps;
    [| apply length_below_power | lia | lia
     | rewrite !length_app; lia].
  set (h := RshwBuilder.lps_header (S (length b)) (Z.of_nat (length b)) []).
  cbn [Py.bind]. rewrite Z.shiftl_0_r. cbn [Z.lor].
  f_equal. f_equal.
  - f_equal. rewrite app_assoc.
    rewrite (slice_app_later (pre ++ h) (b ++ rest))
      by (rewrite ?length_app; lia).
    replace (Z.of_nat (length pre + length h) - Z.of_nat (length (pre ++ h)))
      with 0 by (rewrite length_app; lia).
    replace (Z.of_nat (length pre + length h) + Z.of_nat (length b)
             - Z.of_nat (length (pre ++ h)))
      with (Z.of_nat (length b)) by (rewrite length_app; lia).
    apply slice_app_first. reflexivity.
  - rewrite length_app. lia.
Qed.

End Varint.

End VarintFacts.

Section StructCodecFacts.
Import Constants.

Section StructFacts.

Lemma le_bytes_length (n : nat) : forall u, length (Struct.le_bytes n u) = n.
Proof.
  induction n as [| n IH]; intros u; [reflexivity |].
  cbn [Struct.le_bytes length]. rewrite IH. reflexivity.
Qed.

Lemma le_value_le_bytes (n : nat) :
  forall u, 0 <= u < 256 ^ Z.of_nat n ->
    Struct.le_value (Struct.le_bytes n u) = u.
Proof.
  induction n as [| n IH]; intros u Hu.
  - cbn in Hu. cbn. lia.
  - cbn [Struct.le_bytes Struct.le_value].
    rewrite Nat2Z.inj_succ, Z.pow_succ_r in Hu by lia.
    rewrite IH.
    + pose proof (Z.div_mod u 256 ltac:(lia)). lia.
    + split; [apply Z.div_pos; lia |].
      apply Z.div_lt_upper_bound; lia.
Qed.

Lemma le_bytes_are_bytes (n : nat) :
  forall u, Forall (fun b => 0 <= b < 256) (Struct.le_bytes n u).
Proof.
  induction n as [| n IH]; intros u; [constructor |].
  cbn [Struct.le_bytes]. constructor; [| apply IH].
  apply Z.mod_pos_bound. lia.
Qed.

Lemma signed_of_mod (n : nat) (v : Z) :
  (1 <= n)%nat ->
  - (256 ^ Z.of_nat n / 2) <= v < 256 ^ Z.of_nat n / 2 ->
  Struct.signed n (v mod 256 ^ Z.of_nat n) = v.
Proof.
  intros Hn Hv. unfold Struct.signed.
  set (m := 256 ^ Z.of_nat n) in *.
  assert (Hm : m = 2 * (m / 2) /\ 0 < m).
  { subst m. destruct n as [| n']; [lia |].
    rewrite Nat2Z.inj_succ, Z.pow_succ_r by lia.
    pose proof (Z.pow_pos_nonneg 256 (Z.of_nat n') ltac:(lia) ltac:(lia)).
    split; [| lia].
    replace (256 * 256 ^ Z.of_nat n') with (128 * 256 ^ Z.of_nat n' * 2) by ring.
    rewrite Z.div_mul by lia. ring. }
  destruct Hm as [Heven Hpos].
  destruct (Z_lt_le_dec v 0) as [Hneg | Hnn].
  - replace (v mod m) with (v + m)
      by (apply (Z.mod_unique_pos _ _ (-1)); lia).
    destruct (Z.geb_spec (v + m) (m / 2)); lia.
  - rewrite Z.mod_small by lia.
    destruct (Z.geb_spec v (m / 2)); lia.
Qed.

Lemma from_offset_middle (n : nat) (pre bs rest : list Z) :
  length bs = n ->
  Struct.from_offset n (pre ++ bs ++ rest) (Z.of_nat (length pre)) = Py.Ok bs.
Proof.
  intros Hn. unfold Struct.from_offset. cbv zeta.
  destruct (Z.ltb_spec (Z.of_nat (length pre)) 0) as [H | _]; [lia |].
  rewrite !length_app.
  replace ((0 <=? Z.of_nat (length pre))
           && (Z.of_nat (length pre) + Z.of_nat n
               <=? Z.of_nat (length pre + (length bs + length rest))))
    with true
    by (symmetry; apply andb_true_intro; split; apply Z.leb_le; lia).
  rewrite Nat2Z.id. rewrite skipn_app, skipn_all, Nat.sub_diag.
  cbn [skipn app]. rewrite firstn_app, <- Hn, firstn_all, Nat.sub_diag.
  cbn [firstn]. rewrite app_nil_r. reflexivity.
Qed.

Lemma read_i32_packed (v : Z) (bytes pre rest : list Z) :
  RshwBuilder._i32 v = Py.Ok bytes ->
  length bytes = 4%nat /\
  NrbfTools.read_i32 (pre ++ bytes ++ rest) (Z.of_nat (length pre))
  = Py.Ok (v, Z.of_nat (length pre) + 4).
Proof.
  unfold RshwBuilder._i32, Struct.pack_signed. cbv zeta.
  change (256 ^ Z.of_nat 4 / 2) with 2147483648.
  change (256 ^ Z.of_nat 4) with 4294967296.
  destruct (_ && _) eqn:E; [| discriminate].
  intros H. apply Ok_inj in H. subst bytes.
  apply andb_prop in E. destruct E as [Hlo Hhi].
  apply Z.leb_le in Hlo. apply Z.ltb_lt in Hhi.
  split; [apply le_bytes_length |].
  unfold NrbfTools.read_i32.
  rewrite from_offset_middle by apply le_bytes_length. cbn [Py.bind].
  unfold Struct.unpack_signed. rewrite le_bytes_length. cbn [Nat.eqb Py.bind].
  rewrite le_value_le_bytes
    by (change (256 ^ Z.of_nat 4) with 4294967296;
        apply Z.mod_pos_bound; lia).
  change 4294967296 with (256 ^ Z.of_nat 4).
  rewrite signed_of_mod;
    [reflexivity | lia
     | change (256 ^ Z.of_nat 4 / 2) with 2147483648; lia].
Qed.

End StructFacts.

End StructCodecFacts.

(** X21.  A string written by [_lps] is read back by [read_lpstr] of the
    tools, wherever it stands in a byte stream: the reader hands to the
    decoder exactly the bytes [s.encode('utf-8')] that [_lps] wrote and
    returns the position just after them; so it returns [s] itself whenever
    the decoder gives [s] back from its encoding, as the UTF-8 codec of
    Python does of every string it can encode.  The length prefix holds
    seven bits per byte, so this covers strings of 128 bytes and more.  The
    decoder, with its replacement of malformed input, is a parameter. *)
Theorem lps_read_back :
  forall (decode_utf8_replace : list Z -> string) (s : string)
         (before after : list Z),
    let data := before ++ RshwBuilder._lps s ++ after in
    let pos := Z.of_nat (length before) in
    let pos' := pos + Z.of_nat (length (RshwBuilder._lps s)) in
    NrbfTools.read_lpstr decode_utf8_replace data pos
    = Py.Ok (decode_utf8_replace (Struct.encode_utf8 s), pos') /\
    (decode_utf8_replace (Struct.encode_utf8 s) = s ->
     NrbfTools.read_lpstr decode_utf8_replace data pos = Py.Ok (s, pos')).
Proof.
  intros decode s before after data pos pos'. subst data pos pos'.
  split.
  - apply read_lpstr_lps.
  - intros Hs. rewrite read_lpstr_lps, Hs. reflexivity.
Qed.

(** X22.  [_i32] packs every integer of the signed 32-bit range into four
    bytes that [read_i32] of the tools reads back, wherever they stand in a
    byte stream; on any other integer it raises struct.error. *)
Theorem i32_read_back :
  forall v : Z,
    (-2147483648 <= v <= 2147483647 ->
     exists bytes,
       RshwBuilder._i32 v = Py.Ok bytes /\
       length bytes = 4%nat /\
       forall before after,
         NrbfTools.read_i32 (before ++ bytes ++ after)
           (Z.of_nat (length before))
         = Py.Ok (v, Z.of_nat (length before) + 4)) /\
    (~ -2147483648 <= v <= 2147483647 ->
     RshwBuilder._i32 v = Py.Raise Py.StructError).
Proof.
  intros v. split.
  - intros Hv.
    destruct (RshwBuilder._i32 v) as [bytes | e] eqn:E.
    + exists bytes. split; [reflexivity |].
      split; [exact (proj1 (read_i32_packed v bytes [] [] E)) |].
      intros before after. exact (proj2 (read_i32_packed v bytes before after E)).
    + exfalso. unfold RshwBuilder._i32, Struct.pack_signed in E. cbv zeta in E.
      change (256 ^ Z.of_nat 4 / 2) with 2147483648 in E.
      destruct (Z.leb_spec (Z.opp 2147483648) v), (Z.ltb_spec v 2147483648);
        cbn [andb] in E; try discriminate E; lia.
  - intros Hv. unfold RshwBuilder._i32, Struct.pack_signed. cbv zeta.
    change (256 ^ Z.of_nat 4 / 2) with 2147483648.
    destruct (Z.leb_spec (Z.opp 2147483648) v), (Z.ltb_spec v 2147483648);
      cbn [andb]; try reflexivity. lia.
Qed.

Section SerializerFacts.
Import Constants.

Section Serializer.

Lemma i32_in_range (v : Z) :
  Struct.is_int32 v ->
  RshwBuilder._i32 v = Py.Ok (Struct.le_bytes 4 (v mod 4294967296)).
Proof.
  intros Hv. unfold Struct.is_int32 in Hv.
  unfold RshwBuilder._i32, Struct.pack_signed. cbv zeta.
  change (256 ^ Z.of_nat 4 / 2) with 2147483648.
  change (256 ^ Z.of_nat 4) with 4294967296.
  destruct (Z.leb_spec (Z.opp 2147483648) v), (Z.ltb_spec v 2147483648);
    cbn [andb]; try reflexivity; lia.
Qed.

Lemma prologue_size :
  exists p, RshwBuilder.nrbf_prologue = Py.Ok p /\ length p = 216%nat.
Proof.
  destruct RshwBuilder.nrbf_prologue as [p |] eqn:E;
    [| vm_compute in E; discriminate E].
  exists p. split; [reflexivity |].
  assert (H : Frames.res_map (@length Z) RshwBuilder.nrbf_prologue
              = Py.Ok 216%nat) by (vm_compute; reflexivity).
  rewrite E in H. cbn [Frames.res_map] in H. apply Ok_inj in H. exact H.
Qed.

Lemma int_array_ok (signal : list Z) :
  Forall Struct.is_int32 signal ->
  exists sig,
    RshwBuilder.int_array_bytes signal = Py.Ok sig /\
    length sig = (4 * length signal)%nat /\
    forall k v, nth_error signal k = Some v ->
      exists a b,
        sig = a ++ Struct.le_bytes 4 (v mod 4294967296) ++ b /\
        length a = (4 * k)%nat.
Proof.
  induction 1 as [| x tl Hx _ (sig & Hs & Hlen & Hnth)];
    cbn [RshwBuilder.int_array_bytes].
  - exists []. split; [reflexivity |]. split; [reflexivity |].
    intros [| k] v H; discriminate H.
  - unfold Struct.is_int32 in Hx.
    destruct (Z.leb_spec (-2147483648) x), (Z.leb_spec x 2147483647);
      cbn [andb]; try lia.
    rewrite Hs. cbn [Py.bind]. eexists. split; [reflexivity |].
    split.
    + rewrite length_app, le_bytes_length, Hlen. cbn [length]. lia.
    + intros [| k] v Hk; cbn [nth_error] in Hk.
      * injection Hk as <-. exists [], sig. split; reflexivity.
      * destruct (Hnth k v Hk) as (a & b & -> & Ha).
        exists (Struct.le_bytes 4 (x mod 4294967296) ++ a), b.
        split; [rewrite <- app_assoc; reflexivity |].
        rewrite length_app, le_bytes_length. lia.
Qed.

Lemma int_array_overflow (signal : list Z) :
  ~ Forall Struct.is_int32 signal ->
  RshwBuilder.int_array_bytes signal = Py.Raise Py.OverflowError.
Proof.
  induction signal as [| x tl IH]; intros Hnot.
  - exfalso. apply Hnot. constructor.
  - cbn [RshwBuilder.int_array_bytes].
    destruct (Z.leb_spec (-2147483648) x), (Z.leb_spec x 2147483647);
      cbn [andb]; try reflexivity.
    rewrite IH; [reflexivity |].
    intros Htl. apply Hnot. constructor; [unfold Struct.is_int32; lia | exact Htl].
Qed.

Lemma read_i32_at (v : Z) (pre rest : list Z) (pos pos' : Z) :
  Struct.is_int32 v ->
  pos = Z.of_nat (length pre) ->
  pos' = pos + 4 ->
  NrbfTools.read_i32
    (pre ++ Struct.le_bytes 4 (v mod 4294967296) ++ rest) pos
  = Py.Ok (v, pos').
Proof.
  intros Hv -> ->.
  exact (proj2 (read_i32_packed v _ pre rest (i32_in_range v Hv))).
Qed.

End Serializer.

End SerializerFacts.

(** X23.  The layout of a serialized showtape.  When the audio and the
    signal array have fewer than 2^31 elements and every signal value fits
    a signed 32-bit integer, [_serialize_rshw_format] returns
    [237 + len(audio_data) + 4 * len(signal_data)] bytes in which, after the
    216 bytes of the fixed records, the readers of the tools find the audio
    array record (object id 3, its length, its bytes unchanged) and the
    signal array record (object id 4, its length, each value in order), and
    the last byte is the MessageEnd record 11.  A signal value outside that
    range raises OverflowError; an audio of 2^31 bytes or more raises
    struct.error. *)
Theorem serialized_showtape_reads_back :
  forall (audio_data signal_data : list Z),
    let la := Z.of_nat (length audio_data) in
    let ls := Z.of_nat (length signal_data) in
    (la <= 2147483647 -> ls <= 2147483647 ->
     Forall Struct.is_int32 signal_data ->
     exists out,
       RshwBuilder._serialize_rshw_format audio_data signal_data = Py.Ok out /\
       Z.of_nat (length out) = 216 + 21 + la + 4 * ls /\
       NrbfTools.read_i32 out (216 + 1) = Py.Ok (3, 216 + 5) /\
       NrbfTools.read_i32 out (216 + 5) = Py.Ok (la, 216 + 9) /\
       Py.slice out (216 + 10) (216 + 10 + la) = audio_data /\
       NrbfTools.read_i32 out (216 + 11 + la) = Py.Ok (4, 216 + 15 + la) /\
       NrbfTools.read_i32 out (216 + 15 + la) = Py.Ok (ls, 216 + 19 + la) /\
       (forall k v, nth_error signal_data k = Some v ->
          NrbfTools.read_i32 out (216 + 20 + la + 4 * Z.of_nat k)
          = Py.Ok (v, 216 + 20 + la + 4 * Z.of_nat k + 4)) /\
       Py.getitem out (-1) = Py.Ok 11) /\
    (la <= 2147483647 -> ls <= 2147483647 ->
     ~ Forall Struct.is_int32 signal_data ->
     RshwBuilder._serialize_rshw_format audio_data signal_data
     = Py.Raise Py.OverflowError) /\
    (2147483647 < la ->
     RshwBuilder._serialize_rshw_format audio_data signal_data
     = Py.Raise Py.StructError).
Proof.
  intros audio signal la ls.
  destruct prologue_size as (p & Hp & Hlen).
  assert (H3 : Struct.is_int32 3) by (unfold Struct.is_int32; lia).
  assert (H4 : Struct.is_int32 4) by (unfold Struct.is_int32; lia).
  unfold RshwBuilder._serialize_rshw_format. rewrite Hp. cbn [Py.bind].
  rewrite (i32_in_range 3 H3). cbn [Py.bind].
  split; [| split].
  - intros Hla Hls Hsig.
    assert (Hila : Struct.is_int32 la) by (unfold Struct.is_int32; lia).
    assert (Hils : Struct.is_int32 ls) by (unfold Struct.is_int32; lia).
    fold la ls.
    rewrite (i32_in_range la Hila). cbn [Py.bind].
    rewrite (i32_in_range 4 H4). cbn [Py.bind].
    rewrite (i32_in_range ls Hils). cbn [Py.bind].
    destruct (int_array_ok signal Hsig) as (sig & Hs & Hsl & Hnth).
    rewrite Hs. cbn [Py.bind].
    set (b3 := Struct.le_bytes 4 (3 mod 4294967296)).
    set (b4 := Struct.le_bytes 4 (4 mod 4294967296)).
    set (bla := Struct.le_bytes 4 (la mod 4294967296)).
    set (bls := Struct.le_bytes 4 (ls mod 4294967296)).
    assert (L3 : length b3 = 4%nat) by apply le_bytes_length.
    assert (L4 : length b4 = 4%nat) by apply le_bytes_length.
    assert (Lla : length bla = 4%nat) by apply le_bytes_length.
    assert (Lls : length bls = 4%nat) by apply le_bytes_length.
    eexists. split; [reflexivity |].
    split.
    { rewrite !length_app. cbn [length]. lia. }
    split.
    { replace (((((((((((p ++ [15]) ++ b3) ++ bla) ++ [2]) ++ audio) ++ [15]) ++ b4) ++ bls) ++ [8]) ++ sig) ++ [11])
        with ((p ++ [15]) ++ b3 ++ (bla ++ [2] ++ audio ++ [15] ++ b4 ++ bls ++ [8] ++ sig ++ [11]))
        by (repeat rewrite <- app_assoc; reflexivity).
      apply read_i32_at; [exact H3 | rewrite length_app; cbn [length]; lia | lia]. }
    split.
    { replace (((((((((((p ++ [15]) ++ b3) ++ bla) ++ [2]) ++ audio) ++ [15]) ++ b4) ++ bls) ++ [8]) ++ sig) ++ [11])
        with (((p ++ [15]) ++ b3) ++ bla ++ ([2] ++ audio ++ [15] ++ b4 ++ bls ++ [8] ++ sig ++ [11]))
        by (repeat rewrite <- app_assoc; reflexivity).
      apply read_i32_at; [exact Hila | rewrite !length_app; cbn [length]; lia | lia]. }
    split.
    { replace (((((((((((p ++ [15]) ++ b3) ++ bla) ++ [2]) ++ audio) ++ [15]) ++ b4) ++ bls) ++ [8]) ++ sig) ++ [11])
        with (((((p ++ [15]) ++ b3) ++ bla) ++ [2]) ++ audio ++ ([15] ++ b4 ++ bls ++ [8] ++ sig ++ [11]))
        by (repeat rewrite <- app_assoc; reflexivity).
      rewrite slice_app_later by (rewrite ?length_app; cbn [length]; lia).
      replace (216 + 10 - Z.of_nat (length ((((p ++ [15]) ++ b3) ++ bla) ++ [2])))
        with 0 by (rewrite !length_app; cbn [length]; lia).
      replace (216 + 10 + la
               - Z.of_nat (length ((((p ++ [15]) ++ b3) ++ bla) ++ [2])))
        with la by (rewrite !length_app; cbn [length]; lia).
      apply slice_app_first. reflexivity. }
    split.
    { replace (((((((((((p ++ [15]) ++ b3) ++ bla) ++ [2]) ++ audio) ++ [15]) ++ b4) ++ bls) ++ [8]) ++ sig) ++ [11])
        with (((((((p ++ [15]) ++ b3) ++ bla) ++ [2]) ++ audio) ++ [15]) ++ b4 ++ (bls ++ [8] ++ sig ++ [11]))
        by (repeat rewrite <- app_assoc; reflexivity).
      apply read_i32_at; [exact H4 | rewrite !length_app; cbn [length]; lia | lia]. }
    split.
    { replace (((((((((((p ++ [15]) ++ b3) ++ bla) ++ [2]) ++ audio) ++ [15]) ++ b4) ++ bls) ++ [8]) ++ sig) ++ [11])
        with ((((((((p ++ [15]) ++ b3) ++ bla) ++ [2]) ++ audio) ++ [15]) ++ b4) ++ bls ++ ([8] ++ sig ++ [11]))
        by (repeat rewrite <- app_assoc; reflexivity).
      apply read_i32_at; [exact Hils | rewrite !length_app; cbn [length]; lia | lia]. }
    split.
    { intros k v Hk. destruct (Hnth k v Hk) as (a & b & -> & Ha).
      replace (((((((((((p ++ [15]) ++ b3) ++ bla) ++ [2]) ++ audio) ++ [15]) ++ b4) ++ bls) ++ [8]) ++ a ++ Struct.le_bytes 4 (v mod 4294967296) ++ b) ++ [11])
        with (((((((((((p ++ [15]) ++ b3) ++ bla) ++ [2]) ++ audio) ++ [15]) ++ b4) ++ bls) ++ [8]) ++ a) ++ Struct.le_bytes 4 (v mod 4294967296) ++ (b ++ [11]))
        by (repeat rewrite <- app_assoc; reflexivity).
      apply read_i32_at.
      - rewrite Forall_forall in Hsig. apply Hsig.
        eapply nth_error_In. exact Hk.
      - rewrite !length_app. cbn [length]. lia.
      - lia. }
    { unfold Py.getitem. cbv zeta. cbn [Z.ltb Z.compare].
      set (body := ((((((((((p ++ [15]) ++ b3) ++ bla) ++ [2]) ++ audio)
                        ++ [15]) ++ b4) ++ bls) ++ [8]) ++ sig)).
      rewrite length_app. cbn [length].
      replace ((0 <=? -1 + Z.of_nat (length body + 1))
               && (-1 + Z.of_nat (length body + 1)
                   <? Z.of_nat (length body + 1)))
        with true
        by (symmetry; apply andb_true_intro; split;
            [apply Z.leb_le | apply Z.ltb_lt]; lia).
      replace (Z.to_nat (-1 + Z.of_nat (length body + 1)))
        with (length body) by lia.
      rewrite nth_error_app2, Nat.sub_diag by lia. reflexivity. }
  - intros Hla Hls Hsig.
    assert (Hila : Struct.is_int32 la) by (unfold Struct.is_int32; lia).
    assert (Hils : Struct.is_int32 ls) by (unfold Struct.is_int32; lia).
    fold la ls.
    rewrite (i32_in_range la Hila). cbn [Py.bind].
    rewrite (i32_in_range 4 H4). cbn [Py.bind].
    rewrite (i32_in_range ls Hils). cbn [Py.bind].
    rewrite (int_array_overflow signal Hsig). reflexivity.
  - intros Hla. fold la.
    unfold RshwBuilder._i32 at 1, Struct.pack_signed. cbv zeta.
    change (256 ^ Z.of_nat 4 / 2) with 2147483648.
    destruct (Z.leb_spec (Z.opp 2147483648) la), (Z.ltb_spec la 2147483648);
      cbn [andb Py.bind]; try reflexivity; lia.
Qed.
(** * The WAV container: builder, parser and the public conversion *)

Section WavFacts.
Import RshwBuilder.

Lemma clamp16_range (x : Z) : -32768 <= clamp16 x <= 32767.
Proof. unfold clamp16. lia. Qed.

Lemma clamp16_inside (x : Z) : -32768 <= x <= 32767 -> clamp16 x = x.
Proof. unfold clamp16. lia. Qed.

Lemma interleave_length :
  forall l r : list Z,
    length (interleave l r) = (2 * Nat.min (length l) (length r))%nat.
Proof.
  induction l as [| x l IH]; intros [| y r]; cbn [interleave length Nat.min];
    try reflexivity; try lia.
  rewrite IH. lia.
Qed.

Lemma interleave_int16 :
  forall l r : list Z, Forall Codec.is_int16 (interleave l r).
Proof.
  induction l as [| x l IH]; intros [| y r]; cbn [interleave];
    try constructor; try apply clamp16_range.
  constructor; [apply clamp16_range | apply IH].
Qed.

Lemma samples_bytes_length (l : list Z) :
  length (samples_bytes l) = (2 * length l)%nat.
Proof.
  unfold samples_bytes. induction l as [| s l IH]; [reflexivity |].
  cbn [flat_map]. rewrite length_app, IH, le_bytes_length. cbn [length]. lia.
Qed.

Lemma samples16_bytes (l : list Z) :
  Forall Codec.is_int16 l -> samples16 (samples_bytes l) = l.
Proof.
  unfold samples_bytes.
  induction 1 as [| s l Hs _ IH]; [reflexivity |].
  cbn [flat_map].
  assert (E : forall u tl, samples16 (Struct.le_bytes 2 u ++ tl)
              = Struct.signed 2 (Struct.le_value (Struct.le_bytes 2 u))
                :: samples16 tl) by reflexivity.
  rewrite E, IH. f_equal.
  unfold Codec.is_int16 in Hs.
  rewrite le_value_le_bytes
    by (change (256 ^ Z.of_nat 2) with 65536; apply Z.mod_pos_bound; lia).
  change 65536 with (256 ^ Z.of_nat 2).
  apply signed_of_mod; [lia |].
  change (256 ^ Z.of_nat 2 / 2) with 32768. lia.
Qed.

Lemma deinterleave_pair (a b tl : list Z) (x y i : Z) :
  0 <= i -> i mod 2 = 0 ->
  deinterleave [a; b] 2 i (x :: y :: tl)
  = deinterleave [a ++ [x]; b ++ [y]] 2 (i + 1 + 1) tl.
Proof.
  intros Hi Hm.
  assert (Hm' : (i + 1) mod 2 = 1).
  { pose proof (Z.div_mod i 2 ltac:(lia)).
    symmetry. apply (Z.mod_unique_pos _ _ (i / 2)); lia. }
  cbn [deinterleave]. change (2 =? 0) with false. cbv iota.
  rewrite Hm.
  change (Py.getitem [a; b] 0) with (Py.Ok a). cbn [Py.bind].
  change (Py.setitem [a; b] 0 (a ++ [x])) with (Py.Ok [a ++ [x]; b]).
  cbn [Py.bind]. rewrite Hm'.
  change (Py.getitem [a ++ [x]; b] 1) with (Py.Ok b). cbn [Py.bind].
  change (Py.setitem [a ++ [x]; b] 1 (b ++ [y]))
    with (Py.Ok [a ++ [x]; b ++ [y]]).
  reflexivity.
Qed.

Lemma deinterleave_stereo :
  forall (l r a b : list Z) (i : Z),
    0 <= i -> i mod 2 = 0 ->
    deinterleave [a; b] 2 i (interleave l r)
    = Py.Ok [a ++ map clamp16 (firstn (Nat.min (length l) (length r)) l);
             b ++ map clamp16 (firstn (Nat.min (length l) (length r)) r)].
Proof.
  induction l as [| x l IH]; intros r a b i Hi Hm.
  - cbn. rewrite !app_nil_r. reflexivity.
  - destruct r as [| y r].
    + cbn. rewrite !app_nil_r. reflexivity.
    + cbn [interleave length Nat.min firstn map].
      rewrite deinterleave_pair by assumption.
      rewrite IH.
      * rewrite <- !app_assoc. reflexivity.
      * lia.
      * pose proof (Z.div_mod i 2 ltac:(lia)).
        symmetry. apply (Z.mod_unique_pos _ _ (i / 2 + 1)); lia.
Qed.

Lemma chunks_loop_built (s0 s1 s2 s3 r0 r1 r2 r3 q0 q1 q2 q3 d0 d1 d2 d3 : Z)
  (pcm : list Z) (fuel : nat) :
  Struct.le_value [d0; d1; d2; d3] = Z.of_nat (length pcm) ->
  let data :=
    RIFF ++ [s0; s1; s2; s3] ++ WAVE
    ++ FMT ++ [16; 0; 0; 0] ++ [1; 0] ++ [2; 0] ++ [r0; r1; r2; r3]
    ++ [q0; q1; q2; q3] ++ [4; 0] ++ [16; 0]
    ++ (DATA ++ [d0; d1; d2; d3]) ++ pcm in
  chunks_loop (S (S fuel)) data
    {| w_pos := 12; w_num_channels := 0; w_sample_rate := 0;
       w_bits_per_sample := 0; w_pcm_data := None |}
  = Py.Ok
      (if (0 <? Z.of_nat (length pcm)) then
         {| w_pos := 44 + Z.of_nat (length pcm); w_num_channels := 2;
            w_sample_rate := Struct.le_value [r0; r1; r2; r3];
            w_bits_per_sample := 16; w_pcm_data := Some pcm |}
       else
         {| w_pos := 36; w_num_channels := 2;
            w_sample_rate := Struct.le_value [r0; r1; r2; r3];
            w_bits_per_sample := 16; w_pcm_data := None |}).
Proof.
  intros Hd data.
  assert (Hlen : Z.of_nat (length data) = 44 + Z.of_nat (length pcm)).
  { subst data. rewrite !length_app. cbn [length RIFF WAVE FMT DATA Struct.encode_utf8 list_ascii_of_string map]. lia. }
  assert (R1 : read data 12 4 = (FMT, 16)) by reflexivity.
  assert (R2 : read data 16 4 = ([16; 0; 0; 0], 20)) by reflexivity.
  assert (R3 : read data 20 2 = ([1; 0], 22)) by reflexivity.
  assert (R4 : read data 22 2 = ([2; 0], 24)) by reflexivity.
  assert (R5 : read data 24 4 = ([r0; r1; r2; r3], 28)) by reflexivity.
  assert (R6 : read data 28 4 = ([q0; q1; q2; q3], 32)) by reflexivity.
  assert (R7 : read data 32 2 = ([4; 0], 34)) by reflexivity.
  assert (R8 : read data 34 2 = ([16; 0], 36)) by reflexivity.
  assert (R9 : read data 36 4 = (DATA, 40)) by reflexivity.
  assert (R10 : read data 40 4 = ([d0; d1; d2; d3], 44)) by reflexivity.
  assert (R11 : read data 44 (Z.of_nat (length pcm))
                = (pcm, 44 + Z.of_nat (length pcm))).
  { unfold read. cbv zeta. rewrite Nat2Z.id.
    change (skipn (Z.to_nat 44) data) with pcm.
    rewrite firstn_all. reflexivity. }
  clearbody data.
  cbn [chunks_loop w_pos]. rewrite Hlen.
  destruct (Z.ltb_spec 12 (44 + Z.of_nat (length pcm) - 8)) as [_ | H]; [| lia].
  rewrite R1, R2.
  change (Struct.unpack_unsigned 4 [16; 0; 0; 0]) with (@Py.Ok Z 16).
  cbn [Py.bind].
  change (bytes_eqb FMT FMT) with true. cbv iota.
  rewrite R3, R4, R5, R6, R7, R8.
  change (Struct.unpack_unsigned 2 [1; 0]) with (@Py.Ok Z 1).
  change (Struct.unpack_unsigned 2 [2; 0]) with (@Py.Ok Z 2).
  change (Struct.unpack_unsigned 2 [16; 0]) with (@Py.Ok Z 16).
  change (Struct.unpack_unsigned 4 [r0; r1; r2; r3])
    with (Py.Ok (Struct.le_value [r0; r1; r2; r3])).
  cbn [Py.bind w_pcm_data]. change (20 + 16) with 36.
  destruct (Z.ltb_spec 36 (44 + Z.of_nat (length pcm) - 8)) as [Hn | Hn];
    destruct (Z.ltb_spec 0 (Z.of_nat (length pcm))) as [Hp | Hp]; try lia.
  - rewrite R9, R10.
    change (Struct.unpack_unsigned 4 [d0; d1; d2; d3])
      with (Py.Ok (Struct.le_value [d0; d1; d2; d3])).
    cbn [Py.bind]. change (bytes_eqb DATA FMT) with false.
    change (bytes_eqb DATA DATA) with true. cbv iota.
    rewrite Hd, R11.
    cbn [w_num_channels w_sample_rate w_bits_per_sample]. reflexivity.
  - reflexivity.
Qed.

Lemma pack_unsigned_ok (n : nat) (v : Z) :
  0 <= v < 256 ^ Z.of_nat n ->
  Struct.pack_unsigned n v = Py.Ok (Struct.le_bytes n v).
Proof.
  intros H. unfold Struct.pack_unsigned.
  destruct (Z.leb_spec 0 v); [| lia].
  destruct (Z.ltb_spec v (256 ^ Z.of_nat n)); [| lia]. reflexivity.
Qed.

Lemma pack_unsigned_out (n : nat) (v : Z) :
  v < 0 \/ 256 ^ Z.of_nat n <= v ->
  Struct.pack_unsigned n v = Py.Raise Py.StructError.
Proof.
  intros H. unfold Struct.pack_unsigned.
  destruct (Z.leb_spec 0 v); [| reflexivity].
  destruct (Z.ltb_spec v (256 ^ Z.of_nat n)); [lia | reflexivity].
Qed.

Lemma map_clamp16_inside (l : list Z) :
  Forall Codec.is_int16 l -> map clamp16 l = l.
Proof.
  induction 1 as [| x l Hx _ IH]; [reflexivity |].
  cbn [map]. rewrite IH, clamp16_inside by exact Hx. reflexivity.
Qed.

Lemma build_stereo_wav_image (left right : list Z) (sample_rate : Z) :
  let n := Z.of_nat (Nat.min (length left) (length right)) in
  let pcm := samples_bytes (interleave left right) in
  0 <= sample_rate <= 1073741823 -> n <= 1073741814 ->
  Z.of_nat (length pcm) = 4 * n /\
  _build_stereo_wav left right sample_rate
  = Py.Ok
      (RIFF ++ Struct.le_bytes 4 (36 + 4 * n) ++ WAVE
       ++ FMT ++ [16; 0; 0; 0] ++ [1; 0] ++ [2; 0]
       ++ Struct.le_bytes 4 sample_rate
       ++ Struct.le_bytes 4 (sample_rate * 4) ++ [4; 0] ++ [16; 0]
       ++ (DATA ++ Struct.le_bytes 4 (4 * n)) ++ pcm).
Proof.
  intros n pcm Hsr Hn.
  assert (Hlen : Z.of_nat (length pcm) = 4 * n).
  { subst pcm n. rewrite samples_bytes_length, interleave_length. lia. }
  split; [exact Hlen |].
  unfold _build_stereo_wav. cbv zeta. fold pcm. rewrite Hlen.
  change (2 * (16 / 8)) with 4.
  change (256 ^ Z.of_nat 4) with 4294967296 in *.
  rewrite (pack_unsigned_ok 4 (36 + 4 * n))
    by (change (256 ^ Z.of_nat 4) with 4294967296; lia).
  rewrite (pack_unsigned_ok 4 sample_rate)
    by (change (256 ^ Z.of_nat 4) with 4294967296; lia).
  rewrite (pack_unsigned_ok 4 (sample_rate * 4))
    by (change (256 ^ Z.of_nat 4) with 4294967296; lia).
  rewrite (pack_unsigned_ok 4 (4 * n))
    by (change (256 ^ Z.of_nat 4) with 4294967296; lia).
  change (Struct.pack_unsigned 4 16) with (Py.Ok [16; 0; 0; 0]).
  change (Struct.pack_unsigned 2 1) with (Py.Ok [1; 0]).
  change (Struct.pack_unsigned 2 2) with (Py.Ok [2; 0]).
  change (Struct.pack_unsigned 2 4) with (Py.Ok [4; 0]).
  change (Struct.pack_unsigned 2 16) with (Py.Ok [16; 0]).
  cbn [Py.bind]. rewrite <- !app_assoc. reflexivity.
Qed.

Lemma build_stereo_wav_overflow (left right : list Z) (sample_rate : Z) :
  let n := Z.of_nat (Nat.min (length left) (length right)) in
  sample_rate < 0 \/ 1073741823 < sample_rate \/ 1073741814 < n ->
  _build_stereo_wav left right sample_rate = Py.Raise Py.StructError.
Proof.
  intros n H.
  assert (Hlen : Z.of_nat (length (samples_bytes (interleave left right)))
                 = 4 * n).
  { subst n. rewrite samples_bytes_length, interleave_length. lia. }
  unfold _build_stereo_wav. cbv zeta. rewrite Hlen.
  change (2 * (16 / 8)) with 4.
  unfold Struct.pack_unsigned at 1.
  change (256 ^ Z.of_nat 4) with 4294967296.
  destruct ((0 <=? 36 + 4 * n) && (36 + 4 * n <? 4294967296)) eqn:E1;
    [| reflexivity].
  apply andb_prop in E1. destruct E1 as [_ E1]. apply Z.ltb_lt in E1.
  cbn [Py.bind].
  change (Struct.pack_unsigned 4 16) with (Py.Ok [16; 0; 0; 0]).
  change (Struct.pack_unsigned 2 1) with (Py.Ok [1; 0]).
  change (Struct.pack_unsigned 2 2) with (Py.Ok [2; 0]).
  cbn [Py.bind].
  unfold Struct.pack_unsigned at 1.
  change (256 ^ Z.of_nat 4) with 4294967296.
  destruct ((0 <=? sample_rate) && (sample_rate <? 4294967296)) eqn:E2;
    [| reflexivity].
  apply andb_prop in E2. destruct E2 as [E2 _]. apply Z.leb_le in E2.
  cbn [Py.bind].
  rewrite (pack_unsigned_out 4 (sample_rate * 4))
    by (change (256 ^ Z.of_nat 4) with 4294967296; lia).
  reflexivity.
Qed.

Section Parse.
Variable samples_float32 : list Z -> Py.res (list Z).

Lemma parse_built (left right : list Z) (sample_rate : Z) (wav : list Z) :
  let n := Nat.min (length left) (length right) in
  0 <= sample_rate <= 1073741823 -> Z.of_nat n <= 1073741814 ->
  _build_stereo_wav left right sample_rate = Py.Ok wav ->
  Z.of_nat (length wav) = 44 + 4 * Z.of_nat n /\
  _parse_wav samples_float32 wav
  = if (0 <? Z.of_nat n) && negb (sample_rate =? 0) then
      Py.Ok ([map clamp16 (firstn n left); map clamp16 (firstn n right)],
             sample_rate, 2)
    else Py.Raise Py.ValueError.
Proof.
  intros n Hsr Hn Hb.
  destruct (build_stereo_wav_image left right sample_rate Hsr Hn)
    as [Hlen Himg].
  rewrite Himg in Hb. apply Ok_inj in Hb.
  set (pcm := samples_bytes (interleave left right)) in *.
  fold n in Hlen.
  assert (Hr : Struct.le_value (Struct.le_bytes 4 sample_rate) = sample_rate)
    by (apply le_value_le_bytes;
        change (256 ^ Z.of_nat 4) with 4294967296; lia).
  assert (Hd : Struct.le_value (Struct.le_bytes 4 (4 * Z.of_nat n))
               = Z.of_nat (length pcm))
    by (rewrite Hlen; apply le_value_le_bytes;
        change (256 ^ Z.of_nat 4) with 4294967296; lia).
  fold n in Hb.
  set (A := 36 + 4 * Z.of_nat n) in *.
  set (C := sample_rate * 4) in *.
  set (D := 4 * Z.of_nat n) in *.
  cbn [Struct.le_bytes] in Hb, Hr, Hd.
  pose proof (chunks_loop_built
                (A mod 256) (A / 256 mod 256) (A / 256 / 256 mod 256) (A / 256 / 256 / 256 mod 256)
                (sample_rate mod 256) (sample_rate / 256 mod 256) (sample_rate / 256 / 256 mod 256) (sample_rate / 256 / 256 / 256 mod 256)
                (C mod 256) (C / 256 mod 256) (C / 256 / 256 mod 256) (C / 256 / 256 / 256 mod 256)
                (D mod 256) (D / 256 mod 256) (D / 256 / 256 mod 256) (D / 256 / 256 / 256 mod 256)
                pcm (length (skipn 2 wav)) Hd) as Hloop.
  cbv zeta in Hloop.
  rewrite Hb in Hloop. clear Hd. subst A C D.
  split.
  { rewrite <- Hb, !length_app.
    cbn [length RIFF WAVE FMT DATA Struct.encode_utf8 list_ascii_of_string map].
    lia. }
  assert (Hfuel : length wav = S (S (length (skipn 2 wav))))
    by (rewrite <- Hb; reflexivity).
  unfold _parse_wav.
  assert (R1 : read wav 0 4 = (RIFF, 4)) by (rewrite <- Hb; reflexivity).
  assert (R2 : exists b, read wav 4 4 = (b, 8))
    by (rewrite <- Hb; eexists; reflexivity).
  assert (R3 : read wav 8 4 = (WAVE, 12)) by (rewrite <- Hb; reflexivity).
  destruct R2 as [b R2].
  rewrite R1. change (negb (bytes_eqb RIFF RIFF)) with false. cbv iota.
  rewrite R2, R3. change (negb (bytes_eqb WAVE WAVE)) with false. cbv iota.
  rewrite Hfuel, Hloop. cbn [Py.bind]. rewrite Hr, Hlen.
  destruct (Z.ltb_spec 0 (4 * Z.of_nat n)) as [Hp | Hp];
    destruct (Z.ltb_spec 0 (Z.of_nat n)) as [Hp' | Hp']; try lia;
    cbn [w_pcm_data andb]; [| reflexivity].
  cbn [w_sample_rate w_bits_per_sample w_num_channels].
  destruct (Z.eqb_spec sample_rate 0) as [H0 | H0]; [reflexivity |].
  cbn [negb]. change (16 / 8) with 2. change (2 =? 0) with false.
  change (16 =? 16) with true. cbv iota.
  rewrite slice_whole
    by (rewrite Hlen;
        replace (4 * Z.of_nat n) with (2 * Z.of_nat n * 2) by ring;
        rewrite Z.div_mul by lia; reflexivity).
  subst pcm. rewrite samples16_bytes by apply interleave_int16.
  cbn [Py.bind].
  change (repeat [] (Z.to_nat 2)) with [@nil Z; @nil Z].
  rewrite deinterleave_stereo by (try reflexivity; lia).
  cbn [Py.bind app]. fold n. reflexivity.
Qed.

End Parse.

End WavFacts.

(** X24.  The stereo WAV builder and the WAV parser are inverse to each
    other.  For a sample rate in [0, 2^30) and at most 1073741814 sample
    pairs, [_build_stereo_wav] returns a 44-byte header followed by four
    bytes per pair; when there is at least one pair and the rate is not 0,
    [_parse_wav] reads it back as two channels at the same rate, each sample
    clamped to the signed 16-bit range (so the very lists for int16 lists of
    equal length).  With no pair at all, or at rate 0, the file that was
    built is rejected by [_parse_wav] with ValueError, and in every case
    [convert_4ch_wav_to_rshw] rejects it with ValueError.  Outside those
    bounds [_build_stereo_wav] raises struct.error. *)
Theorem stereo_wav_round_trip :
  forall (samples_float32 : list Z -> Py.res (list Z))
         (left right : list Z) (sample_rate : Z),
    let n := Nat.min (length left) (length right) in
    (0 <= sample_rate <= 1073741823 -> Z.of_nat n <= 1073741814 ->
     exists wav,
       RshwBuilder._build_stereo_wav left right sample_rate = Py.Ok wav /\
       Z.of_nat (length wav) = 44 + 4 * Z.of_nat n /\
       (n <> 0%nat -> sample_rate <> 0 ->
        RshwBuilder._parse_wav samples_float32 wav
        = Py.Ok ([map RshwBuilder.clamp16 (firstn n left);
                  map RshwBuilder.clamp16 (firstn n right)],
                 sample_rate, 2)) /\
       (length left = length right -> left <> [] ->
        Forall Codec.is_int16 left -> Forall Codec.is_int16 right ->
        sample_rate <> 0 ->
        RshwBuilder._parse_wav samples_float32 wav
        = Py.Ok ([left; right], sample_rate, 2)) /\
       (n = 0%nat \/ sample_rate = 0 ->
        RshwBuilder._parse_wav samples_float32 wav
        = Py.Raise Py.ValueError) /\
       RshwBuilder.convert_4ch_wav_to_rshw samples_float32 wav
       = Py.Raise Py.ValueError) /\
    (sample_rate < 0 \/ 1073741823 < sample_rate
     \/ 1073741814 < Z.of_nat n ->
     RshwBuilder._build_stereo_wav left right sample_rate
     = Py.Raise Py.StructError).
Proof.
  intros f32 left right sample_rate n. split.
  - intros Hsr Hn.
    destruct (build_stereo_wav_image left right sample_rate Hsr Hn)
      as [_ Himg].
    match type of Himg with _ = Py.Ok ?w => set (wav := w) in * end.
    exists wav. split; [exact Himg |].
    destruct (parse_built f32 left right sample_rate wav Hsr Hn Himg)
      as [Hlen Hparse].
    fold n in Hparse, Hlen. clearbody wav.
    assert (Hgood : n <> 0%nat -> sample_rate <> 0 ->
              RshwBuilder._parse_wav f32 wav
              = Py.Ok ([map RshwBuilder.clamp16 (firstn n left);
                        map RshwBuilder.clamp16 (firstn n right)],
                       sample_rate, 2)).
    { intros Hn0 Hs0. rewrite Hparse.
      destruct (Z.ltb_spec 0 (Z.of_nat n)); [| lia].
      destruct (Z.eqb_spec sample_rate 0); [contradiction | reflexivity]. }
    split; [exact Hlen |]. split; [exact Hgood |]. split; [| split].
    + intros Heq Hne Hl Hr Hs0.
      assert (Hn0 : n <> 0%nat).
      { subst n. destruct left; [contradiction |].
        rewrite <- Heq. cbn [length]. lia. }
      rewrite (Hgood Hn0 Hs0).
      assert (El : firstn n left = left)
        by (apply firstn_all2; subst n; lia).
      assert (Er : firstn n right = right)
        by (apply firstn_all2; subst n; lia).
      rewrite El, Er, !map_clamp16_inside by assumption. reflexivity.
    + intros Hbad. rewrite Hparse.
      destruct (Z.ltb_spec 0 (Z.of_nat n)); [| reflexivity].
      destruct (Z.eqb_spec sample_rate 0); [reflexivity |].
      destruct Hbad; [lia | contradiction].
    + unfold RshwBuilder.convert_4ch_wav_to_rshw. rewrite Hparse.
      destruct ((0 <? Z.of_nat n) && negb (sample_rate =? 0));
        reflexivity.
  - apply build_stereo_wav_overflow.
Qed.

Section ParseFacts.
Import RshwBuilder.

Lemma bytes_eqb_eq (a b : list Z) : bytes_eqb a b = true <-> a = b.
Proof.
  unfold bytes_eqb. split.
  - intros H. apply andb_prop in H. destruct H as [Hl Hc].
    apply Nat.eqb_eq in Hl. revert b Hl Hc.
    induction a as [| x a IH]; intros [| y b] Hl Hc;
      try discriminate Hl; [reflexivity |].
    cbn [combine forallb fst snd] in Hc. apply andb_prop in Hc.
    destruct Hc as [Hxy Hc]. apply Z.eqb_eq in Hxy. subst y.
    f_equal. apply IH; [injection Hl as Hl; exact Hl | exact Hc].
  - intros <-. rewrite Nat.eqb_refl. cbn [andb].
    induction a as [| x a IH]; [reflexivity |].
    cbn [combine forallb fst snd]. rewrite Z.eqb_refl. exact IH.
Qed.

Lemma read_chunk (data : list Z) (pos n : Z) :
  read data pos n
  = (firstn (Z.to_nat n) (skipn (Z.to_nat pos) data),
     pos + Z.of_nat (Nat.min (Z.to_nat n) (length data - Z.to_nat pos))).
Proof.
  unfold read. cbv zeta. rewrite length_firstn, length_skipn. reflexivity.
Qed.

Section Parse.
Variable samples_float32 : list Z -> Py.res (list Z).

Lemma parse_wav_malformed (wav : list Z) :
  (length wav <= 20)%nat \/ firstn 4 wav <> RIFF
  \/ firstn 4 (skipn 8 wav) <> WAVE ->
  _parse_wav samples_float32 wav = Py.Raise Py.ValueError.
Proof.
  intros H. unfold _parse_wav. rewrite !read_chunk. cbv beta iota.
  change (Z.to_nat 0) with 0%nat. change (Z.to_nat 4) with 4%nat.
  cbn [skipn]. rewrite Nat.sub_0_r.
  destruct (bytes_eqb (firstn 4 wav) RIFF) eqn:E1; [| reflexivity].
  cbn [negb]. apply bytes_eqb_eq in E1.
  assert (L1 : (4 <= length wav)%nat).
  { assert (E : length (firstn 4 wav) = 4%nat) by (rewrite E1; reflexivity).
    rewrite length_firstn in E. lia. }
  replace (0 + Z.of_nat (Nat.min 4 (length wav))) with 4 by lia.
  change (Z.to_nat 4) with 4%nat.
  set (p := 4 + Z.of_nat (Nat.min 4 (length wav - 4))).
  destruct (bytes_eqb (firstn 4 (skipn (Z.to_nat p) wav)) WAVE) eqn:E2;
    [| reflexivity].
  cbn [negb]. apply bytes_eqb_eq in E2.
  assert (L2 : (12 <= length wav)%nat /\ p = 8).
  { assert (E : length (firstn 4 (skipn (Z.to_nat p) wav)) = 4%nat)
      by (rewrite E2; reflexivity).
    rewrite length_firstn, length_skipn in E. subst p. lia. }
  destruct L2 as [L2 Hp]. rewrite Hp in *.
  change (Z.to_nat 8) with 8%nat in *.
  destruct H as [H | [H | H]]; [| contradiction | contradiction].
  change (Z.to_nat 8) with 8%nat.
  replace (Nat.min 4 (length wav - 8)) with 4%nat by lia.
  change (8 + Z.of_nat 4) with 12.
  destruct (length wav) as [| fuel] eqn:El; [lia |].
  cbn [chunks_loop w_pos]. rewrite El.
  destruct (Z.ltb_spec 12 (Z.of_nat (S fuel) - 8)); [lia |].
  reflexivity.
Qed.

End Parse.
End ParseFacts.

(** X25.  [_parse_wav] raises ValueError on every input of at most 20
    bytes (the empty input among them), on every input that does not start
    with [RIFF], and on every input whose bytes 8 to 11 are not [WAVE]. *)
Theorem parse_wav_rejects_malformed :
  forall (samples_float32 : list Z -> Py.res (list Z)) (wav_bytes : list Z),
    (length wav_bytes <= 20)%nat
    \/ firstn 4 wav_bytes <> RshwBuilder.RIFF
    \/ firstn 4 (skipn 8 wav_bytes) <> RshwBuilder.WAVE ->
    RshwBuilder._parse_wav samples_float32 wav_bytes
    = Py.Raise Py.ValueError.
Proof.
  intros f32 wav H. apply parse_wav_malformed. exact H.
Qed.

Lemma parse_wav_rejects_malformed_witness :
  ((length (@nil Z) <= 20)%nat
   \/ firstn 4 (@nil Z) <> RshwBuilder.RIFF
   \/ firstn 4 (skipn 8 (@nil Z)) <> RshwBuilder.WAVE) /\
  RshwBuilder._parse_wav (fun _ => Py.Ok []) [] = Py.Raise Py.ValueError.
Proof.
  assert (H : (length (@nil Z) <= 20)%nat
              \/ firstn 4 (@nil Z) <> RshwBuilder.RIFF
              \/ firstn 4 (skipn 8 (@nil Z)) <> RshwBuilder.WAVE)
    by (left; cbn; lia).
  split; [exact H |].
  exact (parse_wav_rejects_malformed (fun _ => Py.Ok []) [] H).
Defined.

Section BuildRshwFacts.
Import RshwBuilder.

Lemma serialize_keeps_audio (audio signal out : list Z) :
  _serialize_rshw_format audio signal = Py.Ok out ->
  Py.slice out 226 (226 + Z.of_nat (length audio)) = audio /\
  NrbfTools.read_i32 out 221 = Py.Ok (Z.of_nat (length audio), 225).
Proof.
  destruct prologue_size as (p & Hp & Hlen).
  assert (H3 : Struct.is_int32 3) by (unfold Struct.is_int32; lia).
  assert (H4 : Struct.is_int32 4) by (unfold Struct.is_int32; lia).
  unfold _serialize_rshw_format. rewrite Hp. cbn [Py.bind].
  rewrite (i32_in_range 3 H3). cbn [Py.bind].
  destruct (_i32 (Z.of_nat (length audio))) as [bla |] eqn:Ela;
    [| discriminate].
  cbn [Py.bind]. rewrite (i32_in_range 4 H4). cbn [Py.bind].
  destruct (_i32 (Z.of_nat (length signal))) as [bls |] eqn:Els;
    [| discriminate].
  cbn [Py.bind].
  destruct (int_array_bytes signal) as [sig |]; [| discriminate].
  cbn [Py.bind]. intros H. apply Ok_inj in H. subst out.
  set (b3 := Struct.le_bytes 4 (3 mod 4294967296)).
  set (b4 := Struct.le_bytes 4 (4 mod 4294967296)).
  assert (L3 : length b3 = 4%nat) by apply le_bytes_length.
  pose proof (read_i32_packed _ bla ((p ++ [15]) ++ b3)
                ([2] ++ audio ++ [15] ++ b4 ++ bls ++ [8] ++ sig ++ [11])
                Ela) as [Lla Hread].
  split.
  - replace (((((((((((p ++ [15]) ++ b3) ++ bla) ++ [2]) ++ audio) ++ [15])
                  ++ b4) ++ bls) ++ [8]) ++ sig) ++ [11])
      with (((((p ++ [15]) ++ b3) ++ bla) ++ [2])
            ++ audio ++ ([15] ++ b4 ++ bls ++ [8] ++ sig ++ [11]))
      by (repeat rewrite <- app_assoc; reflexivity).
    rewrite slice_app_later by (rewrite ?length_app; cbn [length]; lia).
    replace (226 - Z.of_nat (length ((((p ++ [15]) ++ b3) ++ bla) ++ [2])))
      with 0 by (rewrite !length_app; cbn [length]; lia).
    replace (226 + Z.of_nat (length audio)
             - Z.of_nat (length ((((p ++ [15]) ++ b3) ++ bla) ++ [2])))
      with (Z.of_nat (length audio))
      by (rewrite !length_app; cbn [length]; lia).
    apply slice_app_first. reflexivity.
  - replace (((((((((((p ++ [15]) ++ b3) ++ bla) ++ [2]) ++ audio) ++ [15])
                  ++ b4) ++ bls) ++ [8]) ++ sig) ++ [11])
      with (((p ++ [15]) ++ b3) ++ bla
            ++ ([2] ++ audio ++ [15] ++ b4 ++ bls ++ [8] ++ sig ++ [11]))
      by (repeat rewrite <- app_assoc; reflexivity).
    replace 221 with (Z.of_nat (length ((p ++ [15]) ++ b3)))
      by (rewrite !length_app; cbn [length]; lia).
    rewrite Hread. f_equal. f_equal.
    rewrite !length_app. cbn [length]. lia.
Qed.

Lemma build_stereo_wav_range (left right wav : list Z) (sample_rate : Z) :
  _build_stereo_wav left right sample_rate = Py.Ok wav ->
  0 <= sample_rate <= 1073741823 /\
  Z.of_nat (Nat.min (length left) (length right)) <= 1073741814.
Proof.
  intros H.
  destruct (Z_lt_le_dec sample_rate 0) as [H1 | H1];
    [rewrite build_stereo_wav_overflow in H by (left; exact H1);
     discriminate H |].
  destruct (Z_lt_le_dec 1073741823 sample_rate) as [H2 | H2];
    [rewrite build_stereo_wav_overflow in H by (right; left; exact H2);
     discriminate H |].
  destruct (Z_lt_le_dec 1073741814
              (Z.of_nat (Nat.min (length left) (length right))))
    as [H3 | H3];
    [rewrite build_stereo_wav_overflow in H by (right; right; exact H3);
     discriminate H |].
  lia.
Qed.

Lemma decode_bmc_zero_rate (samples : list Z) :
  exists bits,
    _decode_bmc samples 0 _BAUD_RATE _TOLERANCE _ZERO_THRESH = Py.Ok bits.
Proof. eexists. reflexivity. Qed.

Lemma bits_to_frames_returns (bits : list Z) (frame_bits : Z) :
  frame_bits <> 0 ->
  exists frames, _bits_to_frames bits frame_bits = Py.Ok frames.
Proof.
  intros H. unfold _bits_to_frames, Py.range3.
  destruct (Z.eqb_spec frame_bits 0); [contradiction |].
  eexists. reflexivity.
Qed.

End BuildRshwFacts.

(** X26.  Whenever [build_rshw] returns a showtape, the sample rate lies
    in [1, 2^30), and the audio array of the showtape (its length at offset
    221, its bytes from offset 226) is exactly the file [_build_stereo_wav]
    makes of the two music channels; parsed with [_parse_wav], that file
    gives back the two channels, clamped to the signed 16-bit range and cut
    to the shorter of the two, at the same rate. *)
Theorem build_rshw_keeps_audio :
  forall (samples_float32 : list Z -> Py.res (list Z))
         (audio_l audio_r td_samples bd_samples : list Z)
         (sample_rate : Z) (out : list Z),
    RshwBuilder.build_rshw audio_l audio_r td_samples bd_samples sample_rate
    = Py.Ok out ->
    let n := Nat.min (length audio_l) (length audio_r) in
    1 <= sample_rate <= 1073741823 /\
    exists wav,
      RshwBuilder._build_stereo_wav audio_l audio_r sample_rate = Py.Ok wav /\
      Z.of_nat (length wav) = 44 + 4 * Z.of_nat n /\
      NrbfTools.read_i32 out 221 = Py.Ok (44 + 4 * Z.of_nat n, 225) /\
      Py.slice out 226 (226 + (44 + 4 * Z.of_nat n)) = wav /\
      (n <> 0%nat ->
       RshwBuilder._parse_wav samples_float32 wav
       = Py.Ok ([map RshwBuilder.clamp16 (firstn n audio_l);
                 map RshwBuilder.clamp16 (firstn n audio_r)],
                sample_rate, 2)).
Proof.
  intros f32 audio_l audio_r td bd sample_rate out H n.
  unfold RshwBuilder.build_rshw in H.
  destruct (RshwBuilder._decode_bmc td _ _ _ _) as [td_bits |];
    [| discriminate H].
  cbn [Py.bind] in H.
  destruct (RshwBuilder._decode_bmc bd _ _ _ _) as [bd_bits |];
    [| discriminate H].
  cbn [Py.bind] in H.
  destruct (RshwBuilder._bits_to_frames td_bits _) as [td_frames |];
    [| discriminate H].
  cbn [Py.bind] in H.
  destruct (RshwBuilder._bits_to_frames bd_bits _) as [bd_frames |];
    [| discriminate H].
  cbn [Py.bind] in H.
  unfold Py.true_div in H.
  destruct (Z.eqb_spec sample_rate 0) as [H0 | H0]; [discriminate H |].
  cbn [Py.bind] in H.
  destruct (RshwBuilder.build_signal_data_default _ _ _) as [signal |];
    [| discriminate H].
  cbn [Py.bind] in H.
  destruct (RshwBuilder._build_stereo_wav audio_l audio_r sample_rate)
    as [wav |] eqn:Hwav; [| discriminate H].
  cbn [Py.bind] in H.
  destruct (build_stereo_wav_range _ _ _ _ Hwav) as [Hsr Hn].
  fold n in Hn.
  destruct (parse_built f32 audio_l audio_r sample_rate wav Hsr Hn Hwav)
    as [Hlen Hparse].
  fold n in Hlen, Hparse.
  destruct (serialize_keeps_audio wav signal out H) as [Hslice Hread].
  rewrite Hlen in Hslice, Hread.
  split; [lia |]. exists wav.
  split; [reflexivity |]. split; [exact Hlen |]. split; [exact Hread |].
  split; [exact Hslice |].
  intros Hn0. rewrite Hparse.
  destruct (Z.ltb_spec 0 (Z.of_nat n)); [| lia].
  destruct (Z.eqb_spec sample_rate 0); [contradiction | reflexivity].
Qed.

Lemma build_rshw_keeps_audio_witness :
  exists out,
    RshwBuilder.build_rshw [1; -2] [3; 40000] [] [] 44100 = Py.Ok out /\
    1 <= 44100 <= 1073741823 /\
    exists wav,
      RshwBuilder._build_stereo_wav [1; -2] [3; 40000] 44100 = Py.Ok wav /\
      Z.of_nat (length wav) = 44 + 4 * Z.of_nat 2 /\
      NrbfTools.read_i32 out 221 = Py.Ok (44 + 4 * Z.of_nat 2, 225) /\
      Py.slice out 226 (226 + (44 + 4 * Z.of_nat 2)) = wav /\
      (2%nat <> 0%nat ->
       RshwBuilder._parse_wav (fun _ => Py.Ok []) wav
       = Py.Ok ([map RshwBuilder.clamp16 (firstn 2 [1; -2]);
                 map RshwBuilder.clamp16 (firstn 2 [3; 40000])],
                44100, 2)).
Proof.
  destruct (RshwBuilder.build_rshw [1; -2] [3; 40000] [] [] 44100)
    as [out |] eqn:E; [| vm_compute in E; discriminate E].
  exists out. split; [reflexivity |].
  exact (build_rshw_keeps_audio (fun _ => Py.Ok []) _ _ _ _ _ out E).
Defined.

(** X27.  With sample rate 0, [build_rshw] raises ZeroDivisionError for
    all channels: both decoders and both frame groupings return, and the
    division [len(audio_l) / sample_rate] raises. *)
Theorem build_rshw_zero_rate :
  forall (audio_l audio_r td_samples bd_samples : list Z),
    RshwBuilder.build_rshw audio_l audio_r td_samples bd_samples 0
    = Py.Raise Py.ZeroDivisionError.
Proof.
  intros audio_l audio_r td bd. unfold RshwBuilder.build_rshw.
  destruct (decode_bmc_zero_rate td) as [td_bits ->].
  destruct (decode_bmc_zero_rate bd) as [bd_bits ->].
  cbn [Py.bind].
  destruct (bits_to_frames_returns td_bits RshwBuilder._TD_FRAME_BITS)
    as [td_frames ->]; [discriminate |].
  destruct (bits_to_frames_returns bd_bits RshwBuilder._BD_FRAME_BITS)
    as [bd_frames ->]; [discriminate |].
  reflexivity.
Qed.

Section ShapeFacts.
Import RshwBuilder.

Lemma firstn_forall {A : Type} (P : A -> Prop) (n : nat) (l : list A) :
  Forall P l -> Forall P (firstn n l).
Proof.
  intros H. revert n. induction H as [| x l Hx _ IH]; intros [| n];
    cbn [firstn]; constructor; auto.
Qed.

Lemma skipn_forall {A : Type} (P : A -> Prop) (n : nat) (l : list A) :
  Forall P l -> Forall P (skipn n l).
Proof.
  intros H. revert n. induction H as [| x l Hx Hl IH]; intros [| n];
    cbn [skipn]; try constructor; auto.
Qed.

Lemma slice_forall {A : Type} (P : A -> Prop) (l : list A) (a b : Z) :
  Forall P l -> Forall P (Py.slice l a b).
Proof.
  intros H. unfold Py.slice. cbv zeta.
  apply firstn_forall, skipn_forall, H.
Qed.

Lemma read_forall (P : Z -> Prop) (data : list Z) (pos n : Z) :
  Forall P data -> Forall P (fst (read data pos n)).
Proof.
  intros H. unfold read. cbv zeta. cbn [fst].
  apply firstn_forall, skipn_forall, H.
Qed.

Lemma le_value_bound (bs : list Z) :
  Forall WavSpec.is_byte bs ->
  0 <= Struct.le_value bs < 256 ^ Z.of_nat (length bs).
Proof.
  induction 1 as [| b bs Hb _ IH]; [cbn; lia |].
  unfold WavSpec.is_byte in Hb. cbn [Struct.le_value length].
  rewrite Nat2Z.inj_succ, Z.pow_succ_r by lia. lia.
Qed.

Lemma unpack_unsigned_bound (n : nat) (bs : list Z) (v : Z) :
  Forall WavSpec.is_byte bs ->
  Struct.unpack_unsigned n bs = Py.Ok v ->
  0 <= v < 256 ^ Z.of_nat n.
Proof.
  intros Hb. unfold Struct.unpack_unsigned.
  destruct (Nat.eqb_spec (length bs) n) as [<- |]; [| discriminate].
  intros H. apply Ok_inj in H. subst v. apply le_value_bound, Hb.
Qed.

Lemma chunks_loop_header (data : list Z) :
  Forall WavSpec.is_byte data ->
  forall (fuel : nat) (st st' : wav_state),
    WavSpec.header_ok st ->
    chunks_loop fuel data st = Py.Ok st' ->
    WavSpec.header_ok st'.
Proof.
  intros Hdata. induction fuel as [| fuel IH]; intros st st' Hst H.
  - cbn [chunks_loop] in H. apply Ok_inj in H. subst st'. exact Hst.
  - cbn [chunks_loop] in H.
    destruct (w_pos st <? Z.of_nat (length data) - 8);
      [| apply Ok_inj in H; subst st'; exact Hst].
    destruct (read data (w_pos st) 4) as [chunk_id p1].
    destruct (read data p1 4) as [size_bytes p2].
    destruct (Struct.unpack_unsigned 4 size_bytes) as [chunk_size |];
      [| discriminate H].
    cbn [Py.bind] in H.
    destruct Hst as (Hnc & Hsr & Hbps & Hpcm).
    destruct (bytes_eqb chunk_id FMT).
    + pose proof (read_forall _ data p2 2 Hdata) as B1.
      destruct (read data p2 2) as [b1 p3]. cbn [fst] in B1.
      destruct (Struct.unpack_unsigned 2 b1) as [audio_fmt |];
        [| discriminate H].
      cbn [Py.bind] in H.
      pose proof (read_forall _ data p3 2 Hdata) as B2.
      destruct (read data p3 2) as [b2 p4]. cbn [fst] in B2.
      destruct (Struct.unpack_unsigned 2 b2) as [nc |] eqn:Enc;
        [| discriminate H].
      cbn [Py.bind] in H.
      pose proof (read_forall _ data p4 4 Hdata) as B3.
      destruct (read data p4 4) as [b3 p5]. cbn [fst] in B3.
      destruct (Struct.unpack_unsigned 4 b3) as [sr |] eqn:Esr;
        [| discriminate H].
      cbn [Py.bind] in H.
      destruct (read data p5 4) as [b4 p6].
      destruct (read data p6 2) as [b5 p7].
      pose proof (read_forall _ data p7 2 Hdata) as B6.
      destruct (read data p7 2) as [b6 p8]. cbn [fst] in B6.
      destruct (Struct.unpack_unsigned 2 b6) as [bps |] eqn:Ebps;
        [| discriminate H].
      cbn [Py.bind] in H.
      refine (IH _ _ _ H).
      unfold WavSpec.header_ok.
      cbn [w_num_channels w_sample_rate w_bits_per_sample w_pcm_data].
      pose proof (unpack_unsigned_bound _ _ _ B2 Enc).
      pose proof (unpack_unsigned_bound _ _ _ B3 Esr).
      pose proof (unpack_unsigned_bound _ _ _ B6 Ebps).
      change (256 ^ Z.of_nat 2) with 65536 in *.
      change (256 ^ Z.of_nat 4) with 4294967296 in *.
      repeat split; try lia. exact Hpcm.
    + destruct (bytes_eqb chunk_id DATA).
      * pose proof (read_forall _ data p2 chunk_size Hdata) as B.
        destruct (read data p2 chunk_size) as [pcm p3]. cbn [fst] in B.
        apply Ok_inj in H. subst st'. unfold WavSpec.header_ok.
        cbn [w_num_channels w_sample_rate w_bits_per_sample w_pcm_data].
        repeat split; try lia.
        intros pcm' E. injection E as <-. exact B.
      * refine (IH _ _ _ H).
        unfold WavSpec.header_ok.
        cbn [w_num_channels w_sample_rate w_bits_per_sample w_pcm_data].
        repeat split; try lia. exact Hpcm.
Qed.

Lemma samples16_int16 :
  forall (n : nat) (bs : list Z),
    (length bs <= n)%nat -> Forall WavSpec.is_byte bs ->
    Forall Codec.is_int16 (samples16 bs).
Proof.
  induction n as [| n IH]; intros bs Hn Hb.
  - destruct bs; [constructor | cbn [length] in Hn; lia].
  - destruct bs as [| lo [| hi tl]]; try constructor.
    + inversion Hb as [| ? ? Hlo Hb']. inversion Hb' as [| ? ? Hhi _].
      unfold WavSpec.is_byte in Hlo, Hhi.
      unfold Codec.is_int16, Struct.signed. cbn [Struct.le_value].
      change (256 ^ Z.of_nat 2) with 65536. change (65536 / 2) with 32768.
      destruct (Z.geb_spec (lo + 256 * (hi + 256 * 0)) 32768); lia.
    + apply IH; [cbn [length] in Hn; lia |].
      inversion Hb as [| ? ? _ Hb']. inversion Hb' as [| ? ? _ Hb''].
      exact Hb''.
Qed.

Lemma lor_bound (n a b : Z) :
  0 <= n -> 0 <= a < 2 ^ n -> 0 <= b < 2 ^ n -> 0 <= Z.lor a b < 2 ^ n.
Proof.
  intros Hn Ha Hb.
  assert (H0 : 0 <= Z.lor a b) by (apply Z.lor_nonneg; lia).
  split; [exact H0 |].
  destruct (Z.eq_dec a 0) as [-> | Ha0]; [rewrite Z.lor_0_l; lia |].
  destruct (Z.eq_dec b 0) as [-> | Hb0]; [rewrite Z.lor_0_r; lia |].
  destruct (Z.eq_dec (Z.lor a b) 0) as [-> | Hl0]; [lia |].
  apply Z.log2_lt_pow2; [lia |].
  rewrite Z.log2_lor by lia.
  apply Z.max_lub_lt; apply Z.log2_lt_pow2; lia.
Qed.

Lemma sample24_int16 (b0 b1 b2 : Z) :
  WavSpec.is_byte b0 -> WavSpec.is_byte b1 -> WavSpec.is_byte b2 ->
  let v := Z.lor (Z.lor b0 (Z.shiftl b1 8)) (Z.shiftl b2 16) in
  Codec.is_int16
    (Z.shiftr (if v >=? 8388608 then v - 16777216 else v) 8).
Proof.
  intros H0 H1 H2 v. unfold WavSpec.is_byte in H0, H1, H2.
  assert (Hv : 0 <= v < 2 ^ 24).
  { subst v. rewrite !Z.shiftl_mul_pow2 by lia.
    apply lor_bound; [lia | | change (2 ^ 16) with 65536;
                               change (2 ^ 24) with 16777216; lia].
    apply lor_bound; [lia | change (2 ^ 24) with 16777216; lia |].
    change (2 ^ 8) with 256. change (2 ^ 24) with 16777216. lia. }
  change (2 ^ 24) with 16777216 in Hv.
  rewrite Z.shiftr_div_pow2 by lia. change (2 ^ 8) with 256.
  unfold Codec.is_int16.
  destruct (Z.geb_spec v 8388608).
  - pose proof (Z.div_mod (v - 16777216) 256 ltac:(lia)).
    pose proof (Z.mod_pos_bound (v - 16777216) 256 ltac:(lia)). lia.
  - pose proof (Z.div_mod v 256 ltac:(lia)).
    pose proof (Z.mod_pos_bound v 256 ltac:(lia)). lia.
Qed.

Lemma samples24_int16 :
  forall (n : nat) (bs : list Z),
    (length bs <= n)%nat -> Forall WavSpec.is_byte bs ->
    Forall Codec.is_int16 (samples24 bs).
Proof.
  induction n as [| n IH]; intros bs Hn Hb.
  - destruct bs; [constructor | cbn [length] in Hn; lia].
  - destruct bs as [| b0 [| b1 [| b2 tl]]]; try constructor.
    + inversion Hb as [| ? ? B0 Hb']. inversion Hb' as [| ? ? B1 Hb''].
      inversion Hb'' as [| ? ? B2 _].
      exact (sample24_int16 b0 b1 b2 B0 B1 B2).
    + apply IH; [cbn [length] in Hn; lia |].
      inversion Hb as [| ? ? _ Hb']. inversion Hb' as [| ? ? _ Hb''].
      inversion Hb'' as [| ? ? _ Hb3]. exact Hb3.
Qed.

Lemma samples8_int16 (bs : list Z) :
  Forall WavSpec.is_byte bs ->
  Forall Codec.is_int16 (map (fun b => (b - 128) * 256) bs).
Proof.
  induction 1 as [| b bs Hb _ IH]; [constructor |].
  cbn [map]. constructor; [| exact IH].
  unfold WavSpec.is_byte in Hb. unfold Codec.is_int16. lia.
Qed.

Lemma getitem_in {A : Type} (l : list A) (i : Z) (x : A) :
  Py.getitem l i = Py.Ok x -> In x l.
Proof.
  unfold Py.getitem. cbv zeta.
  destruct (_ && _); [| discriminate].
  destruct (nth_error l _) as [y |] eqn:E; [| discriminate].
  intros H. apply Ok_inj in H. subst y. eapply nth_error_In. exact E.
Qed.

Lemma deinterleave_shape (P : Z -> Prop) (num_channels : Z) :
  forall (samples : list Z) (channels out : list (list Z)) (i : Z),
    deinterleave channels num_channels i samples = Py.Ok out ->
    Forall P samples -> Forall (Forall P) channels ->
    length out = length channels /\ Forall (Forall P) out.
Proof.
  induction samples as [| s tl IH]; intros channels out i H Hs Hc.
  - cbn [deinterleave] in H. apply Ok_inj in H. subst out.
    split; [reflexivity | exact Hc].
  - cbn [deinterleave] in H.
    destruct (num_channels =? 0); [discriminate H |].
    destruct (Py.getitem channels (i mod num_channels)) as [ch |] eqn:Eg;
      [| discriminate H].
    cbn [Py.bind] in H.
    unfold Py.setitem in H. cbv zeta in H.
    destruct (_ && _); [| discriminate H].
    cbn [Py.bind] in H.
    inversion Hs as [| ? ? Hs0 Htl].
    apply IH in H; [| exact Htl |].
    + rewrite update_length in H. exact H.
    + apply update_forall; [| exact Hc].
      apply Forall_app. split; [| constructor; [exact Hs0 | constructor]].
      rewrite Forall_forall in Hc. apply Hc. eapply getitem_in. exact Eg.
Qed.

Section Shape.
Variable samples_float32 : list Z -> Py.res (list Z).
Hypothesis float32_clamped :
  forall bs out, samples_float32 bs = Py.Ok out -> Forall Codec.is_int16 out.

Lemma parse_wav_shape (wav : list Z) (channels : list (list Z))
  (sample_rate num_channels : Z) :
  Forall WavSpec.is_byte wav ->
  _parse_wav samples_float32 wav = Py.Ok (channels, sample_rate, num_channels) ->
  1 <= sample_rate <= 4294967295 /\
  0 <= num_channels <= 65535 /\
  length channels = Z.to_nat num_channels /\
  Forall (Forall Codec.is_int16) channels.
Proof.
  intros Hwav H. unfold _parse_wav in H.
  destruct (read wav 0 4) as [riff p1].
  destruct (negb (bytes_eqb riff RIFF)); [discriminate H |].
  destruct (read wav p1 4) as [skipped p2].
  destruct (read wav p2 4) as [wave p3].
  destruct (negb (bytes_eqb wave WAVE)); [discriminate H |].
  destruct (chunks_loop _ _ _) as [st |] eqn:Hloop; [| discriminate H].
  cbn [Py.bind] in H.
  apply chunks_loop_header in Hloop; [| exact Hwav |].
  2: { unfold WavSpec.header_ok.
       cbn [w_num_channels w_sample_rate w_bits_per_sample w_pcm_data].
       repeat split; try lia. intros pcm E. discriminate E. }
  destruct Hloop as (Hnc & Hsr & Hbps & Hpcm).
  destruct (w_pcm_data st) as [pcm |]; [| discriminate H].
  specialize (Hpcm pcm eq_refl).
  destruct (Z.eqb_spec (w_sample_rate st) 0) as [| Hsr0]; [discriminate H |].
  destruct (w_bits_per_sample st / 8 =? 0); [discriminate H |].
  set (total := Z.of_nat (length pcm) / (w_bits_per_sample st / 8)) in H.
  assert (Hall : forall l,
            (if w_bits_per_sample st =? 16 then
               Py.Ok (samples16 (Py.slice pcm 0 (total * 2)))
             else if w_bits_per_sample st =? 8 then
               Py.Ok (map (fun b => (b - 128) * 256) pcm)
             else if w_bits_per_sample st =? 24 then
               Py.Ok (samples24 (Py.slice pcm 0 (total * 3)))
             else if w_bits_per_sample st =? 32 then
               samples_float32 (Py.slice pcm 0 (total * 4))
             else Py.Raise Py.ValueError) = Py.Ok l ->
            Forall Codec.is_int16 l).
  { intros l E.
    destruct (w_bits_per_sample st =? 16).
    { apply Ok_inj in E. subst l.
      eapply samples16_int16; [reflexivity | apply slice_forall, Hpcm]. }
    destruct (w_bits_per_sample st =? 8).
    { apply Ok_inj in E. subst l. apply samples8_int16, Hpcm. }
    destruct (w_bits_per_sample st =? 24).
    { apply Ok_inj in E. subst l.
      eapply samples24_int16; [reflexivity | apply slice_forall, Hpcm]. }
    destruct (w_bits_per_sample st =? 32); [| discriminate E].
    eapply float32_clamped. exact E. }
  destruct (if w_bits_per_sample st =? 16 then _ else _) as [l |] eqn:El;
    [| discriminate H].
  cbn [Py.bind] in H. specialize (Hall l eq_refl).
  destruct (deinterleave _ _ _ _) as [out |] eqn:Ed; [| discriminate H].
  cbn [Py.bind] in H. apply Ok_inj in H.
  injection H as E1 E2 E3. subst channels sample_rate num_channels.
  apply (deinterleave_shape Codec.is_int16) in Ed; [| exact Hall |].
  - destruct Ed as [Hlen Hout]. rewrite repeat_length in Hlen.
    repeat split; try lia; assumption.
  - apply Forall_forall. intros ch Hin. apply repeat_spec in Hin.
    subst ch. constructor.
Qed.

End Shape.

End ShapeFacts.

(** X28.  Whenever [_parse_wav] returns on a byte string (the decoding of
    32-bit float samples, a parameter here, returning clamped samples as
    the source does), the sample rate lies in [1, 2^32), the number of
    channels in [0, 65535], there are exactly that many channel lists, and
    every sample of every channel fits a signed 16-bit integer, whatever the
    bit depth (8, 16, 24 or 32) of the file. *)
Theorem parse_wav_output_shape :
  forall (samples_float32 : list Z -> Py.res (list Z)) (wav_bytes : list Z)
         (channels : list (list Z)) (sample_rate num_channels : Z),
    Forall WavSpec.is_byte wav_bytes ->
    (forall bs out, samples_float32 bs = Py.Ok out ->
                    Forall Codec.is_int16 out) ->
    RshwBuilder._parse_wav samples_float32 wav_bytes
    = Py.Ok (channels, sample_rate, num_channels) ->
    1 <= sample_rate <= 4294967295 /\
    0 <= num_channels <= 65535 /\
    length channels = Z.to_nat num_channels /\
    Forall (Forall Codec.is_int16) channels.
Proof.
  intros f32 wav channels sample_rate num_channels Hwav Hf32 H.
  exact (parse_wav_shape f32 Hf32 wav channels sample_rate num_channels
           Hwav H).
Qed.

Lemma parse_wav_output_shape_witness :
  Forall WavSpec.is_byte WavSpec.tiny_wav /\
  (forall bs out : list Z, @Py.Ok (list Z) [] = Py.Ok out ->
                  Forall Codec.is_int16 out) /\
  RshwBuilder._parse_wav (fun _ => Py.Ok []) WavSpec.tiny_wav
  = Py.Ok ([[1]; [2]], 44100, 2) /\
  (1 <= 44100 <= 4294967295 /\
   0 <= 2 <= 65535 /\
   length [[1]; [2]] = Z.to_nat 2 /\
   Forall (Forall Codec.is_int16) [[1]; [2]]).
Proof.
  assert (Hb : Forall WavSpec.is_byte WavSpec.tiny_wav)
    by (unfold WavSpec.tiny_wav;
        repeat (constructor; [unfold WavSpec.is_byte; lia |]);
        constructor).
  assert (Hf : forall bs out : list Z, @Py.Ok (list Z) [] = Py.Ok out ->
                 Forall Codec.is_int16 out)
    by (intros bs out E; injection E as <-; constructor).
  assert (Hp : RshwBuilder._parse_wav (fun _ => Py.Ok []) WavSpec.tiny_wav
               = Py.Ok ([[1]; [2]], 44100, 2)) by reflexivity.
  split; [exact Hb |]. split; [exact Hf |]. split; [exact Hp |].
  exact (parse_wav_output_shape (fun _ => Py.Ok []) WavSpec.tiny_wav
           [[1]; [2]] 44100 2 Hb Hf Hp).
Defined.

Section FuelFacts.
Import RshwBuilder.

(** The chunk loop never needs more fuel than it is given: on a byte string,
    from a position [pos >= 0], [(len - 8 - pos) / 8] iterations (rounded
    up) reach the end of the loop. *)
Lemma chunks_loop_fuel_enough (data : list Z) :
  Forall WavSpec.is_byte data ->
  forall (fuel extra : nat) (st : wav_state),
    0 <= w_pos st ->
    Z.of_nat (length data) - 8 - w_pos st <= 8 * Z.of_nat fuel ->
    chunks_loop (fuel + extra) data st = chunks_loop fuel data st.
Proof.
  intros Hdata. induction fuel as [| fuel IH]; intros extra st Hpos Hfuel.
  - cbn [Nat.add chunks_loop]. destruct extra as [| extra]; [reflexivity |].
    cbn [chunks_loop].
    destruct (Z.ltb_spec (w_pos st) (Z.of_nat (length data) - 8));
      [lia | reflexivity].
  - cbn [Nat.add chunks_loop].
    destruct (Z.ltb_spec (w_pos st) (Z.of_nat (length data) - 8)) as [Hlt |];
      [| reflexivity].
    rewrite (read_chunk data (w_pos st) 4).
    change (Z.to_nat 4) with 4%nat.
    replace (Nat.min 4 (length data - Z.to_nat (w_pos st))) with 4%nat by lia.
    pose proof (read_forall WavSpec.is_byte data (w_pos st + Z.of_nat 4) 4
                  Hdata) as Hb.
    rewrite (read_chunk data (w_pos st + Z.of_nat 4) 4) in *.
    cbn [fst] in Hb.
    change (Z.to_nat 4) with 4%nat in *.
    replace (Nat.min 4 (length data - Z.to_nat (w_pos st + Z.of_nat 4)))
      with 4%nat by lia.
    set (size_bytes := firstn 4 (skipn (Z.to_nat (w_pos st + Z.of_nat 4)) data))
      in *.
    destruct (Struct.unpack_unsigned 4 size_bytes) as [chunk_size |] eqn:Es;
      [| reflexivity].
    pose proof (unpack_unsigned_bound _ _ _ Hb Es) as Hsize.
    cbn [Py.bind].
    set (chunk_start := w_pos st + Z.of_nat 4 + Z.of_nat 4).
    assert (Hnext : forall st',
              w_pos st' = chunk_start + chunk_size ->
              chunks_loop (fuel + extra) data st' = chunks_loop fuel data st').
    { intros st' E. apply IH; rewrite E; subst chunk_start; lia. }
    destruct (bytes_eqb _ FMT).
    + destruct (read data chunk_start 2) as [b1 p1].
      destruct (Struct.unpack_unsigned 2 b1); [| reflexivity].
      cbn [Py.bind].
      destruct (read data p1 2) as [b2 p2].
      destruct (Struct.unpack_unsigned 2 b2); [| reflexivity].
      cbn [Py.bind].
      destruct (read data p2 4) as [b3 p3].
      destruct (Struct.unpack_unsigned 4 b3); [| reflexivity].
      cbn [Py.bind].
      destruct (read data p3 4) as [b4 p4].
      destruct (read data p4 2) as [b5 p5].
      destruct (read data p5 2) as [b6 p6].
      destruct (Struct.unpack_unsigned 2 b6); [| reflexivity].
      cbn [Py.bind]. apply Hnext. reflexivity.
    + destruct (bytes_eqb _ DATA); [reflexivity |].
      apply Hnext. reflexivity.
Qed.

End FuelFacts.

